(* ===== verification/_CoqProject ===== *)
-Q . S2P
Prelude.v
PyStr.v
Generator.v
Anbieter.v
Dokumente.v
Zusammenfassungsgenerator.v
Katalog.v
Fragenmanager.v
Fragesteller.v
Befragung.v
Stichproben.v
Persistenz.v
Aufruf.v
Konfiguration.v
Ergebnisanzeige.v
Seitensitzung.v
Protokoll.v
