(* ===== verification/Prelude.v ===== *)
(** * Verification of the silicon-samples generator

    The program (Python, [src/]) simulates survey interviews: a
    questionnaire in XML is loaded into questions with options, topics
    and follow-up metadata; a scheduler decides which question-topic unit
    is due next given the answers so far; an interview loop asks a
    language model, parses and validates its reply, retries on invalid
    replies and records the answers under composite keys.  A separate
    pipeline summarises reference documents (PDF, web page, CSV) whose
    summaries feed the interview's briefing.  A Streamlit page runs the
    interview once per requested sample, each with a persona from a CSV
    file, stores the results, and shows a stored sample as a table.

    ** Files, in dependency order

    - [Prelude]: notations ([+++] for [str + str], [let?] for code that
      may raise, in [py_scope]), the hint databases [ssg] and [ssg_rw],
      the tactics [invc] and [bool_props], and the shared library:
      insertion-ordered dictionaries as association lists ([dict_get],
      [dict_set], [dict_update]: Python's [d[k] = v] and [d.update]),
      [map_res], [py_take] (slices with negative bounds), list and
      string lemmas.
    - [PyStr]: the [str] built-ins the sources call ([strip], [lower],
      [splitlines], [rsplit(":", 1)], [split("::")], [split()], [int()],
      [join], [endswith]) on ASCII strings, with the lemmas the parser round trip uses.
    - [Generator] ([src/src/shared/generator.py]): messages, transcripts,
      token counters, [Prompt], [LLM], [tokenverbrauch_summieren],
      [llm_config_holen], the filter that keeps secrets out of the stored
      model configuration, and (module [Inhalt]) [parse_content] and
      [parse_chatverlauf], which display stored transcripts, over a type
      [PyWert] of JSON-shaped Python values.
    - [Anbieter] ([llm_integrations/llm_provider.py]): the provider
      objects in a store of references, the class-level dictionary of
      [LLMProviderHandler] from model names to providers,
      [hole_provider] with [aktiviere_model], and [aufruf_model], the
      model a call reads from its provider ([hole_llm_instanz_aus_graph]
      of [generator.py]).
    - [Dokumente] ([referenzdokumente_models.py]): documents, selections
      and summaries; module [Seite] is the loop of [referenzdokumente.py]
      that turns the rows of the edited document table into the
      selections the summariser runs on, with the configured labels as
      parameters.
    - [Zusammenfassungsgenerator]: module [Lader] is the three loaders
      ([lader_csv.py], [lader_pdf.py], [lader_url.py]) over the record
      [Bibliotheken] of library oracles (pandas, pdfplumber, requests,
      BeautifulSoup), with the exception handlers as written; module
      [Pipeline] is the LangGraph pipeline of [zusammenfassungsgenerator.py]
      ([lauf]: routers and nodes of one document; [starten]: the loop over
      the selected documents).
    - [Katalog]: module [Models] is [studienkonfigurationslader/models.py]
      and [utils.py] ([stripped_oder_none], [render_text] as [re.sub] of
      [{{(\w+)}}]); module [Lader] is [Studienkonfigurationslader]
      ([_parse_frage] with every check in source order, [lade_fragen])
      over an ElementTree-shaped [Element].
    - [Fragenmanager]: module [Daten] holds the answer and context
      dataclasses of [siliconsamplesgenerator_models.py]; module [FM] is
      [fragenmanager.py]: the state record [Fragenmanager] (questions as an
      ordered dictionary, the class-level answers, the sampling cache, the
      index of the next random generator) and one function per method,
      each returning the new state; [random.Random().sample] is the oracle
      [stichprobe].
    - [Fragesteller]: module [Graph] is the LangGraph interview of
      [fragesteller.py]: the context key, the briefing, the question
      message, the reply parser, the validator [validiere], the
      ask/validate loop [frage_zyklus] and one graph invocation
      [aufrufen] over the persisted thread state [GraphZustand]; the model
      is the oracle [llm] on the call index and the history, which may
      raise.  Module [Zyklusspezifikation] states the loop as an
      inductive relation [zyklus] (one rule per outcome of a round).
    - [Befragung]: module [Lauf] is [Fragesteller.starten], the
      respondent loop: poll the scheduler, run the graph per context whose
      context key differs from the last one, commit the accepted answers,
      build [SiliconSamples], reset the shared answers.
    - [Stichproben]: the silicon-sample page
      ([siliconsamplesgenerator.py] and [siliconsamplesgenerator_api.py]):
      module [Persona] is [hole_persona_fuer_wiederholung]; module
      [Stapel] is the repetition loop, which builds each repetition's
      [Prompt] data (the persona included), runs [starten] and stores its
      result, threading the class-level answers from one repetition to
      the next; module [Tabelle] is [streamlit_siliconsamples_dataframe],
      the result table that decodes the composite keys.
    - [Persistenz]: stored results ([src/src/shared/dateien.py] and the
      [from_dict] methods of the dataclasses).  Module [Json] holds the
      exceptions the loaders raise, [data[k]] and [data.get(k, d)] over
      [PyWert], and three classes: [Kodierbar] (what [json.dump] with
      [default=lambda o: o.__dict__] writes for a value), [FromDict]
      ([cls.from_dict]) and [Rundlauf] (reading back what was written),
      in the style of a serialisation library.  Module [Kodierung] gives
      the [Kodierbar] instance of each dataclass, module [Laden] the
      [FromDict] instance transcribed from each [from_dict] method, with
      records [Geladene*] for the objects whose [from_dict] keeps raw
      values.  Module [Dateien] is the rest of [dateien.py] over a file
      system kept as an insertion-ordered dictionary of paths and texts:
      [Path] versus [str] arguments ([Pfadwert], [dateipfad_relativ],
      [dateipfad_absolut]), [ordner_auslesen] as [rglob] with
      [relative_to], [datei_speichern] and [datei_lesen] with
      [json.dump] and [json.load] as parameters, and the API methods
      [siliconsamples] and [zusammenfassung] that read stored results; module [Anzeige] is
      the result table computed on a loaded sample.
    - [Aufruf]: the graph plumbing of [LLMGenerator] ([generator.py]):
      module [Zeit] is [strftime] for the directives the code uses and
      its inverse; module [Aufruf] is the generator's state (prompt,
      thread prefix, the token callback's counters per model, start
      time), [thread_id], [llm_tokenverbrauch], [aufrufen] with its
      optional reset and the config it passes (a graph is a parameter
      that returns the responses the callback counts and its output or
      the exception [invoke] raises),
      the readers [hole_tokenverbrauch_aus_graph] and
      [hole_prompt_data_aus_graph], and the summariser's [fortschritt].
    - [Konfiguration]: module [Konfig] is [toml_config.py] ([load_config]
      merging the main file at the top and hanging each component's file
      under [komponente.<name>], with [tomllib.load] the parameter [toml]),
      [komponenten.py] ([komponentenname_von_datei], [komponenten_config],
      [KomponentenAPI.text] with its fallback to the application's texts,
      [streamlit_llm_provider_auswahl] over [Anbieter]) and the start
      script [ssg.py]: the loop that registers a page per active component
      ([eintrag], [seite_registrieren], [seiten_go]) and the handler over
      the four vendors ([ssg_anbieter]); [seite_von] is the reference the
      loop is compared with.
    - [Ergebnisanzeige]: module [Auswahl] is the select boxes of stored
      results ([streamlit_zusammenfassungen_auswahl],
      [streamlit_siliconsamples_auswahl]) over the folder listing of
      [Persistenz] and a select box given as an oracle;
      module [Darstellung] is the rest of [ReferenzdokumenteAPI]
      ([tokenverbrauch_summieren], [streamlit_zusammenfassungen_anzeigen]
      as the list of Streamlit elements written, [print_chatverlaeufe],
      [print_chatverlauf]) with [format_number], the display of
      [SiliconSamplesGeneratorAPI] ([streamlit_siliconsamples_anzeigen],
      [print_parsed_chatverlauf]), and the pages that show a stored
      sample: the display tab of [siliconsamplesgenerator.py]
      ([anzeige_tab]) and [auswertung.py] ([auswertung]); module [Pivot]
      is the unused [antworten_als_pivot], a loop with exceptions
      ([fold_res]) over an insertion-ordered dictionary and a [gset].
    - [Seitensitzung]: module [Sitzung] is the run protocol of the two
      generating pages ([referenzdokumente.py],
      [siliconsamplesgenerator.py]): the session keys, the callbacks
      [starten], [abbrechen], [fertig], [reset], one script run in the
      page's tab order ([skript]) and one interaction with the run
      [st.rerun()] requests ([schritt]); [erreichbar] is the sessions a
      page reaches.
    - [Protokoll]: [logger.py] over a model of the [logging] library
      (module [Logging]: the registry of loggers, the parent chain as
      [_fixupParents] builds it, effective levels, [callHandlers] with
      [propagate] and [lastResort], [basicConfig]); module [Protokoll]
      is [setup_logging] and [get_logger], and [log_erreichbar] the
      states the application reaches by setting up, importing modules
      and the loaders' [logging.warning].

    Each component file also has a module of examples (questionnaires,
    states, libraries, models) that the witnesses run on.

    ** What is proved

    - Termination and its failure: the interview loop never ends when the
      next unit has only contexts already handled ([befragung_haengt]);
      the scheduler produces such units for a question on [{{thema}}]
      with two topics, for a follow-up asked before its parent
      ([naechste_frage_ohne_kontext]) and for a follow-up of a follow-up
      ([relevante_parent_themen_zusammengesetzt]); a question without
      topics can never be answered ([frage_zyklus_ohne_key]).
    - The scheduler: the dependency check, stability of repeated polls
      (the sampled subsets are cached), bounds of the sampled subsets,
      the answer store as a keyed update with unique keys per answer,
      the composite keys and their decoding, the spec's scenarios.
    - The validator and the parser: the exact acceptance condition,
      answers kept across retries, the parse of a well-formed reply.
    - The loader: well-formedness of every loaded question; the
      duplicate-id check that never fires.
    - The shared class attribute: answers are never removed from it and
      leak from an aborted run into the next respondent's result: a
      question without parent that the inherited answers complete is
      never asked again and keeps exactly the inherited answer
      ([starten_zweiter_befragter_erbt]), and at
      the level of the page from an aborted batch into the next batch;
      within a batch that completes, every repetition after the first
      starts from an empty dictionary.
    - The page: personas are used in ascending order and repeated
      ([stapel_personas]), the persona index is always in range, an empty
      personas file with personas enabled raises [TypeError]; the result
      table decodes composite keys back into their parts, leaves the
      topic text empty for follow-ups without topics, has one row per
      answer entry and fails exactly on entries without a question.
    - The stored model configuration never holds a key that looks like
      an API key; a stored transcript is displayed with each message's
      role and text.
    - The ask/validate loop refines its relational specification: for
      every outcome but running out of fuel, [frage_zyklus] reaches it
      for some fuel exactly when [zyklus] does
      ([frage_zyklus_verfeinert]), and more fuel never changes an outcome
      once reached ([frage_zyklus_brennstoff]).
    - Stored results: every dataclass whose [from_dict] rebuilds it
      reads back what [json.dump] wrote (the [Rundlauf] instances); a
      summary is read back with the prompt and model record as raw
      dictionaries ([zusammenfassung_rundlauf]); a sample is read back
      with its questions and answers but with its summaries left as raw
      dictionaries ([samples_rundlauf]); a sample that is saved and loaded
      again is shown as the same result table, and the display tab shows
      it without raising once the user picks its file
      ([anzeige_tab_zeigt_gespeicherte_tabelle]);
      [datei_lesen] returns one object for a JSON object and a list only
      for a JSON list, whatever its callers annotate
      ([datei_lesen_form]); a sample file without [llm] entry can never
      be loaded ([samples_ohne_llm]).
    - Configuration and start: after [ssg.py] has run, a component's
      [komponenten_config] is the table of its own config file unless a
      later component has a file of the same stem
      ([ssg_komponenten_config]), its texts come from that table and fall
      back to [ssg.toml]'s ([ssg_text]); the pages of each group are
      exactly those a per-entry reference computes ([ssg_seiten]); a
      config file that does not parse aborts the start
      ([ssg_toml_ungueltig]); a model chosen among those offered never
      raises and becomes active ([provider_auswahl_angeboten]).
    - Pages and stored results: the reference page shows the summaries it
      has just stored, preselected and read back
      ([referenzseite_zeigt_ergebnis]); the samples page gives every
      display ["None"] ([siliconsamples_zeigt_none]) and its select box
      cannot preselect a file anyway ([siliconsamples_nie_vorausgewaehlt]);
      a failed generation is run again at every rerun until aborted
      ([fehlschlag_wiederholt]); a summaries file with one object cannot
      be shown ([einzelne_zusammenfassung_typfehler]); displayed human
      messages are cut at 300 characters plus a marker
      ([print_chatverlauf_kuerzung]); the columns [antworten_als_pivot]
      returns are exactly the cells of its rows
      ([antworten_als_pivot_spalten]); the evaluation page passes a
      [str] where [ordner_auslesen] needs a [Path] and always raises
      ([auswertung_rglob_fehler]).
    - Files: [ordner_auslesen(ordner, "*.json")] lists exactly the JSON
      files below the folder, relative to it ([ordner_auslesen_json]), so
      a file a page stores is offered by its select box (used by the
      compositions above).
    - Logging: [setup_logging] is idempotent ([setup_logging_idempotent]);
      in every reachable state after the setup a module's record reaches
      the console and the log file once each from [INFO] on
      ([modul_protokolliert]); the loaders' [logging.warning] never
      reaches the log file ([loader_warnung_stderr]).
    - Graph calls: [aufrufen] always builds its config and returns the
      graph's output or propagates its exception; its nodes see the token
      count from before the call (zero after a reset) and afterwards,
      also after an exception, the counters grow by exactly the tokens
      of the responses received
      ([aufrufen_tokenverbrauch]), so the summariser, which resets per
      document, always shows "0 Token verbraucht!"
      ([fortschritt_zeigt_null]); the thread id determines the start
      time up to the second ([thread_id_eindeutig]), by a round trip of
      [strftime].
    - The providers: provider objects are shared, so a model selected
      by one session changes the model of every call made through the
      same provider by another session ([modellwahl_geteilt]).
    - The summariser: the routing of the pipeline, one call per table,
      CSV documents without text, the PDF page loop that stops at the
      first failing page, the CSV and URL loaders that let an [OSError]
      abort the batch, the row caps; the selections the reference page
      passes to it are consistent (summarising tables implies
      extracting them).

    ** Fuel

    The interview loop ([while True]) and the retry loop (no attempt
    cap) have no bound in the source; [befragung_go], [kontexte_go] and
    [frage_zyklus] take fuel and end in [Erschoepft] / [KeinBrennstoff]
    when it runs out.  Fuel is only an observation window: the livelock
    theorems hold for every fuel, and the concrete runs use 100 to 1000,
    far more than the few model calls they make.  [render_text] scans
    with fuel equal to the text's length, which [render_go_fuel] shows is
    enough (each step consumes at least one character).  For
    [frage_zyklus] the refinement theorem quantifies over the fuel, so
    no bound is fixed; [frage_zyklus_brennstoff] shows any larger fuel
    is as good.

    ** Not modelled

    The Streamlit widgets as such (a page is modelled by the session
    keys it keeps, the path its display is given, and the elements a
    display writes), the study configuration, admin and start pages;
    the evaluation page's own component, whose module
    [auswertung_api.py] is not in the sources (its config is a
    parameter); the sorted rows [antworten_als_pivot] builds and drops;
    the order of the result table's rows (the answers are a [gmap], whose
    order stands in for the dictionary's insertion order);
    the order of [rglob] (fixed as the order in which files were
    created; folders are not modelled), file dates and the base path of
    [dateien.py]; the status box [status.py]; JSON and
    TOML text ([json.dump], [json.load] and [tomllib.load] are
    parameters, and the JSON form of LangChain messages and token
    counters is kept as raw values); the provider and
    progress-bar objects a graph config carries, and the token details
    dictionaries; the format and rotation of log records (the file handler's
    [maxBytes] is 0, so it never rotates);
    the vendor wrappers ([llm_provider_openai.py] and the like), which
    only construct SDK clients; and the libraries themselves (XML
    parsing, pandas, pdfplumber, requests, the language model,
    [str.format_map]), which are parameters.  Paths are strings:
    [Path] joining and [.name] are modelled for paths without a
    trailing slash.  Unicode beyond ASCII in the string functions
    (lengths count bytes); the order of Python's set iteration in the
    validator's error message (list order is used).  [strftime] follows
    Python's documentation (4-digit zero-padded years), which the
    [gueltig] times [datetime.now()] returns satisfy. *)

From stdpp Require Export base gmap strings list.
From Stdlib Require Export String Ascii ZArith Lia.

(** ** Notation *)

Declare Scope py_scope.
Delimit Scope py_scope with py.

(** String concatenation, Python's [a + b] on [str]. *)
Notation "a +++ b" := (String.append a b) (at level 60, right associativity) : py_scope.

Open Scope string_scope.
Open Scope list_scope.
Open Scope py_scope.

(** ** Automation *)

Create HintDb ssg discriminated.
Create Rewrite HintDb ssg_rw.

Ltac invc H := inversion H; subst; clear H.

(** Turn every boolean [bool_decide] in the hypotheses and goal into its
    proposition. *)
Ltac bool_props :=
  repeat match goal with
  | H : bool_decide _ = true |- _ => apply bool_decide_eq_true in H
  | H : bool_decide _ = false |- _ => apply bool_decide_eq_false in H
  | |- bool_decide _ = true => apply bool_decide_eq_true
  | |- bool_decide _ = false => apply bool_decide_eq_false
  end.

(** ** Insertion-ordered dictionaries

    A Python [dict] whose iteration order matters is an association list
    without duplicate keys.  [dict_set d k v] is [d[k] = v]: an existing
    key keeps its position and gets the new value, a new key is appended. *)

Section Dict.
Context {K V : Type} `{EqDecision K}.

Fixpoint dict_get (d : list (K * V)) (k : K) : option V :=
    match d with
    | [] => None
    | (k', v) :: d' => if decide (k = k') then Some v else dict_get d' k
    end.

Fixpoint dict_set (d : list (K * V)) (k : K) (v : V) : list (K * V) :=
    match d with
    | [] => [(k, v)]
    | (k', v') :: d' =>
        if decide (k = k') then (k', v) :: d' else (k', v') :: dict_set d' k v
    end.

(** [{key(x): x for x in xs}] *)
Definition dict_of_list (l : list (K * V)) : list (K * V) :=
    fold_left (fun d kv => dict_set d kv.1 kv.2) l [].

(** [d1.update(d2)] *)
Definition dict_update (d1 d2 : list (K * V)) : list (K * V) :=
    fold_left (fun d kv => dict_set d kv.1 kv.2) d2 d1.

Lemma dict_get_set_eq d k v : dict_get (dict_set d k v) k = Some v.
  Proof.
    induction d as [|[k' v'] d IH]; simpl; [by rewrite decide_True|].
    case_decide; simpl; [by rewrite decide_True|].
    by rewrite decide_False.
  Qed.

Lemma dict_get_set_ne d k k' v :
    k <> k' -> dict_get (dict_set d k v) k' = dict_get d k'.
  Proof.
    intros Hne. induction d as [|[k0 v0] d IH]; simpl.
    - by rewrite decide_False.
    - repeat (case_decide || simpl); subst; done.
  Qed.

Lemma dict_keys_set_in d k v :
    k ∈ d.*1 -> (dict_set d k v).*1 = d.*1.
  Proof.
    induction d as [|[k0 v0] d IH]; simpl; [by intros ?%elem_of_nil|].
    intros Hin. case_decide; simpl; [done|].
    f_equal. apply IH. apply elem_of_cons in Hin as [->|?]; [done|done].
  Qed.

Lemma dict_keys_set_notin d k v :
    k ∉ d.*1 -> (dict_set d k v).*1 = d.*1 ++ [k].
  Proof.
    induction d as [|[k0 v0] d IH]; simpl; [done|].
    intros Hin. rewrite decide_False by (intros ->; apply Hin; left).
    simpl. f_equal. apply IH. intros ?; apply Hin; by right.
  Qed.

Lemma dict_set_nodup d k v : NoDup d.*1 -> NoDup (dict_set d k v).*1.
  Proof.
    intros Hnd. destruct (decide (k ∈ d.*1)) as [Hin|Hin].
    - by rewrite dict_keys_set_in.
    - rewrite dict_keys_set_notin by done. apply NoDup_app. split; [done|].
      split; [|apply NoDup_singleton]. intros x Hx ->%list_elem_of_singleton. done.
  Qed.

Lemma dict_set_neu d k v : k ∉ d.*1 -> dict_set d k v = d ++ [(k, v)].
  Proof.
    induction d as [|[k0 v0] d IH]; simpl; [done|]. intros Hk.
    rewrite decide_False by (intros ->; apply Hk; left). f_equal.
    apply IH. intros ?; apply Hk; by right.
  Qed.

Lemma dict_get_Some_in d k v : dict_get d k = Some v -> (k, v) ∈ d.
  Proof.
    induction d as [|[k0 v0] d IH]; simpl; [done|].
    case_decide; [intros [= <-]; subst; left|intros ?; right; auto].
  Qed.

Lemma dict_get_None d k : dict_get d k = None <-> k ∉ d.*1.
  Proof.
    induction d as [|[k0 v0] d IH]; simpl; [split; [intros _ ?%elem_of_nil; done|done]|].
    case_decide; subst; rewrite elem_of_cons; [split; [done|]; intros H; by exfalso; apply H; left|].
    rewrite IH. split; [intros Hn [?|?]; done|intros Hn ?; apply Hn; by right].
  Qed.
End Dict.

#[export] Hint Rewrite @dict_get_set_eq : ssg_rw.
#[export] Hint Resolve dict_set_nodup : ssg.

(** ** Python sets of hashable values as lists

    [set(a).issubset(b)] and [x in s] on lists with decidable equality. *)

Definition subsetb {A} `{EqDecision A} (l1 l2 : list A) : bool :=
  forallb (fun x => bool_decide (x ∈ l2)) l1.

Lemma subsetb_spec {A} `{EqDecision A} (l1 l2 : list A) :
  subsetb l1 l2 = true <-> l1 ⊆ l2.
Proof.
  unfold subsetb. rewrite forallb_forall. split.
  - intros H x Hx. apply list_elem_of_In in Hx. apply H in Hx. by apply bool_decide_eq_true in Hx.
  - intros H x Hx. apply bool_decide_eq_true, H. by apply list_elem_of_In.
Qed.

#[export] Hint Rewrite @subsetb_spec : ssg_rw.

(** ** Raised exceptions as [inl]

    Code that raises is modelled as a function into [E + A]: [inl e] is the
    exception [e], [inr x] the returned value.  [let? x := m in k] runs [k]
    only when [m] returned, so the first raised error wins. *)

Notation "'let?' x ':=' m 'in' k" :=
  (match m with inl e => inl e | inr x => k end)
  (at level 10, x pattern, m at level 100, k at level 200) : py_scope.


(** ** Strings

    [simpl] does not unfold [String.append] once stdpp is loaded; its two
    equations are lemmas here and rewrite rules of [ssg_rw]. *)

Lemma str_app_nil_l (b : string) : "" +++ b = b.
Proof. reflexivity. Qed.

Lemma str_app_cons (c : ascii) (a b : string) : String c a +++ b = String c (a +++ b).
Proof. reflexivity. Qed.

Lemma str_length_app (a b : string) :
  String.length (a +++ b) = (String.length a + String.length b)%nat.
Proof. induction a as [|c a IH]; rewrite ?str_app_cons; simpl; [done|by rewrite IH]. Qed.

Lemma str_app_assoc (a b c : string) : (a +++ b) +++ c = a +++ (b +++ c).
Proof. induction a as [|x a IH]; rewrite ?str_app_cons; [done|by rewrite IH]. Qed.

Lemma str_app_nil_r (a : string) : a +++ "" = a.
Proof. induction a as [|x a IH]; rewrite ?str_app_cons; [done|by rewrite IH]. Qed.

Lemma str_eqb_eq (a b : string) : String.eqb a b = true <-> a = b.
Proof. apply String.eqb_eq. Qed.

Lemma str_eqb_neq (a b : string) : String.eqb a b = false <-> a <> b.
Proof. apply String.eqb_neq. Qed.

#[export] Hint Rewrite str_app_nil_l str_app_cons str_length_app str_app_assoc str_app_nil_r : ssg_rw.

(** [existsb] over a key projection is membership of the key. *)
Lemma existsb_key_false {A} (key : A -> string) (i : string) (l : list A) :
  List.existsb (fun x => String.eqb (key x) i) l = false <-> i ∉ key <$> l.
Proof.
  induction l as [|x l IH]; simpl; [split; [intros _ ?%elem_of_nil; done|done]|].
  rewrite orb_false_iff, IH, elem_of_cons, str_eqb_neq. naive_solver.
Qed.

(** [[f(x) for x in xs]] where [f] may raise: the first exception wins. *)
Fixpoint map_res {E A B} (f : A -> E + B) (l : list A) : E + list B :=
  match l with
  | [] => inr []
  | x :: l' => let? y := f x in let? ys := map_res f l' in inr (y :: ys)
  end.

(** [for x in xs: acc = f(acc, x)] where the body may raise: the loop
    stops at the first exception. *)
Fixpoint fold_res {E A B} (f : B -> A -> E + B) (l : list A) (acc : B) : E + B :=
  match l with
  | [] => inr acc
  | x :: l' => let? acc' := f acc x in fold_res f l' acc'
  end.

(** [l[:n]] for a Python integer [n]: a negative bound counts from the
    end. *)
Definition py_take {A} (n : Z) (l : list A) : list A :=
  if Z.leb 0 n then take (Z.to_nat n) l
  else take (List.length l - Z.to_nat (- n)) l.

Lemma py_take_pos {A} (n : Z) (l : list A) :
  (0 <= n)%Z -> py_take n l = take (Z.to_nat n) l.
Proof. unfold py_take. intros Hn. by destruct (Z.leb_spec 0 n); [|lia]. Qed.

(** Whether a computation that may raise returned. *)
Definition ist_inr {E A} (x : E + A) : bool := match x with inr _ => true | inl _ => false end.

Lemma inr_iff {E A} (x y : A) : (inr x : E + A) = inr y <-> x = y.
Proof. split; [by intros [=]|by intros ->]. Qed.

Lemma find_app {A} (P : A -> bool) (l1 l2 : list A) :
  List.find P (l1 ++ l2) = match List.find P l1 with Some x => Some x | None => List.find P l2 end.
Proof. induction l1 as [|x l1 IH]; simpl; [done|]. by destruct (P x). Qed.

Lemma filter_all {A} (P : A -> Prop) `{forall x, Decision (P x)} (l : list A) :
  (forall x, x ∈ l -> P x) -> filter P l = l.
Proof.
  induction l as [|x l IH]; intros Hl; [done|].
  rewrite filter_cons_True by (apply Hl; left). f_equal. apply IH.
  intros y Hy. apply Hl. by right.
Qed.

Lemma filter_nil_iff {A} (P : A -> Prop) `{forall x, Decision (P x)} (l : list A) :
  filter P l = [] <-> forall x, x ∈ l -> ~ P x.
Proof.
  induction l as [|x l IH]; [split; [intros _ ? ?%elem_of_nil; done|done]|].
  rewrite filter_cons. case_decide as Hx.
  - split; [done|]. intros Hl. by exfalso; apply (Hl x); [left|].
  - rewrite IH. setoid_rewrite elem_of_cons. naive_solver.
Qed.

Lemma dict_set_keys_sub {K V} `{EqDecision K} (d : list (K * V)) k v :
  d.*1 ⊆ (dict_set d k v).*1.
Proof.
  destruct (decide (k ∈ d.*1)).
  - by rewrite dict_keys_set_in.
  - rewrite dict_keys_set_notin by done. set_solver.
Qed.

Lemma dict_update_keys_sub {K V} `{EqDecision K} (d1 d2 : list (K * V)) :
  d1.*1 ⊆ (dict_update d1 d2).*1.
Proof.
  unfold dict_update. revert d1. induction d2 as [|kv d2 IH]; intros d1; simpl; [done|].
  etrans; [apply (dict_set_keys_sub d1 kv.1 kv.2)|apply IH].
Qed.

Lemma list_filter_nil {A} (f : A -> bool) (l : list A) :
  (forall x, x ∈ l -> f x = false) -> List.filter f l = [].
Proof.
  induction l as [|x l IH]; intros Hl; [done|]. simpl.
  rewrite Hl by left. apply IH. intros y Hy. apply Hl. by right.
Qed.

Lemma map_res_inr {E A B} (f : A -> E + B) (l : list A) (ys : list B) :
  map_res f l = inr ys -> Forall2 (fun x y => f x = inr y) l ys.
Proof.
  revert ys. induction l as [|x l IH]; intros ys; simpl; [by intros [= <-]|].
  destruct (f x) as [e|y] eqn:Hx; [done|].
  destruct (map_res f l) as [e|ys'] eqn:Hl; [done|]. intros [= <-]. constructor; auto.
Qed.

Lemma map_res_ist_inr {E A B} (f : A -> E + B) (l : list A) :
  ist_inr (map_res f l) = true <-> forall x, x ∈ l -> ist_inr (f x) = true.
Proof.
  induction l as [|x l IH]; simpl.
  - split; [|done]. intros _ y Hy. by apply elem_of_nil in Hy.
  - transitivity (ist_inr (f x) = true /\ ist_inr (map_res f l) = true).
    + destruct (f x), (map_res f l); simpl; intuition congruence.
    + rewrite IH. setoid_rewrite elem_of_cons. naive_solver.
Qed.

Lemma map_res_fmap_inr {E A B} (f : B -> E + A) (g : A -> B) (l : list A) :
  (forall x, x ∈ l -> f (g x) = inr x) -> map_res f (g <$> l) = inr l.
Proof.
  induction l as [|x l IH]; intros Hl; [done|]. rewrite fmap_cons. cbn [map_res].
  rewrite Hl by left. rewrite IH; [done|]. intros y Hy. apply Hl. by right.
Qed.

Lemma map_res_forall2 {E A B C} (f : B -> E + C) (h : A -> B) (l : list A) (ys : list C) :
  Forall2 (fun x y => f (h x) = inr y) l ys -> map_res f (h <$> l) = inr ys.
Proof. induction 1 as [|x y l ys Hxy _ IH]; [done|]. cbn. by rewrite Hxy, IH. Qed.

(** A property every iteration of the loop preserves holds at its end. *)
Lemma fold_res_inv {E A B} (P : B -> Prop) (f : B -> A -> E + B) (l : list A) (acc r : B) :
  (forall acc x acc', x ∈ l -> P acc -> f acc x = inr acc' -> P acc') ->
  P acc -> fold_res f l acc = inr r -> P r.
Proof.
  revert acc. induction l as [|x l IH]; intros acc Hf Hacc; cbn; [by intros [= <-]|].
  destruct (f acc x) as [e|acc'] eqn:Hx; [done|]. apply IH.
  - intros ?????. eapply Hf; [by right|done..].
  - eapply Hf; [by left|done..].
Qed.

(** [d[k] = v] read back at any key. *)
Lemma dict_get_set {K V} `{EqDecision K} (d : list (K * V)) k v k' :
  dict_get (dict_set d k v) k' = if decide (k' = k) then Some v else dict_get d k'.
Proof.
  case_decide; subst; [apply dict_get_set_eq|]. apply dict_get_set_ne. congruence.
Qed.

Lemma ist_inr_true {E A} (x : E + A) : ist_inr x = true <-> exists y, x = inr y.
Proof. destruct x; cbn; split; [done|by intros [? ?]|eauto|done]. Qed.

Lemma dict_keys_get {K V} `{EqDecision K} (d : list (K * V)) k :
  k ∈ d.*1 <-> exists v, dict_get d k = Some v.
Proof.
  split.
  - intros Hk. destruct (dict_get d k) eqn:E; [eauto|]. by apply dict_get_None in E.
  - intros [v Hv%dict_get_Some_in]. by apply (list_elem_of_fmap_2 fst) in Hv.
Qed.
