(* ===== verification/PyStr.v ===== *)
(** * Python [str] built-ins used by the sources

    The sources call a handful of [str] methods whose exact behaviour
    decides what the questionnaire loader accepts and what the answer
    validator parses: [strip], [lower], [splitlines], [rsplit(":", 1)],
    [split("::")], [startswith], [in] and [int()].  They are modelled here
    on ASCII strings ([String.string]); the Unicode-only whitespace, line
    breaks and digits that CPython also accepts are outside the model. *)

From S2P Require Import Prelude.

Open Scope string_scope.
Open Scope list_scope.
Open Scope py_scope.

Definition chr (n : nat) : ascii := ascii_of_nat n.

(** [c.isspace()] on ASCII: tab, LF, VT, FF, CR, the separators
    FS/GS/RS/US (28 to 31) and space. *)
Definition py_isspace (c : ascii) : bool :=
  let n := nat_of_ascii c in (Nat.leb 9 n && Nat.leb n 13) || (Nat.leb 28 n && Nat.leb n 32).

Fixpoint lstrip (s : string) : string :=
  match s with
  | EmptyString => EmptyString
  | String c r => if py_isspace c then lstrip r else s
  end.

Fixpoint rstrip (s : string) : string :=
  match s with
  | EmptyString => EmptyString
  | String c r =>
      let r' := rstrip r in
      if py_isspace c && String.eqb r' "" then "" else String c r'
  end.

(** [s.strip()] *)
Definition strip (s : string) : string := rstrip (lstrip s).

(** [s.lower()] on ASCII letters. *)
Definition lower_char (c : ascii) : ascii :=
  let n := nat_of_ascii c in
  if Nat.leb 65 n && Nat.leb n 90 then ascii_of_nat (n + 32) else c.

Fixpoint lower (s : string) : string :=
  match s with
  | EmptyString => EmptyString
  | String c r => String (lower_char c) (lower r)
  end.

(** [s.startswith(p)] for a one-character prefix. *)
Definition starts_with_char (c : ascii) (s : string) : bool :=
  match s with
  | String c' _ => Ascii.eqb c c'
  | EmptyString => false
  end.

(** [c in s] for a single character. *)
Fixpoint contains_char (c : ascii) (s : string) : bool :=
  match s with
  | EmptyString => false
  | String c' r => Ascii.eqb c c' || contains_char c r
  end.

(** ** [s.splitlines()]

    Line boundaries on ASCII: LF, CR, CR LF, VT, FF, FS, GS, RS.  A final
    line break does not start an empty last line. *)

Definition is_linebreak (c : ascii) : bool :=
  let n := nat_of_ascii c in
  existsb (Nat.eqb n) [10; 11; 12; 13; 28; 29; 30].

Fixpoint splitlines_acc (s : string) (cur : string) : list string :=
  match s with
  | EmptyString => if String.eqb cur "" then [] else [cur]
  | String c r =>
      if Ascii.eqb c (chr 13) then
        match r with
        | String c2 r2 =>
            if Ascii.eqb c2 (chr 10) then cur :: splitlines_acc r2 ""
            else cur :: splitlines_acc r ""
        | EmptyString => cur :: splitlines_acc r ""
        end
      else if is_linebreak c then cur :: splitlines_acc r ""
      else splitlines_acc r (cur +++ String c "")
  end.

Definition splitlines (s : string) : list string := splitlines_acc s "".

(** ** [s.rsplit(":", 1)] when [":" in s]: the split at the last colon. *)

Fixpoint rsplit_colon (s : string) : option (string * string) :=
  match s with
  | EmptyString => None
  | String c r =>
      match rsplit_colon r with
      | Some (l, rt) => Some (String c l, rt)
      | None => if Ascii.eqb c ":" then Some ("", r) else None
      end
  end.

(** ** [s.split("::")]: left-to-right, non-overlapping separators. *)

Fixpoint split_dcolon_acc (s : string) (cur : string) : list string :=
  match s with
  | EmptyString => [cur]
  | String c r =>
      if Ascii.eqb c ":" then
        match r with
        | String c2 r2 =>
            if Ascii.eqb c2 ":" then cur :: split_dcolon_acc r2 ""
            else split_dcolon_acc r (cur +++ String c "")
        | EmptyString => split_dcolon_acc r (cur +++ String c "")
        end
      else split_dcolon_acc r (cur +++ String c "")
  end.

Definition split_dcolon (s : string) : list string := split_dcolon_acc s "".

(** ["::" in s] *)
Fixpoint contains_dcolon (s : string) : bool :=
  match s with
  | EmptyString => false
  | String c r =>
      (Ascii.eqb c ":" && starts_with_char ":" r) || contains_dcolon r
  end.

(** [s.endswith(":")] *)
Fixpoint ends_with_colon (s : string) : bool :=
  match s with
  | EmptyString => false
  | String c EmptyString => Ascii.eqb c ":"
  | String _ r => ends_with_colon r
  end.

(** [s.endswith(suffix)]: some suffix of [s] is [suffix]. *)
Fixpoint ends_with (suffix s : string) : bool :=
  String.eqb s suffix ||
  match s with
  | EmptyString => false
  | String _ r => ends_with suffix r
  end.

(** ** [int(s)] on a decimal literal: an optional sign, then digits with
    single underscores between them.  [None] is the [ValueError]. *)

Definition digit_value (c : ascii) : option Z :=
  let n := nat_of_ascii c in
  if Nat.leb 48 n && Nat.leb n 57 then Some (Z.of_nat (n - 48)%nat) else None.

Fixpoint int_digits (s : string) (acc : Z) (after_us : bool) : option Z :=
  match s with
  | EmptyString => if after_us then None else Some acc
  | String c r =>
      match digit_value c with
      | Some d => int_digits r (10 * acc + d)%Z false
      | None =>
          if Ascii.eqb c "_" && negb after_us then int_digits r acc true else None
      end
  end.

Definition int_unsigned (s : string) : option Z :=
  match s with
  | String c r =>
      match digit_value c with
      | Some d => int_digits r d false
      | None => None
      end
  | EmptyString => None
  end.

Definition py_int (s : string) : option Z :=
  match s with
  | String c r =>
      if Ascii.eqb c "+" then int_unsigned r
      else if Ascii.eqb c "-" then option_map Z.opp (int_unsigned r)
      else int_unsigned s
  | EmptyString => None
  end.

(** [sep.join(parts)] *)
Fixpoint join (sep : string) (l : list string) : string :=
  match l with
  | [] => ""
  | [x] => x
  | x :: l' => x +++ sep +++ join sep l'
  end.

(** [s.split()] with no separator: the maximal runs of non-whitespace. *)
Fixpoint woerter_acc (s : string) (cur : string) : list string :=
  match s with
  | EmptyString => if String.eqb cur "" then [] else [cur]
  | String c r =>
      if py_isspace c then (if String.eqb cur "" then [] else [cur]) ++ woerter_acc r ""
      else woerter_acc r (cur +++ String c "")
  end.

Definition woerter (s : string) : list string := woerter_acc s "".

(** ** Character classes of a whole string *)

Fixpoint alle (p : ascii -> bool) (s : string) : bool :=
  match s with
  | EmptyString => true
  | String c r => p c && alle p r
  end.

Definition erstes (s : string) : option ascii :=
  match s with String c _ => Some c | EmptyString => None end.

Fixpoint letztes (s : string) : option ascii :=
  match s with
  | EmptyString => None
  | String c EmptyString => Some c
  | String _ r => letztes r
  end.

(** No whitespace at either end. *)
Definition ohne_rand (s : string) : bool :=
  match erstes s, letztes s with
  | Some a, Some b => negb (py_isspace a) && negb (py_isspace b)
  | _, _ => false
  end.

(** ** [s.split(c)] for a one-character separator [c] *)

Fixpoint split_char_acc (c : ascii) (s : string) (cur : string) : list string :=
  match s with
  | EmptyString => [cur]
  | String d r =>
      if Ascii.eqb d c then cur :: split_char_acc c r ""
      else split_char_acc c r (cur +++ String d "")
  end.

Definition split_char (c : ascii) (s : string) : list string := split_char_acc c s "".

(** [os.path.basename(p)] (POSIX): what follows the last ["/"]. *)
Definition basename (p : string) : string := default "" (last (split_char "/" p)).

(** ** [s.replace(alt, neu)] for a non-empty [alt]: left to right,
    non-overlapping; [fuel] is the length of [s], one character at
    least is consumed per step. *)

Fixpoint replace_go (fuel : nat) (alt neu s : string) : string :=
  match fuel with
  | O => s
  | S f =>
      match s with
      | EmptyString => EmptyString
      | String c r =>
          if String.prefix alt s then
            neu +++ replace_go f alt neu (substring (String.length alt) (String.length s - String.length alt) s)
          else String c (replace_go f alt neu r)
      end
  end.

Definition py_replace (alt neu s : string) : string := replace_go (String.length s) alt neu s.

(** [fnmatch] of a file name against a [glob] pattern, as [Path.rglob]
    applies it to each name: ["*"] matches any run of characters, ["?"]
    any one character, every other character itself (the patterns of the
    sources have no [[...]] sets). *)
Fixpoint glob_match (muster name : string) : bool :=
  match muster with
  | EmptyString => String.eqb name ""
  | String c m =>
      if Ascii.eqb c "*" then
        (fix stern (n : string) : bool :=
           glob_match m n || match n with EmptyString => false | String _ n' => stern n' end) name
      else if Ascii.eqb c "?" then
        match name with String _ n' => glob_match m n' | EmptyString => false end
      else
        match name with String d n' => Ascii.eqb c d && glob_match m n' | EmptyString => false end
  end.

(** [s.startswith(prefix)] with the rest: [Path.relative_to] on the
    text of the paths. *)
Fixpoint strip_prefix (pre s : string) : option string :=
  match pre, s with
  | EmptyString, _ => Some s
  | String c pre', String d s' => if Ascii.eqb c d then strip_prefix pre' s' else None
  | String _ _, EmptyString => None
  end.

(** * Lemmas on the string built-ins *)

Lemma alle_app p a b : alle p (a +++ b) = alle p a && alle p b.
Proof. induction a as [|c a IH]; [done|]. rewrite str_app_cons. simpl. by rewrite IH, andb_assoc. Qed.

Lemma letztes_app a b : b <> "" -> letztes (a +++ b) = letztes b.
Proof.
  intros Hb. induction a as [|c a IH]; [done|]. rewrite str_app_cons. simpl.
  rewrite IH. destruct a; [by destruct b|done].
Qed.

Lemma lstrip_ohne s : ohne_rand s = true -> lstrip s = s.
Proof.
  destruct s as [|c r]; [done|]. unfold ohne_rand. cbn [erstes lstrip].
  destruct (py_isspace c); [|done]. by destruct (letztes _).
Qed.

Lemma rstrip_ohne s :
  (forall c, letztes s = Some c -> py_isspace c = false) -> s <> "" -> rstrip s = s.
Proof.
  induction s as [|c r IH]; [done|]. intros Hl _. cbn [rstrip].
  destruct r as [|c' r'].
  - cbn [rstrip]. rewrite (Hl c eq_refl). done.
  - rewrite IH by (done || (intros x Hx; apply Hl; exact Hx)).
    by rewrite andb_false_r.
Qed.

Lemma strip_ohne s : ohne_rand s = true -> strip s = s.
Proof.
  intros H. unfold strip. rewrite lstrip_ohne by done. apply rstrip_ohne; [|by destruct s].
  unfold ohne_rand in H. destruct (erstes s), (letztes s) as [b|]; [|done..].
  intros c [= <-]. apply andb_true_iff in H as [_ H]. by apply negb_true_iff.
Qed.

Definition kein_doppelpunkt (c : ascii) : bool := negb (Ascii.eqb c ":").
Definition kein_umbruch (c : ascii) : bool := negb (is_linebreak c).

Lemma rsplit_colon_none s : alle kein_doppelpunkt s = true -> rsplit_colon s = None.
Proof.
  induction s as [|c r IH]; [done|]. simpl. intros [Hc Hr]%andb_true_iff.
  rewrite IH by done. unfold kein_doppelpunkt in Hc. by destruct (Ascii.eqb c ":").
Qed.

Lemma rsplit_colon_app k w :
  alle kein_doppelpunkt w = true -> rsplit_colon (k +++ String ":" w) = Some (k, w).
Proof.
  intros Hw. induction k as [|c k IH].
  - rewrite str_app_nil_l. cbn [rsplit_colon]. by rewrite rsplit_colon_none.
  - rewrite str_app_cons. cbn [rsplit_colon]. by rewrite IH.
Qed.

Lemma contains_char_app c k w : contains_char c (k +++ String c w) = true.
Proof.
  induction k as [|x k IH].
  - rewrite str_app_nil_l. cbn [contains_char]. by rewrite Ascii.eqb_refl.
  - rewrite str_app_cons. cbn [contains_char]. by rewrite IH, orb_true_r.
Qed.

Lemma kein_umbruch_cr c : kein_umbruch c = true -> Ascii.eqb c (chr 13) = false.
Proof.
  intros H. destruct (Ascii.eqb_spec c (chr 13)) as [->|]; [|done]. by vm_compute in H.
Qed.

Lemma splitlines_acc_zeile a rest cur :
  alle kein_umbruch a = true ->
  splitlines_acc (a +++ String (chr 10) rest) cur = (cur +++ a) :: splitlines_acc rest "".
Proof.
  revert cur. induction a as [|c a IH]; intros cur Ha.
  - rewrite str_app_nil_r. reflexivity.
  - apply andb_true_iff in Ha as [Hc Ha]. rewrite str_app_cons. cbn [splitlines_acc].
    rewrite kein_umbruch_cr by done. unfold kein_umbruch in Hc. apply negb_true_iff in Hc.
    rewrite Hc, IH by done. by rewrite str_app_assoc.
Qed.

Lemma splitlines_acc_letzte a cur :
  alle kein_umbruch a = true -> cur +++ a <> "" -> splitlines_acc a cur = [cur +++ a].
Proof.
  revert cur. induction a as [|c a IH]; intros cur Ha Hne.
  - cbn [splitlines_acc]. rewrite str_app_nil_r in *. by rewrite (proj2 (String.eqb_neq _ _) Hne).
  - apply andb_true_iff in Ha as [Hc Ha]. cbn [splitlines_acc].
    rewrite kein_umbruch_cr by done. unfold kein_umbruch in Hc. apply negb_true_iff in Hc.
    rewrite Hc, IH by (done || (rewrite str_app_assoc; destruct cur; discriminate)).
    by rewrite str_app_assoc.
Qed.

Lemma contains_dcolon_app a b : contains_dcolon (a +++ "::" +++ b) = true.
Proof.
  induction a as [|c a IH].
  - reflexivity.
  - rewrite str_app_cons. cbn [contains_dcolon]. by rewrite IH, orb_true_r.
Qed.

Definition ohne_char (c : ascii) (d : ascii) : bool := negb (Ascii.eqb d c).

Lemma split_char_acc_ohne c a cur :
  alle (ohne_char c) a = true -> split_char_acc c a cur = [cur +++ a].
Proof.
  revert cur. induction a as [|d a IH]; intros cur Ha; cbn [split_char_acc].
  - by rewrite str_app_nil_r.
  - apply andb_true_iff in Ha as [Hd Ha]. apply negb_true_iff in Hd. rewrite Hd, IH by done.
    by rewrite str_app_assoc.
Qed.

Lemma split_char_acc_sep c a b cur :
  alle (ohne_char c) a = true ->
  split_char_acc c (a +++ String c b) cur = (cur +++ a) :: split_char_acc c b "".
Proof.
  revert cur. induction a as [|d a IH]; intros cur Ha.
  - rewrite str_app_nil_l. cbn [split_char_acc]. rewrite Ascii.eqb_refl. by rewrite str_app_nil_r.
  - apply andb_true_iff in Ha as [Hd Ha]. apply negb_true_iff in Hd.
    rewrite str_app_cons. cbn [split_char_acc]. rewrite Hd, IH by done. by rewrite str_app_assoc.
Qed.

(** Whatever precedes the last separator only adds fields in front. *)
Lemma split_char_acc_suffix c a b cur :
  exists l, split_char_acc c (a +++ String c b) cur = l ++ split_char_acc c b "".
Proof.
  revert cur. induction a as [|d a IH]; intros cur.
  - exists [cur]. rewrite str_app_nil_l. cbn [split_char_acc]. by rewrite Ascii.eqb_refl.
  - rewrite str_app_cons. cbn [split_char_acc]. destruct (Ascii.eqb d c).
    + destruct (IH "") as [l Hl]. exists (cur :: l). by rewrite Hl.
    + apply IH.
Qed.

Lemma split_char_acc_nicht_leer c s cur : split_char_acc c s cur <> [].
Proof. revert cur. induction s as [|d s IH]; intros cur; cbn; [done|]. by destruct (Ascii.eqb d c). Qed.

(** [os.path.basename(ordner + "/" + datei)] is [datei] when [datei]
    has no ["/"]. *)
Lemma basename_app o d : alle (ohne_char "/") d = true -> basename (o +++ "/" +++ d) = d.
Proof.
  intros Hd. unfold basename, split_char.
  change ("/" +++ d) with (String "/" d). destruct (split_char_acc_suffix "/" o d "") as [l ->].
  rewrite split_char_acc_ohne by done. rewrite last_app_cons. done.
Qed.

(** No field of [s.split(c)] contains [c]. *)
Lemma split_char_acc_felder c s cur :
  alle (ohne_char c) cur = true -> Forall (fun f => alle (ohne_char c) f = true) (split_char_acc c s cur).
Proof.
  revert cur. induction s as [|d s IH]; intros cur Hcur; cbn [split_char_acc].
  - by constructor.
  - destruct (Ascii.eqb d c) eqn:Hd.
    + constructor; [done|]. by apply IH.
    + apply IH. rewrite alle_app, Hcur. cbn. unfold ohne_char. by rewrite Hd.
Qed.

Lemma basename_ohne p : alle (ohne_char "/") (basename p) = true.
Proof.
  unfold basename, split_char. pose proof (split_char_acc_felder "/" p "" eq_refl) as H.
  destruct (last _) as [f|] eqn:Hl; [|done]. apply last_Some_elem_of in Hl.
  by eapply Forall_forall in H.
Qed.

(** The fields of [s.split(c)] keep a property every character of [s]
    has. *)
Lemma split_char_acc_felder_alle q c s cur :
  alle q s = true -> alle q cur = true -> Forall (fun f => alle q f = true) (split_char_acc c s cur).
Proof.
  revert cur. induction s as [|d s IH]; intros cur Hs Hcur; cbn [split_char_acc].
  - by constructor.
  - apply andb_true_iff in Hs as [Hd Hs]. destruct (Ascii.eqb d c).
    + constructor; [done|]. by apply IH.
    + apply IH; [done|]. rewrite alle_app, Hcur. cbn. by rewrite Hd.
Qed.

(** [s[:n]] has at most [n] characters. *)
Lemma substring_0_length n s : String.length (substring 0 n s) <= n.
Proof.
  revert n. induction s as [|c s IH]; intros [|n]; cbn; try lia. specialize (IH n). lia.
Qed.

(** A pattern without wildcards matches exactly itself. *)
Definition kein_joker (c : ascii) : bool := negb (Ascii.eqb c "*") && negb (Ascii.eqb c "?").

Lemma glob_match_literal lit n : alle kein_joker lit = true -> glob_match lit n = String.eqb n lit.
Proof.
  revert n. induction lit as [|c lit IH]; intros n Hl; cbn [glob_match].
  - done.
  - cbn [alle] in Hl. apply andb_true_iff in Hl as [Hc Hl]. unfold kein_joker in Hc.
    apply andb_true_iff in Hc as [H1 H2]. apply negb_true_iff in H1, H2. rewrite H1, H2.
    destruct n as [|d n]; [done|]. rewrite IH by done. cbn [String.eqb].
    destruct (Ascii.eqb_spec c d) as [->|Hne]; [by rewrite Ascii.eqb_refl|].
    destruct (Ascii.eqb_spec d c); [congruence|]. cbn. by destruct (Ascii.eqb d c).
Qed.

(** ["*" + lit] is [str.endswith(lit)]. *)
Lemma glob_match_stern lit n :
  alle kein_joker lit = true -> glob_match (String "*" lit) n = ends_with lit n.
Proof.
  intros Hl. cbn [glob_match]. rewrite Ascii.eqb_refl.
  induction n as [|c n IH]; cbn [ends_with]; rewrite glob_match_literal by done; [done|].
  by rewrite IH.
Qed.

Lemma ends_with_app suffix a : ends_with suffix (a +++ suffix) = true.
Proof.
  induction a as [|c a IH]; cbn [ends_with String.append].
  - destruct suffix; cbn [ends_with]; apply orb_true_intro; left; apply String.eqb_refl.
  - rewrite str_app_cons. cbn [ends_with]. rewrite IH. apply orb_true_r.
Qed.

Lemma strip_prefix_app pre s : strip_prefix pre (pre +++ s) = Some s.
Proof. induction pre as [|c pre IH]; [done|]. rewrite str_app_cons. cbn [strip_prefix]. by rewrite Ascii.eqb_refl. Qed.

Lemma strip_prefix_Some pre s r : strip_prefix pre s = Some r -> s = pre +++ r.
Proof.
  revert s. induction pre as [|c pre IH]; [by intros s [= ->]|]. intros [|d s]; cbn [strip_prefix]; [done|].
  destruct (Ascii.eqb_spec c d) as [->|]; [|done]. intros H. rewrite str_app_cons. by rewrite (IH s H).
Qed.

(** [os.path.basename(d)] of a name without ["/"] is the name. *)
Lemma basename_einfach d : alle (ohne_char "/") d = true -> basename d = d.
Proof. intros Hd. unfold basename, split_char. by rewrite split_char_acc_ohne. Qed.
