(* ===== verification/Generator.v ===== *)
(** * Shared LLM plumbing

    The message and bookkeeping types of [src/src/shared/generator.py]
    that the interview and the summariser exchange: chat messages
    (LangChain's [SystemMessage], [HumanMessage], [AIMessage]), transcripts
    [LLMChatverlauf], token counters [LLMTokenverbrauch] and the prompt
    bundle [Prompt], with [tokenverbrauch_summieren]; and
    [LLMGenerator.llm_config_holen], which filters secret-looking keys out
    of the model configuration a result stores; module [Inhalt] holds
    [parse_content] and [parse_chatverlauf], which turn stored transcripts
    into (role, text) pairs for display. *)

From stdpp Require Import pretty.
From S2P Require Import Prelude PyStr.

Open Scope string_scope.
Open Scope list_scope.
Open Scope py_scope.

Module Generator.

(** A chat message; the content is the text the provider's
    [parse_content] extracts. *)
Inductive Nachricht :=
  | SystemMessage (content : string)
  | HumanMessage (content : string)
  | AIMessage (content : string).

#[export] Instance Nachricht_eq_dec : EqDecision Nachricht.
  Proof. solve_decision. Defined.

(** [@dataclass(frozen=True) class LLMChatverlauf] *)
Record LLMChatverlauf := mkChatverlauf { name : string; chatverlauf : list Nachricht }.

(** [class LLMTokenverbrauch(UsageMetadata)]; the detail dictionaries
    are not modelled. *)
Record LLMTokenverbrauch := mkTokenverbrauch {
    input_tokens : Z; output_tokens : Z; total_tokens : Z
  }.

(** [@dataclass(frozen=True) class Prompt]: the prompt templates by name
    and the prompt data (values rendered as strings). *)
Record Prompt := mkPrompt {
    prompts : list (string * string);
    prompt_data : list (string * string)
  }.

(** [@dataclass(frozen=True) class LLM] *)
Record LLM := mkLLM {
    konfiguration : list (string * string);
    tokenverbrauch : list (string * LLMTokenverbrauch);
    chatverlaeufe : list LLMChatverlauf
  }.

(** [tokenverbrauch_summieren(tokenverbrauch)]: the sum of
    [total_tokens] over the per-model counters. *)
Definition tokenverbrauch_summieren (tv : list (string * LLMTokenverbrauch)) : Z :=
    fold_left (fun acc kv => (acc + total_tokens kv.2)%Z) tv 0%Z.

(** What [llm_config_holen] reads from the provider's model instance:
    [model_dump()] (Pydantic v2), [dict()] (Pydantic v1), or the five
    attributes of the fallback, [None] where [getattr] finds none.
    Values are their string form; [None] is Python's [None]. *)
Inductive LLMInstanz :=
  | MitModelDump (raw : list (string * option string))
  | MitDict (raw : list (string * option string))
  | NurAttribute (model temperature max_tokens timeout max_retries : option string).

Definition roh (llm_instanz : LLMInstanz) : list (string * option string) :=
    match llm_instanz with
    | MitModelDump raw => raw
    | MitDict raw => raw
    | NurAttribute m t mt to mr =>
        [("model", m); ("temperature", t); ("max_tokens", mt); ("timeout", to);
         ("max_retries", mr)]
    end.

(** The filter of the comprehension: not in [blacklist = {"api_key"}],
    no leading underscore, no suffix ["_api_key"]. *)
Definition behalten (k : string) : bool :=
    negb (String.eqb k "api_key") && negb (starts_with_char "_" k)
    && negb (ends_with "_api_key" k).

(** [LLMGenerator.llm_config_holen()] *)
Definition llm_config_holen (llm_instanz : LLMInstanz) : list (string * option string) :=
    List.filter (fun kv => behalten kv.1) (roh llm_instanz).

End Generator.

(** ** Displaying stored transcripts *)

Module Inhalt.
Import Generator.

(** A value of the JSON the samples are stored in, as [json.load] gives
    it back to Python: strings, integers, booleans, dictionaries (string
    keys, unique, in order), lists, [None], and floats by their [str()]. *)
Inductive PyWert :=
  | PStr (s : string)
  | PInt (z : Z)
  | PBool (b : bool)
  | PDict (eintraege : list (string * PyWert))
  | PList (elemente : list PyWert)
  | PNone
  | PSkalar (repr : string).

(** [{"type": ..., "content": ...}], one entry of [parse_chatverlauf]'s
    result. *)
Record Anzeige := mkAnzeige { typ : string; inhalt : string }.

(** The [type] LangChain gives each message class. *)
Definition nachricht_typ (m : Nachricht) : string :=
    match m with
    | SystemMessage _ => "system"
    | HumanMessage _ => "human"
    | AIMessage _ => "ai"
    end.

Definition nachricht_inhalt (m : Nachricht) : string :=
    match m with SystemMessage c | HumanMessage c | AIMessage c => c end.

Section Parsen.
(** [str(v)] of a dictionary or list: Python's [repr] rendering, taken
    as given. *)
Variable repr : PyWert -> string.

(** [str(v)] *)
Definition py_str (v : PyWert) : string :=
    match v with
    | PStr s => s
    | PInt z => pretty z
    | PBool true => "True"
    | PBool false => "False"
    | PNone => "None"
    | PSkalar r => r
    | _ => repr v
    end.

(** [d[k]] when [k in d and isinstance(d[k], str)] *)
Definition str_eintrag (d : list (string * PyWert)) (k : string) : option string :=
    match dict_get d k with Some (PStr s) => Some s | _ => None end.

(** One block of a list content: a string, the [text] or else the
    [content] string of a dictionary, else [str(item)]. *)
Definition block_text (item : PyWert) : string :=
    match item with
    | PStr s => s
    | PDict d =>
        match str_eintrag d "text" with
        | Some t => t
        | None => match str_eintrag d "content" with Some c => c | None => py_str item end
        end
    | _ => py_str item
    end.

(** [parse_content(msg)] *)
Definition parse_content (msg : list (string * PyWert)) : string :=
    match dict_get msg "content" with
    | Some (PStr s) => s
    | Some (PDict d) =>
        match dict_get msg "type" with
        | Some (PStr t) =>
            match dict_get d t with
            | Some v => py_str v
            | None => py_str (PDict d)
            end
        | _ => py_str (PDict d)
        end
    | Some (PList items) =>
        join (String (chr 10) "")
          (List.filter (fun p => negb (String.eqb p "")) (block_text <$> items))
    | None | Some PNone => ""
    | Some v => py_str v
    end.

(** [parse_chatverlauf(chatverlauf)] *)
Definition parse_chatverlauf (chatverlauf : list (list (string * PyWert))) : list Anzeige :=
    (fun msg => mkAnzeige (py_str (default (PStr "") (dict_get msg "type"))) (parse_content msg))
      <$> chatverlauf.
End Parsen.

End Inhalt.

Import Generator.

(** The configuration [llm_config_holen] stores answers every key as
    the model instance's configuration does, except the keys that look
    like secrets (["api_key"], a leading underscore, a suffix
    ["_api_key"]), which it never contains. *)
Theorem llm_config_holen_lookup i k :
  dict_get (llm_config_holen i) k = if behalten k then dict_get (roh i) k else None.
Proof.
  unfold llm_config_holen. induction (roh i) as [|[k' v] l IH]; simpl; [by destruct (behalten k)|].
  destruct (behalten k') eqn:Hb; simpl; rewrite ?IH; case_decide; subst; rewrite ?Hb; try done.

Qed.

Import Inhalt.

Lemma parse_content_text repr msg t c :
  dict_get msg "type" = Some (PStr t) -> dict_get msg "content" = Some (PStr c) ->
  mkAnzeige (py_str repr (default (PStr "") (dict_get msg "type"))) (parse_content repr msg)
  = mkAnzeige t c.
Proof. intros Ht Hc. unfold parse_content. by rewrite Ht, Hc. Qed.

(** A stored transcript whose messages keep their LangChain [type]
    and their text [content] is displayed message by message, in order,
    with exactly that role and that text. *)
Theorem parse_chatverlauf_gespeichert repr msgs ms :
  Forall2 (fun msg m => dict_get msg "type" = Some (PStr (nachricht_typ m)) /\
                        dict_get msg "content" = Some (PStr (nachricht_inhalt m))) msgs ms ->
  parse_chatverlauf repr msgs = (fun m => mkAnzeige (nachricht_typ m) (nachricht_inhalt m)) <$> ms.
Proof.
  induction 1 as [|msg m msgs ms [Ht Hc] _ IH]; [done|].
  unfold parse_chatverlauf in *. rewrite !fmap_cons, IH. f_equal.
  by apply parse_content_text.
Qed.

Lemma parse_chatverlauf_gespeichert_witness :
  parse_chatverlauf (fun _ => "")
    [[("content", PStr "Intro"); ("additional_kwargs", PDict []); ("type", PStr "system")];
     [("content", PStr "t1: 1"); ("type", PStr "ai"); ("name", PNone)]]
  = [mkAnzeige "system" "Intro"; mkAnzeige "ai" "t1: 1"].
Proof.
  apply (parse_chatverlauf_gespeichert _ _ [SystemMessage "Intro"; AIMessage "t1: 1"]).
  repeat constructor.
Defined.
