(* ===== verification/Anbieter.v ===== *)
(** * Model providers and the active model

    [LLMProvider] and [LLMProviderHandler] of
    [src/src/shared/llm_integrations/llm_provider.py], with
    [hole_llm_instanz_aus_graph] of [src/src/shared/generator.py], which
    every model call goes through.  Provider objects are shared: the
    handler's [provider_models] is a class attribute, the page keeps the
    provider it got and hands it to the interview, and
    [aktiviere_model] writes the active model into the object.  The
    objects live in a store indexed by references; the handler's
    dictionary maps model names to references, so that an update through
    one holder is seen by every other. *)

From S2P Require Import Prelude.

Open Scope string_scope.
Open Scope list_scope.
Open Scope py_scope.

Module Anbieter.

(** A reference to a provider object. *)
Definition Ref : Type := nat.

(** [class LLMProvider]: [self.models] and [self.aktives_model], which is
    unset until [aktiviere_model] runs. *)
Record LLMProvider := mkProvider { models : list string; aktives_model : option string }.

(** The provider objects and the class-level [provider_models]. *)
Record Zustand := mkZustand {
    objekte : list LLMProvider;
    provider_models : list (string * Ref)
  }.

(** [KeyError(f"Unbekanntes Modell: {model}. ...")] *)
Inductive Anbieterfehler := KeyError (model : string).

(** [LLMProvider(models)]: a new object in the store. *)
Definition neuer_provider (st : Zustand) (ms : list string) : Ref * Zustand :=
    (List.length (objekte st), mkZustand (objekte st ++ [mkProvider ms None]) (provider_models st)).

(** [for model in provider.hole_models(): self.provider_models[model] = provider] *)
Definition registrieren (st : Zustand) (p : Ref) : Zustand :=
    match objekte st !! p with
    | Some prov =>
        mkZustand (objekte st)
          (fold_left (fun d m => dict_set d m p) (models prov) (provider_models st))
    | None => st
    end.

(** [LLMProviderHandler(llm_provider)]: the class-level dictionary is
    extended, never replaced. *)
Definition handler_init (st : Zustand) (ps : list Ref) : Zustand :=
    fold_left registrieren ps st.

(** [provider.aktiviere_model(model)]: [self.aktives_model = model]. *)
Definition aktiviere_model (st : Zustand) (p : Ref) (m : string) : Zustand :=
    match objekte st !! p with
    | Some prov => mkZustand (<[p := mkProvider (models prov) (Some m)]> (objekte st))
                             (provider_models st)
    | None => st
    end.

(** [LLMProviderHandler.hole_provider(model)] *)
Definition hole_provider (st : Zustand) (m : string) : Anbieterfehler + (Ref * Zustand) :=
    match dict_get (provider_models st) m with
    | None => inl (KeyError m)
    | Some p => inr (p, aktiviere_model st p m)
    end.

(** [LLMProviderHandler.hole_models()] *)
Definition hole_models (st : Zustand) : list string := (provider_models st).*1.

(** The model a call made with provider [p] uses:
    [llm_provider.hole_instanz(model=llm_provider.aktives_model)] in
    [hole_llm_instanz_aus_graph], read when the call is made. *)
Definition aufruf_model (st : Zustand) (p : Ref) : option string :=
    objekte st !! p ≫= aktives_model.

End Anbieter.

Import Anbieter.

(** ** The providers of [ssg.py] *)

Module Beispielanbieter.

Definition google_models : list string :=
    ["gemini-3-pro-preview"; "gemini-2.0-flash"; "gemini-2.5-pro"; "gemini-2.5-flash"].

(** [ssg.py] builds the Google and OpenAI providers and the handler
    over them. *)
Definition google : Ref * Zustand := neuer_provider (mkZustand [] []) google_models.

Definition openai : Ref * Zustand := neuer_provider google.2 ["gpt-5-mini"; "gpt-5.2"].

Definition start : Zustand := handler_init openai.2 [google.1; openai.1].

End Beispielanbieter.

(** * Properties *)

(** Every reference in the handler's dictionary names an object of the
    store. *)
Definition wf (st : Zustand) : Prop :=
  forall m p, dict_get (provider_models st) m = Some p -> is_Some (objekte st !! p).

Lemma dict_get_fold_set (ms : list string) (p : Ref) d k :
  dict_get (fold_left (fun d m => dict_set d m p) ms d) k
  = if decide (k ∈ ms) then Some p else dict_get d k.
Proof.
  revert d. induction ms as [|m ms IH]; intros d; cbn [fold_left].
  - rewrite decide_False; [done|]. intros Hk. by apply elem_of_nil in Hk.
  - rewrite IH. destruct (decide (k ∈ ms)) as [Hk|Hk].
    + by rewrite decide_True by (by right).
    + destruct (decide (k = m)) as [->|Hne].
      * rewrite decide_True by left. apply dict_get_set_eq.
      * rewrite decide_False by (rewrite elem_of_cons; tauto). by apply dict_get_set_ne.
Qed.

Lemma registrieren_wf st p : wf st -> wf (registrieren st p).
Proof.
  unfold registrieren. destruct (objekte st !! p) as [prov|] eqn:Hp; [|done].
  intros Hwf m q. simpl. rewrite dict_get_fold_set.
  case_decide; [intros [= <-]; by rewrite Hp|apply Hwf].
Qed.

Lemma handler_init_wf st ps : wf st -> wf (handler_init st ps).
Proof.
  unfold handler_init. revert st. induction ps as [|p ps IH]; intros st Hwf; simpl; [done|].
  by apply IH, registrieren_wf.
Qed.

Lemma neuer_provider_wf st ms : wf st -> wf (neuer_provider st ms).2.
Proof.
  intros Hwf m p Hm. simpl in *. destruct (Hwf m p Hm) as [x Hx].
  exists x. by apply lookup_app_l_Some.
Qed.

Lemma aktiviere_model_models st p m : provider_models (aktiviere_model st p m) = provider_models st.
Proof. unfold aktiviere_model. by destruct (objekte st !! p). Qed.

Lemma aktiviere_model_wf st p m : wf st -> wf (aktiviere_model st p m).
Proof.
  intros Hwf k q. rewrite aktiviere_model_models. intros Hk.
  unfold aktiviere_model. destruct (objekte st !! p); simpl; [|by apply (Hwf k)].
  apply lookup_lt_is_Some. rewrite length_insert. by apply lookup_lt_is_Some, (Hwf k).
Qed.

Lemma aufruf_model_aktiviert st p m :
  is_Some (objekte st !! p) -> aufruf_model (aktiviere_model st p m) p = Some m.
Proof.
  intros [prov Hp]. unfold aufruf_model, aktiviere_model. rewrite Hp. simpl.
  rewrite list_lookup_insert_eq; [done|]. by apply lookup_lt_Some in Hp.
Qed.

#[export] Hint Resolve registrieren_wf handler_init_wf neuer_provider_wf aktiviere_model_wf : ssg.

(** C14: provider objects are shared by all holders: when one session
    takes the provider of model [m1] and another session then selects a
    model [m2] of the same provider object, every later call made with
    the first session's provider uses [m2], since [aktiviere_model]
    writes into the shared object and each call reads
    [llm_provider.aktives_model] anew. *)
Theorem modellwahl_geteilt st p m1 m2 :
  wf st -> dict_get (provider_models st) m1 = Some p -> dict_get (provider_models st) m2 = Some p ->
  exists st1 st2, hole_provider st m1 = inr (p, st1) /\ aufruf_model st1 p = Some m1 /\
    hole_provider st1 m2 = inr (p, st2) /\ aufruf_model st2 p = Some m2.
Proof.
  intros Hwf H1 H2.
  exists (aktiviere_model st p m1), (aktiviere_model (aktiviere_model st p m1) p m2).
  unfold hole_provider. rewrite H1, aktiviere_model_models, H2. split_and!; [done| |done|].
  - by apply aufruf_model_aktiviert, (Hwf m1).
  - apply aufruf_model_aktiviert. apply (aktiviere_model_wf st p m1 Hwf m2).
    by rewrite aktiviere_model_models.
Qed.

Lemma start_wf : wf Beispielanbieter.start.
Proof.
  unfold Beispielanbieter.start, Beispielanbieter.openai, Beispielanbieter.google.
  apply handler_init_wf, neuer_provider_wf, neuer_provider_wf. by intros m p Hm.
Qed.

Lemma modellwahl_geteilt_witness :
  exists st1 st2,
    hole_provider Beispielanbieter.start "gemini-2.5-pro" = inr (0%nat, st1) /\
    aufruf_model st1 0 = Some "gemini-2.5-pro" /\
    hole_provider st1 "gemini-2.0-flash" = inr (0%nat, st2) /\
    aufruf_model st2 0 = Some "gemini-2.0-flash".
Proof. apply modellwahl_geteilt; [exact start_wf|reflexivity|reflexivity]. Defined.
