(* ===== verification/Dokumente.v ===== *)
(** * Reference documents and their summaries

    The dataclasses of
    [src/src/komponenten/referenzdokumente/referenzdokumente_models.py]
    ([Referenzdokument], [ZusammenfassungAuswahl], [Zusammenfassung]); the
    interview reads the summaries to build its briefing.  Module [Seite]
    is the part of the page [referenzdokumente.py] that turns the rows of
    the edited document table into the selections the summariser runs
    on. *)

From stdpp Require Import pretty.
From S2P Require Import Prelude Generator.

Open Scope string_scope.
Open Scope list_scope.
Open Scope py_scope.

Module Modelle.
Import Generator.

(** [@dataclass(frozen=True) class Referenzdokument]; [art] is ["PDF"],
    ["URL"] or ["CSV"]. *)
Record Referenzdokument := mkReferenzdokument {
    rid : string; art : string; rname : string; pfad : string; r_erstellungsdatum : string
  }.

(** [@dataclass(frozen=True) class ZusammenfassungAuswahl] *)
Record ZusammenfassungAuswahl := mkZusammenfassungAuswahl {
    text_zusammenfassen : bool;
    text_zusammenfassen_mit_zahlen : bool;
    tabellen_extrahieren : bool;
    tabellen_zusammenfassen : bool;
    tabellen_zusammenfassen_mit_zahlen : bool
  }.

(** [ZusammenfassungAuswahl.soll_vorbereitet_werden()] *)
Definition soll_vorbereitet_werden (a : ZusammenfassungAuswahl) : bool :=
    text_zusammenfassen a || tabellen_extrahieren a.

(** [@dataclass(frozen=True) class Zusammenfassung] *)
Record Zusammenfassung := mkZusammenfassung {
    referenzdokument : Referenzdokument;
    zusammenfassung_auswahl : ZusammenfassungAuswahl;
    erstellungsdatum : string;
    text_extrahiert : string;
    text_zusammengefasst : string;
    tabellen_extrahiert : list string;
    tabellen_zusammengefasst : list string;
    prompt : Prompt;
    llm : LLM
  }.

(** [@dataclass(frozen=True) class ReferenzdokumentAuswahl] *)
Record ReferenzdokumentAuswahl := mkReferenzdokumentAuswahl {
    ra_referenzdokument : Referenzdokument;
    ra_zusammenfassung_auswahl : ZusammenfassungAuswahl
  }.

End Modelle.

Module Seite.
Import Modelle.

(** The labels the page compares with, [api.text(...)] of the page's
    configuration: the kind label of PDF files and the choices of the two
    select boxes. *)
Record Texte := mkTexte {
    art_pdf : string;
    text_option_2 : string;
    text_option_3 : string;
    tabellen_option_2 : string;
    tabellen_option_3 : string;
    tabellen_option_4 : string
  }.

(** A row of [edited_df]. *)
Record Tabellenzeile := mkTabellenzeile {
    z_art : string;
    z_name : string;
    z_erstellungsdatum : string;
    text_verarbeiten : string;
    tabellen_verarbeiten : string
  }.

Section Auswahl.
Variable T : Texte.
(** [referenzdokumente_pdfs_ordner] *)
Variable ordner : string.

(** [pfad]: files in the documents folder, URLs as they are. *)
Definition pfad_von (z : Tabellenzeile) : string :=
    if String.eqb (z_art z) (art_pdf T) then ordner +++ "/" +++ z_name z
    else if String.eqb (z_art z) "CSV" then ordner +++ "/" +++ z_name z
    else z_name z.

(** The text flags: option 2 summarises with numbers, option 3 without. *)
Definition text_flags (z : Tabellenzeile) : bool * bool :=
    if String.eqb (text_verarbeiten z) (text_option_2 T) then (true, true)
    else if String.eqb (text_verarbeiten z) (text_option_3 T) then (true, false)
    else (false, false).

(** The table flags [(extrahieren, zusammenfassen, mit_zahlen)]: three
    independent [if]s, each setting its flags. *)
Definition tabellen_flags (z : Tabellenzeile) : bool * bool * bool :=
    let f := (false, false, false) in
    let f := if String.eqb (tabellen_verarbeiten z) (tabellen_option_2 T)
             then (true, f.1.2, f.2) else f in
    let f := if String.eqb (tabellen_verarbeiten z) (tabellen_option_3 T)
             then (true, true, true) else f in
    if String.eqb (tabellen_verarbeiten z) (tabellen_option_4 T)
    then (true, true, f.2) else f.

Definition zusammenfassung_auswahl_von (z : Tabellenzeile) : ZusammenfassungAuswahl :=
    let '(tz, tzz) := text_flags z in
    let '(te, tabz, tabzz) := tabellen_flags z in
    mkZusammenfassungAuswahl tz tzz te tabz tabzz.

(** Row [id] of the table: its document and selection, kept when
    [soll_vorbereitet_werden()]. *)
Definition auswahl_von (id : nat) (z : Tabellenzeile) : option ReferenzdokumentAuswahl :=
    let a := zusammenfassung_auswahl_von z in
    if soll_vorbereitet_werden a then
      Some (mkReferenzdokumentAuswahl
              (mkReferenzdokument (pretty id) (z_art z) (z_name z) (pfad_von z) (z_erstellungsdatum z))
              a)
    else None.

(** [for id, row in edited_df.iterrows(): ...]; the index of the table
    is [0 .. n-1]. *)
Definition referenzdokumente_auswahl (zeilen : list Tabellenzeile) : list ReferenzdokumentAuswahl :=
    omap id (imap auswahl_von zeilen).
End Auswahl.

End Seite.

(** * Properties *)

Import Modelle Seite.

(** Every selection the page passes to the summariser asks for some
    work, and its flags are consistent: summarising tables implies
    extracting them, and the "with numbers" variants imply the
    summaries they refine, whatever the configured labels are. *)
Lemma referenzdokumente_auswahl_konsistent T ordner zeilen ra :
  ra ∈ referenzdokumente_auswahl T ordner zeilen ->
  soll_vorbereitet_werden (ra_zusammenfassung_auswahl ra) = true /\
  (tabellen_zusammenfassen (ra_zusammenfassung_auswahl ra) = true ->
   tabellen_extrahieren (ra_zusammenfassung_auswahl ra) = true) /\
  (text_zusammenfassen_mit_zahlen (ra_zusammenfassung_auswahl ra) = true ->
   text_zusammenfassen (ra_zusammenfassung_auswahl ra) = true) /\
  (tabellen_zusammenfassen_mit_zahlen (ra_zusammenfassung_auswahl ra) = true ->
   tabellen_zusammenfassen (ra_zusammenfassung_auswahl ra) = true).
Proof.
  unfold referenzdokumente_auswahl. rewrite list_elem_of_omap.
  intros (x & Hx & Hid). unfold id in Hid. subst x.
  apply elem_of_lookup_imap in Hx as (i & z & Hz & _). unfold auswahl_von in Hz.
  destruct (soll_vorbereitet_werden _) eqn:Hs; [|done]. injection Hz as ->. simpl.
  split; [done|]. unfold zusammenfassung_auswahl_von, text_flags, tabellen_flags.
  repeat case_match; simplify_eq/=; naive_solver.
Qed.
