(* ===== verification/Zusammenfassungsgenerator.v ===== *)
(** * The document summariser

    [Lader] models the three document loaders of
    [src/src/komponenten/referenzdokumente/zusammenfassungsgenerator/]
    ([lader_csv.py], [lader_pdf.py], [lader_url.py]) over the libraries
    they call (pandas, pdfplumber, requests, BeautifulSoup), which are
    oracles here: what they return or raise is a parameter.  The
    exception handlers are modelled as written, including which exception
    classes they catch.  [Pipeline] models the LangGraph pipeline and the
    per-document loop of [zusammenfassungsgenerator.py]. *)

From S2P Require Import Prelude PyStr Generator Dokumente.

Open Scope string_scope.
Open Scope list_scope.
Open Scope py_scope.

Import Generator.Generator Dokumente.Modelle.

Module Lader.

(** The exceptions the loaders and the pipeline tell apart. *)
Inductive Ausnahme :=
  | ValueError
  | OSError
  | UnboundLocalError
  | AttributeError
  | AndereAusnahme.

#[export] Instance Ausnahme_eq_dec : EqDecision Ausnahme.
Proof. solve_decision. Defined.

(** A table as pandas receives it: rows of cells, a cell may be [None]. *)
Definition Zeile : Type := list (option string).
Definition Tabelle : Type := list Zeile.

(** The row cap of [extrahiere_tabellen]: [None] keeps every row,
    [zeilen >= 0] is [df.head(zeilen)], a negative value is
    [df.tail(abs(zeilen))]. *)
Definition kappen (zeilen : option Z) (df : Tabelle) : Tabelle :=
  match zeilen with
  | None => df
  | Some z =>
      if Z.leb 0 z then take (Z.to_nat z) df
      else drop (List.length df - Z.to_nat (Z.abs z)) df
  end.

(** [t and any(row for row in t)]: some row is a non-empty list. *)
Definition tabelle_nichtleer (t : Tabelle) : bool :=
  List.existsb (fun r => negb (bool_decide (r = []))) t.

(** A page as pdfplumber hands it out: the results (or exceptions) of
    [page.extract_text()] and [page.extract_tables()]. *)
Record Seite := mkSeite {
  extract_text : Ausnahme + option string;
  extract_tables : Ausnahme + option (list Tabelle)
}.

(** The library calls the loaders make, as one record of oracles. *)
Record Bibliotheken := mkBibliotheken {
  (** [df.to_markdown(index=...)] *)
  to_markdown : bool -> Tabelle -> Ausnahme + string;
  (** [pd.read_csv(pfad, sep=";", header=None)] *)
  read_csv : string -> Ausnahme + Tabelle;
  (** [pdfplumber.open(pfad)] and its pages *)
  pdf_open : string -> Ausnahme + list Seite;
  (** [requests.get(url, ...)] with [raise_for_status()], its [r.text] *)
  http_get : string -> Ausnahme + string;
  (** [soup.find_all(["p", "li"])], each [tag.get_text(separator=" ", strip=True)] *)
  absaetze : string -> list string;
  (** [pd.read_html(url, header=None)] *)
  read_html : string -> Ausnahme + list Tabelle
}.

Section Lader.
Variable B : Bibliotheken.

(** ** [CSVLader] *)

(** [CSVLader.extrahiere_text]: always the empty string. *)
Definition csv_text (pfad : string) : string := "".

(** [CSVLader.extrahiere_tabellen]: one table, the whole file; the row
    cap [zeilen] is not used and only [ValueError] is caught. *)
Definition csv_tabellen (pfad : string) (zeilen : option Z) : Ausnahme + list string :=
  match read_csv B pfad with
  | inl ValueError => inr []
  | inl e => inl e
  | inr df =>
      match to_markdown B true df with
      | inl ValueError => inr []
      | inl e => inl e
      | inr md => inr [md]
      end
  end.

(** ** [PDFLader] *)

(** [PDFLader.extrahiere_text]: the non-empty page texts joined by
    newlines; a page that raises is skipped, a file that cannot be opened
    gives the empty text. *)
Definition pdf_text (pfad : string) : string :=
  match pdf_open B pfad with
  | inl _ => ""
  | inr seiten =>
      join (String (chr 10) "")
        (List.flat_map (fun s => match extract_text s with
                                 | inr (Some t) => if String.eqb t "" then [] else [t]
                                 | _ => []
                                 end) seiten)
  end.

(** The tables of one page, appended to [acc] (the list [tabellen] is
    appended in place).  [inl] is the list at the moment an exception
    escaped the page's inner handler. *)
Fixpoint pdf_seite_tabellen (zeilen : option Z) (ts : list Tabelle) (acc : list string)
    : list string + list string :=
  match ts with
  | [] => inr acc
  | t :: ts' =>
      if tabelle_nichtleer t then
        match to_markdown B false (kappen zeilen t) with
        | inl _ => inl acc
        | inr md => pdf_seite_tabellen zeilen ts' (acc ++ [md])
        end
      else pdf_seite_tabellen zeilen ts' acc
  end.

(** The loop over the pages.  The inner [except Exception:] logs
    [{e}], a name not yet bound in the function: it raises
    [UnboundLocalError], which leaves the loop and is caught by the outer
    handler, so the tables collected so far are returned and the later
    pages are never read. *)
Fixpoint pdf_seiten_tabellen (zeilen : option Z) (seiten : list Seite) (acc : list string)
    : list string :=
  match seiten with
  | [] => acc
  | s :: rest =>
      match extract_tables s with
      | inl _ => acc
      | inr ts =>
          match pdf_seite_tabellen zeilen (default [] ts) acc with
          | inl acc' => acc'
          | inr acc' => pdf_seiten_tabellen zeilen rest acc'
          end
      end
  end.

(** [PDFLader.extrahiere_tabellen]: never raises. *)
Definition pdf_tabellen (pfad : string) (zeilen : option Z) : Ausnahme + list string :=
  match pdf_open B pfad with
  | inl _ => inr []
  | inr seiten => inr (pdf_seiten_tabellen zeilen seiten [])
  end.

(** ** [URLLader] *)

(** [URLLader.extrahiere_text]: the paragraphs and list items of at
    least five words, joined by newlines; a failed fetch parses [""]. *)
Definition url_text (url : string) : string :=
  let html := match http_get B url with inr h => h | inl _ => "" end in
  join (String (chr 10) "")
    (List.filter (fun s => negb (String.eqb s "") && Nat.leb 5 (List.length (woerter s)))
       (absaetze B html)).

(** The loop over the tables of [read_html], inside [try ... except
    ValueError]. *)
Fixpoint url_tabellen_go (zeilen : option Z) (dfs : list Tabelle) (acc : list string)
    : Ausnahme + list string :=
  match dfs with
  | [] => inr acc
  | df :: dfs' =>
      match to_markdown B false (kappen zeilen df) with
      | inl ValueError => inr acc
      | inl e => inl e
      | inr md => url_tabellen_go zeilen dfs' (acc ++ [md])
      end
  end.

(** [URLLader.extrahiere_tabellen] *)
Definition url_tabellen (url : string) (zeilen : option Z) : Ausnahme + list string :=
  match read_html B url with
  | inl ValueError => inr []
  | inl e => inl e
  | inr dfs => url_tabellen_go zeilen dfs []
  end.

(** ** The loader chosen by [referenzdokument.art] *)

Definition extrahiere_text (r : Referenzdokument) : string :=
  if String.eqb (art r) "URL" then url_text (pfad r)
  else if String.eqb (art r) "CSV" then csv_text (pfad r)
  else pdf_text (pfad r).

Definition extrahiere_tabellen (r : Referenzdokument) (zeilen : option Z)
    : Ausnahme + list string :=
  if String.eqb (art r) "URL" then url_tabellen (pfad r) zeilen
  else if String.eqb (art r) "CSV" then csv_tabellen (pfad r) zeilen
  else pdf_tabellen (pfad r) zeilen.

End Lader.

End Lader.

Module Pipeline.
Import Lader.

(** What one graph run leaves in the thread state, as [starten] reads it
    back with [out.get(...)]. *)
Record Ergebnis := mkErgebnis {
  e_text_extrahiert : string;
  e_text_zusammengefasst : string;
  e_text_messages : list Nachricht;
  e_tabellen_extrahiert : list string;
  e_tabellen_zusammengefasst : list string;
  e_tabellen_messages : list (list Nachricht)
}.

Section Graph.
(** The libraries the loaders call. *)
Variable B : Bibliotheken.
(** [template.format_map(SafeDict(data))] *)
Variable prompt_formatieren : string -> list (string * string) -> string.
(** The model: its reply to the [n]-th call of the batch, given the
    messages. *)
Variable llm : nat -> list Nachricht -> string.

(** [hole_prompt_aus_graph(name, config)]: a missing template is
    [None.format_map(...)], an [AttributeError]. *)
Definition hole_prompt (p : Prompt) (name : string) : Ausnahme + string :=
  match dict_get (prompts p) name with
  | None => inl AttributeError
  | Some vorlage => inr (prompt_formatieren vorlage [])
  end.

(** The template names, with or without numbers. *)
Definition text_vorlage (a : ZusammenfassungAuswahl) : string :=
  if text_zusammenfassen_mit_zahlen a then "text_zusammenfassen_mit_zahlen"
  else "text_zusammenfassen_ohne_zahlen".

Definition tabellen_vorlage (a : ZusammenfassungAuswahl) : string :=
  if tabellen_zusammenfassen_mit_zahlen a then "tabellen_zusammenfassen_mit_zahlen"
  else "tabellen_zusammenfassen_ohne_zahlen".

(** [node_text_zusammenfassen]: load the text; when it is not empty,
    one model call with the system prompt and the text.  Returns the
    text, the summary, the transcript and the next call index. *)
Definition node_text_zusammenfassen (p : Prompt) (r : Referenzdokument)
    (a : ZusammenfassungAuswahl) (n : nat)
    : Ausnahme + (string * string * list Nachricht * nat) :=
  let text := extrahiere_text B r in
  if String.eqb text "" then inr (text, "", [], n) else
  let? vorlage := hole_prompt p (text_vorlage a) in
  let messages := [SystemMessage vorlage; HumanMessage text] in
  let antwort := llm n messages in
  inr (text, antwort, messages ++ [AIMessage antwort], S n).

(** The loop of [node_tabellen_zusammenfassen]: one independent call per
    table, in order. *)
Fixpoint tabellen_zusammenfassen_go (p : Prompt) (a : ZusammenfassungAuswahl)
    (tabellen : list string) (n : nat)
    : Ausnahme + (list string * list (list Nachricht) * nat) :=
  match tabellen with
  | [] => inr ([], [], n)
  | t :: ts =>
      let? vorlage := hole_prompt p (tabellen_vorlage a) in
      let messages := [SystemMessage vorlage; HumanMessage t] in
      let antwort := llm n messages in
      let? (zs, ms, n') := tabellen_zusammenfassen_go p a ts (S n) in
      inr (antwort :: zs, (messages ++ [AIMessage antwort]) :: ms, n')
  end.

(** One run of the compiled graph for one document:
    [pruefe_text_zusammenfassen], [node_text_zusammenfassen],
    [pruefe_tabellen_extrahieren], [node_tabellen_extrahieren] (20 rows),
    [pruefe_tabellen_zusammenfassen], [node_tabellen_zusammenfassen].  The
    input state starts every channel empty and [node_historie_loeschen]
    clears the transcripts, so nothing carries over from the previous
    document. *)
Definition lauf (p : Prompt) (r : Referenzdokument) (a : ZusammenfassungAuswahl) (n : nat)
    : Ausnahme + (Ergebnis * nat) :=
  let? (text, zus, msgs, n1) :=
    if text_zusammenfassen a then node_text_zusammenfassen p r a n else inr ("", "", [], n) in
  if negb (tabellen_extrahieren a) then inr (mkErgebnis text zus msgs [] [] [], n1) else
  let? tabellen := extrahiere_tabellen B r (Some 20%Z) in
  if negb (tabellen_zusammenfassen a) then inr (mkErgebnis text zus msgs tabellen [] [], n1) else
  let? (zs, ms, n2) := tabellen_zusammenfassen_go p a tabellen n1 in
  inr (mkErgebnis text zus msgs tabellen zs ms, n2).

(** The transcripts stored with a summary. *)
Definition chatverlaeufe_von (e : Ergebnis) : list LLMChatverlauf :=
  match e_text_messages e with
  | [] => []
  | ms => [mkChatverlauf "text_zusammengefasst" ms]
  end ++ (mkChatverlauf "tabellen_zusammengefasst" <$> e_tabellen_messages e).

(** [Zusammenfassungsgenerator.starten]: one run per selected document,
    in order; the token counters are reset per document and read back as
    [tokenverbrauch i] after the [i]-th.  An exception ends the batch. *)
Fixpoint starten_go (p : Prompt) (startzeit : string) (konfiguration : list (string * string))
    (tokenverbrauch : nat -> list (string * LLMTokenverbrauch))
    (auswahl : list ReferenzdokumentAuswahl) (i n : nat)
    : Ausnahme + list Zusammenfassung :=
  match auswahl with
  | [] => inr []
  | ra :: rest =>
      let r := ra_referenzdokument ra in
      let a := ra_zusammenfassung_auswahl ra in
      let? (e, n') := lauf p r a n in
      let z := mkZusammenfassung r a startzeit (e_text_extrahiert e) (e_text_zusammengefasst e)
                 (e_tabellen_extrahiert e) (e_tabellen_zusammengefasst e) p
                 (mkLLM konfiguration (tokenverbrauch i) (chatverlaeufe_von e)) in
      let? zs := starten_go p startzeit konfiguration tokenverbrauch rest (S i) n' in
      inr (z :: zs)
  end.

Definition starten (p : Prompt) (startzeit : string) (konfiguration : list (string * string))
    (tokenverbrauch : nat -> list (string * LLMTokenverbrauch))
    (auswahl : list ReferenzdokumentAuswahl) : Ausnahme + list Zusammenfassung :=
  starten_go p startzeit konfiguration tokenverbrauch auswahl 1 0.

End Graph.

End Pipeline.

(** ** Example documents and libraries *)

Module Beispieldokumente.
Import Lader Pipeline.

Definition tabelle_ab : Tabelle := [[Some "a"; Some "b"]; [Some "1"; Some "2"]].

(** A PDF of three pages: a table, a page on which pdfplumber fails,
    another table. *)
Definition seiten : list Seite :=
  [mkSeite (inr (Some "Seite 1")) (inr (Some [tabelle_ab]));
   mkSeite (inl AndereAusnahme) (inl AndereAusnahme);
   mkSeite (inr (Some "Seite 3")) (inr (Some [tabelle_ab; tabelle_ab]))].

(** Libraries for which every file is that PDF, [to_markdown] renders
    a table as its number of rows, and a CSV file is missing. *)
Definition bib : Bibliotheken :=
  mkBibliotheken
    (fun _ t => inr (match List.length t with 0%nat => "0" | 1%nat => "1" | _ => "n" end))
    (fun _ => inl OSError)
    (fun _ => inr seiten)
    (fun _ => inl OSError)
    (fun _ => [])
    (fun _ => inl ValueError).

Definition vorlagen : Prompt :=
  mkPrompt [("text_zusammenfassen_ohne_zahlen", "Fasse zusammen.");
            ("tabellen_zusammenfassen_ohne_zahlen", "Fasse die Tabelle zusammen.")] [].

Definition formatieren (t : string) (_ : list (string * string)) : string := t.

Definition modell (n : nat) (_ : list Nachricht) : string :=
  match n with 0%nat => "Zusammenfassung" | _ => "Tabelle" end.

Definition alles : ZusammenfassungAuswahl := mkZusammenfassungAuswahl true false true true false.
Definition nur_text : ZusammenfassungAuswahl := mkZusammenfassungAuswahl true false false false false.

Definition pdf_dokument : Referenzdokument := mkReferenzdokument "1" "PDF" "Bericht" "b.pdf" "".
Definition csv_dokument : Referenzdokument := mkReferenzdokument "2" "CSV" "Daten" "d.csv" "".

End Beispieldokumente.

(** * Properties of the summariser *)

Import Lader Pipeline.

(** ** Loaders *)

(** The row cap keeps at most [|zeilen|] rows: the first ones for a
    non-negative cap ([head]), the last ones for a negative cap
    ([tail]). *)
Theorem kappen_schranke (z : Z) (df : Tabelle) :
  (List.length (kappen (Some z) df) <= Z.to_nat (Z.abs z))%nat /\
  ((0 <= z)%Z -> kappen (Some z) df `prefix_of` df) /\
  ((z < 0)%Z -> kappen (Some z) df `suffix_of` df).
Proof.
  unfold kappen. destruct (Z.leb_spec 0 z) as [Hz|Hz].
  - rewrite length_take. split; [rewrite Z.abs_eq by lia; lia|].
    split; [intros _; apply prefix_take|lia].
  - rewrite length_drop. split; [lia|]. split; [lia|intros _; apply suffix_drop].
Qed.

(** C33: a page whose [extract_tables()] raises ends the extraction: the
    tables of every later page are lost, whatever they hold, as if the
    document ended before that page. *)
Theorem pdf_seiten_tabellen_abbruch B zeilen s1 s s2 acc x :
  extract_tables s = inl x ->
  pdf_seiten_tabellen B zeilen (s1 ++ s :: s2) acc = pdf_seiten_tabellen B zeilen s1 acc.
Proof.
  intros Hs. revert acc. induction s1 as [|s0 s1 IH]; intros acc; simpl.
  - by rewrite Hs.
  - destruct (extract_tables s0) as [|ts]; [done|].
    destruct (pdf_seite_tabellen B zeilen (default [] ts) acc); [done|apply IH].
Qed.

Lemma pdf_seiten_tabellen_abbruch_witness :
  pdf_seiten_tabellen Beispieldokumente.bib None Beispieldokumente.seiten [] = ["n"].
Proof.
  transitivity (pdf_seiten_tabellen Beispieldokumente.bib None
                  [mkSeite (inr (Some "Seite 1")) (inr (Some [Beispieldokumente.tabelle_ab]))] []).
  - exact (pdf_seiten_tabellen_abbruch Beispieldokumente.bib None
             [mkSeite (inr (Some "Seite 1")) (inr (Some [Beispieldokumente.tabelle_ab]))]
             (mkSeite (inl AndereAusnahme) (inl AndereAusnahme))
             [mkSeite (inr (Some "Seite 3"))
                (inr (Some [Beispieldokumente.tabelle_ab; Beispieldokumente.tabelle_ab]))]
             [] AndereAusnahme eq_refl).
  - vm_compute. reflexivity.
Defined.

(** ** The pipeline *)

Section Eigenschaften.
Context (B : Bibliotheken) (fmt : string -> list (string * string) -> string)
        (llm : nat -> list Nachricht -> string).

Lemma tabellen_go_vorlage p a ts n zs ms n' v :
  hole_prompt fmt p (tabellen_vorlage a) = inr v ->
  tabellen_zusammenfassen_go fmt llm p a ts n = inr (zs, ms, n') ->
  zs = imap (fun i t => llm (n + i)%nat [SystemMessage v; HumanMessage t]) ts /\
  ms = zip_with (fun t z => [SystemMessage v; HumanMessage t; AIMessage z]) ts zs /\
  n' = (n + List.length ts)%nat.
Proof.
  intros Hv. revert n zs ms n'.
  induction ts as [|t ts IH]; intros n zs ms n'; simpl; [intros [= <- <- <-]; split_and!; done || lia|].
  rewrite Hv. destruct (tabellen_zusammenfassen_go fmt llm p a ts (S n)) as [|[[zs' ms'] n'']] eqn:Hgo;
    [done|]. intros [= <- <- <-].
  destruct (IH _ _ _ _ Hgo) as (-> & -> & ->). rewrite Nat.add_0_r. split_and!; [|done|lia].
  f_equal. apply imap_ext. intros i x _. simpl. by rewrite Nat.add_succ_r.
Qed.

Lemma tabellen_go_spec p a ts n zs ms n' :
  tabellen_zusammenfassen_go fmt llm p a ts n = inr (zs, ms, n') ->
  exists v,
    zs = imap (fun i t => llm (n + i)%nat [SystemMessage v; HumanMessage t]) ts /\
    ms = zip_with (fun t z => [SystemMessage v; HumanMessage t; AIMessage z]) ts zs /\
    n' = (n + List.length ts)%nat.
Proof.
  destruct ts as [|t ts]; simpl; [intros [= <- <- <-]; exists ""; split_and!; done || lia|].
  destruct (hole_prompt fmt p (tabellen_vorlage a)) as [|v] eqn:Hv; [done|].
  intros H. exists v. apply (tabellen_go_vorlage p a (t :: ts) n); [done|]. simpl. by rewrite Hv.
Qed.

(** The tables are summarised only when extraction and summarising are
    both selected, then by one independent call per table, in order,
    each with its own three-message transcript (system prompt, table,
    reply); the call counter advances by one per table. *)
Theorem lauf_tabellen p r a n e n' :
  lauf B fmt llm p r a n = inr (e, n') ->
  exists v n1,
    e_tabellen_zusammengefasst e =
      (if tabellen_extrahieren a && tabellen_zusammenfassen a
       then imap (fun i t => llm (n1 + i)%nat [SystemMessage v; HumanMessage t])
              (e_tabellen_extrahiert e)
       else []) /\
    e_tabellen_messages e =
      zip_with (fun t z => [SystemMessage v; HumanMessage t; AIMessage z])
        (e_tabellen_extrahiert e) (e_tabellen_zusammengefasst e) /\
    n' = (n1 + List.length (e_tabellen_zusammengefasst e))%nat.
Proof.
  unfold lauf.
  destruct (if text_zusammenfassen a then _ else _) as [|[[[text zus] msgs] n1]]; [done|].
  destruct (tabellen_extrahieren a); simpl;
    [|intros [= <- <-]; exists "", n1; simpl; split_and!; done || lia].
  destruct (extrahiere_tabellen B r (Some 20%Z)) as [|ts]; [done|].
  destruct (tabellen_zusammenfassen a); simpl;
    [|intros [= <- <-]; exists "", n1; simpl; split_and!; [done|by destruct ts|lia]].
  destruct (tabellen_zusammenfassen_go fmt llm p a ts n1) as [|[[zs ms] n2]] eqn:Hgo; [done|].
  intros [= <- <-]. simpl. destruct (tabellen_go_spec _ _ _ _ _ _ _ Hgo) as (v & -> & -> & ->).
  exists v, n1. split_and!; [done|done|]. by rewrite length_imap.
Qed.

Lemma extrahiere_text_csv r : art r = "CSV" -> extrahiere_text B r = "".
Proof. intros H. unfold extrahiere_text. by rewrite H. Qed.

(** A delimited-table (CSV) document never has a text or a text
    summary, and no model call is made for its text, whatever is
    selected. *)
Theorem lauf_csv_ohne_text p r a n e n' :
  art r = "CSV" -> lauf B fmt llm p r a n = inr (e, n') ->
  e_text_extrahiert e = "" /\ e_text_zusammengefasst e = "" /\ e_text_messages e = [].
Proof.
  intros Hart. unfold lauf, node_text_zusammenfassen. rewrite extrahiere_text_csv by done.
  simpl. destruct (text_zusammenfassen a), (tabellen_extrahieren a); simpl;
    [| by intros [= <- _] | | by intros [= <- _]].
  all: destruct (extrahiere_tabellen B r _); [done|];
       destruct (tabellen_zusammenfassen a); simpl; [|by intros [= <- _]];
       destruct (tabellen_zusammenfassen_go _ _ _ _ _ _) as [|[[? ?] ?]]; [done|];
       by intros [= <- _].
Qed.

(** C34: a CSV document whose file [pd.read_csv] cannot read for another
    reason than a [ValueError] (a missing file raises [OSError]) aborts
    the whole batch when its tables are to be extracted: the exception
    leaves [CSVLader.extrahiere_tabellen], the node and [starten]. *)
Theorem starten_csv_fehler p startzeit konf tv r a rest x :
  art r = "CSV" -> read_csv B (pfad r) = inl x -> x <> ValueError ->
  tabellen_extrahieren a = true ->
  starten B fmt llm p startzeit konf tv (mkReferenzdokumentAuswahl r a :: rest) = inl x.
Proof.
  intros Hart Hread Hx Htab. unfold starten. simpl. unfold lauf, node_text_zusammenfassen.
  rewrite extrahiere_text_csv, Htab by done. simpl.
  unfold extrahiere_tabellen, csv_tabellen. rewrite Hart, Hread. simpl.
  destruct (text_zusammenfassen a); by destruct x.
Qed.

Lemma starten_go_je_dokument p startzeit konf tv auswahl i n zs :
  starten_go B fmt llm p startzeit konf tv auswahl i n = inr zs ->
  referenzdokument <$> zs = ra_referenzdokument <$> auswahl /\
  zusammenfassung_auswahl <$> zs = ra_zusammenfassung_auswahl <$> auswahl.
Proof.
  revert i n zs. induction auswahl as [|ra rest IH]; intros i n zs; simpl; [by intros [= <-]|].
  destruct (lauf B fmt llm p _ _ _) as [|[e n']]; [by intros [=]|].
  destruct (starten_go B fmt llm p startzeit konf tv rest _ _) as [|zs'] eqn:Hgo;
    [by intros [=]|].
  intros [= <-]. destruct (IH _ _ _ Hgo) as [H1 H2]. split; simpl; f_equal; done.
Qed.

(** A completed batch has one summary per selected document, in the
    order of the selection, each with the document and the selection it
    was made for. *)
Theorem starten_je_dokument p startzeit konf tv auswahl zs :
  starten B fmt llm p startzeit konf tv auswahl = inr zs ->
  referenzdokument <$> zs = ra_referenzdokument <$> auswahl /\
  zusammenfassung_auswahl <$> zs = ra_zusammenfassung_auswahl <$> auswahl.
Proof. apply starten_go_je_dokument. Qed.

End Eigenschaften.

Lemma lauf_tabellen_witness :
  match lauf Beispieldokumente.bib Beispieldokumente.formatieren Beispieldokumente.modell
          Beispieldokumente.vorlagen Beispieldokumente.pdf_dokument Beispieldokumente.alles 0 with
  | inr (e, n') =>
      exists v n1,
        e_tabellen_zusammengefasst e =
          (if tabellen_extrahieren Beispieldokumente.alles
              && tabellen_zusammenfassen Beispieldokumente.alles
           then imap (fun i t => Beispieldokumente.modell (n1 + i)%nat
                                   [SystemMessage v; HumanMessage t])
                  (e_tabellen_extrahiert e)
           else []) /\
        e_tabellen_messages e =
          zip_with (fun t z => [SystemMessage v; HumanMessage t; AIMessage z])
            (e_tabellen_extrahiert e) (e_tabellen_zusammengefasst e) /\
        n' = (n1 + List.length (e_tabellen_zusammengefasst e))%nat
  | inl _ => False
  end.
Proof.
  destruct (lauf _ _ _ _ _ _ _) as [x|[e n']] eqn:H;
    [apply (f_equal ist_inr) in H; vm_compute in H; discriminate|].
  exact (lauf_tabellen _ _ _ _ _ _ _ _ _ H).
Defined.

Lemma lauf_csv_ohne_text_witness :
  match lauf Beispieldokumente.bib Beispieldokumente.formatieren Beispieldokumente.modell
          Beispieldokumente.vorlagen Beispieldokumente.csv_dokument Beispieldokumente.nur_text 0 with
  | inr (e, _) => e_text_extrahiert e = "" /\ e_text_zusammengefasst e = "" /\ e_text_messages e = []
  | inl _ => False
  end.
Proof.
  destruct (lauf _ _ _ _ _ _ _) as [x|[e n']] eqn:H;
    [apply (f_equal ist_inr) in H; vm_compute in H; discriminate|].
  exact (lauf_csv_ohne_text _ _ _ _ Beispieldokumente.csv_dokument _ _ _ _ eq_refl H).
Defined.

Lemma starten_csv_fehler_witness :
  starten Beispieldokumente.bib Beispieldokumente.formatieren Beispieldokumente.modell
    Beispieldokumente.vorlagen "" [] (fun _ => [])
    [mkReferenzdokumentAuswahl Beispieldokumente.csv_dokument Beispieldokumente.alles;
     mkReferenzdokumentAuswahl Beispieldokumente.pdf_dokument Beispieldokumente.alles]
  = inl OSError.
Proof. apply starten_csv_fehler; [reflexivity|reflexivity|discriminate|reflexivity]. Defined.

Lemma starten_je_dokument_witness :
  match starten Beispieldokumente.bib Beispieldokumente.formatieren Beispieldokumente.modell
          Beispieldokumente.vorlagen "" [] (fun _ => [])
          [mkReferenzdokumentAuswahl Beispieldokumente.pdf_dokument Beispieldokumente.alles;
           mkReferenzdokumentAuswahl Beispieldokumente.csv_dokument Beispieldokumente.nur_text] with
  | inr zs => referenzdokument <$> zs = [Beispieldokumente.pdf_dokument; Beispieldokumente.csv_dokument]
  | inl _ => False
  end.
Proof.
  destruct (starten _ _ _ _ _ _ _ _) as [x|zs] eqn:H;
    [apply (f_equal ist_inr) in H; vm_compute in H; discriminate|].
  exact (proj1 (starten_je_dokument _ _ _ _ _ _ _ _ _ H)).
Defined.
