(* ===== verification/Katalog.v ===== *)
(** * The questionnaire catalogue

    [Models] holds the frozen dataclasses of
    [src/src/komponenten/studienkonfiguration/studienkonfigurationslader/models.py]
    ([Option], [Thema], [Frage] and its helper methods) and the two helpers of
    [utils.py] ([stripped_oder_none], [render_text]).  [Lader] is the XML
    loader of [studienkonfigurationslader.py] over an ElementTree-shaped
    element type: [_parse_frage] with every check in source order (the first
    raised [FragenParserFehler] wins) and [lade_fragen]. *)

From S2P Require Import Prelude PyStr.

Open Scope string_scope.
Open Scope list_scope.
Open Scope py_scope.

Module Models.

(** [@dataclass(frozen=True) class Option: id; text] *)
Record Option := mkOption { oid : string; otext : string }.

(** [@dataclass(frozen=True) class Thema: id; text] *)
Record Thema := mkThema { tid : string; ttext : string }.

(** [@dataclass(frozen=True) class Frage] *)
Record Frage := mkFrage {
    fid : string;
    text : string;
    optionen : list Option;
    themen : list Thema;
    uebergeordnete_frage_id : option string;
    uebergeordnete_antwortoption_id : option string;
    uebergeordnete_themen_limit : option Z;
    uebergeordnete_themen_zufaellig : bool
  }.

#[export] Instance Option_eq_dec : EqDecision Option.
  Proof. solve_decision. Defined.
#[export] Instance Thema_eq_dec : EqDecision Thema.
  Proof. solve_decision. Defined.
#[export] Instance Frage_eq_dec : EqDecision Frage.
  Proof. solve_decision. Defined.

(** [stripped_oder_none(s)]: [(s or "").strip() or None]. *)
Definition stripped_oder_none (s : option string) : option string :=
    let t := strip (default "" s) in
    if String.eqb t "" then None else Some t.

Definition hat_uebergeordnete_frage (f : Frage) : bool :=
    match stripped_oder_none (uebergeordnete_frage_id f) with Some _ => true | None => false end.

Definition hat_uebergeordnete_antwortoption (f : Frage) : bool :=
    match stripped_oder_none (uebergeordnete_antwortoption_id f) with
    | Some _ => true | None => false end.

(** [Frage.thema_text(key)]: the text of the first topic with that id. *)
Definition thema_text (f : Frage) (key : string) : option string :=
    ttext <$> List.find (fun t => String.eqb (tid t) key) (themen f).

(** [Frage.option_text(key)] *)
Definition option_text (f : Frage) (key : string) : option string :=
    otext <$> List.find (fun o => String.eqb (oid o) key) (optionen f).

(** [Frage.optionen_fuer(thema_key)].  [Thema] has no attribute
    [optionen]: for a truthy key naming one of the question's topics the
    lookup [thema.optionen] raises [AttributeError], modelled as [None].
    The scheduler only calls it with [None]. *)
Definition optionen_fuer (f : Frage) (thema_key : option string) : option (list Option) :=
    match thema_key with
    | Some k =>
        if String.eqb k "" then Some (optionen f)
        else if List.existsb (fun t => String.eqb (tid t) k) (themen f) then None
        else Some (optionen f)
    | None => Some (optionen f)
    end.

(** ** [render_text(text, **ctx)]

    [re.sub(r"\{\{(\w+)\}\}", repl, text or "")]: at each position the
    pattern matches ["{{"], a maximal run of word characters (at least one)
    and ["}}"]; a known key is replaced by its value, an unknown one is
    left as it is.  Where the pattern does not match, one character is
    copied and the scan resumes at the next one. *)

Definition is_word_char (c : ascii) : bool :=
    let n := nat_of_ascii c in
    (Nat.leb 48 n && Nat.leb n 57) || (Nat.leb 65 n && Nat.leb n 90)
    || (Nat.leb 97 n && Nat.leb n 122) || Nat.eqb n 95.

Fixpoint span_word (s : string) : string * string :=
    match s with
    | String c r =>
        if is_word_char c then let '(w, rest) := span_word r in (String c w, rest)
        else ("", s)
    | EmptyString => ("", "")
    end.

(** The placeholder at the head of [s], as its key and the rest. *)
Definition match_placeholder (s : string) : option (string * string) :=
    match s with
    | String c1 (String c2 r) =>
        if Ascii.eqb c1 "{" && Ascii.eqb c2 "{" then
          let '(w, rest) := span_word r in
          if String.eqb w "" then None
          else match rest with
               | String d1 (String d2 rest') =>
                   if Ascii.eqb d1 "}" && Ascii.eqb d2 "}" then Some (w, rest') else None
               | _ => None
               end
        else None
    | _ => None
    end.

Definition placeholder (key : string) : string := "{{" +++ key +++ "}}".

Definition repl (ctx : list (string * string)) (key : string) : string :=
    match dict_get ctx key with Some v => v | None => placeholder key end.

(** The scan with fuel; [render_text] gives it the length of the text,
    which [render_go_fuel] shows is enough. *)
Fixpoint render_go (fuel : nat) (ctx : list (string * string)) (s : string) : string :=
    match fuel with
    | O => s
    | S n =>
        match s with
        | EmptyString => EmptyString
        | String c r =>
            match match_placeholder s with
            | Some (key, rest) => repl ctx key +++ render_go n ctx rest
            | None => String c (render_go n ctx r)
            end
        end
    end.

Definition render_text (text : option string) (ctx : list (string * string)) : string :=
    let s := default "" text in render_go (String.length s) ctx s.

End Models.

Module Lader.
Import Models.

(** ** ElementTree elements

    [ET.Element]: tag, attribute dictionary, [text], children and
    [tail].  Comments and processing instructions are dropped by
    [ET.parse] and do not occur. *)
Inductive Element := Elem {
    tag : string;
    attrib : list (string * string);
    etext : option string;
    kinder : list Element;
    tail : option string
  }.

(** [e.get(name)] *)
Definition get (e : Element) (name : string) : option string := dict_get (attrib e) name.

(** [e.find(t)]: the first direct child with tag [t]. *)
Definition find (e : Element) (t : string) : option Element :=
    List.find (fun k => String.eqb (tag k) t) (kinder e).

(** [e.findall(t)]: the direct children with tag [t], in order. *)
Definition findall (e : Element) (t : string) : list Element :=
    List.filter (fun k => String.eqb (tag k) t) (kinder e).

Definition nonempty (s : option string) : list string :=
    match s with Some t => if String.eqb t "" then [] else [t] | None => [] end.

(** [e.itertext()]: the element's text, then for each child its text
    and its tail, depth first. *)
Fixpoint itertext (e : Element) : list string :=
    nonempty (etext e) ++
    (fix go (ks : list Element) : list string :=
       match ks with
       | [] => []
       | k :: ks' => itertext k ++ nonempty (tail k) ++ go ks'
       end) (kinder e).

(** [stripped_oder_none("".join(e.itertext()))] *)
Definition inhalt (e : Element) : option string :=
    stripped_oder_none (Some (String.concat "" (itertext e))).

(** ** [FragenParserFehler], by the check that raises it *)
Inductive FragenParserFehler :=
  | FrageOhneId
  | DoppelteFrageId (frage_id : string)
  | LimitKeineZahl (frage_id raw : string)
  | LimitKleinerEins (frage_id : string)
  | ZufaelligUngueltig (frage_id raw : string)
  | ThemenOhneUebergeordneteFrage (frage_id : string)
  | TextFehlt (frage_id : string)
  | TextLeer (frage_id : string)
  | AntwortoptionenFehlt (frage_id : string)
  | OptionUnvollstaendig (frage_id : string)
  | OptionDoppelt (frage_id option_id : string)
  | KeineOption (frage_id : string)
  | ThemaUnvollstaendig (frage_id : string)
  | ThemaDoppelt (frage_id thema_id : string).

(** [frage_id in self._fragen] compares a [str] with the [Frage]
    objects parsed so far.  [str.__eq__] returns [NotImplemented] for a
    [Frage], and the dataclass [Frage.__eq__] only compares two [Frage]
    instances, so [==] falls back to identity: the comparison is always
    false. *)
Definition str_eq_frage (s : string) (f : Frage) : bool := false.

Definition frage_id_in (s : string) (fragen : list Frage) : bool :=
    List.existsb (str_eq_frage s) fragen.

(** The [uebergeordnete_themen_limit] attribute: [int()] and the
    [>= 1] check. *)
Definition parse_limit (frage_id : string) (raw : option string)
      : FragenParserFehler + option Z :=
    match raw with
    | None => inr None
    | Some r =>
        match py_int r with
        | None => inl (LimitKeineZahl frage_id r)
        | Some n => if Z.ltb n 1 then inl (LimitKleinerEins frage_id) else inr (Some n)
        end
    end.

(** The [uebergeordnete_themen_zufaellig] attribute. *)
Definition parse_zufaellig (frage_id : string) (raw : option string)
      : FragenParserFehler + bool :=
    match raw with
    | None => inr false
    | Some r =>
        let v := lower (strip r) in
        if List.existsb (String.eqb v) ["true"; "1"; "yes"; "ja"] then inr true
        else if List.existsb (String.eqb v) ["false"; "0"; "no"; "nein"] then inr false
        else inl (ZufaelligUngueltig frage_id r)
    end.

(** The loop over [<Option>] children: id and text present, id not
    yet used, appended in document order. *)
Fixpoint parse_optionen (frage_id : string) (els : list Element) (acc : list Option)
      : FragenParserFehler + list Option :=
    match els with
    | [] => inr acc
    | e :: els' =>
        match stripped_oder_none (get e "id"), inhalt e with
        | Some i, Some t =>
            if List.existsb (fun o => String.eqb (oid o) i) acc
            then inl (OptionDoppelt frage_id i)
            else parse_optionen frage_id els' (acc ++ [mkOption i t])
        | _, _ => inl (OptionUnvollstaendig frage_id)
        end
    end.

(** The loop over [<Thema>] children. *)
Fixpoint parse_themen (frage_id : string) (els : list Element) (acc : list Thema)
      : FragenParserFehler + list Thema :=
    match els with
    | [] => inr acc
    | e :: els' =>
        match stripped_oder_none (get e "id"), inhalt e with
        | Some i, Some t =>
            if List.existsb (fun th => String.eqb (tid th) i) acc
            then inl (ThemaDoppelt frage_id i)
            else parse_themen frage_id els' (acc ++ [mkThema i t])
        | _, _ => inl (ThemaUnvollstaendig frage_id)
        end
    end.

(** [Studienkonfigurationslader._parse_frage(frage)], the checks in
    source order; [bisher] is [self._fragen]. *)
Definition parse_frage (e : Element) (bisher : list Frage) : FragenParserFehler + Frage :=
    match stripped_oder_none (get e "id") with
    | None => inl FrageOhneId
    | Some frage_id =>
      if frage_id_in frage_id bisher then inl (DoppelteFrageId frage_id) else
      let uebergeordnete_frage := stripped_oder_none (get e "uebergeordnete_frage") in
      let uebergeordnete_antwortoption :=
        stripped_oder_none (get e "uebergeordnete_antwortoption") in
      let? limit := parse_limit frage_id
                      (stripped_oder_none (get e "uebergeordnete_themen_limit")) in
      let? zufaellig := parse_zufaellig frage_id
                      (stripped_oder_none (get e "uebergeordnete_themen_zufaellig")) in
      if (bool_decide (is_Some limit) || zufaellig)
         && negb (bool_decide (is_Some uebergeordnete_frage))
      then inl (ThemenOhneUebergeordneteFrage frage_id) else
      match find e "Text" with
      | None => inl (TextFehlt frage_id)
      | Some text_element =>
      match inhalt text_element with
      | None => inl (TextLeer frage_id)
      | Some frage_text =>
      match find e "Antwortoptionen" with
      | None => inl (AntwortoptionenFehlt frage_id)
      | Some antwortoptionen_element =>
      let? antwortoptionen :=
        parse_optionen frage_id (findall antwortoptionen_element "Option") [] in
      match antwortoptionen with
      | [] => inl (KeineOption frage_id)
      | _ :: _ =>
      let? themen :=
        match find e "Themen" with
        | None => inr []
        | Some themen_element => parse_themen frage_id (findall themen_element "Thema") []
        end in
      inr (mkFrage frage_id frage_text antwortoptionen themen uebergeordnete_frage
             uebergeordnete_antwortoption limit zufaellig)
      end end end end
    end.

Fixpoint lade_fragen_go (els : list Element) (acc : list Frage)
      : FragenParserFehler + list Frage :=
    match els with
    | [] => inr acc
    | e :: els' => let? f := parse_frage e acc in lade_fragen_go els' (acc ++ [f])
    end.

(** [lade_fragen()]: every [<Frage>] child of the root, in order. *)
Definition lade_fragen (wurzel : Element) : FragenParserFehler + list Frage :=
    lade_fragen_go (findall wurzel "Frage") [].

(** ** Well-formed questions

    What a question returned by the loader satisfies: a non-empty id, at
    least one option, distinct option ids and distinct topic ids, a limit
    of at least one, and a parent id whenever a limit or shuffling is
    requested. *)
Record wf_frage (f : Frage) : Prop := {
    wf_id : fid f <> "";
    wf_optionen : optionen f <> [];
    wf_option_ids : NoDup (oid <$> optionen f);
    wf_thema_ids : NoDup (tid <$> themen f);
    wf_limit : forall n, uebergeordnete_themen_limit f = Some n -> (1 <= n)%Z;
    wf_parent : (is_Some (uebergeordnete_themen_limit f)
                 \/ uebergeordnete_themen_zufaellig f = true) ->
                is_Some (uebergeordnete_frage_id f);
    wf_parent_id : uebergeordnete_frage_id f <> Some "";
    wf_parent_option : uebergeordnete_antwortoption_id f <> Some ""
  }.

End Lader.

(** ** Example catalogues

    Small XML trees, as [ET.parse] returns them, used by the concrete
    instances of the theorems below. *)

Module Beispielkatalog.
Import Models Lader.

Definition text_el (t : string) : Element := Elem "Text" [] (Some t) [] None.

Definition option_el (i t : string) : Element := Elem "Option" [("id", i)] (Some t) [] None.

Definition thema_el (i t : string) : Element := Elem "Thema" [("id", i)] (Some t) [] None.

Definition frage_el (i t : string) (themen : list Element) : Element :=
  Elem "Frage" [("id", i)] None
    ([text_el t;
      Elem "Antwortoptionen" [] None [option_el "1" " ja "; option_el "2" "nein"] None] ++
     match themen with [] => [] | _ => [Elem "Themen" [] None themen None] end) None.

(** A catalogue with a question on two topics and a follow-up question
    limited to one parent topic. *)
Definition katalog : Element :=
  Elem "Fragen" [] None
    [frage_el "q1" "Wie finden Sie {{thema}}?" [thema_el "t1" "A"; thema_el "t2" "B"];
     Elem "Frage" [("id", "q2"); ("uebergeordnete_frage", "q1");
                   ("uebergeordnete_antwortoption", "1");
                   ("uebergeordnete_themen_limit", "1");
                   ("uebergeordnete_themen_zufaellig", " Ja ")] None
       [text_el "Warum?"; Elem "Antwortoptionen" [] None [option_el "x" "weil"] None] None]
    None.

(** Two questions with the same id. *)
Definition katalog_doppelt : Element :=
  Elem "Fragen" [] None [frage_el "q" "Erste?" []; frage_el "q" "Zweite?" []] None.

End Beispielkatalog.

(** ** Properties of the loader *)

Import Models Lader.

Lemma stripped_oder_none_Some s t : stripped_oder_none s = Some t -> t <> "".
Proof.
  unfold stripped_oder_none. destruct (String.eqb _ _) eqn:E; [done|].
  intros [= <-]. by apply str_eqb_neq.
Qed.

Lemma parse_limit_ge1 i r n : parse_limit i r = inr (Some n) -> (1 <= n)%Z.
Proof.
  destruct r as [r|]; simpl; [|done].
  destruct (py_int r) as [m|]; [|done].
  destruct (Z.ltb_spec m 1); [done|]. intros [= ->]. lia.
Qed.

Lemma parse_optionen_nodup i els acc opts :
  parse_optionen i els acc = inr opts -> NoDup (oid <$> acc) -> NoDup (oid <$> opts).
Proof.
  revert acc. induction els as [|e els IH]; intros acc; simpl; [by intros [= ->]|].
  destruct (stripped_oder_none _) as [j|], (inhalt e) as [t|]; try done.
  destruct (List.existsb _ acc) eqn:Hex; [done|].
  intros Hp Hnd. apply (IH _ Hp). rewrite fmap_app. simpl.
  apply NoDup_app. split; [done|]. split; [|apply NoDup_singleton].
  intros x Hx ->%list_elem_of_singleton. by apply existsb_key_false in Hex.
Qed.

Lemma parse_themen_nodup i els acc ts :
  parse_themen i els acc = inr ts -> NoDup (tid <$> acc) -> NoDup (tid <$> ts).
Proof.
  revert acc. induction els as [|e els IH]; intros acc; simpl; [by intros [= ->]|].
  destruct (stripped_oder_none _) as [j|], (inhalt e) as [t|]; try done.
  destruct (List.existsb _ acc) eqn:Hex; [done|].
  intros Hp Hnd. apply (IH _ Hp). rewrite fmap_app. simpl.
  apply NoDup_app. split; [done|]. split; [|apply NoDup_singleton].
  intros x Hx ->%list_elem_of_singleton. by apply existsb_key_false in Hex.
Qed.

Lemma parse_frage_wf e bisher f : parse_frage e bisher = inr f -> wf_frage f.
Proof.
  unfold parse_frage.
  destruct (stripped_oder_none (get e "id")) as [i|] eqn:Hid; [|done].
  destruct (frage_id_in i bisher); [done|].
  destruct (parse_limit _ _) as [|lim] eqn:Hlim; [done|].
  destruct (parse_zufaellig _ _) as [|zuf]; [done|].
  destruct (_ && _) eqn:Hpar; [done|].
  destruct (find e "Text") as [te|]; [|done].
  destruct (inhalt te) as [txt|]; [|done].
  destruct (find e "Antwortoptionen") as [ae|]; [|done].
  destruct (parse_optionen _ _ _) as [|opts] eqn:Hopts; [done|].
  destruct opts as [|o opts']; [done|].
  remember (match find e "Themen" with
            | None => inr []
            | Some th => parse_themen i (findall th "Thema") []
            end) as T eqn:Hts.
  destruct T as [|ts]; [done|].
  intros [= <-]. constructor; simpl.
  - by apply stripped_oder_none_Some in Hid.
  - done.
  - apply (parse_optionen_nodup _ _ _ _ Hopts). constructor.
  - destruct (find e "Themen"); [|by simplify_eq; constructor].
    apply (parse_themen_nodup _ _ _ _ (eq_sym Hts)). constructor.
  - intros n ->. by apply parse_limit_ge1 in Hlim.
  - intros Hq. apply andb_false_iff in Hpar as [Hpar|Hpar].
    + apply orb_false_iff in Hpar as [Hl Hz]. bool_props.
      destruct Hq as [Hq|Hq]; [done|by rewrite Hq in Hz].
    + apply negb_false_iff in Hpar. by bool_props.
  - destruct (stripped_oder_none (get e "uebergeordnete_frage")) eqn:E; [|done].
    apply stripped_oder_none_Some in E. congruence.
  - destruct (stripped_oder_none (get e "uebergeordnete_antwortoption")) eqn:E; [|done].
    apply stripped_oder_none_Some in E. congruence.
Qed.

Lemma lade_fragen_go_wf els acc fs :
  Forall wf_frage acc -> lade_fragen_go els acc = inr fs -> Forall wf_frage fs.
Proof.
  revert acc. induction els as [|e els IH]; intros acc Hacc; simpl; [by intros [= <-]|].
  destruct (parse_frage e acc) as [|f] eqn:Hf; [done|].
  apply IH. apply Forall_app. split; [done|]. constructor; [|constructor].
  by eapply parse_frage_wf.
Qed.

(** every question of a successfully loaded catalogue is well formed. *)
Theorem lade_fragen_wf wurzel fs :
  lade_fragen wurzel = inr fs -> Forall wf_frage fs.
Proof. apply lade_fragen_go_wf. constructor. Qed.

Lemma lade_fragen_wf_witness :
  match lade_fragen Beispielkatalog.katalog with
  | inr fs => List.length fs = 2%nat /\ Forall wf_frage fs
  | inl _ => False
  end.
Proof.
  destruct (lade_fragen Beispielkatalog.katalog) as [e|fs] eqn:H; [apply (f_equal ist_inr) in H; vm_compute in H; discriminate|].
  split; [vm_compute in H; by injection H as <-|].
  exact (lade_fragen_wf Beispielkatalog.katalog fs H).
Defined.

Lemma frage_id_in_false s l : frage_id_in s l = false.
Proof. induction l as [|f l IH]; [done|exact IH]. Qed.

Lemma parse_frage_bisher e bisher : parse_frage e bisher = parse_frage e [].
Proof.
  unfold parse_frage. destruct (stripped_oder_none _) as [i|]; [|done].
  by rewrite !frage_id_in_false.
Qed.

Lemma lade_fragen_go_einzeln els acc :
  lade_fragen_go els acc = let? fs := map_res (fun e => parse_frage e []) els in inr (acc ++ fs).
Proof.
  revert acc. induction els as [|e els IH]; intros acc; simpl; [by rewrite app_nil_r|].
  rewrite parse_frage_bisher. destruct (parse_frage e []) as [err|f]; [done|].
  rewrite IH. destruct (map_res _ els); [done|]. by rewrite <-app_assoc.
Qed.

(** C8: the loader checks every [<Frage>] element on its own: the result is
    that of parsing each element against an empty list of earlier
    questions.  The duplicate-id check [frage_id in self._fragen] never
    fires, so a catalogue with two questions of the same id loads. *)
Theorem lade_fragen_einzeln wurzel :
  lade_fragen wurzel = map_res (fun e => parse_frage e []) (findall wurzel "Frage").
Proof.
  unfold lade_fragen. rewrite lade_fragen_go_einzeln.
  by destruct (map_res _ _).
Qed.

(** A catalogue with two [<Frage>] elements of the same id is loaded
    without a [FragenParserFehler]: both questions are returned. *)
Theorem lade_fragen_doppelte_id :
  (fid <$> (match lade_fragen Beispielkatalog.katalog_doppelt with inr fs => fs | inl _ => [] end))
  = ["q"; "q"].
Proof. vm_compute. reflexivity. Qed.

(** ** Properties of [render_text] *)

Lemma span_word_app r w rest : span_word r = (w, rest) -> r = w +++ rest.
Proof.
  revert w rest. induction r as [|c r IH]; simpl; intros w rest; [by intros [= <- <-]|].
  destruct (is_word_char c); [|by intros [= <- <-]].
  destruct (span_word r) as [w' rest'] eqn:E. intros [= <- <-].
  rewrite str_app_cons. f_equal. by apply IH.
Qed.

Lemma placeholder_length k : String.length (placeholder k) = (4 + String.length k)%nat.
Proof. unfold placeholder. autorewrite with ssg_rw. simpl. lia. Qed.

Lemma match_placeholder_inv s k rest :
  match_placeholder s = Some (k, rest) -> s = placeholder k +++ rest /\ k <> "".
Proof.
  destruct s as [|c1 [|c2 r]]; simpl; try done.
  destruct (Ascii.eqb c1 "{" && Ascii.eqb c2 "{") eqn:E; [|done].
  destruct (span_word r) as [w rest0] eqn:Hs.
  destruct (String.eqb w "") eqn:Hw; [done|].
  destruct rest0 as [|d1 [|d2 rest']]; try done.
  destruct (Ascii.eqb d1 "}" && Ascii.eqb d2 "}") eqn:E2; [|done].
  intros [= <- <-]. apply span_word_app in Hs as ->.
  apply andb_true_iff in E as [E1%Ascii.eqb_eq E1'%Ascii.eqb_eq].
  apply andb_true_iff in E2 as [E2%Ascii.eqb_eq E2'%Ascii.eqb_eq]. subst.
  split; [|by apply str_eqb_neq]. unfold placeholder. by autorewrite with ssg_rw.
Qed.

Lemma match_placeholder_other c r : c <> "{"%char -> match_placeholder (String c r) = None.
Proof.
  intros Hc. apply Ascii.eqb_neq in Hc.
  destruct r as [|c2 r]; [done|]. simpl. by rewrite Hc.
Qed.

Fixpoint all_word (s : string) : bool :=
  match s with EmptyString => true | String c r => is_word_char c && all_word r end.

Lemma match_placeholder_placeholder k b :
  k <> "" -> all_word k = true -> match_placeholder (placeholder k +++ b) = Some (k, b).
Proof.
  intros Hk Hw. unfold placeholder. autorewrite with ssg_rw. cbn -[span_word].
  assert (span_word (k +++ String "}" (String "}" b)) = (k, String "}" (String "}" b))) as ->.
  { clear Hk. induction k as [|c k IH]; [done|]. simpl in Hw.
    apply andb_true_iff in Hw as [Hc Hw]. rewrite str_app_cons. simpl.
    by rewrite Hc, IH. }
  apply str_eqb_neq in Hk. by rewrite Hk.
Qed.

Lemma render_go_step ctx n s k rest :
  match_placeholder s = Some (k, rest) ->
  render_go (S n) ctx s = repl ctx k +++ render_go n ctx rest.
Proof. destruct s as [|c r]; [done|]. intros E. cbn [render_go]. by rewrite E. Qed.

Lemma render_go_copy ctx n c r :
  match_placeholder (String c r) = None ->
  render_go (S n) ctx (String c r) = String c (render_go n ctx r).
Proof. intros E. cbn [render_go]. by rewrite E. Qed.

(** [render_go] gives the same result with any fuel at least the length
    of the text. *)
Lemma render_go_fuel ctx n m s :
  (String.length s <= n)%nat -> (String.length s <= m)%nat ->
  render_go n ctx s = render_go m ctx s.
Proof.
  revert m s. induction n as [|n IH]; intros m s Hn Hm.
  - destruct s; simpl in Hn; [|lia]. by destruct m.
  - destruct m as [|m]; [destruct s; simpl in Hm; [done|lia]|].
    destruct s as [|c r]; [done|].
    destruct (match_placeholder (String c r)) as [[k rest]|] eqn:E.
    + rewrite !(render_go_step _ _ _ _ _ E).
      apply match_placeholder_inv in E as [Hs _].
      rewrite Hs, str_length_app, placeholder_length in Hn, Hm.
      f_equal. apply IH; lia.
    + rewrite !render_go_copy by done. simpl in Hn, Hm. f_equal. apply IH; lia.
Qed.

Lemma render_go_nil n s : render_go n [] s = s.
Proof.
  revert s. induction n as [|n IH]; intros s; [done|].
  destruct s as [|c r]; [done|].
  destruct (match_placeholder (String c r)) as [[k rest]|] eqn:E.
  - rewrite (render_go_step _ _ _ _ _ E).
    apply match_placeholder_inv in E as [Hs _]. rewrite IH, Hs. done.
  - by rewrite render_go_copy, IH.
Qed.

Lemma render_go_prefix ctx a s n :
  contains_char "{" a = false ->
  render_go (String.length a + n) ctx (a +++ s) = a +++ render_go n ctx s.
Proof.
  induction a as [|c a IH]; intros Ha; [done|].
  simpl in Ha. apply orb_false_iff in Ha as [Hc Ha].
  rewrite str_app_cons. cbn [String.length Nat.add].
  rewrite render_go_copy by (apply match_placeholder_other; by intros ->).
  by rewrite IH.
Qed.

(** With no context every placeholder is unknown and left verbatim:
    [render_text(text)] returns [text or ""] unchanged. *)
Theorem render_text_ohne_kontext t : render_text t [] = default "" t.
Proof. unfold render_text. apply render_go_nil. Qed.

(** A placeholder [{{k}}] with a non-empty word [k], preceded by text
    without a brace, is replaced by the context's value for [k] (or kept
    when [k] is unknown), and the rendering continues after it. *)
Theorem render_text_ersetzt ctx a k b :
  contains_char "{" a = false -> k <> "" -> all_word k = true ->
  render_text (Some (a +++ placeholder k +++ b)) ctx
  = a +++ repl ctx k +++ render_text (Some b) ctx.
Proof.
  intros Ha Hk Hw. unfold render_text. simpl.
  rewrite str_length_app, render_go_prefix by done. f_equal.
  rewrite str_length_app, placeholder_length.
  replace (4 + String.length k + String.length b)%nat
    with (S (3 + String.length k + String.length b)) by lia.
  rewrite (render_go_step _ _ _ k b) by (by apply match_placeholder_placeholder).
  f_equal. apply render_go_fuel; lia.
Qed.

Lemma render_text_ersetzt_witness :
  render_text (Some ("Wie finden Sie " +++ placeholder "thema" +++ "?")) [("thema", "A")]
  = "Wie finden Sie A?".
Proof.
  rewrite (render_text_ersetzt [("thema", "A")] "Wie finden Sie " "thema" "?");
    [vm_compute; reflexivity|vm_compute; reflexivity|discriminate|vm_compute; reflexivity].
Defined.

(** ** [Frage.optionen_fuer] *)

(** C35: [Frage.optionen_fuer(key)] raises [AttributeError] exactly for a
    non-empty key that names one of the question's topics ([Thema] has no
    [optionen]); for every other key it returns the question's options. *)
Theorem optionen_fuer_attributfehler f k :
  (optionen_fuer f (Some k) = None <-> k <> "" /\ k ∈ tid <$> themen f) /\
  (optionen_fuer f (Some k) <> None -> optionen_fuer f (Some k) = Some (optionen f)).
Proof.
  unfold optionen_fuer. destruct (String.eqb_spec k "") as [->|Hk].
  - split; [split; [done|intros [? _]; done]|done].
  - destruct (List.existsb _ (themen f)) eqn:He.
    + split; [|done]. split; [intros _; split; [done|]|done].
      apply existsb_exists in He as (t & Ht & Heq%String.eqb_eq).
      apply list_elem_of_fmap. exists t. split; [done|]. by apply list_elem_of_In.
    + split; [|done]. split; [done|]. intros [_ Hin].
      by apply (proj1 (existsb_key_false tid k (themen f))) in He.
Qed.
