(* ===== verification/Fragenmanager.v ===== *)
(** * The question scheduler

    [Fragenmanager] of
    [src/src/komponenten/siliconsamplesgenerator/fragesteller/fragenmanager.py]
    with the answer and context dataclasses of
    [siliconsamplesgenerator_models.py].  The scheduler's state is a
    record: the questions as an insertion-ordered dictionary, the answers
    (the class-level dictionary [Fragenmanager.antworten], shared by all
    instances), the per-instance cache of sampled parent topics, and the
    index of the next fresh random generator.  Every method is a function
    of that state returning the new state; [FragestellerFehler] is [inl]. *)

From S2P Require Import Prelude PyStr Katalog.

Open Scope string_scope.
Open Scope list_scope.
Open Scope py_scope.

Import Katalog.Models.

Module Daten.

(** [@dataclass(frozen=True) class AntwortThemaOption] *)
Record AntwortThemaOption := mkAuswahl {
    thema_key : option string;
    thema_name : option string;
    option_key : string
  }.

(** [@dataclass(frozen=True) class Antwort] *)
Record Antwort := mkAntwort { antwort_frage_id : string; auswahl : list AntwortThemaOption }.

(** [@dataclass(frozen=True) class ThemenKontext]; [composite_key] is
    [None] for a question without topics (case C of the scheduler). *)
Record ThemenKontext := mkKontext {
    composite_key : option string;
    parent_frage_id : option string;
    parent_thema_key : option string;
    parent_thema_text : option string;
    child_thema_key : option string;
    child_thema_text : option string;
    text_gerendert : string
  }.

(** [@dataclass(frozen=True) class StrukturierteFrage] *)
Record StrukturierteFrage := mkStrukturierteFrage {
    sf_frage_id : string;
    themenkontexte : list ThemenKontext;
    antwortoptionen : list Option;
    rohe_frage : Frage
  }.

(** [AntwortThemaOption.hat_echtes_thema()] *)
Definition hat_echtes_thema (a : AntwortThemaOption) : bool :=
  match thema_key a with Some k => negb (String.eqb k "") | None => false end.

(** [Antwort.filter_themen_nach_antwortoption(antwortoption_id)].  The
    test [if a.hat_echtes_thema:] names the bound method without calling
    it; a bound method is always truthy, so every entry with the option
    is kept, topic or not. *)
Definition filter_themen_nach_antwortoption (ant : Antwort) (antwortoption_id : string)
    : list (option string) :=
  thema_key <$> List.filter (fun a => String.eqb (option_key a) antwortoption_id) (auswahl ant).

#[export] Instance AntwortThemaOption_eq_dec : EqDecision AntwortThemaOption.
  Proof. solve_decision. Defined.
#[export] Instance Antwort_eq_dec : EqDecision Antwort.
  Proof. solve_decision. Defined.
#[export] Instance ThemenKontext_eq_dec : EqDecision ThemenKontext.
  Proof. solve_decision. Defined.
#[export] Instance StrukturierteFrage_eq_dec : EqDecision StrukturierteFrage.
  Proof. solve_decision. Defined.

End Daten.

Import Daten.

Module FM.

(** The key of [_parent_themen_cache]:
    [(frage.id, parent.id, required_opt or "", limit, zufaellig)]. *)
Definition CacheKey : Type := (string * string * string * option Z * bool)%type.

(** [FragestellerFehler(f"Frage nicht vorhanden: {frage_id}")] *)
Inductive FragestellerFehler := FrageNichtVorhanden (frage_id : string).

Record Fragenmanager := mkFM {
    fragen : list (string * Frage);
    antworten : gmap string Antwort;
    parent_themen_cache : gmap CacheKey (list string);
    zufall : nat
  }.

(** [Fragenmanager(fragen)]: [self.fragen = {f.id: f for f in fragen}]
    and an empty cache.  [antworten] is not assigned in [__init__]: the
    instance sees the class attribute [Fragenmanager.antworten], given
    here as [geteilt]. *)
Definition init (fs : list Frage) (geteilt : gmap string Antwort) (z : nat) : Fragenmanager :=
    mkFM (dict_of_list ((fun f => (fid f, f)) <$> fs)) geteilt ∅ z.

(** [reset_antworten()]: clears the shared answers and the cache. *)
Definition reset_antworten (fm : Fragenmanager) : Fragenmanager :=
    mkFM (fragen fm) ∅ ∅ (zufall fm).

Definition set_cache (fm : Fragenmanager) (c : gmap CacheKey (list string)) : Fragenmanager :=
    mkFM (fragen fm) (antworten fm) c (zufall fm).

Definition set_zufall (fm : Fragenmanager) (z : nat) : Fragenmanager :=
    mkFM (fragen fm) (antworten fm) (parent_themen_cache fm) z.

(** [self.antworten.get(k)] for a key that may be [None]. *)
Definition antwort_von (fm : Fragenmanager) (k : option string) : option Antwort :=
    match k with Some s => antworten fm !! s | None => None end.

(** [self.fragen.get(k)] for a key that may be [None]. *)
Definition frage_von (fm : Fragenmanager) (k : option string) : option Frage :=
    match k with Some s => dict_get (fragen fm) s | None => None end.

(** [{a.thema_key for a in antwort.auswahl}] *)
Definition gewaehlte_keys (a : Antwort) : list (option string) := thema_key <$> auswahl a.

(** [_compose_key(parent_frage_id, parent_thema_key, child_thema_key)];
    an empty child key is falsy and gives the two-part key. *)
Definition compose_key (p pt : string) (ct : option string) : string :=
    match ct with
    | Some c => if String.eqb c "" then p +++ "::" +++ pt else p +++ "::" +++ pt +++ "::" +++ c
    | None => p +++ "::" +++ pt
    end.

Section Operationen.

(** [random.Random().sample(relevante, k=len(relevante))] with the [n]-th
    freshly seeded generator: a permutation chosen by the environment. *)
Variable stichprobe : nat -> list string -> list string.

(** [_frage_darf_gestellt_werden(frage_id)] *)
Definition frage_darf_gestellt_werden (fm : Fragenmanager) (frage_id : string)
      : FragestellerFehler + bool :=
    match dict_get (fragen fm) frage_id with
    | None => inl (FrageNichtVorhanden frage_id)
    | Some frage =>
        if negb (hat_uebergeordnete_frage frage) then inr true
        else if negb (hat_uebergeordnete_antwortoption frage) then inr true
        else match antwort_von fm (uebergeordnete_frage_id frage) with
             | Some a =>
                 inr (List.existsb
                        (fun x => bool_decide (Some (option_key x)
                                               = uebergeordnete_antwortoption_id frage))
                        (auswahl a))
             | None => inr false
             end
    end.

(** [_relevante_parent_themen(parent, parent_ans, required_opt)]: the
    parent's topic ids, in the parent's order, that were answered (with
    [required_opt] when one is required). *)
Definition relevante_parent_themen (parent : Frage) (parent_ans : option Antwort)
      (required_opt : option string) : list string :=
    match parent_ans with
    | None => []
    | Some a =>
        match themen parent with
        | [] => []
        | _ :: _ =>
            let relevante_keys :=
              match required_opt with
              | None => thema_key <$> auswahl a
              | Some r =>
                  thema_key <$> List.filter (fun x => String.eqb (option_key x) r) (auswahl a)
              end in
            List.filter (fun t => bool_decide (Some t ∈ relevante_keys)) (tid <$> themen parent)
        end
    end.

(** [_parent_themen_fuer_folgefrage(frage, parent, parent_ans)]: with a
    limit or shuffling, the subset is drawn once and cached under
    [(frage.id, parent.id, required_opt or "", limit, zufaellig)]. *)
Definition parent_themen_fuer_folgefrage (fm : Fragenmanager) (frage parent : Frage)
      (parent_ans : option Antwort) : list string * Fragenmanager :=
    let required_opt := uebergeordnete_antwortoption_id frage in
    let relevante := relevante_parent_themen parent parent_ans required_opt in
    match relevante with
    | [] => ([], fm)
    | _ :: _ =>
        let limit := uebergeordnete_themen_limit frage in
        let zufaellig := uebergeordnete_themen_zufaellig frage in
        if bool_decide (limit = None) && negb zufaellig then (relevante, fm) else
        let key : CacheKey := (fid frage, fid parent, default "" required_opt, limit, zufaellig) in
        match parent_themen_cache fm !! key with
        | Some cached => (cached, fm)
        | None =>
            let '(permutation, fm1) :=
              if zufaellig then (stichprobe (zufall fm) relevante, set_zufall fm (S (zufall fm)))
              else (relevante, fm) in
            let permutation :=
              match limit with Some l => py_take l permutation | None => permutation end in
            (permutation, set_cache fm1 (<[key := permutation]> (parent_themen_cache fm1)))
        end
    end.

(** The expected keys of case A of [_frage_ist_komplett_beantwortet]:
    every relevant parent topic times every own topic (three-part keys),
    or every relevant parent topic alone (two-part keys). *)
Definition erwartete_keys (frage parent : Frage) (relevante : list string) : list string :=
    match themen frage with
    | _ :: _ =>
        List.flat_map (fun ptk => (fun ct => compose_key (fid parent) ptk (Some (tid ct)))
                                    <$> themen frage) relevante
    | [] => (fun ptk => compose_key (fid parent) ptk None) <$> relevante
    end.

(** [_frage_ist_komplett_beantwortet(frage_id)] *)
Definition frage_ist_komplett_beantwortet (fm : Fragenmanager) (frage_id : string)
      : FragestellerFehler + (bool * Fragenmanager) :=
    match dict_get (fragen fm) frage_id with
    | None => inl (FrageNichtVorhanden frage_id)
    | Some frage =>
    match antworten fm !! frage_id with
    | None => inr (false, fm)
    | Some aktuelle =>
        let gewaehlte := gewaehlte_keys aktuelle in
        match frage_von fm (uebergeordnete_frage_id frage) with
        | Some parent =>
          match themen parent with
          | _ :: _ =>
            (* Fall A: parent with topics *)
            match antworten fm !! fid parent with
            | None => inr (false, fm)
            | Some parent_ans =>
                let '(relevante, fm1) :=
                  parent_themen_fuer_folgefrage fm frage parent (Some parent_ans) in
                match relevante with
                | [] => inr (true, fm1)
                | _ :: _ =>
                    inr (subsetb (Some <$> erwartete_keys frage parent relevante) gewaehlte, fm1)
                end
            end
          | [] =>
            (* Fall B *)
            match themen frage with
            | _ :: _ => inr (subsetb ((fun t => Some (tid t)) <$> themen frage) gewaehlte, fm)
            | [] => inr (bool_decide (gewaehlte <> []), fm)
            end
          end
        | None =>
            match themen frage with
            | _ :: _ => inr (subsetb ((fun t => Some (tid t)) <$> themen frage) gewaehlte, fm)
            | [] => inr (bool_decide (gewaehlte <> []), fm)
            end
        end
    end
    end.

(** [parent.thema_text(ptk) or ptk] *)
Definition parent_text_von (parent : Frage) (ptk : string) : string :=
    match thema_text parent ptk with
    | Some t => if String.eqb t "" then ptk else t
    | None => ptk
    end.

(** The contexts of case A for one relevant parent topic. *)
Definition kontexte_parent (frage parent : Frage) (bereits : list (option string))
      (ptk : string) : list ThemenKontext :=
    let parent_text := parent_text_von parent ptk in
    match themen frage with
    | _ :: _ =>
        List.flat_map (fun ct =>
          let comp := compose_key (fid parent) ptk (Some (tid ct)) in
          if bool_decide (Some comp ∈ bereits) then []
          else [mkKontext (Some comp) (Some (fid parent)) (Some ptk) (Some parent_text)
                  (Some (tid ct)) (Some (ttext ct))
                  (render_text (Some (text frage))
                     [("thema_prev", parent_text); ("thema", ttext ct)])]) (themen frage)
    | [] =>
        let comp := compose_key (fid parent) ptk None in
        if bool_decide (Some comp ∈ bereits) then []
        else [mkKontext (Some comp) (Some (fid parent)) (Some ptk) (Some parent_text) None None
                (render_text (Some (text frage)) [("thema_prev", parent_text)])]
    end.

(** The contexts of cases B (own topics not yet answered) and C (no
    topics: one context with no key while nothing is recorded). *)
Definition kontexte_ohne_parent (frage : Frage) (bereits : list (option string))
      : list ThemenKontext :=
    match themen frage with
    | _ :: _ =>
        List.flat_map (fun t =>
          if bool_decide (Some (tid t) ∈ bereits) then []
          else [mkKontext (Some (tid t)) None None None (Some (tid t)) (Some (ttext t))
                  (render_text (Some (text frage)) [("thema", ttext t)])]) (themen frage)
    | [] =>
        match bereits with
        | [] => [mkKontext None None None None None None (render_text (Some (text frage)) [])]
        | _ :: _ => []
        end
    end.

(** [parent = self.fragen.get(parent_id) if parent_id else None] *)
Definition parent_von (fm : Fragenmanager) (frage : Frage) : option Frage :=
    match uebergeordnete_frage_id frage with
    | Some p => if String.eqb p "" then None else dict_get (fragen fm) p
    | None => None
    end.

(** [bereits_keys = {a.thema_key for a in (bereits.auswahl if bereits else ())}] *)
Definition bereits_keys (fm : Fragenmanager) (frage : Frage) : list (option string) :=
    match antworten fm !! fid frage with Some a => gewaehlte_keys a | None => [] end.

(** [_baue_strukturierte_frage(frage)] *)
Definition baue_strukturierte_frage (fm : Fragenmanager) (frage : Frage)
      : StrukturierteFrage * Fragenmanager :=
    let bereits := bereits_keys fm frage in
    let '(kontexte, fm1) :=
      match parent_von fm frage with
      | Some parent =>
        match themen parent with
        | _ :: _ =>
            let parent_ans := antworten fm !! fid parent in
            let '(relevante, fm1) := parent_themen_fuer_folgefrage fm frage parent parent_ans in
            (List.flat_map (kontexte_parent frage parent bereits) relevante, fm1)
        | [] => (kontexte_ohne_parent frage bereits, fm)
        end
      | None => (kontexte_ohne_parent frage bereits, fm)
      end in
    let optionen := match optionen_fuer frage None with Some o => o | None => [] end in
    (mkStrukturierteFrage (fid frage) kontexte optionen frage, fm1).

(** [naechste_frage()]: the first question, in declaration order, that
    may be asked and is not complete, as its open contexts. *)
Fixpoint naechste_frage_go (qs : list (string * Frage)) (fm : Fragenmanager)
      : FragestellerFehler + (option StrukturierteFrage * Fragenmanager) :=
    match qs with
    | [] => inr (None, fm)
    | (_, frage) :: qs' =>
        let? darf := frage_darf_gestellt_werden fm (fid frage) in
        if negb darf then naechste_frage_go qs' fm else
        let? (komplett, fm1) := frage_ist_komplett_beantwortet fm (fid frage) in
        if komplett then naechste_frage_go qs' fm1 else
        let '(sf, fm2) := baue_strukturierte_frage fm1 frage in
        inr (Some sf, fm2)
    end.

Definition naechste_frage (fm : Fragenmanager)
      : FragestellerFehler + (option StrukturierteFrage * Fragenmanager) :=
    naechste_frage_go (fragen fm) fm.

End Operationen.

(** [antwort_hinzufuegen(frage_id, key, name, option_key)]: an entry for
    the same topic key is replaced, the new entry goes last. *)
Definition antwort_hinzufuegen (fm : Fragenmanager) (frage_id : string)
      (key name : option string) (opt : string) : Fragenmanager :=
    let neue := mkAuswahl key name opt in
    let a :=
      match antworten fm !! frage_id with
      | None => mkAntwort frage_id [neue]
      | Some antwort =>
          mkAntwort frage_id
            (filter (fun x => thema_key x <> key) (auswahl antwort) ++ [neue])
      end in
    mkFM (fragen fm) (<[frage_id := a]> (antworten fm)) (parent_themen_cache fm) (zufall fm).

End FM.

(** ** An example scheduler state

    A question [q1] on two topics, answered with option ["1"] for both,
    and a follow-up [q2] asked for one parent topic drawn at random
    among those answered with ["1"]. *)

Module Beispielzustand.
Import FM.

Definition f1 : Frage :=
  mkFrage "q1" "Wie finden Sie {{thema}}?" [mkOption "1" "ja"; mkOption "2" "nein"]
    [mkThema "t1" "A"; mkThema "t2" "B"] None None None false.

Definition f2 : Frage :=
  mkFrage "q2" "Warum {{thema_prev}}?" [mkOption "x" "weil"] []
    (Some "q1") (Some "1") (Some 1%Z) true.

Definition fm0 : Fragenmanager := init [f1; f2] ∅ 0.

Definition fm_q1 : Fragenmanager :=
  antwort_hinzufuegen (antwort_hinzufuegen fm0 "q1" (Some "t1") (Some "A") "1")
    "q1" (Some "t2") (Some "B") "1".

(** A follow-up declared before its parent, asked for every answered
    parent topic (no required option). *)
Definition f_vorwaerts : Frage :=
  mkFrage "q0" "Warum {{thema_prev}}?" [mkOption "x" "weil"] [] (Some "q1") None None false.

Definition fm_vorwaerts : Fragenmanager := init [f_vorwaerts; f1] ∅ 0.

(** The composite-key scenario: a parent [P] whose topic [t1] was
    answered with ["yes"], a child [C] on topics [x] and [y] that
    requires ["yes"]. *)
Definition f_P : Frage :=
  mkFrage "P" "Wie finden Sie {{thema}}?" [mkOption "yes" "ja"; mkOption "no" "nein"]
    [mkThema "t1" "A"; mkThema "t2" "B"] None None None false.

Definition f_C : Frage :=
  mkFrage "C" "Was an {{thema_prev}}: {{thema}}?" [mkOption "1" "gut"; mkOption "2" "schlecht"]
    [mkThema "x" "X"; mkThema "y" "Y"] (Some "P") (Some "yes") None false.

Definition fm_P : Fragenmanager :=
  antwort_hinzufuegen (antwort_hinzufuegen (init [f_P; f_C] ∅ 0) "P" (Some "t1") (Some "A") "yes")
    "P" (Some "t2") (Some "B") "no".

(** A chain of three levels: [e1] on a topic, its follow-up [e2] on a
    topic, and [e3], asked when [e2] was answered with ["1"]. *)
Definition f_e1 : Frage :=
  mkFrage "e1" "Wie finden Sie {{thema}}?" [mkOption "1" "gut"; mkOption "2" "schlecht"]
    [mkThema "t1" "A"] None None None false.

Definition f_e2 : Frage :=
  mkFrage "e2" "Was an {{thema_prev}}?" [mkOption "1" "Preis"; mkOption "2" "Service"]
    [mkThema "c1" "Punkt"] (Some "e1") None None false.

Definition f_e3 : Frage :=
  mkFrage "e3" "Seit wann?" [mkOption "1" "lange"; mkOption "2" "kurz"] [] (Some "e2") (Some "1")
    None false.

(** The state after [e1] and [e2] were answered, as the driver records
    the answers: [e2]'s under its composite key. *)
Definition fm_e12 : Fragenmanager :=
  antwort_hinzufuegen (antwort_hinzufuegen (init [f_e1; f_e2; f_e3] ∅ 0) "e1" (Some "t1") None "1")
    "e2" (Some "e1::t1::c1") (Some "A") "1".

(** A random sample that reverses the list. *)
Definition umdrehen (_ : nat) (l : list string) : list string := rev l.

End Beispielzustand.

(** * Properties of the scheduler *)

Import FM.

(** ** Dependency check *)

(** [_frage_darf_gestellt_werden] on a known question is true exactly
    when the question has no parent, or no required parent option, or the
    parent's answer has an entry (for any topic) with that option. *)
Theorem frage_darf_gestellt_werden_spec fm i f :
  dict_get (fragen fm) i = Some f ->
  frage_darf_gestellt_werden fm i = inr true <->
  hat_uebergeordnete_frage f = false \/ hat_uebergeordnete_antwortoption f = false \/
  exists a x, antwort_von fm (uebergeordnete_frage_id f) = Some a /\ x ∈ auswahl a /\
              Some (option_key x) = uebergeordnete_antwortoption_id f.
Proof.
  intros Hf. unfold frage_darf_gestellt_werden. rewrite Hf.
  destruct (hat_uebergeordnete_frage f), (hat_uebergeordnete_antwortoption f); simpl;
    try (split; [intros _; first [by left|by right; left]|done]).
  destruct (antwort_von fm _) as [a|];
    [|split; [done|intros [?|[?|(? & ? & [=] & _)]]; done]].
  rewrite inr_iff, existsb_exists. split.
  - intros (x & Hx & Hb). bool_props. right; right. exists a, x.
    by rewrite list_elem_of_In.
  - intros [?|[?|(a' & x & [= <-] & Hx & Heq)]]; [done|done|].
    exists x. rewrite <-list_elem_of_In. split; [done|]. by bool_props.
Qed.

Lemma frage_darf_gestellt_werden_spec_witness :
  frage_darf_gestellt_werden Beispielzustand.fm_q1 "q2" = inr true.
Proof.
  apply (frage_darf_gestellt_werden_spec Beispielzustand.fm_q1 "q2" Beispielzustand.f2);
    [vm_compute; reflexivity|].
  right; right. exists (mkAntwort "q1" [mkAuswahl (Some "t1") (Some "A") "1";
                                       mkAuswahl (Some "t2") (Some "B") "1"]),
                       (mkAuswahl (Some "t1") (Some "A") "1").
  split; [vm_compute; reflexivity|]. split; [left|reflexivity].
Defined.

(** ** The answer store *)

(** The option recorded for topic key [k] in an answer. *)
Definition option_fuer (a : Antwort) (k : option string) : option string :=
  option_key <$> List.find (fun x => bool_decide (thema_key x = k)) (auswahl a).

Definition antwort_option (fm : Fragenmanager) (q : string) (k : option string) : option string :=
  antworten fm !! q ≫= fun a => option_fuer a k.

Lemma find_app_notin {A} (P : A -> bool) (l1 l2 : list A) :
  (forall x, x ∈ l1 -> P x = false) -> List.find P (l1 ++ l2) = List.find P l2.
Proof.
  induction l1 as [|x l1 IH]; intros H; [done|]. simpl.
  rewrite H by left. apply IH. intros y Hy. apply H. by right.
Qed.

Lemma find_filter_other {A} (P : A -> bool) (Q : A -> Prop) `{forall x, Decision (Q x)}
    (l : list A) :
  (forall x, P x = true -> Q x) -> List.find P (filter Q l) = List.find P l.
Proof.
  intros HPQ. induction l as [|x l IH]; [done|]. rewrite filter_cons. simpl.
  destruct (P x) eqn:Hp; [rewrite decide_True by auto; simpl; by rewrite Hp|].
  case_decide; simpl; [rewrite Hp|]; done.
Qed.

(** Recording an answer is a keyed update: afterwards the question has
    the new option under the given topic key, every other topic key of
    the question and every other question keep what they had. *)
Theorem antwort_hinzufuegen_lookup fm q k n o q' k' :
  antwort_option (antwort_hinzufuegen fm q k n o) q' k' =
  if bool_decide (q' = q /\ k' = k) then Some o else antwort_option fm q' k'.
Proof.
  unfold antwort_option, antwort_hinzufuegen; simpl.
  destruct (decide (q' = q)) as [->|Hq]; [rewrite lookup_insert_eq|].
  - destruct (antworten fm !! q) as [a|]; simpl.
    + unfold option_fuer; simpl.
      destruct (decide (k' = k)) as [->|Hk].
      * rewrite bool_decide_true by done.
        rewrite find_app_notin; [simpl; by rewrite bool_decide_true|].
        intros x [Hx _]%list_elem_of_filter. by rewrite bool_decide_false.
      * rewrite bool_decide_false by naive_solver.
        rewrite find_app, find_filter_other.
        { destruct (List.find _ (auswahl a)); [done|]. simpl.
          by rewrite bool_decide_false. }
        intros x Hx. bool_props. congruence.
    + unfold option_fuer; simpl.
      destruct (decide (k' = k)) as [->|Hk].
      * by rewrite !bool_decide_true.
      * by rewrite !bool_decide_false by naive_solver.
  - rewrite lookup_insert_ne by done. by rewrite bool_decide_false by naive_solver.
Qed.

(** Every answer records each topic key at most once. *)
Definition antworten_eindeutig (fm : Fragenmanager) : Prop :=
  map_Forall (fun _ a => NoDup (gewaehlte_keys a)) (antworten fm).

(** C29: recording answers preserves that every question's answer holds
    each topic key at most once (the invariant of the answer store). *)
Theorem antwort_hinzufuegen_eindeutig fm q k n o :
  antworten_eindeutig fm -> antworten_eindeutig (antwort_hinzufuegen fm q k n o).
Proof.
  unfold antworten_eindeutig, map_Forall. intros H q' a'.
  unfold antwort_hinzufuegen; simpl. rewrite lookup_insert.
  case_decide as Hq; [subst q'|apply H]. intros [= <-].
  destruct (antworten fm !! q) as [a|] eqn:Ha; unfold gewaehlte_keys; simpl.
  - rewrite fmap_app. apply NoDup_app. split; [|split; [|apply NoDup_singleton]].
    + apply (sublist_NoDup _ (thema_key <$> auswahl a)); [by apply (H q)|].
      apply fmap_sublist, sublist_filter.
    + intros x (y & -> & Hy)%list_elem_of_fmap Hk%list_elem_of_singleton.
      by apply list_elem_of_filter in Hy as [? _].
  - apply NoDup_singleton.
Qed.

Lemma antwort_hinzufuegen_eindeutig_witness :
  antworten_eindeutig
    (antwort_hinzufuegen Beispielzustand.fm_q1 "q1" (Some "t1") (Some "A") "2").
Proof.
  apply antwort_hinzufuegen_eindeutig.
  eapply bool_decide_unpack. vm_compute. exact I.
Defined.

(** ** Composite keys *)

(** A part of a composite key that [split("::")] recovers: it contains
    no ["::"] and does not end with [":"]. *)
Definition key_teil_ok (s : string) : bool := negb (contains_dcolon s) && negb (ends_with_colon s).

Lemma ascii_eqb_sym (a b : ascii) : Ascii.eqb a b = Ascii.eqb b a.
Proof. destruct (Ascii.eqb_spec a b), (Ascii.eqb_spec b a); congruence. Qed.

Lemma split_dcolon_acc_plain s cur :
  contains_dcolon s = false -> split_dcolon_acc s cur = [cur +++ s].
Proof.
  revert cur. induction s as [|c s IH]; intros cur Hs; [by rewrite str_app_nil_r|].
  cbn [contains_dcolon] in Hs. apply orb_false_iff in Hs as [Hc Hs].
  cbn [split_dcolon_acc].
  replace (cur +++ String c s) with ((cur +++ String c "") +++ s) by (by rewrite str_app_assoc).
  rewrite <-(IH (cur +++ String c "")) by done.
  destruct (Ascii.eqb c ":") eqn:Ec; [|done]. rewrite andb_true_l in Hc.
  destruct s as [|c2 s]; [done|]. cbn [starts_with_char] in Hc.
  by rewrite ascii_eqb_sym, Hc.
Qed.

Lemma split_dcolon_acc_sep x y cur :
  key_teil_ok x = true ->
  split_dcolon_acc (x +++ "::" +++ y) cur = (cur +++ x) :: split_dcolon_acc y "".
Proof.
  unfold key_teil_ok. revert cur.
  induction x as [|c x IH]; intros cur Hx; [by rewrite str_app_nil_r|].
  apply andb_true_iff in Hx as [Hc He]. apply negb_true_iff in Hc, He.
  cbn [contains_dcolon] in Hc. apply orb_false_iff in Hc as [Hc Hx].
  rewrite str_app_cons. cbn [split_dcolon_acc].
  assert (Hrest : forall cur', split_dcolon_acc (x +++ "::" +++ y) cur'
                   = (cur' +++ x) :: split_dcolon_acc y "").
  { intros cur'. apply IH. apply andb_true_iff. split; apply negb_true_iff; [done|].
    destruct x as [|c' x]; [done|]. exact He. }
  destruct (Ascii.eqb c ":") eqn:Ec.
  - destruct x as [|c2 x]; [cbn [ends_with_colon] in He; by rewrite Ec in He|].
    rewrite andb_true_l in Hc. cbn [starts_with_char] in Hc.
    rewrite str_app_cons, ascii_eqb_sym, Hc. rewrite <-str_app_cons, Hrest.
    by rewrite str_app_assoc.
  - rewrite Hrest. by rewrite str_app_assoc.
Qed.

(** A three-part composite key splits back into its parts with
    [split("::")] when the parts are free of ["::"] (and the first two do
    not end with a colon). *)
Lemma compose_key_split3 p pt ct :
  key_teil_ok p = true -> key_teil_ok pt = true -> contains_dcolon ct = false -> ct <> "" ->
  split_dcolon (compose_key p pt (Some ct)) = [p; pt; ct].
Proof.
  intros Hp Hpt Hct Hne. unfold compose_key, split_dcolon.
  apply str_eqb_neq in Hne. rewrite Hne.
  rewrite split_dcolon_acc_sep, split_dcolon_acc_sep, split_dcolon_acc_plain by done.
  done.
Qed.

Lemma compose_key_split2 p pt :
  key_teil_ok p = true -> contains_dcolon pt = false ->
  split_dcolon (compose_key p pt None) = [p; pt].
Proof.
  intros Hp Hpt. unfold compose_key, split_dcolon.
  by rewrite split_dcolon_acc_sep, split_dcolon_acc_plain.
Qed.

(** ** Polling the scheduler is stable

    [naechste_frage] only ever adds entries to the sampling cache (and
    advances the random generator); it leaves questions and answers alone.
    [fm_le fm1 fm2] says [fm2] has the same questions and answers and a
    cache extending [fm1]'s. *)

Definition fm_le (fm1 fm2 : Fragenmanager) : Prop :=
  fragen fm1 = fragen fm2 /\ antworten fm1 = antworten fm2 /\
  parent_themen_cache fm1 ⊆ parent_themen_cache fm2.

Lemma fm_le_refl fm : fm_le fm fm.
Proof. done. Qed.

Lemma fm_le_trans fm1 fm2 fm3 : fm_le fm1 fm2 -> fm_le fm2 fm3 -> fm_le fm1 fm3.
Proof. intros (?&?&?) (?&?&?). split; [congruence|split; [congruence|by etrans]]. Qed.

#[export] Hint Resolve fm_le_refl : ssg.

(** Rewrite the questions and answers of a larger state back to those of
    a smaller one. *)
Ltac fm_le_rewrite :=
  repeat match goal with
  | H : fm_le ?a ?b |- _ =>
      let Hq := fresh in let Ha := fresh in let Hc := fresh in
      destruct H as (Hq & Ha & Hc);
      try rewrite <-Hq in *; try rewrite <-Ha in *
  end.

Section Stabil.
Context (st : nat -> list string -> list string).

Lemma parent_themen_le fm f p pa r fm1 :
    parent_themen_fuer_folgefrage st fm f p pa = (r, fm1) -> fm_le fm fm1.
  Proof.
    unfold parent_themen_fuer_folgefrage.
    destruct (relevante_parent_themen _ _ _); [intros [= <- <-]; apply fm_le_refl|].
    destruct (_ && _); [intros [= <- <-]; apply fm_le_refl|].
    destruct (parent_themen_cache fm !! _) eqn:Hc; [intros [= <- <-]; apply fm_le_refl|].
    destruct (uebergeordnete_themen_zufaellig f); simpl; intros [= <- <-];
      (split; [done|split; [done|]]); simpl; by apply insert_subseteq.
  Qed.

Lemma parent_themen_stabil fm f p pa r fm1 fm2 :
    parent_themen_fuer_folgefrage st fm f p pa = (r, fm1) -> fm_le fm1 fm2 ->
    parent_themen_fuer_folgefrage st fm2 f p pa = (r, fm2).
  Proof.
    unfold parent_themen_fuer_folgefrage.
    destruct (relevante_parent_themen _ _ _) as [|t ts]; [by intros [= <- <-]|].
    destruct (_ && _); [by intros [= <- <-]|].
    destruct (parent_themen_cache fm !! _) as [c|] eqn:Hc.
    - intros [= <- <-] (_ & _ & Hsub). by rewrite (lookup_weaken _ _ _ _ Hc Hsub).
    - intros Hr (_ & _ & Hsub).
      destruct (uebergeordnete_themen_zufaellig f); simplify_eq/=;
        by erewrite (lookup_weaken _ _ _ _ (lookup_insert_eq _ _ _) Hsub).
  Qed.

(** Rewrite the case equations of a hypothesis into the goal. *)
Local Ltac use_eqns :=
    repeat match goal with E : ?x = _ |- context [?x] => rewrite E; cbn iota beta end.

(** Close a branch of [_frage_ist_komplett_beantwortet] that does not
    consult the cache. *)
Local Ltac ohne_parent H f :=
    destruct (themen f) eqn:?;
    (injection H as <- <-; split; [apply fm_le_refl|];
     intros ? (Hq & Ha2 & _); rewrite <-Hq, <-Ha2; by use_eqns).

Lemma komplett_stabil fm i b fm1 :
    frage_ist_komplett_beantwortet st fm i = inr (b, fm1) ->
    fm_le fm fm1 /\
    forall fm2, fm_le fm1 fm2 -> frage_ist_komplett_beantwortet st fm2 i = inr (b, fm2).
  Proof.
    intros H. unfold frage_ist_komplett_beantwortet, frage_von in *.
    destruct (dict_get (fragen fm) i) as [f|] eqn:Hf; [|done].
    destruct (antworten fm !! i) as [a|] eqn:Ha; [|ohne_parent H f].
    destruct (uebergeordnete_frage_id f) as [pid|] eqn:Hpid; [|ohne_parent H f].
    destruct (dict_get (fragen fm) pid) as [p|] eqn:Hp; [|ohne_parent H f].
    destruct (themen p) as [|t ts] eqn:Htp; [ohne_parent H f|].
    destruct (antworten fm !! fid p) as [pa|] eqn:Hpa; [|ohne_parent H f].
    destruct (parent_themen_fuer_folgefrage st fm f p (Some pa)) as [rel fmr] eqn:Hpt.
    assert (fm_le fm fmr) as Hle by (by eapply parent_themen_le).
    assert (fmr = fm1) as -> by (destruct rel; by injection H).
    split; [done|]. intros fm2 Hle2.
    destruct (fm_le_trans _ _ _ Hle Hle2) as (Hq & Ha2 & _). rewrite <-Hq, <-Ha2.
    use_eqns. rewrite (parent_themen_stabil _ _ _ _ _ _ _ Hpt Hle2).
    destruct rel; by injection H as <-.
  Qed.

Lemma darf_le fm fm2 i : fm_le fm fm2 -> frage_darf_gestellt_werden fm2 i = frage_darf_gestellt_werden fm i.
  Proof. intros (Hq & Ha & _). unfold frage_darf_gestellt_werden, antwort_von. by rewrite Hq, Ha. Qed.

Lemma baue_stabil fm f sf fm1 :
    baue_strukturierte_frage st fm f = (sf, fm1) ->
    fm_le fm fm1 /\ forall fm2, fm_le fm1 fm2 -> baue_strukturierte_frage st fm2 f = (sf, fm2).
  Proof.
    unfold baue_strukturierte_frage.
    assert (Hread : forall fm2, fm_le fm fm2 ->
              parent_von fm2 f = parent_von fm f /\ bereits_keys fm2 f = bereits_keys fm f /\
              antworten fm2 = antworten fm).
    { intros fm2 (Hq & Ha & _). unfold parent_von, bereits_keys. by rewrite Hq, Ha. }
    destruct (parent_von fm f) as [p|] eqn:Hp; [destruct (themen p) as [|t ts] eqn:Htp|].
    2: { destruct (parent_themen_fuer_folgefrage st fm f p _) as [rel fmr] eqn:Hpt.
         intros [= <- <-]. pose proof (parent_themen_le _ _ _ _ _ _ Hpt) as Hle.
         split; [done|]. intros fm2 Hle2.
         destruct (Hread fm2 (fm_le_trans _ _ _ Hle Hle2)) as (-> & -> & ->).
         rewrite ?Htp. by rewrite (parent_themen_stabil _ _ _ _ _ _ _ Hpt Hle2). }
    all: intros [= <- <-]; split; [done|]; intros fm2 Hle2;
         destruct (Hread fm2 Hle2) as (-> & -> & _); by rewrite ?Hp, ?Htp.
  Qed.

Lemma naechste_frage_go_stabil qs fm r fm1 :
    naechste_frage_go st qs fm = inr (r, fm1) ->
    fm_le fm fm1 /\ forall fm2, fm_le fm1 fm2 -> naechste_frage_go st qs fm2 = inr (r, fm2).
  Proof.
    revert fm. induction qs as [|[k f] qs IH]; intros fm; simpl.
    { intros [= <- <-]. split; [done|]. by intros fm2 _. }
    destruct (frage_darf_gestellt_werden fm (fid f)) as [e|[]] eqn:Hd; [done| |]; simpl.
    - destruct (frage_ist_komplett_beantwortet st fm (fid f)) as [e|[[] fma]] eqn:Hk; [done| |].
      + intros Hgo. destruct (komplett_stabil _ _ _ _ Hk) as [Hle1 Hst1].
        destruct (IH _ Hgo) as [Hle2 Hst2]. split; [by eapply fm_le_trans|].
        intros fm2 Hle3. rewrite (darf_le fm), Hd by eauto using fm_le_trans. simpl.
        rewrite (Hst1 fm2) by eauto using fm_le_trans. by apply Hst2.
      + destruct (baue_strukturierte_frage st fma f) as [sf fmb] eqn:Hb. intros [= <- <-].
        destruct (komplett_stabil _ _ _ _ Hk) as [Hle1 Hst1].
        destruct (baue_stabil _ _ _ _ Hb) as [Hle2 Hst2].
        split; [by eapply fm_le_trans|]. intros fm2 Hle3.
        rewrite (darf_le fm), Hd by eauto using fm_le_trans. simpl.
        rewrite (Hst1 fm2) by eauto using fm_le_trans. simpl. by rewrite (Hst2 fm2).
    - intros Hgo. destruct (IH _ Hgo) as [Hle Hst]. split; [done|].
      intros fm2 Hle2. rewrite (darf_le fm), Hd by eauto using fm_le_trans. by apply Hst.
  Qed.
End Stabil.

(** C7: polling the scheduler a second time without recording an answer
    returns the same unit and changes nothing: the first call leaves the
    answers alone and the sampled parent topics it cached are reused. *)
Theorem naechste_frage_stabil st fm r fm1 :
  naechste_frage st fm = inr (r, fm1) ->
  antworten fm1 = antworten fm /\ naechste_frage st fm1 = inr (r, fm1).
Proof.
  unfold naechste_frage. intros H.
  destruct (naechste_frage_go_stabil _ _ _ _ _ H) as [(Hq & Ha & _) Hst].
  split; [done|]. rewrite <-Hq. apply Hst, fm_le_refl.
Qed.

Lemma naechste_frage_stabil_witness :
  match naechste_frage Beispielzustand.umdrehen Beispielzustand.fm_q1 with
  | inr (r, fm1) =>
      antworten fm1 = antworten Beispielzustand.fm_q1 /\
      naechste_frage Beispielzustand.umdrehen fm1 = inr (r, fm1)
  | inl _ => False
  end.
Proof.
  destruct (naechste_frage Beispielzustand.umdrehen Beispielzustand.fm_q1)
    as [e|[r fm1]] eqn:H; [apply (f_equal ist_inr) in H; vm_compute in H; discriminate|].
  exact (naechste_frage_stabil Beispielzustand.umdrehen Beispielzustand.fm_q1 r fm1 H).
Defined.

(** ** Sampling of parent topics *)

Lemma py_take_submseteq {A} (l : Z) (xs : list A) : py_take l xs ⊆+ xs.
Proof. unfold py_take. case_match; apply submseteq_take. Qed.

(** C31: a fresh draw (no cached subset yet) returns at most [limit] of the
    relevant parent topics, each at most as often as it is relevant: a
    sub-multiset of [relevante], whether or not it was shuffled, provided
    the random sample is a permutation. *)
Theorem parent_themen_stichprobe st fm f p pa r fm1 :
  (forall n xs, st n xs ≡ₚ xs) ->
  parent_themen_cache fm !! ((fid f, fid p, default "" (uebergeordnete_antwortoption_id f),
                              uebergeordnete_themen_limit f,
                              uebergeordnete_themen_zufaellig f) : CacheKey) = None ->
  parent_themen_fuer_folgefrage st fm f p pa = (r, fm1) ->
  r ⊆+ relevante_parent_themen p pa (uebergeordnete_antwortoption_id f) /\
  (forall l, uebergeordnete_themen_limit f = Some l -> (0 <= l)%Z ->
             (List.length r <= Z.to_nat l)%nat).
Proof.
  intros Hst Hc. unfold parent_themen_fuer_folgefrage. cbv zeta.
  destruct (relevante_parent_themen _ _ _) as [|t ts] eqn:Hrel.
  { intros [= <- _]. split; [done|]. intros; simpl; lia. }
  destruct (bool_decide _ && _) eqn:Hb.
  { intros [= <- _]. split; [done|]. intros l Hl.
    apply andb_true_iff in Hb as [Hb _]. bool_props. congruence. }
  rewrite Hc.
  assert (Hperm : (if uebergeordnete_themen_zufaellig f
                   then st (zufall fm) (t :: ts) else t :: ts) ⊆+ t :: ts).
  { destruct (uebergeordnete_themen_zufaellig f); [|done].
    apply Permutation_submseteq, Hst. }
  destruct (uebergeordnete_themen_zufaellig f);
    destruct (uebergeordnete_themen_limit f) as [l|] eqn:Hl; simpl;
    intros [= <- _]; (split; [try (etrans; [apply py_take_submseteq|]); done|]);
    intros l' [= <-] Hl'; rewrite py_take_pos, length_take by done; lia.
Qed.

Lemma parent_themen_stichprobe_witness :
  let '(r, _) := parent_themen_fuer_folgefrage Beispielzustand.umdrehen Beispielzustand.fm_q1
                   Beispielzustand.f2 Beispielzustand.f1
                   (antworten Beispielzustand.fm_q1 !! "q1") in
  r = ["t2"] /\
  r ⊆+ relevante_parent_themen Beispielzustand.f1 (antworten Beispielzustand.fm_q1 !! "q1")
         (Some "1") /\
  (forall l, Some 1%Z = Some l -> (0 <= l)%Z -> (List.length r <= Z.to_nat l)%nat).
Proof.
  destruct (parent_themen_fuer_folgefrage _ _ _ _ _) as [r fm1] eqn:H.
  split; [apply (f_equal fst) in H; vm_compute in H; done|].
  eapply (parent_themen_stichprobe Beispielzustand.umdrehen Beispielzustand.fm_q1
           Beispielzustand.f2 Beispielzustand.f1); [|vm_compute; reflexivity|exact H].
  intros n xs. symmetry. apply Permutation_rev.
Defined.

(** ** Units without contexts *)

(** C4: a question that names a parent with topics but requires no parent
    option may be asked before its parent is answered (for instance when
    it is declared before its parent): if it comes first, the scheduler
    returns it as a unit with no context at all and changes nothing, so
    the driver has nothing to ask and polls the same unit forever. *)
Theorem naechste_frage_ohne_kontext st fm i f rest pid p :
  fragen fm = (i, f) :: rest -> dict_get (fragen fm) (fid f) = Some f ->
  hat_uebergeordnete_antwortoption f = false ->
  uebergeordnete_frage_id f = Some pid -> pid <> "" ->
  dict_get (fragen fm) pid = Some p -> themen p <> [] -> antworten fm !! fid p = None ->
  exists sf, naechste_frage st fm = inr (Some sf, fm) /\ themenkontexte sf = [].
Proof.
  intros Hq Hf Hopt Hpid Hne Hp Htp Hpa.
  assert (Hd : frage_darf_gestellt_werden fm (fid f) = inr true).
  { unfold frage_darf_gestellt_werden. rewrite Hf, Hopt. by destruct (hat_uebergeordnete_frage f). }
  assert (Hk : frage_ist_komplett_beantwortet st fm (fid f) = inr (false, fm)).
  { unfold frage_ist_komplett_beantwortet, frage_von. rewrite Hf, Hpid, Hp.
    destruct (antworten fm !! fid f); [|done].
    destruct (themen p); [done|]. by rewrite Hpa. }
  unfold naechste_frage. rewrite Hq. simpl. rewrite Hd. simpl. rewrite Hk. simpl.
  unfold baue_strukturierte_frage, parent_von. rewrite Hpid, (proj2 (String.eqb_neq _ _) Hne), Hp.
  destruct (themen p) as [|t ts]; [done|]. rewrite Hpa. simpl.
  eexists. split; [reflexivity|done].
Qed.

Lemma naechste_frage_ohne_kontext_witness :
  exists sf, naechste_frage Beispielzustand.umdrehen Beispielzustand.fm_vorwaerts
               = inr (Some sf, Beispielzustand.fm_vorwaerts) /\ themenkontexte sf = [].
Proof.
  apply (naechste_frage_ohne_kontext _ _ "q0" Beispielzustand.f_vorwaerts
           [("q1", Beispielzustand.f1)] "q1" Beispielzustand.f1);
    [reflexivity|reflexivity|reflexivity|reflexivity|discriminate|reflexivity|discriminate|reflexivity].
Defined.

(** The composite-key scenario: with the parent's topic [t1] answered
    with the required option, the child on topics [x] and [y] counts as
    completely answered only once both [P::t1::x] and [P::t1::y] are
    recorded. *)
Example komplett_zusammengesetzte_keys :
  let komplett fm := match frage_ist_komplett_beantwortet Beispielzustand.umdrehen fm "C" with
                     | inr (b, _) => Some b | inl _ => None end in
  let fm_x := antwort_hinzufuegen Beispielzustand.fm_P "C" (Some "P::t1::x") (Some "A") "1" in
  komplett Beispielzustand.fm_P = Some false /\
  komplett fm_x = Some false /\
  komplett (antwort_hinzufuegen fm_x "C" (Some "P::t1::y") (Some "A") "2") = Some true.
Proof. vm_compute. split_and!; reflexivity. Qed.

(** C5: the parent topics relevant to a follow-up of a follow-up are
    always empty: the answers of a question asked per parent topic are
    recorded under composite keys [p::pt::ct], which never equal one of
    its own topic ids when these contain no ["::"]. *)
Theorem relevante_parent_themen_zusammengesetzt p a r :
  (forall x, x ∈ auswahl a -> exists pp pt ct, thema_key x = Some (compose_key pp pt ct)) ->
  Forall (fun t => contains_dcolon (tid t) = false) (themen p) ->
  relevante_parent_themen p (Some a) r = [].
Proof.
  intros Hkeys Hthemen. unfold relevante_parent_themen.
  destruct (themen p) as [|t0 ts] eqn:Ht; [done|]. rewrite <-Ht.
  apply list_filter_nil. intros t Ht'. apply bool_decide_eq_false. intros Hin.
  apply list_elem_of_fmap in Ht' as (th & -> & Hth).
  assert (Hk : exists x, x ∈ auswahl a /\ thema_key x = Some (tid th)).
  { destruct r as [o|]; apply list_elem_of_fmap in Hin as (x & Hx & Hxin);
      [apply list_elem_of_In, filter_In in Hxin as [Hxin _]; apply list_elem_of_In in Hxin|];
      by exists x. }
  destruct Hk as (x & Hx & Hxk). destruct (Hkeys x Hx) as (pp & pt & ct & Hc).
  rewrite Hxk in Hc. injection Hc as Hc.
  rewrite Forall_forall in Hthemen. rewrite Ht in Hth.
  pose proof (Hthemen th Hth) as Hd. rewrite Hc in Hd.
  unfold compose_key in Hd. destruct ct as [c|]; [destruct (String.eqb c "")|];
    by rewrite contains_dcolon_app in Hd.
Qed.

Lemma relevante_parent_themen_zusammengesetzt_witness :
  relevante_parent_themen Beispielzustand.f_e2 (antworten Beispielzustand.fm_e12 !! "e2") (Some "1")
  = [].
Proof.
  assert (H : antworten Beispielzustand.fm_e12 !! "e2"
              = Some (mkAntwort "e2" [mkAuswahl (Some "e1::t1::c1") (Some "A") "1"]))
    by (vm_compute; reflexivity).
  rewrite H. apply relevante_parent_themen_zusammengesetzt.
  - intros x ->%list_elem_of_singleton. by exists "e1", "t1", (Some "c1").
  - repeat constructor.
Defined.

(** In the three-level chain, once [e1] and [e2] are answered (with the
    option [e3] requires), the scheduler returns [e3] as a unit with no
    context, which the driver polls forever. *)
Example enkelfrage_ohne_kontext :
  match naechste_frage Beispielzustand.umdrehen Beispielzustand.fm_e12 with
  | inr (Some sf, _) => sf_frage_id sf = "e3" /\ themenkontexte sf = []
  | _ => False
  end.
Proof. vm_compute. split; reflexivity. Qed.

(** [Antwort.filter_themen_nach_antwortoption(o)] keeps the entries
    without a topic too: [None] is in its result exactly when an entry
    without a topic key has option [o] (the test [a.hat_echtes_thema] is
    the bound method, not its result). *)
Theorem filter_themen_ohne_thema ant o :
  None ∈ filter_themen_nach_antwortoption ant o <->
  exists x, x ∈ auswahl ant /\ thema_key x = None /\ option_key x = o.
Proof.
  unfold filter_themen_nach_antwortoption. rewrite list_elem_of_fmap. split.
  - intros (x & Hx & Hin). apply list_elem_of_In, filter_In in Hin as [Hin Ho].
    exists x. split; [by apply list_elem_of_In|]. split; [done|]. by apply String.eqb_eq.
  - intros (x & Hin & Hx & Ho). exists x. split; [done|].
    apply list_elem_of_In, filter_In. split; [by apply list_elem_of_In|]. by apply String.eqb_eq.
Qed.
