(* ===== verification/Fragesteller.v ===== *)
(** * The interview graph

    The LangGraph nodes of
    [src/src/komponenten/siliconsamplesgenerator/fragesteller/fragesteller.py]:
    the context key, the briefing ([node_fragenintro_generieren]), the
    question message ([node_frage_generieren]), the reply parser
    [llm_antwort_parsen] and the validator [node_antwort_validieren], the
    ask/validate retry loop (with fuel: the source has no attempt cap) and
    one graph invocation [aufrufen] over the thread's persisted state,
    and the loop's relational specification [zyklus], which the fuelled
    loop refines. *)

From Stdlib Require Decidable.
From S2P Require Import Prelude PyStr Generator Dokumente Katalog Fragenmanager.

Open Scope string_scope.
Open Scope list_scope.
Open Scope py_scope.

Import Katalog.Models Fragenmanager.Daten Generator.Generator Dokumente.Modelle.

Module Graph.

(** Exceptions that leave the graph and abort the run. *)
Inductive Laufzeitfehler :=
  | TypeError (was : string)
  | AttributeError (was : string)
  | Fragestellerfehler (e : FM.FragestellerFehler)
  | Modellfehler (was : string).

(** The outcome of a computation given fuel: a value, a propagated
    exception, or fuel exhausted before either. *)
Inductive Ausgang (A : Type) :=
  | Fertig (a : A)
  | Abbruch (e : Laufzeitfehler)
  | KeinBrennstoff.
Arguments Fertig {A} a.
Arguments Abbruch {A} e.
Arguments KeinBrennstoff {A}.

(** [f"{x}"] of an optional string. *)
Definition py_str_opt (s : option string) : string :=
    match s with Some t => t | None => "None" end.

(** [f"{frage_id}-{kontext.parent_thema_key}"] *)
Definition kontext_key (sf : StrukturierteFrage) (k : ThemenKontext) : string :=
    sf_frage_id sf +++ "-" +++ py_str_opt (parent_thema_key k).

(** What the interview reads from [Prompt]: the briefing templates and
    the two [prompt_data] entries [personas_nutzen], [aktuelle_persona]
    (a persona dictionary, or [None]). *)
Record Befragungskonfig := mkKonfig {
    intro_prompts : list (string * string);
    personas_nutzen : bool;
    aktuelle_persona : option (list (string * string))
  }.

(** The tables a summary contributes to the briefing: the summarised
    tables when there are any, else the extracted ones. *)
Definition tabellen_von (z : Zusammenfassung) : list string :=
    match tabellen_zusammengefasst z with
    | [] => tabellen_extrahiert z
    | ts => ts
    end.

(** ["\n".join(...)] of a heading and its entries, when there are entries. *)
Definition abschnitt (titel : string) (werte : list string) : list string :=
    match werte with
    | [] => []
    | _ => ("\n" +++ titel) :: ((fun w => "\n" +++ w) <$> werte)
    end.

Section Knoten.
(** [template.format_map(SafeDict(data))]: Python's [str.format_map],
    taken as given. *)
Variable prompt_formatieren : string -> list (string * string) -> string.

(** The briefing template of [node_fragenintro_generieren], by persona
    use and presence of reference documents. *)
Definition intro_name (personas : bool) (zs : list Zusammenfassung) : string :=
    match personas, zs with
    | true, [] => "fragen_intro_mit_persona_ohne_referenzen"
    | true, _ :: _ => "fragen_intro_mit_persona_mit_referenzen"
    | false, [] => "fragen_intro_ohne_persona_ohne_referenzen"
    | false, _ :: _ => "fragen_intro_ohne_persona_mit_referenzen"
    end.

(** [node_fragenintro_generieren]: the system message, through
    [hole_prompt_aus_graph] (generator.py), which evaluates
    [prompt_template.format_map(SafeDict(prompt_data))]: a missing
    template is [None.format_map], an [AttributeError]; a persona of
    [None] is [SafeDict(None)], a [TypeError].  Without personas the
    default [prompt_data={}] is used. *)
Definition fragenintro (cfg : Befragungskonfig) (zs : list Zusammenfassung)
      : Laufzeitfehler + Nachricht :=
    let daten := if personas_nutzen cfg then aktuelle_persona cfg else Some [] in
    match dict_get (intro_prompts cfg) (intro_name (personas_nutzen cfg) zs) with
    | None => inl (AttributeError "format_map")
    | Some vorlage =>
        match daten with
        | None => inl (TypeError "SafeDict(None)")
        | Some daten =>
            let texte := text_zusammengefasst <$> zs in
            let tabellen := List.flat_map tabellen_von zs in
            inr (SystemMessage (join (String (chr 10) "")
                   ([prompt_formatieren vorlage daten]
                    ++ abschnitt "Texte:" texte ++ abschnitt "Tabellen:" tabellen)))
        end
    end.
End Knoten.

Definition nl : string := String (chr 10) "".

(** [node_frage_generieren]: the rendered question, the topics of every
    context sharing its rendered text, and the options. *)
Definition frage_text (sf : StrukturierteFrage) (kontext : ThemenKontext) : string :=
    join nl
      (["Frage: " +++ text_gerendert kontext]
       ++ (match themenkontexte sf with
           | [] => []
           | ks => (nl +++ "Aussagen:") ::
                   ((fun k => py_str_opt (composite_key k) +++ ": " +++ py_str_opt (child_thema_text k))
                      <$> filter (fun k => text_gerendert k = text_gerendert kontext) ks)
           end)
       ++ (match antwortoptionen sf with
           | [] => []
           | os => (nl +++ "Antwortoptionen:") :: ((fun o => oid o +++ " (" +++ otext o +++ ")") <$> os)
           end)).

Definition frage_nachricht (sf : StrukturierteFrage) (kontext : ThemenKontext) : Nachricht :=
    HumanMessage (frage_text sf kontext).

(** ** [llm_antwort_parsen(llm_antwort)]

    Blank lines and lines starting with [#] are skipped; every other
    line must contain a colon and split at its last colon into a
    non-empty key and value.  A [ValueError] carries its message. *)
Fixpoint parse_zeilen (zeilen : list string) (paare : list (string * string))
      : string + list (string * string) :=
    match zeilen with
    | [] => inr paare
    | raw :: rest =>
        let line := strip raw in
        if String.eqb line "" || starts_with_char "#" line then parse_zeilen rest paare
        else if negb (contains_char ":" line) then
          inl ("Ungültige Zeile (kein ':'): " +++ raw)
        else match rsplit_colon line with
             | None => inl ("Ungültige Zeile (kein ':'): " +++ raw)
             | Some (links, rechts) =>
                 let k := strip links in
                 let v := strip rechts in
                 if String.eqb k "" || String.eqb v "" then
                   inl ("Ungültige Zeile (leer nach Trim): " +++ raw)
                 else parse_zeilen rest (dict_set paare k v)
             end
    end.

Definition llm_antwort_parsen (llm_antwort : string) : string + list (string * string) :=
    parse_zeilen (splitlines llm_antwort) [].

(** ** [node_antwort_validieren] *)

(** [notwendige_keys]: the composite keys of the unit's contexts that
    share this context's rendered text. *)
Definition notwendige_keys (sf : StrukturierteFrage) (kontext : ThemenKontext)
      : list (option string) :=
    composite_key <$> filter (fun k => text_gerendert k = text_gerendert kontext)
                             (themenkontexte sf).

(** [erlaubte_values]: the option ids. *)
Definition erlaubte_values (sf : StrukturierteFrage) : list string :=
    oid <$> antwortoptionen sf.

(** [", ".join(keys)]: a [None] among the keys is a [TypeError]. *)
Definition join_keys (keys : list (option string)) : option string :=
    join ", " <$> mapM id keys.

(** The corrective message, part by part; [None] when a part cannot be
    joined. *)
Definition fehlermeldung (vorher gueltige ungueltige ungueltige_values gesamt : list string)
      (fehlende : list (option string)) : option string :=
    (fun f => join nl
       ["Deine Antwort ist nicht gültig. Bitte nochmal antworten. Beachte die Regeln." +++ nl +++ nl;
        "Vor deiner Antwort waren folgende Nummern gespeichert: " +++ join ", " vorher;
        "Deine Antwort beinhaltete folgende gültige Nummern: " +++ join ", " gueltige;
        "Deine Antwort beinhaltete folgende ungültige Nummern: " +++ join ", " ungueltige;
        "Deine Antwort beinhaltete ungültige Antworten zu folgenden Nummern: "
          +++ join ", " ungueltige_values;
        "Nach deiner Antwort waren folgende Nummern gespeichert: " +++ join ", " gesamt;
        "Folgende Nummern der Fragen/Aussagen fehlen insgesamt noch: " +++ f])
    <$> join_keys fehlende.

Inductive Pruefergebnis :=
  | Gueltig
  | Erneut (meldung : string)
  | Typfehler.

(** The node, with the running answer dictionary of the graph state:
    valid entries are merged into it (in place, before the decision),
    so they survive a retry.  [Gueltig] goes on to commit, [Erneut m]
    appends [m] as a user message and asks again, [Typfehler] is the
    [TypeError] that escapes the [except ValueError]. *)
Definition validiere (sf : StrukturierteFrage) (kontext : ThemenKontext)
      (llm_antwort : string) (antworten : list (string * string))
      : Pruefergebnis * list (string * string) :=
    let notwendige := notwendige_keys sf kontext in
    let erlaubte := erlaubte_values sf in
    let vorher := antworten.*1 in
    match llm_antwort_parsen llm_antwort with
    | inl meldung => (Erneut meldung, antworten)
    | inr neu =>
        let neu_keys := neu.*1 in
        let ungueltige_keys := filter (fun k => Some k ∉ notwendige) neu_keys in
        let ungueltige_values_keys :=
          (filter (fun kv => Some kv.1 ∈ notwendige /\ kv.2 ∉ erlaubte) neu).*1 in
        let gueltige_keys := filter (fun k => Some k ∈ notwendige) neu_keys in
        let neu_gueltig := filter (fun kv => Some kv.1 ∈ notwendige /\ kv.2 ∈ erlaubte) neu in
        let antworten' := dict_update antworten neu_gueltig in
        let gesamt := filter (fun k => Some k ∈ notwendige) antworten'.*1 in
        let fehlende := filter (fun k => k ∉ Some <$> gesamt) notwendige in
        if bool_decide (ungueltige_keys <> [] \/ fehlende <> [] \/ ungueltige_values_keys <> [])
        then match fehlermeldung vorher gueltige_keys ungueltige_keys ungueltige_values_keys
                                 gesamt fehlende with
             | Some m => (Erneut m, antworten')
             | None => (Typfehler, antworten')
             end
        else (Gueltig, antworten')
    end.

Section Zyklus.
(** The model: its reply to the [n]-th call, given the history, or the
    exception [invoke] raises (network, quota, timeout). *)
Variable llm : nat -> list Nachricht -> Laufzeitfehler + string.

(** [node_frage_stellen] and [node_antwort_validieren], repeated until a
    reply is valid.  Returns the history, the accepted answers and the
    number of calls made so far. *)
Fixpoint frage_zyklus (fuel : nat) (sf : StrukturierteFrage) (kontext : ThemenKontext)
      (n : nat) (messages : list Nachricht) (antworten : list (string * string))
      : Ausgang (list Nachricht * list (string * string) * nat) :=
    match fuel with
    | O => KeinBrennstoff
    | S fuel' =>
        match llm n messages with
        | inl e => Abbruch e
        | inr antwort =>
        let messages' := messages ++ [AIMessage antwort] in
        match validiere sf kontext antwort antworten with
        | (Gueltig, antworten') => Fertig (messages', antworten', S n)
        | (Erneut m, antworten') =>
            frage_zyklus fuel' sf kontext (S n) (messages' ++ [HumanMessage m]) antworten'
        | (Typfehler, _) =>
            Abbruch (TypeError "sequence item: expected str instance, NoneType found")
        end
        end
    end.

(** The thread's persisted channels (the [InMemorySaver] checkpoint of
    the fixed thread id): the input of an invocation only overwrites the
    keys it names, the rest carries over from the previous run. *)
Record GraphZustand := mkGZ {
    g_messages : list Nachricht;
    g_antworten : list (string * string);
    g_aktueller : option string;
    g_letzter : option string
  }.

(** [self.aufrufen(state, ...)]: one run of the compiled graph for one
    context, from the persisted thread state. *)
Definition aufrufen (fuel : nat) (intro : Laufzeitfehler + Nachricht) (gz : GraphZustand)
      (sf : StrukturierteFrage) (kontext : ThemenKontext) (letzter : option string) (n : nat)
      : Ausgang (GraphZustand * nat) :=
    let aktueller := kontext_key sf kontext in
    let gz1 := mkGZ (g_messages gz) (g_antworten gz) (Some aktueller) letzter in
    if bool_decide (letzter = Some aktueller) then Fertig (gz1, n)
    else
      match intro with
      | inl e => Abbruch e
      | inr intro =>
      let messages := [intro; frage_nachricht sf kontext] in
      match frage_zyklus fuel sf kontext n messages [] with
      | Fertig (messages', antworten', n') =>
          Fertig (mkGZ messages' antworten' (Some aktueller) (Some aktueller), n')
      | Abbruch e => Abbruch e
      | KeinBrennstoff => KeinBrennstoff
      end
      end.
End Zyklus.

End Graph.

(** ** Example units

    The unit the scheduler builds for the question on two topics of
    [Fragenmanager.Beispielzustand] (case B: one context per topic, each
    with its own rendered text), and for a question without topics
    (case C: one context without a composite key). *)

Module Beispielgraph.
Import FM Graph.

Definition kein_kontext : ThemenKontext := mkKontext None None None None None None "".

Definition sf_themen : StrukturierteFrage :=
  (baue_strukturierte_frage Beispielzustand.umdrehen Beispielzustand.fm0 Beispielzustand.f1).1.

Definition k_t1 : ThemenKontext := nth 0 (themenkontexte sf_themen) kein_kontext.

Definition f_ohne : Frage :=
  mkFrage "q3" "Wie alt sind Sie?" [mkOption "1" "jung"; mkOption "2" "alt"] [] None None None false.

Definition sf_ohne : StrukturierteFrage :=
  (baue_strukturierte_frage Beispielzustand.umdrehen (init [f_ohne] ∅ 0) f_ohne).1.

Definition k_ohne : ThemenKontext := nth 0 (themenkontexte sf_ohne) kein_kontext.

(** The validation scenario: three required keys [a], [b], [c] sharing
    one rendered text, options [1], [2], [3]. *)
Definition f_abc : Frage :=
  mkFrage "abc" "Bewerten Sie:" [mkOption "1" "gut"; mkOption "2" "mittel"; mkOption "3" "schlecht"]
    [mkThema "a" "A"; mkThema "b" "B"; mkThema "c" "C"] None None None false.

Definition sf_abc : StrukturierteFrage :=
  (baue_strukturierte_frage Beispielzustand.umdrehen (init [f_abc] ∅ 0) f_abc).1.

Definition k_abc : ThemenKontext := nth 0 (themenkontexte sf_abc) kein_kontext.

(** A model that answers [a], [b] and [c] at once. *)
Definition modell_abc (_ : nat) (_ : list Nachricht) : Laufzeitfehler + string :=
  inr ("a: 1" +++ nl +++ "b: 2" +++ nl +++ "c: 3").

(** A model that always gives option ["2"] for the key ["q3"]. *)
Definition modell_alt (_ : nat) (_ : list Nachricht) : Laufzeitfehler + string := inr "q3: 2".

End Beispielgraph.

(** ** The reply format the briefing asks for

    One line [key: value] per required key.  A key may contain colons
    (composite keys do), a value may not. *)

Module Antwortformat.
Import Graph.

Definition schluessel_ok (k : string) : bool :=
  ohne_rand k && alle kein_umbruch k && negb (starts_with_char "#" k).

Definition wert_ok (v : string) : bool :=
  ohne_rand v && alle kein_umbruch v && alle kein_doppelpunkt v.

Definition antwort_zeile (kv : string * string) : string := kv.1 +++ ": " +++ kv.2.

Definition antwort_text (paare : list (string * string)) : string :=
  join nl (antwort_zeile <$> paare).

End Antwortformat.

(** ** The ask/validate loop as a relation

    The abstract behaviour of [node_frage_stellen] and
    [node_antwort_validieren] with the retry edge, without fuel: the
    outcome [zyklus n messages antworten r] is reached from call [n]
    with that history and those running answers.  [frage_zyklus]
    refines it. *)
Module Zyklusspezifikation.
Import Graph.

Section Spezifikation.
Variable llm : nat -> list Nachricht -> Laufzeitfehler + string.
Variable sf : StrukturierteFrage.
Variable kontext : ThemenKontext.

Inductive zyklus : nat -> list Nachricht -> list (string * string)
                   -> Ausgang (list Nachricht * list (string * string) * nat) -> Prop :=
  | zyklus_gueltig n ms ant a ant' :
      llm n ms = inr a -> validiere sf kontext a ant = (Gueltig, ant') ->
      zyklus n ms ant (Fertig (ms ++ [AIMessage a], ant', S n))
  | zyklus_erneut n ms ant a m ant' r :
      llm n ms = inr a -> validiere sf kontext a ant = (Erneut m, ant') ->
      zyklus (S n) (ms ++ [AIMessage a] ++ [HumanMessage m]) ant' r ->
      zyklus n ms ant r
  | zyklus_typfehler n ms ant a ant' :
      llm n ms = inr a -> validiere sf kontext a ant = (Typfehler, ant') ->
      zyklus n ms ant (Abbruch (TypeError "sequence item: expected str instance, NoneType found"))
  | zyklus_modellfehler n ms ant e :
      llm n ms = inl e -> zyklus n ms ant (Abbruch e).
End Spezifikation.

End Zyklusspezifikation.

(** * Properties of the interview graph *)

Import Graph.

(** ** Validation *)

(** C6: a reply is accepted exactly when it parses, names only required
    keys, gives every one of them an allowed option, and together with the
    answers kept from earlier attempts covers every required key; the
    accepted answers are the earlier ones updated with the reply's. *)
Theorem validiere_gueltig sf k a ant ant' :
  validiere sf k a ant = (Gueltig, ant') <->
  exists neu, llm_antwort_parsen a = inr neu /\
    (forall key, key ∈ neu.*1 -> Some key ∈ notwendige_keys sf k) /\
    (forall kv, kv ∈ neu -> kv.2 ∈ erlaubte_values sf) /\
    (forall o, o ∈ notwendige_keys sf k -> exists key, o = Some key /\ key ∈ (dict_update ant neu).*1) /\
    ant' = dict_update ant neu.
Proof.
  unfold validiere. destruct (llm_antwort_parsen a) as [m|neu]; [naive_solver|].
  case_bool_decide as Hbad.
  - split; [by case_match|]. intros (neu' & [= <-] & Hk & Hv & Hcov & ->). exfalso.
    destruct Hbad as [Hb|[Hb|Hb]]; apply Hb; [apply filter_nil_iff|apply filter_nil_iff|].
    + intros key Hkey Hn. by apply Hn, Hk.
    + intros o Ho Hn. destruct (Hcov o Ho) as (key & -> & Hin). apply Hn.
      apply list_elem_of_fmap. exists key. split; [done|]. apply list_elem_of_filter.
      split; [done|]. rewrite (filter_all _ neu); [done|].
      intros kv Hkv. split; [apply Hk, list_elem_of_fmap; by exists kv|by apply Hv].
    + enough (filter _ neu = []) as -> by done. apply filter_nil_iff.
      intros kv Hkv [_ Hn]. by apply Hn, Hv.
  - apply Decidable.not_or in Hbad as [Hb1 Hbad]. apply Decidable.not_or in Hbad as [Hb2 Hb3].
    apply dec_stable in Hb1, Hb2, Hb3. apply fmap_nil_inv in Hb3.
    pose proof (proj1 (filter_nil_iff _ _) Hb1) as Hn1.
    pose proof (proj1 (filter_nil_iff _ _) Hb2) as Hn2.
    pose proof (proj1 (filter_nil_iff _ _) Hb3) as Hn3.
    assert (Hk : forall key, key ∈ neu.*1 -> Some key ∈ notwendige_keys sf k).
    { intros key Hkey. destruct (decide (Some key ∈ notwendige_keys sf k)); [done|].
      by exfalso; apply (Hn1 key). }
    assert (Hv : forall kv, kv ∈ neu -> kv.2 ∈ erlaubte_values sf).
    { intros kv Hkv. destruct (decide (kv.2 ∈ erlaubte_values sf)); [done|].
      exfalso. apply (Hn3 kv Hkv). split; [|done].
      apply Hk, list_elem_of_fmap. by exists kv. }
    rewrite (filter_all _ neu) in Hn2 |- *.
    2,3: intros kv Hkv; split; [apply Hk, list_elem_of_fmap; by exists kv|by apply Hv].
    split; [intros [= <-]|intros (neu' & [= <-] & _ & _ & _ & ->); done].
    exists neu. do 3 (split; [done|]). split; [|done].
    intros o Ho. destruct (decide (o ∈ Some <$> filter (fun key => Some key ∈ notwendige_keys sf k)
                                       (dict_update ant neu).*1)) as [Hin|Hin].
    + apply list_elem_of_fmap in Hin as (key & -> & Hkey).
      apply list_elem_of_filter in Hkey as [_ Hkey]. by exists key.
    + by exfalso; apply (Hn2 o).
Qed.

(** Answers accepted in an attempt are kept by every later attempt of
    the same batch: validation never drops a key from the running
    answers, whatever the reply (the dictionary is updated in place). *)
Theorem validiere_behaelt sf k a ant r ant' :
  validiere sf k a ant = (r, ant') -> ant.*1 ⊆ ant'.*1.
Proof.
  unfold validiere. destruct (llm_antwort_parsen a) as [m|neu]; [by intros [= _ <-]|].
  intros H. assert (ant' = dict_update ant
    (filter (fun kv => Some kv.1 ∈ notwendige_keys sf k /\ kv.2 ∈ erlaubte_values sf) neu)) as ->.
  { revert H. repeat case_match; by intros [= _ <-]. }
  apply dict_update_keys_sub.
Qed.

Lemma validiere_behaelt_witness :
  (validiere Beispielgraph.sf_themen Beispielgraph.k_t1 "t1: 9" [("t2", "1")]).2 = [("t2", "1")] /\
  [("t2", "1")].*1 ⊆
    (validiere Beispielgraph.sf_themen Beispielgraph.k_t1 "t1: 9" [("t2", "1")]).2.*1.
Proof.
  split; [vm_compute; reflexivity|].
  apply (validiere_behaelt Beispielgraph.sf_themen Beispielgraph.k_t1 "t1: 9" [("t2", "1")]
           (validiere Beispielgraph.sf_themen Beispielgraph.k_t1 "t1: 9" [("t2", "1")]).1).
  apply surjective_pairing.
Defined.

Lemma join_keys_None l : None ∈ l -> join_keys l = None.
Proof.
  intros Hl. unfold join_keys. enough (mapM id l = None) as -> by done.
  apply mapM_None_2. apply Exists_exists. by exists None.
Qed.

(** A context without a composite key makes every reply that parses end
    in the [TypeError], and no reply valid. *)
Lemma validiere_ohne_key sf k a ant :
  None ∈ notwendige_keys sf k ->
  fst (validiere sf k a ant) <> Gueltig /\
  (forall neu, llm_antwort_parsen a = inr neu -> fst (validiere sf k a ant) = Typfehler).
Proof.
  intros Hn. unfold validiere. destruct (llm_antwort_parsen a) as [m|neu]; [done|].
  unfold fehlermeldung. rewrite join_keys_None.
  2: { apply list_elem_of_filter. split; [|done]. intros (x & [=] & _)%list_elem_of_fmap. }
  rewrite bool_decide_true.
  2: { right; left. intros Hnil. eapply filter_nil_not_elem_of; [exact Hnil| |exact Hn].
       intros (x & [=] & _)%list_elem_of_fmap. }
  simpl. split; [done|]. by intros ? [= ->].
Qed.

(** C2: a context with no composite key, which the scheduler builds for a
    question without topics, can never be answered: the ask/validate loop
    never commits, whatever the model replies; it retries on replies that
    do not parse and aborts with a [TypeError] at the first that does. *)
Theorem frage_zyklus_ohne_key llm fuel sf k n msgs ant x :
  None ∈ notwendige_keys sf k -> frage_zyklus llm fuel sf k n msgs ant <> Fertig x.
Proof.
  intros Hn. revert n msgs ant. induction fuel as [|fuel IH]; intros n msgs ant; [done|].
  simpl. destruct (llm n msgs) as [e|a]; [done|].
  destruct (validiere sf k a ant) as [[| m |] ant'] eqn:Hv.
  - exfalso. apply (proj1 (validiere_ohne_key sf k a ant Hn)). by rewrite Hv.
  - apply IH.
  - done.
Qed.

Lemma frage_zyklus_ohne_key_witness :
  frage_zyklus Beispielgraph.modell_alt 3 Beispielgraph.sf_ohne Beispielgraph.k_ohne 0 [] []
    = Abbruch (TypeError "sequence item: expected str instance, NoneType found") /\
  forall x, frage_zyklus Beispielgraph.modell_alt 3 Beispielgraph.sf_ohne Beispielgraph.k_ohne
              0 [] [] <> Fertig x.
Proof.
  split; [vm_compute; reflexivity|]. intros x.
  apply frage_zyklus_ohne_key. vm_compute. constructor.
Defined.

(** ** The reply parser *)

Import Antwortformat.

Lemma ohne_rand_nicht_leer s : ohne_rand s = true -> s <> "".
Proof. by destruct s. Qed.

Lemma erstes_app a b : a <> "" -> erstes (a +++ b) = erstes a.
Proof. by destruct a. Qed.

Lemma antwort_zeile_strip k v :
  schluessel_ok k = true -> wert_ok v = true -> strip (antwort_zeile (k, v)) = antwort_zeile (k, v).
Proof.
  unfold schluessel_ok, wert_ok. intros [[Hk _]%andb_true_iff _]%andb_true_iff
                                       [[Hv _]%andb_true_iff _]%andb_true_iff.
  apply strip_ohne. unfold antwort_zeile, ohne_rand; simpl.
  rewrite erstes_app by (by apply ohne_rand_nicht_leer).
  rewrite letztes_app by discriminate.
  rewrite (letztes_app ": " v) by (by apply ohne_rand_nicht_leer).
  unfold ohne_rand in Hk, Hv. destruct (erstes k), (letztes k); try done.
  destruct (erstes v), (letztes v); try done.
  apply andb_true_iff in Hk as [Hk _]. apply andb_true_iff in Hv as [_ Hv]. by rewrite Hk, Hv.
Qed.

Lemma strip_leerzeichen v : strip (String " " v) = strip v.
Proof. reflexivity. Qed.

Lemma parse_zeilen_schritt k v rest paare :
  schluessel_ok k = true -> wert_ok v = true ->
  parse_zeilen (antwort_zeile (k, v) :: rest) paare = parse_zeilen rest (dict_set paare k v).
Proof.
  intros Hk Hv. cbn [parse_zeilen]. rewrite antwort_zeile_strip by done.
  pose proof Hk as Hk'. pose proof Hv as Hv'.
  unfold schluessel_ok in Hk'. apply andb_true_iff in Hk' as [[Hkr _]%andb_true_iff Hh].
  unfold wert_ok in Hv'. apply andb_true_iff in Hv' as [[Hvr _]%andb_true_iff Hc].
  apply ohne_rand_nicht_leer in Hkr. apply ohne_rand_nicht_leer in Hvr.
  unfold antwort_zeile; simpl.
  assert (Hline : k +++ ": " +++ v = k +++ String ":" (String " " v)) by reflexivity.
  rewrite Hline.
  replace (String.eqb (k +++ String ":" (String " " v)) "") with false by (by destruct k).
  replace (starts_with_char "#" (k +++ String ":" (String " " v))) with (starts_with_char "#" k)
    by (by destruct k).
  apply negb_true_iff in Hh. rewrite Hh. simpl.
  rewrite contains_char_app. simpl.
  rewrite rsplit_colon_app by (simpl; by rewrite Hc).
  rewrite strip_leerzeichen, !strip_ohne by (unfold schluessel_ok, wert_ok in *; by
    repeat match goal with H : _ && _ = true |- _ => apply andb_true_iff in H as [? ?] end).
  by rewrite (proj2 (String.eqb_neq _ _) Hkr), (proj2 (String.eqb_neq _ _) Hvr).
Qed.

Lemma splitlines_join (ls : list string) :
  Forall (fun l => alle kein_umbruch l = true /\ l <> "") ls -> splitlines (join nl ls) = ls.
Proof.
  unfold splitlines. induction 1 as [|x ls [Hx Hne] Hls IH]; [done|].
  destruct ls as [|y ls].
  - simpl. by rewrite splitlines_acc_letzte.
  - change (join nl (x :: y :: ls)) with (x +++ nl +++ join nl (y :: ls)).
    change (nl +++ join nl (y :: ls)) with (String (chr 10) (join nl (y :: ls))).
    rewrite splitlines_acc_zeile by done. by rewrite IH.
Qed.

Lemma antwort_zeile_ok k v :
  schluessel_ok k = true -> wert_ok v = true ->
  alle kein_umbruch (antwort_zeile (k, v)) = true /\ antwort_zeile (k, v) <> "".
Proof.
  unfold schluessel_ok, wert_ok, antwort_zeile. simpl.
  intros [[Hk Hku]%andb_true_iff _]%andb_true_iff [[_ Hvu]%andb_true_iff _]%andb_true_iff.
  rewrite !alle_app, Hku, Hvu. split; [done|]. apply ohne_rand_nicht_leer in Hk. by destruct k.
Qed.

Lemma parse_zeilen_antworten paare acc :
  Forall (fun kv => schluessel_ok kv.1 = true /\ wert_ok kv.2 = true) paare ->
  NoDup (acc.*1 ++ paare.*1) ->
  parse_zeilen (antwort_zeile <$> paare) acc = inr (acc ++ paare).
Proof.
  intros Hok. revert acc. induction Hok as [|[k v] paare [Hk Hv] Hok IH]; intros acc Hnd;
    [simpl; by rewrite app_nil_r|].
  rewrite fmap_cons, parse_zeilen_schritt by done.
  assert (k ∉ acc.*1) as Hnew.
  { intros Hin. apply NoDup_app in Hnd as (_ & Hdis & _). by apply (Hdis k); [|left]. }
  rewrite dict_set_neu by done. rewrite IH.
  - by rewrite <-app_assoc.
  - rewrite fmap_app, <-app_assoc. done.
Qed.

(** a reply in the format the briefing asks for, one line [key: value]
    per pair, is parsed back into exactly those pairs, in order, when the
    keys are distinct, no key or value has surrounding whitespace or a
    line break, no key starts with [#] and no value contains a colon
    (keys may: composite keys do). *)
Theorem llm_antwort_parsen_antwort_text paare :
  Forall (fun kv => schluessel_ok kv.1 = true /\ wert_ok kv.2 = true) paare ->
  NoDup paare.*1 ->
  llm_antwort_parsen (antwort_text paare) = inr paare.
Proof.
  intros Hok Hnd. unfold llm_antwort_parsen, antwort_text.
  rewrite splitlines_join.
  - by rewrite (parse_zeilen_antworten paare []).
  - apply Forall_fmap. eapply Forall_impl; [exact Hok|]. intros [k v] [Hk Hv].
    by apply antwort_zeile_ok.
Qed.

Lemma llm_antwort_parsen_antwort_text_witness :
  llm_antwort_parsen (antwort_text [("q1::t1::x", "1"); ("t2", "2")])
  = inr [("q1::t1::x", "1"); ("t2", "2")].
Proof.
  apply llm_antwort_parsen_antwort_text.
  - repeat constructor.
  - apply (bool_decide_unpack (NoDup (["q1::t1::x"; "t2"]))). vm_compute. exact I.
Defined.

(** The validation scenario: with required keys [a], [b], [c] and
    options [1], [2], [3], the reply [a: 1 / b: 2] is refused ([c] is
    missing) but its two answers are kept; the reply [a: 1 / b: 2 /
    c: 3] is then accepted with all three answers. *)
Example validierung_szenario :
  match validiere Beispielgraph.sf_abc Beispielgraph.k_abc ("a: 1" +++ nl +++ "b: 2") [] with
  | (Erneut _, ant1) =>
      ant1 = [("a", "1"); ("b", "2")] /\
      validiere Beispielgraph.sf_abc Beispielgraph.k_abc
        ("a: 1" +++ nl +++ "b: 2" +++ nl +++ "c: 3") ant1
      = (Gueltig, [("a", "1"); ("b", "2"); ("c", "3")])
  | _ => False
  end.
Proof. vm_compute. split; reflexivity. Qed.

(** ** The ask/validate loop refines its relation *)

Import Zyklusspezifikation.

Section ZyklusEigenschaften.
Context (llm : nat -> list Nachricht -> Laufzeitfehler + string)
        (sf : StrukturierteFrage) (kontext : ThemenKontext).

Lemma frage_zyklus_zyklus fuel n ms ant r :
  frage_zyklus llm fuel sf kontext n ms ant = r -> r <> KeinBrennstoff ->
  zyklus llm sf kontext n ms ant r.
Proof.
  revert n ms ant. induction fuel as [|fuel IH]; intros n ms ant Hr Hne; simpl in Hr; [by subst|].
  destruct (llm n ms) as [e|a] eqn:Hl; [subst; by constructor|].
  destruct (validiere sf kontext a ant) as [[|m|] ant'] eqn:Hv; subst.
  - by constructor.
  - eapply zyklus_erneut; [done|done|]. apply IH; [|done]. by rewrite app_assoc.
  - by eapply zyklus_typfehler.
Qed.

Lemma zyklus_frage_zyklus n ms ant r :
  zyklus llm sf kontext n ms ant r ->
  exists fuel, forall fuel', fuel <= fuel' -> frage_zyklus llm fuel' sf kontext n ms ant = r.
Proof.
  induction 1 as [n ms ant a ant' Hl Hv|n ms ant a m ant' r Hl Hv _ [fuel IH]
                 |n ms ant a ant' Hl Hv|n ms ant e Hl].
  - exists 1. intros [|f] Hf; [lia|]. simpl. by rewrite Hl, Hv.
  - exists (S fuel). intros [|f] Hf; [lia|]. simpl. rewrite Hl, Hv, <-app_assoc.
    apply IH. lia.
  - exists 1. intros [|f] Hf; [lia|]. simpl. by rewrite Hl, Hv.
  - exists 1. intros [|f] Hf; [lia|]. simpl. by rewrite Hl.
Qed.
End ZyklusEigenschaften.

(** the fuelled loop [frage_zyklus] implements the relation
    [zyklus] of the ask/validate loop exactly: an outcome other than
    running out of fuel is returned for some fuel if and only if the
    relation reaches it. *)
Theorem frage_zyklus_verfeinert llm sf kontext n ms ant r :
  r <> KeinBrennstoff ->
  (exists fuel, frage_zyklus llm fuel sf kontext n ms ant = r) <-> zyklus llm sf kontext n ms ant r.
Proof.
  intros Hne. split.
  - intros [fuel Hf]. by eapply frage_zyklus_zyklus.
  - intros Hz. destruct (zyklus_frage_zyklus _ _ _ _ _ _ _ Hz) as [fuel Hf].
    exists fuel. by apply Hf.
Qed.

Lemma frage_zyklus_verfeinert_witness :
  (exists fuel, frage_zyklus Beispielgraph.modell_abc fuel Beispielgraph.sf_abc Beispielgraph.k_abc 0 [] []
                = frage_zyklus Beispielgraph.modell_abc 1 Beispielgraph.sf_abc Beispielgraph.k_abc 0 [] [])
  <-> zyklus Beispielgraph.modell_abc Beispielgraph.sf_abc Beispielgraph.k_abc 0 [] []
        (frage_zyklus Beispielgraph.modell_abc 1 Beispielgraph.sf_abc Beispielgraph.k_abc 0 [] []).
Proof. apply frage_zyklus_verfeinert. vm_compute. discriminate. Defined.

(** fuel only bounds the observation: once [frage_zyklus] returns
    something other than running out of fuel, every larger fuel returns
    the same outcome, so a loop that ends with some fuel ends with all
    larger ones. *)
Theorem frage_zyklus_brennstoff llm sf kontext fuel fuel' n ms ant :
  frage_zyklus llm fuel sf kontext n ms ant <> KeinBrennstoff -> fuel <= fuel' ->
  frage_zyklus llm fuel' sf kontext n ms ant = frage_zyklus llm fuel sf kontext n ms ant.
Proof.
  revert fuel' n ms ant. induction fuel as [|fuel IH]; intros fuel' n ms ant Hne Hle; [done|].
  destruct fuel' as [|fuel']; [lia|]. simpl in *.
  destruct (llm n ms); [done|]. destruct (validiere _ _ _ _) as [[|m|] ant']; [done| |done].
  apply IH; [done|lia].
Qed.

Lemma frage_zyklus_brennstoff_witness :
  frage_zyklus Beispielgraph.modell_abc 5 Beispielgraph.sf_abc Beispielgraph.k_abc 0 [] []
  = frage_zyklus Beispielgraph.modell_abc 1 Beispielgraph.sf_abc Beispielgraph.k_abc 0 [] [].
Proof. apply frage_zyklus_brennstoff; [vm_compute; discriminate|lia]. Defined.
