(* ===== verification/Befragung.v ===== *)
(** * One simulated respondent: [Fragesteller.starten]

    The driver loop of
    [src/src/komponenten/siliconsamplesgenerator/fragesteller/fragesteller.py]
    ([Fragesteller.starten], lines 90-173): poll the scheduler, run the
    graph once per context whose context key differs from the last handled
    one, commit the accepted answers, collect the transcripts; at the end
    build [SiliconSamples] and reset the shared answers.  The loop is
    [while True] in the source and runs here on fuel. *)

From S2P Require Import Prelude PyStr Generator Dokumente Katalog Fragenmanager Fragesteller.

Open Scope string_scope.
Open Scope list_scope.
Open Scope py_scope.

Import Katalog.Models Fragenmanager.Daten Fragenmanager.FM Generator.Generator
       Dokumente.Modelle Fragesteller.Graph.

Module Lauf.

(** The loop's local state: the scheduler, [letzter_kontext_key], the
    transcripts, the graph thread's persisted channels and the number of
    model calls made (which indexes the model's replies). *)
Record Lauf := mkLauf {
    l_fm : Fragenmanager;
    l_letzter : option string;
    l_verlaeufe : list LLMChatverlauf;
    l_gz : GraphZustand;
    l_aufrufe : nat
  }.

Inductive Laufergebnis :=
  | Beendet (l : Lauf)
  | Abgebrochen (e : Laufzeitfehler) (l : Lauf)
  | Erschoepft.

(** [@dataclass(frozen=True) class SiliconSamples]; the model
    configuration and token counters come from the provider and are not
    modelled. *)
Record SiliconSamples := mkSiliconSamples {
    ss_zusammenfassungen : list Zusammenfassung;
    ss_fragen : list (string * Frage);
    ss_antworten : gmap string Antwort;
    ss_chatverlaeufe : list LLMChatverlauf
  }.

(** The outcome of [starten], with the class-level answer dictionary
    [Fragenmanager.antworten] as the run leaves it. *)
Inductive Starten :=
  | Ok (ergebnis : SiliconSamples) (geteilt : gmap string Antwort)
  | Fehler (e : Laufzeitfehler) (geteilt : gmap string Antwort)
  | Endlos.

(** The thread state of a freshly compiled graph. *)
Definition gz0 : GraphZustand := mkGZ [] [] None None.

Section Treiber.
Variable stichprobe : nat -> list string -> list string.
Variable llm : nat -> list Nachricht -> Laufzeitfehler + string.
Variable intro : Laufzeitfehler + Nachricht.

(** [for antwort_thema, antwort_option in antworten.items():
    fragenmanager.antwort_hinzufuegen(...)] *)
Definition antworten_uebernehmen (fm : Fragenmanager) (sf : StrukturierteFrage)
      (k : ThemenKontext) (antworten : list (string * string)) : Fragenmanager :=
    fold_left (fun fm kv => antwort_hinzufuegen fm (sf_frage_id sf) (Some kv.1)
                              (parent_thema_text k) kv.2) antworten fm.

(** [for themenkontext in strukturierte_frage.themenkontexte: ...] *)
Fixpoint kontexte_go (fuel : nat) (sf : StrukturierteFrage) (ks : list ThemenKontext)
      (l : Lauf) : Laufergebnis :=
    match ks with
    | [] => Beendet l
    | k :: ks' =>
        let key := kontext_key sf k in
        if bool_decide (l_letzter l = Some key) then kontexte_go fuel sf ks' l else
        match aufrufen llm fuel intro (l_gz l) sf k (l_letzter l) (l_aufrufe l) with
        | Fertig (gz, n) =>
            kontexte_go fuel sf ks'
              (mkLauf (antworten_uebernehmen (l_fm l) sf k (g_antworten gz))
                      (g_letzter gz)
                      (l_verlaeufe l ++ [mkChatverlauf ("chatverlauf-" +++ key) (g_messages gz)])
                      gz n)
        | Abbruch e => Abgebrochen e l
        | KeinBrennstoff => Erschoepft
        end
    end.

(** [while True: strukturierte_frage = fragenmanager.naechste_frage() ...] *)
Fixpoint befragung_go (fuel : nat) (l : Lauf) : Laufergebnis :=
    match fuel with
    | O => Erschoepft
    | S fuel' =>
        match naechste_frage stichprobe (l_fm l) with
        | inl e => Abgebrochen (Fragestellerfehler e) l
        | inr (None, fm) => Beendet (mkLauf fm (l_letzter l) (l_verlaeufe l) (l_gz l) (l_aufrufe l))
        | inr (Some sf, fm) =>
            match kontexte_go fuel sf (themenkontexte sf)
                    (mkLauf fm (l_letzter l) (l_verlaeufe l) (l_gz l) (l_aufrufe l)) with
            | Beendet l' => befragung_go fuel' l'
            | r => r
            end
        end
    end.

(** [Fragesteller.starten]: a new [Fragenmanager] over the questions
    (which sees the class-level answers [geteilt]), the loop, the result
    and [reset_antworten()].  An exception leaves the shared answers as
    they were when it was raised. *)
Definition starten (fuel : nat) (zs : list Zusammenfassung) (fs : list Frage)
      (geteilt : gmap string Antwort) (z : nat) : Starten :=
    match befragung_go fuel (mkLauf (init fs geteilt z) None [] gz0 0) with
    | Beendet l =>
        Ok (mkSiliconSamples zs (fragen (l_fm l)) (antworten (l_fm l)) (l_verlaeufe l))
           (antworten (reset_antworten (l_fm l)))
    | Abgebrochen e l => Fehler e (antworten (l_fm l))
    | Erschoepft => Endlos
    end.
End Treiber.

End Lauf.

(** ** Example questionnaires *)

Module Beispiele.
Import Lauf.

Definition optionen_ja_nein : list Option := [mkOption "1" "ja"; mkOption "2" "nein"].

(** A question whose text names its topic: each topic renders its own
    text, but all its contexts share the context key ["q-None"]. *)
Definition frage_mit_thema : Frage :=
    mkFrage "q" "Wie finden Sie {{thema}}?" optionen_ja_nein
      [mkThema "t1" "A"; mkThema "t2" "B"] None None None false.

Definition keine_stichprobe (_ : nat) (l : list string) : list string := l.

Definition modell_ja (_ : nat) (_ : list Nachricht) : Laufzeitfehler + string := inr "t1: 1".

Definition intro_fest : Laufzeitfehler + Nachricht := inr (SystemMessage "Intro").

(** The loop state after the first context of [frage_mit_thema] was
    answered. *)
Definition lauf_nach_t1 : Lauf :=
    mkLauf (antwort_hinzufuegen (init [frage_mit_thema] ∅ 0) "q" (Some "t1") None "1")
           (Some "q-None") [] gz0 1.

(** Two questions whose texts do not use their topics: the contexts of
    each share one rendered text and are answered in one batch. *)
Definition frage_gemeinsam : Frage :=
    mkFrage "q1" "Wie finden Sie das?" optionen_ja_nein
      [mkThema "t1" "A"; mkThema "t2" "B"] None None None false.

Definition frage_zwei : Frage :=
    mkFrage "q2" "Und das hier?" optionen_ja_nein [mkThema "u" "U"] None None None false.

(** The first respondent's model answers the first question and then
    fails (a timeout of the provider). *)
Definition modell_abbruch (n : nat) (_ : list Nachricht) : Laufzeitfehler + string :=
    match n with
    | O => inr ("t1: 1" +++ nl +++ "t2: 1")
    | S _ => inl (Modellfehler "timeout")
    end.

(** The second respondent's model answers the second question with
    option ["2"]. *)
Definition modell_zwei (_ : nat) (_ : list Nachricht) : Laufzeitfehler + string := inr "u: 2".

(** The class-level answers after the first respondent's run aborted. *)
Definition geteilt_nach_abbruch : gmap string Antwort :=
    match starten keine_stichprobe modell_abbruch intro_fest 100 [] [frage_gemeinsam; frage_zwei] ∅ 0 with
    | Ok _ g => g
    | Fehler _ g => g
    | Endlos => ∅
    end.
End Beispiele.

(** * Properties of the driver *)

Import Lauf.

Lemma kontexte_go_uebersprungen llm intro fuel sf ks l :
  Forall (fun k => l_letzter l = Some (kontext_key sf k)) ks ->
  kontexte_go llm intro fuel sf ks l = Beendet l.
Proof.
  induction 1 as [|k ks Hk _ IH]; [done|]. simpl.
  by rewrite bool_decide_true.
Qed.

(** C1: if the scheduler's next unit has only contexts whose context key is
    the last one handled (in particular, no context at all), the interview
    loop never ends: every pass skips them all, records nothing, makes no
    model call and gets the same unit again. *)
Theorem befragung_haengt st llm intro l sf fm1 :
  naechste_frage st (l_fm l) = inr (Some sf, fm1) ->
  Forall (fun k => l_letzter l = Some (kontext_key sf k)) (themenkontexte sf) ->
  forall fuel, befragung_go st llm intro fuel l = Erschoepft.
Proof.
  intros Hn Hall fuel. revert l fm1 Hn Hall.
  induction fuel as [|fuel IH]; intros l fm1 Hn Hall; [done|]. simpl.
  rewrite Hn, kontexte_go_uebersprungen by done.
  eapply IH; [|done]. simpl. unfold naechste_frage in *.
  destruct (naechste_frage_go_stabil _ _ _ _ _ Hn) as [[Hq _] Hst].
  rewrite <-Hq. apply Hst, fm_le_refl.
Qed.

Lemma befragung_haengt_witness :
  befragung_go Beispiele.keine_stichprobe Beispiele.modell_ja Beispiele.intro_fest 1000
    Beispiele.lauf_nach_t1 = Erschoepft.
Proof.
  eapply befragung_haengt; [vm_compute; reflexivity|].
  vm_compute. repeat constructor.
Defined.

(** ** The class-level answer dictionary *)

(** Every (question, topic key) recorded in [m1] is recorded in [m2]. *)
Definition antworten_enthalten (m1 m2 : gmap string Antwort) : Prop :=
  forall q a k, m1 !! q = Some a -> k ∈ gewaehlte_keys a ->
  exists a', m2 !! q = Some a' /\ k ∈ gewaehlte_keys a'.

Lemma antworten_enthalten_refl m : antworten_enthalten m m.
Proof. intros q a k Hq Hk. by exists a. Qed.

Lemma antworten_enthalten_trans m1 m2 m3 :
  antworten_enthalten m1 m2 -> antworten_enthalten m2 m3 -> antworten_enthalten m1 m3.
Proof.
  intros H12 H23 q a k Hq Hk. destruct (H12 q a k Hq Hk) as (a' & Hq' & Hk').
  exact (H23 q a' k Hq' Hk').
Qed.

#[export] Hint Resolve antworten_enthalten_refl : ssg.

Lemma antwort_hinzufuegen_enthalten fm q k n o :
  antworten_enthalten (antworten fm) (antworten (antwort_hinzufuegen fm q k n o)).
Proof.
  intros q' a k' Hq Hk. simpl. destruct (decide (q' = q)) as [->|Hne].
  - rewrite lookup_insert_eq, Hq. eexists; split; [done|]. unfold gewaehlte_keys; simpl.
    rewrite fmap_app. apply elem_of_app. destruct (decide (k' = k)) as [->|Hkk].
    + right. by left.
    + left. apply list_elem_of_fmap in Hk as (x & -> & Hx). apply list_elem_of_fmap.
      exists x. split; [done|]. by apply list_elem_of_filter.
  - rewrite lookup_insert_ne by done. by exists a.
Qed.

Lemma antworten_uebernehmen_enthalten fm sf k ant :
  antworten_enthalten (antworten fm) (antworten (antworten_uebernehmen fm sf k ant)).
Proof.
  unfold antworten_uebernehmen. revert fm. induction ant as [|kv ant IH]; intros fm; simpl;
    [apply antworten_enthalten_refl|].
  eapply antworten_enthalten_trans; [apply antwort_hinzufuegen_enthalten|apply IH].
Qed.

(** [m] is contained in the answers of the state a run ends in, when it
    ends. *)
Definition ende_enthaelt (m : gmap string Antwort) (r : Laufergebnis) : Prop :=
  match r with
  | Beendet l | Abgebrochen _ l => antworten_enthalten m (antworten (l_fm l))
  | Erschoepft => True
  end.

Lemma kontexte_go_enthalten llm intro fuel sf ks l m :
  antworten_enthalten m (antworten (l_fm l)) ->
  ende_enthaelt m (kontexte_go llm intro fuel sf ks l).
Proof.
  revert l. induction ks as [|k ks IH]; intros l Hm; simpl; [done|].
  case_bool_decide; [by apply IH|].
  destruct (aufrufen llm fuel intro _ sf k _ _) as [[gz n]| |]; simpl; [|done|done].
  apply IH. simpl. eapply antworten_enthalten_trans; [exact Hm|].
  apply antworten_uebernehmen_enthalten.
Qed.

Lemma befragung_go_enthalten st llm intro fuel l m :
  antworten_enthalten m (antworten (l_fm l)) ->
  ende_enthaelt m (befragung_go st llm intro fuel l).
Proof.
  revert l. induction fuel as [|fuel IH]; intros l Hm; simpl; [done|].
  destruct (naechste_frage st (l_fm l)) as [e|[[sf|] fm]] eqn:Hn; [done| |].
  all: unfold naechste_frage in Hn; destruct (naechste_frage_go_stabil _ _ _ _ _ Hn) as [[_ [Ha _]] _].
  - pose proof (kontexte_go_enthalten llm intro (S fuel) sf (themenkontexte sf)
                  (mkLauf fm (l_letzter l) (l_verlaeufe l) (l_gz l) (l_aufrufe l)) m) as Hk.
    simpl in Hk. rewrite <-Ha in Hk. specialize (Hk Hm).
    destruct (kontexte_go _ _ _ _ _ _) as [l'| |]; [by apply IH|done|done].
  - simpl. by rewrite <-Ha.
Qed.

(** C3: the class-level answers [Fragenmanager.antworten] that a run of
    [starten] finds are never removed: every (question, topic key) they
    record is in the run's result, or, when the run raises, in the
    class-level answers it leaves behind.  [reset_antworten] runs only
    after a successful run, so a run that raises hands its respondent's
    answers to the next [starten]. *)
Theorem starten_behaelt_geteilt st llm intro fuel zs fs geteilt z :
  match starten st llm intro fuel zs fs geteilt z with
  | Ok res _ => antworten_enthalten geteilt (ss_antworten res)
  | Fehler _ g => antworten_enthalten geteilt g
  | Endlos => True
  end.
Proof.
  unfold starten. pose proof (befragung_go_enthalten st llm intro fuel
    (mkLauf (init fs geteilt z) None [] gz0 0) geteilt (antworten_enthalten_refl _)) as H.
  by destruct (befragung_go _ _ _ _ _).
Qed.

(** ** A question the shared answers already complete

    A question without parent is complete for [_frage_ist_komplett_beantwortet]
    as soon as its answer names every topic (or anything, for a question
    without topics), whatever else is answered.  If the class-level
    answers inherited from an earlier respondent already complete it, a
    run never hands it to the graph and never changes its answer. *)

(** What a run's state keeps of such a question: its catalogue entry,
    its inherited answer, and transcripts that all belong to other
    questions. *)
Definition frage_unberuehrt (q : string) (f : Frage) (a : Antwort) (l : Lauf) : Prop :=
  dict_get (fragen (l_fm l)) q = Some f /\ antworten (l_fm l) !! q = Some a /\
  Forall (fun c => exists sf k, name c = "chatverlauf-" +++ kontext_key sf k /\ sf_frage_id sf <> q)
    (l_verlaeufe l).

(** The invariant holds in the state a run ends in, when it ends. *)
Definition ende_gilt (P : Lauf -> Prop) (r : Laufergebnis) : Prop :=
  match r with
  | Beendet l | Abgebrochen _ l => P l
  | Erschoepft => True
  end.

Section Vollstaendig.
Variable st : nat -> list string -> list string.
Variables (q : string) (f : Frage) (a : Antwort).
Hypothesis oben : uebergeordnete_frage_id f = None.
Hypothesis alle_themen : subsetb ((fun t => Some (tid t)) <$> themen f) (gewaehlte_keys a) = true.
Hypothesis beantwortet : gewaehlte_keys a <> [].

Lemma komplett_vorhanden fm :
  dict_get (fragen fm) q = Some f -> antworten fm !! q = Some a ->
  frage_ist_komplett_beantwortet st fm q = inr (true, fm).
Proof.
  intros Hf Ha. unfold frage_ist_komplett_beantwortet. rewrite Hf, Ha, oben. cbn [frage_von].
  destruct (themen f) as [|t ts] eqn:Ht.
  - by rewrite bool_decide_eq_true_2.
  - by rewrite alle_themen.
Qed.

Lemma baue_frage_id fm frage : sf_frage_id (baue_strukturierte_frage st fm frage).1 = fid frage.
Proof.
  unfold baue_strukturierte_frage.
  destruct (parent_von fm frage) as [p|]; [destruct (themen p)|]; [|destruct (parent_themen_fuer_folgefrage _ _ _ _ _)|]; done.
Qed.

Lemma naechste_frage_go_ohne_q qs fm sf fm' :
  dict_get (fragen fm) q = Some f -> antworten fm !! q = Some a ->
  naechste_frage_go st qs fm = inr (Some sf, fm') -> sf_frage_id sf <> q.
Proof.
  revert fm. induction qs as [|[k frage] qs IH]; intros fm Hf Ha; cbn [naechste_frage_go]; [done|].
  destruct (frage_darf_gestellt_werden fm (fid frage)) as [e|[]]; cbn; [done| |eauto].
  destruct (decide (fid frage = q)) as [Hq|Hq].
  - rewrite Hq, komplett_vorhanden by done. cbn. eauto.
  - destruct (frage_ist_komplett_beantwortet st fm (fid frage)) as [e|[[] fm1]] eqn:Hk; cbn; [done| |].
    + destruct (komplett_stabil _ _ _ _ _ Hk) as [(Hq1 & Ha1 & _) _].
      apply IH; congruence.
    + destruct (baue_strukturierte_frage st fm1 frage) as [sf' fm2] eqn:Hb. intros [= <- _].
      pose proof (baue_frage_id fm1 frage) as Hid. rewrite Hb in Hid. cbn in Hid. congruence.
Qed.

Lemma antworten_uebernehmen_andere fm sf k ant :
  sf_frage_id sf <> q ->
  fragen (antworten_uebernehmen fm sf k ant) = fragen fm /\
  antworten (antworten_uebernehmen fm sf k ant) !! q = antworten fm !! q.
Proof.
  intros Hne. unfold antworten_uebernehmen. revert fm.
  induction ant as [|kv ant IH]; intros fm; [done|]. cbn [fold_left].
  destruct (IH (antwort_hinzufuegen fm (sf_frage_id sf) (Some kv.1) (parent_thema_text k) kv.2))
    as [-> ->].
  cbn. by rewrite lookup_insert_ne.
Qed.

Lemma kontexte_go_unberuehrt llm intro fuel sf ks l :
  sf_frage_id sf <> q -> frage_unberuehrt q f a l ->
  ende_gilt (frage_unberuehrt q f a) (kontexte_go llm intro fuel sf ks l).
Proof.
  intros Hne. revert l. induction ks as [|k ks IH]; intros l Hl; cbn [kontexte_go]; [done|].
  case_bool_decide; [by apply IH|].
  destruct (aufrufen llm fuel intro _ sf k _ _) as [[gz n]| |]; cbn; [|done|done].
  apply IH. destruct Hl as (Hf & Ha & Hv).
  destruct (antworten_uebernehmen_andere (l_fm l) sf k (g_antworten gz) Hne) as [Hf' Ha'].
  split_and!; cbn; [congruence|congruence|]. apply Forall_app. split; [done|].
  constructor; [|done]. by exists sf, k.
Qed.

Lemma befragung_go_unberuehrt llm intro fuel l :
  frage_unberuehrt q f a l -> ende_gilt (frage_unberuehrt q f a) (befragung_go st llm intro fuel l).
Proof.
  revert l. induction fuel as [|fuel IH]; intros l Hl; cbn [befragung_go]; [done|].
  destruct (naechste_frage st (l_fm l)) as [e|[[sf|] fm]] eqn:Hn; [done| |].
  all: unfold naechste_frage in Hn; destruct (naechste_frage_go_stabil _ _ _ _ _ Hn) as [[Hq [Ha _]] _].
  all: destruct Hl as (Hf & Ha0 & Hv).
  - assert (sf_frage_id sf <> q) as Hne by (eapply naechste_frage_go_ohne_q; eauto).
    pose proof (kontexte_go_unberuehrt llm intro (S fuel) sf (themenkontexte sf)
                  (mkLauf fm (l_letzter l) (l_verlaeufe l) (l_gz l) (l_aufrufe l)) Hne) as Hk.
    destruct (kontexte_go _ _ _ _ _ _) as [l'| |]; cbn in Hk |- *;
      [apply IH, Hk| apply Hk|done]; split_and!; cbn; congruence.
  - split_and!; cbn; congruence.
Qed.
End Vollstaendig.

(** C9: the answers leak from one respondent to the next: when the
    class-level answers a run of [starten] finds already complete a
    question without parent (an option for each of its topics, as an
    earlier respondent's aborted run leaves them), the run never asks it
    (none of its transcripts belongs to that question) and its result,
    or the shared answers it leaves when it raises, give that question
    exactly the inherited answer. *)
Theorem starten_zweiter_befragter_erbt st llm intro fuel zs fs geteilt z q f a :
  dict_get (fragen (init fs geteilt z)) q = Some f ->
  uebergeordnete_frage_id f = None ->
  subsetb ((fun t => Some (tid t)) <$> themen f) (gewaehlte_keys a) = true ->
  gewaehlte_keys a <> [] ->
  geteilt !! q = Some a ->
  match starten st llm intro fuel zs fs geteilt z with
  | Ok res _ =>
      ss_antworten res !! q = Some a /\
      Forall (fun c => exists sf k, name c = "chatverlauf-" +++ kontext_key sf k /\ sf_frage_id sf <> q)
        (ss_chatverlaeufe res)
  | Fehler _ g => g !! q = Some a
  | Endlos => True
  end.
Proof.
  intros Hf Hoben Halle Hb Ha. unfold starten.
  pose proof (befragung_go_unberuehrt st q f a Hoben Halle Hb llm intro fuel
                (mkLauf (init fs geteilt z) None [] gz0 0)) as H.
  destruct (befragung_go _ _ _ _ _) as [l|e l|]; cbn in H |- *; [| |done].
  - destruct H as (_ & Ha' & Hv); [done|]. done.
  - destruct H as (_ & Ha' & _); [done|]. done.
Qed.

Lemma starten_zweiter_befragter_erbt_witness :
  exists a, Beispiele.geteilt_nach_abbruch !! "q1" = Some a /\
  match starten Beispiele.keine_stichprobe Beispiele.modell_zwei Beispiele.intro_fest 100 []
          [Beispiele.frage_gemeinsam; Beispiele.frage_zwei]
          Beispiele.geteilt_nach_abbruch 0 with
  | Ok res _ =>
      ss_antworten res !! "q1" = Some a /\
      Forall (fun c => exists sf k, name c = "chatverlauf-" +++ kontext_key sf k /\ sf_frage_id sf <> "q1")
        (ss_chatverlaeufe res)
  | Fehler _ g => g !! "q1" = Some a
  | Endlos => True
  end.
Proof.
  eexists. split; [vm_compute; reflexivity|].
  apply (starten_zweiter_befragter_erbt _ _ _ _ _ _ _ _ _ Beispiele.frage_gemeinsam);
    [vm_compute; reflexivity|reflexivity|vm_compute; reflexivity|vm_compute; discriminate|vm_compute; reflexivity].
Defined.
