(* ===== verification/Stichproben.v ===== *)
(** * Batches of silicon samples and their result table

    The Streamlit page
    [src/src/komponenten/siliconsamplesgenerator/siliconsamplesgenerator.py]
    runs [Fragesteller.starten] once per repetition (lines 321-391), with
    the persona [SiliconsamplesgeneratorAPI.hole_persona_fuer_wiederholung]
    picks for it; [siliconsamplesgenerator_api.py] turns a stored sample
    into a table ([streamlit_siliconsamples_dataframe]), decoding the
    composite topic keys of the scheduler.  Module [Persona] holds the
    persona choice, [Stapel] the batch loop and [Tabelle] the table. *)

From S2P Require Import Prelude PyStr Generator Dokumente Katalog Fragenmanager Fragesteller Befragung.

Open Scope string_scope.
Open Scope list_scope.
Open Scope py_scope.

Import Katalog.Models Fragenmanager.Daten Fragenmanager.FM Generator.Generator
       Dokumente.Modelle Fragesteller.Graph Befragung.Lauf.

Module Persona.

(** A row of the personas CSV, [df.to_dict("records")]. *)
Definition Persona : Type := list (string * string).

(** [hole_persona_fuer_wiederholung(personas, wiederholung)]: [None] for
    an empty list, else [personas[wiederholung % len(personas)]], with
    Python's [%], whose result has the sign of the divisor. *)
Definition hole_persona_fuer_wiederholung {A} (personas : list A) (wiederholung : Z)
    : option A :=
    match personas with
    | [] => None
    | _ => personas !! Z.to_nat (wiederholung `mod` Z.of_nat (List.length personas))
    end.

End Persona.

Import Persona.

Module Stapel.

(** How a batch ends: all repetitions stored, an exception out of
    [starten] (which ends the page script, so the remaining repetitions
    never run), or a repetition that does not end.  The stored samples
    are the files [datei_speichern] wrote, in order; the answer
    dictionary is [Fragenmanager.antworten] as the batch leaves it. *)
Inductive Stapelergebnis :=
  | Gespeichert (dateien : list SiliconSamples) (geteilt : gmap string Antwort)
  | Abgebrochen (e : Laufzeitfehler) (dateien : list SiliconSamples) (geteilt : gmap string Antwort)
  | Haengt (dateien : list SiliconSamples).

Section Stapel.
(** The random generators and the model's replies of repetition [w]. *)
Variable stichprobe : nat -> nat -> list string -> list string.
Variable llm : nat -> nat -> list Nachricht -> Laufzeitfehler + string.
Variable prompt_formatieren : string -> list (string * string) -> string.
(** The page's inputs: the loop fuel, the selected summaries, the
    questions [Studienkonfigurationslader(datei).fragen] (the same file
    is read again for every repetition), the four briefing templates,
    the personas and the toggle [personas_nutzen]. *)
Variable fuel : nat.
Variable zs : list Zusammenfassung.
Variable fs : list Frage.
Variable prompts : list (string * string).
Variable personas : list Persona.
Variable personas_nutzen : bool.

(** [Prompt(prompts=..., prompt_data={..., "personas_nutzen": ...,
    "aktuelle_persona": ...})] of repetition [w]. *)
Definition konfig (w : nat) : Befragungskonfig :=
    mkKonfig prompts personas_nutzen
      (if personas_nutzen then hole_persona_fuer_wiederholung personas (Z.of_nat w) else None).

(** [Fragesteller(...).starten(...)] of repetition [w]. *)
Definition wiederholung (w : nat) (geteilt : gmap string Antwort) : Starten :=
    starten (stichprobe w) (llm w) (fragenintro prompt_formatieren (konfig w) zs)
      fuel zs fs geteilt 0.

(** [for aktuelle_wiederholung in range(...): ... datei_speichern(...)] *)
Fixpoint stapel_go (ws : list nat) (geteilt : gmap string Antwort)
      (dateien : list SiliconSamples) : Stapelergebnis :=
    match ws with
    | [] => Gespeichert dateien geteilt
    | w :: ws' =>
        match wiederholung w geteilt with
        | Ok ss g => stapel_go ws' g (dateien ++ [ss])
        | Fehler e g => Abgebrochen e dateien g
        | Endlos => Haengt dateien
        end
    end.

Definition stapel (wiederholungen : nat) (geteilt : gmap string Antwort) : Stapelergebnis :=
    stapel_go (seq 0 wiederholungen) geteilt [].
End Stapel.

End Stapel.

Module Tabelle.

(** The exception the table raises. *)
Inductive Anzeigefehler := AttributeError (was : string).

(** One row of the pivot, [pivot[row]]. *)
Record Zeile := mkZeile {
    frage_id : string;
    frage_text : string;
    mutter_frage : string;
    mutter_thema : string;
    thema_id : string;
    thema_text_spalte : string;
    antwortoption_id : string;
    antwortoption_text : string
  }.

(** [parts = thema_key.split("::")] and the three ids taken from it:
    parent question, parent topic and topic. *)
Definition thema_teile (thema_key : string) : string * string * string :=
    match split_dcolon thema_key with
    | p0 :: p1 :: p2 :: _ => (p0, p1, p2)
    | [p0; p1] => (p0, "", p1)
    | _ => ("", "", thema_key)
    end.

(** The row of one answer entry of question [frage_id]: [None.split]
    for an entry without topic key and [None.text] for a question
    missing from the sample are [AttributeError]s. *)
Definition zeile_von (fragen : list (string * Frage)) (frage_id : string)
      (item : AntwortThemaOption) : Anzeigefehler + Zeile :=
    match thema_key item with
    | None => inl (AttributeError "split")
    | Some tk =>
        let '(mf, mt, kt) := thema_teile tk in
        match dict_get fragen frage_id with
        | None => inl (AttributeError "text")
        | Some f =>
            inr (mkZeile frage_id (text f) mf mt kt (default "" (thema_text f kt))
                   (option_key item) (default "" (option_text f (option_key item))))
        end
    end.

(** The rows of all answers, in the order of [antworten.items()]. *)
Fixpoint dataframe_zeilen (fragen : list (string * Frage)) (eintraege : list (string * Antwort))
      : Anzeigefehler + list Zeile :=
    match eintraege with
    | [] => inr []
    | (q, a) :: rest =>
        let? zs := map_res (zeile_von fragen q) (auswahl a) in
        let? zs' := dataframe_zeilen fragen rest in
        inr (zs ++ zs')
    end.

(** [streamlit_siliconsamples_dataframe(siliconsamples)]; the answers
    are a [gmap] here, whose order stands for the dictionary's. *)
Definition streamlit_siliconsamples_dataframe (ss : SiliconSamples) : Anzeigefehler + list Zeile :=
    dataframe_zeilen (ss_fragen ss) (map_to_list (ss_antworten ss)).

End Tabelle.

(** ** Example batches *)

Module Beispielstapel.
Import Befragung.Beispiele.

(** One briefing template, a two-line personas file and a catalogue of
    two questions. *)
Definition vorlagen : list (string * string) :=
    [("fragen_intro_mit_persona_ohne_referenzen", "Du bist {Alter} Jahre alt.")].

Definition personas : list Persona := [[("Alter", "30")]; [("Alter", "60")]].

Definition formatieren (v : string) (_ : list (string * string)) : string := v.

Definition katalog : list Frage := [frage_gemeinsam; frage_zwei].

(** The first batch's model fails after the first question; every
    later model answers both questions. *)
Definition modell_erster_stapel (_ : nat) : nat -> list Nachricht -> Laufzeitfehler + string :=
    modell_abbruch.

Definition modell_gut (_ : nat) (n : nat) (_ : list Nachricht) : Laufzeitfehler + string :=
    match n with
    | O => inr ("t1: 1" +++ nl +++ "t2: 2")
    | S _ => inr "u: 2"
    end.

Definition zufall (_ : nat) : nat -> list string -> list string := keine_stichprobe.

Definition lauf (llm : nat -> nat -> list Nachricht -> Laufzeitfehler + string)
    (n : nat) (g : gmap string Antwort) : Stapel.Stapelergebnis :=
    Stapel.stapel zufall llm formatieren 100 [] katalog vorlagen personas true n g.

Definition gespeichert (r : Stapel.Stapelergebnis) : bool :=
    match r with Stapel.Gespeichert _ _ => true | _ => false end.

(** A follow-up question of [q1] without topics of its own, and a
    stored sample with its answers: the answer entry of [q2] misses
    nothing, the one of [q3] carries the two-part key of case B. *)
Definition folgefrage : Frage :=
    mkFrage "q3" "Warum?" optionen_ja_nein [] (Some "q1") (Some "1") None false.

Definition antworten_probe : list (string * Antwort) :=
    [("q2", mkAntwort "q2" [mkAuswahl (Some "u") (Some "U") "2"]);
     ("q3", mkAntwort "q3" [mkAuswahl (Some "q1::t1") (Some "A") "1";
                            mkAuswahl (Some "q1::t2") (Some "B") "2"])].

Definition fragen_probe : list (string * Frage) := [("q2", frage_zwei); ("q3", folgefrage)].

(** The class-level answers the aborted first batch leaves behind. *)
Definition geteilt_nach_stapel : gmap string Antwort :=
    match lauf modell_erster_stapel 2 ∅ with
    | Stapel.Abgebrochen _ _ g => g
    | _ => ∅
    end.
End Beispielstapel.

(** * Properties *)

(** ** The persona of a repetition *)

Lemma concat_replicate_lookup {A} (l : list A) (k i : nat) :
  l <> [] -> (i < k * List.length l)%nat ->
  List.concat (replicate k l) !! i = l !! (i mod List.length l)%nat.
Proof.
  intros Hl. assert (Hlen : (0 < List.length l)%nat) by (destruct l; simpl; [done|lia]).
  revert i. induction k as [|k IH]; intros i Hi; [lia|]. simpl.
  destruct (decide (i < List.length l)%nat) as [Hlt|Hge].
  - rewrite lookup_app_l, Nat.mod_small by done. done.
  - rewrite lookup_app_r by lia. rewrite IH by lia.
    replace i with ((i - List.length l) + 1 * List.length l)%nat at 2 by lia.
    by rewrite Nat.Div0.mod_add.
Qed.

Lemma hole_persona_nat {A} (personas : list A) (w : nat) :
  personas <> [] ->
  hole_persona_fuer_wiederholung personas (Z.of_nat w)
  = personas !! (w mod List.length personas)%nat.
Proof.
  intros Hp. unfold hole_persona_fuer_wiederholung.
  destruct personas as [|p ps]; [done|].
  by rewrite <-Nat2Z.inj_mod, Nat2Z.id.
Qed.

(** For every integer [wiederholung], negative ones included,
    [hole_persona_fuer_wiederholung] returns a persona exactly when the
    list is not empty: Python's [%] keeps the index in range. *)
Theorem hole_persona_definiert {A} (personas : list A) (w : Z) :
  is_Some (hole_persona_fuer_wiederholung personas w) <-> personas <> [].
Proof.
  unfold hole_persona_fuer_wiederholung. split.
  - by destruct personas; [intros []|].
  - intros Hp. destruct personas as [|p ps]; [done|]. apply lookup_lt_is_Some.
    pose proof (Z.mod_pos_bound w (Z.of_nat (List.length (p :: ps)))) as Hb.
    simpl in *. lia.
Qed.

(** The repetitions [0 .. n-1] of a batch get the personas in
    ascending order and start over after the last one, as the page's
    caption says: the persona of repetition [w] is element [w] of the
    persona list repeated. *)
Theorem stapel_personas {A} (personas : list A) (n : nat) :
  personas <> [] ->
  (fun w => hole_persona_fuer_wiederholung personas (Z.of_nat w)) <$> seq 0 n
  = Some <$> take n (List.concat (replicate n personas)).
Proof.
  intros Hp. assert (Hlen : (0 < List.length personas)%nat) by (destruct personas; simpl; [done|lia]).
  apply list_eq. intros i. rewrite !list_lookup_fmap.
  destruct (decide (i < n)%nat) as [Hi|Hi].
  - rewrite lookup_seq_lt, lookup_take_lt by done. simpl.
    rewrite hole_persona_nat, concat_replicate_lookup by (done || nia).
    destruct (lookup_lt_is_Some_2 personas (i mod List.length personas)%nat) as [p Hp'];
      [apply Nat.mod_upper_bound; lia|].
    by rewrite Hp'.
  - rewrite lookup_seq_ge, lookup_take_ge by lia. done.
Qed.

Lemma stapel_personas_witness :
  (fun w => hole_persona_fuer_wiederholung Beispielstapel.personas (Z.of_nat w)) <$> seq 0 3
  = Some <$> [[("Alter", "30")]; [("Alter", "60")]; [("Alter", "30")]].
Proof.
  rewrite (stapel_personas Beispielstapel.personas 3); [reflexivity|discriminate].
Defined.

(** ** The batch loop *)

Section StapelEigenschaften.
Context (stichprobe : nat -> nat -> list string -> list string)
        (llm : nat -> nat -> list Nachricht -> Laufzeitfehler + string)
        (fmt : string -> list (string * string) -> string)
        (fuel : nat) (zs : list Zusammenfassung) (fs : list Frage)
        (prompts : list (string * string)) (personas : list Persona) (pn : bool).

Abbreviation wdh := (Stapel.wiederholung stichprobe llm fmt fuel zs fs prompts personas pn).
Abbreviation lauf_go := (Stapel.stapel_go stichprobe llm fmt fuel zs fs prompts personas pn).

Lemma starten_ok_leer st m intro zs' fs' g z ss g' :
  starten st m intro fuel zs' fs' g z = Ok ss g' -> g' = ∅.
Proof. unfold starten. by destruct (befragung_go _ _ _ _ _); intros [= _ <-]. Qed.

Lemma stapel_go_gespeichert ws ds0 ds g :
  lauf_go ws ∅ ds0 = Stapel.Gespeichert ds g ->
  g = ∅ /\ exists ds1, ds = ds0 ++ ds1 /\ Forall2 (fun w ss => wdh w ∅ = Ok ss ∅) ws ds1.
Proof.
  revert ds0. induction ws as [|w ws IH]; intros ds0; simpl.
  - intros [= -> ->]. split; [done|]. exists []. by rewrite app_nil_r.
  - destruct (wdh w ∅) as [ss g'|e g'|] eqn:Hw; [|done|done].
    unfold Stapel.wiederholung in Hw. pose proof (starten_ok_leer _ _ _ _ _ _ _ _ _ Hw) as ->.
    intros Hgo. destruct (IH _ Hgo) as (-> & ds1 & -> & Hall). split; [done|].
    exists (ss :: ds1). rewrite <-app_assoc. split; [done|]. by constructor.
Qed.

(** C13: only the first repetition of a batch can see answers left in the
    class-level dictionary: when a batch of [S n] repetitions stores all
    its samples, repetition 0 ran on the answers [g0] the batch found,
    every later repetition on an empty dictionary (the reset at the end
    of the run before it), and the batch leaves the dictionary empty. *)
Theorem stapel_gespeichert n g0 ds g :
  Stapel.stapel stichprobe llm fmt fuel zs fs prompts personas pn (S n) g0
    = Stapel.Gespeichert ds g ->
  g = ∅ /\ exists ss ds', ds = ss :: ds' /\ wdh 0 g0 = Ok ss ∅ /\
    Forall2 (fun w ss => wdh w ∅ = Ok ss ∅) (seq 1 n) ds'.
Proof.
  unfold Stapel.stapel. cbn [seq Stapel.stapel_go].
  destruct (wdh 0 g0) as [ss g'|e g'|] eqn:Hw; [|done|done].
  unfold Stapel.wiederholung in Hw. pose proof (starten_ok_leer _ _ _ _ _ _ _ _ _ Hw) as ->.
  intros Hgo. destruct (stapel_go_gespeichert _ _ _ _ Hgo) as (-> & ds1 & -> & Hall).
  split; [done|]. by exists ss, ds1.
Qed.
End StapelEigenschaften.

Lemma stapel_gespeichert_witness :
  match Beispielstapel.lauf Beispielstapel.modell_gut 2 Beispielstapel.geteilt_nach_stapel with
  | Stapel.Gespeichert ds g =>
      g = ∅ /\ exists ss ds', ds = ss :: ds' /\
        Stapel.wiederholung Beispielstapel.zufall Beispielstapel.modell_gut
          Beispielstapel.formatieren 100 [] Beispielstapel.katalog Beispielstapel.vorlagen
          Beispielstapel.personas true 0 Beispielstapel.geteilt_nach_stapel = Ok ss ∅ /\
        Forall2 (fun w ss => Stapel.wiederholung Beispielstapel.zufall Beispielstapel.modell_gut
          Beispielstapel.formatieren 100 [] Beispielstapel.katalog Beispielstapel.vorlagen
          Beispielstapel.personas true w ∅ = Ok ss ∅) (seq 1 1) ds'
  | _ => False
  end.
Proof.
  assert (Hk : Beispielstapel.gespeichert
                 (Beispielstapel.lauf Beispielstapel.modell_gut 2 Beispielstapel.geteilt_nach_stapel)
               = true) by (vm_compute; reflexivity).
  destruct (Beispielstapel.lauf Beispielstapel.modell_gut 2 Beispielstapel.geteilt_nach_stapel)
    eqn:E; [|discriminate|discriminate].
  exact (stapel_gespeichert _ _ _ _ _ _ _ _ _ 1 _ _ _ E).
Defined.

(** the leak at the level of the page: a batch whose first
    repetition fails on a provider error stops without storing a sample
    (its second repetition never runs); the next batch, started again
    from the page in the same process, stores a first sample that
    answers [q1] with the failed respondent's option ["1"] for [t2],
    although its own model would have chosen ["2"], and whose only
    transcript is the one of [q2]. *)
Example zweiter_stapel_erbt :
  match Beispielstapel.lauf Beispielstapel.modell_erster_stapel 2 ∅ with
  | Stapel.Abgebrochen (Modellfehler _) [] _ => True
  | _ => False
  end /\
  match Beispielstapel.lauf Beispielstapel.modell_gut 1 Beispielstapel.geteilt_nach_stapel with
  | Stapel.Gespeichert [ss] _ =>
      (ss_antworten ss !! "q1" ≫= fun a => option_fuer a (Some "t2")) = Some "1" /\
      name <$> ss_chatverlaeufe ss = ["chatverlauf-q2-None"]
  | _ => False
  end.
Proof. split; vm_compute; [exact I|split; reflexivity]. Qed.

(** ** The result table *)

Import Tabelle.

Lemma thema_teile_drei p pt ct :
  key_teil_ok p = true -> key_teil_ok pt = true -> contains_dcolon ct = false -> ct <> "" ->
  thema_teile (compose_key p pt (Some ct)) = (p, pt, ct).
Proof. intros. unfold thema_teile. by rewrite compose_key_split3. Qed.

Lemma thema_teile_zwei p pt :
  key_teil_ok p = true -> contains_dcolon pt = false ->
  thema_teile (compose_key p pt None) = (p, "", pt).
Proof. intros. unfold thema_teile. by rewrite compose_key_split2. Qed.

Lemma zeile_von_ist_inr fragen q x :
  ist_inr (zeile_von fragen q x) = true <-> is_Some (thema_key x) /\ is_Some (dict_get fragen q).
Proof.
  unfold zeile_von. destruct (thema_key x) as [tk|]; [|split; [done|by intros [[] _]]].
  destruct (thema_teile tk) as [[mf mt] kt].
  destruct (dict_get fragen q); simpl; [naive_solver|split; [done|by intros [_ []]]].
Qed.

Lemma zeile_von_ids fragen q x z :
  zeile_von fragen q x = inr z -> frage_id z = q /\ antwortoption_id z = option_key x.
Proof.
  unfold zeile_von. destruct (thema_key x) as [tk|]; [|done].
  destruct (thema_teile tk) as [[mf mt] kt]. destruct (dict_get fragen q); [|done].
  by intros [= <-].
Qed.

(** C32: a three-part composite key [_compose_key(p, pt, ct)] of an
    answer decodes in the result table into the parent question [p]
    (column Mutter-Frage), the parent topic [pt] (Mutter-Thema) and the
    topic [ct] (Thema-ID), with the texts the question gives for [ct]
    and the option, when the parts are free of ["::"] and the first two
    do not end with a colon. *)
Theorem zeile_von_zusammengesetzt fragen q f x p pt ct :
  dict_get fragen q = Some f -> thema_key x = Some (compose_key p pt (Some ct)) ->
  key_teil_ok p = true -> key_teil_ok pt = true -> contains_dcolon ct = false -> ct <> "" ->
  zeile_von fragen q x
  = inr (mkZeile q (text f) p pt ct (default "" (thema_text f ct))
           (option_key x) (default "" (option_text f (option_key x)))).
Proof.
  intros Hf Hk Hp Hpt Hct Hne. unfold zeile_von.
  by rewrite Hk, thema_teile_drei, Hf.
Qed.

Lemma zeile_von_zusammengesetzt_witness :
  zeile_von [("q2", Befragung.Beispiele.frage_zwei)] "q2" (mkAuswahl (Some "q1::t1::u") None "2")
  = inr (mkZeile "q2" "Und das hier?" "q1" "t1" "u" "U" "2" "nein").
Proof.
  rewrite (zeile_von_zusammengesetzt _ _ Befragung.Beispiele.frage_zwei _ "q1" "t1" "u");
    [reflexivity|reflexivity|reflexivity|vm_compute; reflexivity|vm_compute; reflexivity|
     vm_compute; reflexivity|discriminate].
Defined.

(** A two-part key [_compose_key(p, pt, None)], the key of a
    follow-up question without topics of its own, puts the parent's
    topic [pt] in the column Thema-ID and leaves Mutter-Thema empty; the
    topic text is looked up among the follow-up question's own topics,
    so for such a question the column Thema-Text is always empty. *)
Theorem zeile_von_ohne_kindthema fragen q f x p pt :
  dict_get fragen q = Some f -> themen f = [] -> thema_key x = Some (compose_key p pt None) ->
  key_teil_ok p = true -> contains_dcolon pt = false ->
  zeile_von fragen q x
  = inr (mkZeile q (text f) p "" pt "" (option_key x) (default "" (option_text f (option_key x)))).
Proof.
  intros Hf Ht Hk Hp Hpt. unfold zeile_von.
  rewrite Hk, thema_teile_zwei, Hf by done. unfold thema_text. by rewrite Ht.
Qed.

Lemma zeile_von_ohne_kindthema_witness :
  zeile_von Beispielstapel.fragen_probe "q3" (mkAuswahl (Some "q1::t2") (Some "B") "2")
  = inr (mkZeile "q3" "Warum?" "q1" "" "t2" "" "2" "nein").
Proof.
  rewrite (zeile_von_ohne_kindthema _ _ Beispielstapel.folgefrage _ "q1" "t2");
    [reflexivity|reflexivity|reflexivity|reflexivity|vm_compute; reflexivity|
     vm_compute; reflexivity].
Defined.

Lemma dataframe_zeilen_cons fragen q a rest :
  ist_inr (dataframe_zeilen fragen ((q, a) :: rest)) = true <->
  ist_inr (map_res (zeile_von fragen q) (auswahl a)) = true /\
  ist_inr (dataframe_zeilen fragen rest) = true.
Proof.
  simpl. destruct (map_res _ _), (dataframe_zeilen fragen rest); simpl; intuition congruence.
Qed.

(** the result table is built exactly when every answer entry has a
    topic key and every question with an entry is among the sample's
    questions; otherwise it raises an [AttributeError].  Answers leaked
    from a run over another catalogue (C3) name questions the sample
    does not hold, and the stored sample cannot be shown. *)
Theorem dataframe_zeilen_gelingt fragen es :
  ist_inr (dataframe_zeilen fragen es) = true <->
  forall q a x, (q, a) ∈ es -> x ∈ auswahl a ->
    is_Some (thema_key x) /\ is_Some (dict_get fragen q).
Proof.
  induction es as [|[q a] es IH].
  - split; [|done]. intros _ q a x Hqa. by apply elem_of_nil in Hqa.
  - rewrite dataframe_zeilen_cons, map_res_ist_inr, IH.
    setoid_rewrite zeile_von_ist_inr. setoid_rewrite elem_of_cons. naive_solver.
Qed.

(** The table has one row per answer entry, in the order of the
    answers and of each answer's entries, and each row carries the
    question id and the option id of its entry. *)
Theorem dataframe_zeilen_spalten fragen es zeilen :
  dataframe_zeilen fragen es = inr zeilen ->
  (fun z => (frage_id z, antwortoption_id z)) <$> zeilen
  = List.flat_map (fun qa => (fun x => (qa.1, option_key x)) <$> auswahl qa.2) es.
Proof.
  revert zeilen. induction es as [|[q a] es IH]; intros zeilen; simpl; [by intros [= <-]|].
  destruct (map_res _ (auswahl a)) as [e|zs] eqn:Hm; [done|].
  destruct (dataframe_zeilen fragen es) as [e|zs'] eqn:Hr; [done|]. intros [= <-].
  rewrite fmap_app, (IH zs' eq_refl). f_equal.
  apply map_res_inr in Hm. induction Hm as [|x z xs zs Hxz _ IHm]; [done|].
  rewrite !fmap_cons. destruct (zeile_von_ids _ _ _ _ Hxz) as [-> ->]. by rewrite IHm.
Qed.

Lemma dataframe_zeilen_spalten_witness :
  match dataframe_zeilen Beispielstapel.fragen_probe Beispielstapel.antworten_probe with
  | inr zeilen => (fun z => (frage_id z, antwortoption_id z)) <$> zeilen
                  = [("q2", "2"); ("q3", "1"); ("q3", "2")]
  | inl _ => False
  end.
Proof.
  destruct (dataframe_zeilen Beispielstapel.fragen_probe Beispielstapel.antworten_probe)
    as [e|zeilen] eqn:E; [discriminate E|].
  exact (dataframe_zeilen_spalten _ _ _ E).
Defined.

(** With the toggle "Personas nutzen" on and an empty personas file,
    [hole_persona_fuer_wiederholung] returns [None] for every repetition
    and the briefing node raises a [TypeError] on [SafeDict(None)], once
    the persona template it looks up exists. *)
Theorem fragenintro_ohne_personas fmt prompts zs w v :
  dict_get prompts (intro_name true zs) = Some v ->
  fragenintro fmt (Stapel.konfig prompts [] true w) zs = inl (TypeError "SafeDict(None)").
Proof.
  intros Hv. unfold fragenintro, Stapel.konfig.
  cbn [intro_prompts personas_nutzen aktuelle_persona hole_persona_fuer_wiederholung].
  by rewrite Hv.
Qed.

Lemma fragenintro_ohne_personas_witness :
  fragenintro Beispielstapel.formatieren (Stapel.konfig Beispielstapel.vorlagen [] true 3) []
  = inl (TypeError "SafeDict(None)").
Proof. by apply (fragenintro_ohne_personas _ _ _ _ "Du bist {Alter} Jahre alt."). Defined.
