(* ===== verification/Persistenz.v ===== *)
(** * Stored results: JSON files and [from_dict]

    The app keeps its results as JSON files: [datei_speichern] of
    [src/src/shared/dateien.py] writes any object with
    [json.dump(items, default=lambda o: o.__dict__)], so a frozen dataclass
    is written as the object of its fields in declaration order, a tuple
    as a list and a dictionary as an object; [datei_lesen] reads a file
    back and rebuilds the objects with the [from_dict] class methods of
    the model files ([studienkonfigurationslader/models.py],
    [siliconsamplesgenerator_models.py], [referenzdokumente_models.py],
    [generator.py]).  JSON text itself is not modelled: a file's content
    is the value [json.load] returns, a [PyWert].

    Module [Json] holds the Python operations the [from_dict] methods
    apply to such values ([d[k]], [d.get(k, x)], iteration, [bool()]);
    the classes [Kodierbar] (what [json.dump] writes) and [FromDict] (the
    [from_dict] of a class) are the interface between the component that
    writes a result and the one that reads it.  Module [Laden] holds the
    [from_dict] methods; module [Dateien] the file system (an
    insertion-ordered dictionary of paths and texts), the path helpers
    and [ordner_auslesen] of [dateien.py], [datei_speichern] and
    [datei_lesen]. *)

From S2P Require Import Prelude PyStr Generator Dokumente Katalog Fragenmanager Fragesteller Befragung Stichproben.

Open Scope string_scope.
Open Scope list_scope.
Open Scope py_scope.

Import Katalog.Models Fragenmanager.Daten Generator.Generator Generator.Inhalt Dokumente.Modelle
       Befragung.Lauf.

Module Json.

(** The exceptions loading raises.  [NichtDarstellbar] is a value of a
    type the dataclass field is not annotated with: Python stores it
    unchecked, the model's typed records cannot hold it. *)
Inductive Ladefehler :=
  | KeyError (schluessel : string)
  | TypeError (was : string)
  | AttributeError (was : string)
  | FileNotFoundError (pfad : string)
  | ValueError (was : string)
  | NichtDarstellbar (feld : string).

(** A field that [from_dict] converts only [if isinstance(x, dict)]: the
    raw value when it is not converted, else the object. *)
Inductive Feld (A : Type) :=
  | Roh (v : PyWert)
  | Objekt (a : A).
Arguments Roh {A} v.
Arguments Objekt {A} a.

(** [data[k]] *)
Definition py_index (data : PyWert) (k : string) : Ladefehler + PyWert :=
    match data with
    | PDict kv => match dict_get kv k with Some v => inr v | None => inl (KeyError k) end
    | _ => inl (TypeError "subscript")
    end.

(** [data.get(k, standard)] *)
Definition py_get (data : PyWert) (k : string) (standard : PyWert) : Ladefehler + PyWert :=
    match data with
    | PDict kv => inr (default standard (dict_get kv k))
    | _ => inl (AttributeError "get")
    end.

(** [for x in v]: the elements of a list, the one-character strings of a
    string, the keys of a dictionary. *)
Definition py_iter (v : PyWert) : Ladefehler + list PyWert :=
    match v with
    | PList l => inr l
    | PStr s => inr ((fun c => PStr (String c "")) <$> list_ascii_of_string s)
    | PDict kv => inr (PStr <$> kv.*1)
    | _ => inl (TypeError "not iterable")
    end.

(** [bool(v)] *)
Definition py_bool (v : PyWert) : bool :=
    match v with
    | PStr s => negb (String.eqb s "")
    | PInt z => negb (Z.eqb z 0)
    | PBool b => b
    | PDict kv => negb (bool_decide (kv = []))
    | PList l => negb (bool_decide (l = []))
    | PNone => false
    | PSkalar r => negb (String.eqb r "0.0" || String.eqb r "-0.0")
    end.

(** [[v] if isinstance(v, dict) else v], before iterating. *)
Definition als_liste (v : PyWert) : PyWert :=
    match v with PDict _ => PList [v] | _ => v end.

(** A value stored in a field annotated [str], [Optional[str]],
    [Optional[int]] or [int]. *)
Definition als_str (feld : string) (v : PyWert) : Ladefehler + string :=
    match v with PStr s => inr s | _ => inl (NichtDarstellbar feld) end.

Definition als_opt_str (feld : string) (v : PyWert) : Ladefehler + option string :=
    match v with PStr s => inr (Some s) | PNone => inr None | _ => inl (NichtDarstellbar feld) end.

Definition als_opt_int (feld : string) (v : PyWert) : Ladefehler + option Z :=
    match v with PInt z => inr (Some z) | PNone => inr None | _ => inl (NichtDarstellbar feld) end.

Definition als_int (feld : string) (v : PyWert) : Ladefehler + Z :=
    match v with PInt z => inr z | _ => inl (NichtDarstellbar feld) end.

(** What [json.dump(..., default=lambda o: o.__dict__)] writes for a
    value of the model. *)
Class Kodierbar (A : Type) := kodiere : A -> PyWert.

(** The [from_dict] class method of a dataclass. *)
Class FromDict (A : Type) := from_dict : PyWert -> Ladefehler + A.

(** The objects [from_dict] rebuilds are the ones written. *)
Class Rundlauf (A : Type) `{Kodierbar A} `{FromDict A} :=
  rundlauf : forall a : A, from_dict (kodiere a) = inr a.

Definition kodiere_opt_str (s : option string) : PyWert :=
    match s with Some t => PStr t | None => PNone end.

Definition kodiere_opt_int (z : option Z) : PyWert :=
    match z with Some n => PInt n | None => PNone end.

(** A dictionary is written as an object, a list or tuple as a list. *)
Definition kodiere_dict {A} `{Kodierbar A} (d : list (string * A)) : PyWert :=
    PDict ((fun kv => (kv.1, kodiere kv.2)) <$> d).

Definition kodiere_liste {A} `{Kodierbar A} (l : list A) : PyWert := PList (kodiere <$> l).

End Json.

Import Json.

(** ** What [datei_speichern] writes

    [o.__dict__] of a frozen dataclass: its fields in declaration order. *)
Module Kodierung.

#[export] Instance option_kodierbar : Kodierbar Option :=
  fun o => PDict [("id", PStr (oid o)); ("text", PStr (otext o))].

#[export] Instance thema_kodierbar : Kodierbar Thema :=
  fun t => PDict [("id", PStr (tid t)); ("text", PStr (ttext t))].

#[export] Instance frage_kodierbar : Kodierbar Frage :=
  fun f => PDict [("id", PStr (fid f)); ("text", PStr (text f));
                  ("optionen", kodiere_liste (optionen f)); ("themen", kodiere_liste (themen f));
                  ("uebergeordnete_frage_id", kodiere_opt_str (uebergeordnete_frage_id f));
                  ("uebergeordnete_antwortoption_id",
                     kodiere_opt_str (uebergeordnete_antwortoption_id f));
                  ("uebergeordnete_themen_limit", kodiere_opt_int (uebergeordnete_themen_limit f));
                  ("uebergeordnete_themen_zufaellig", PBool (uebergeordnete_themen_zufaellig f))].

#[export] Instance auswahl_kodierbar : Kodierbar AntwortThemaOption :=
  fun a => PDict [("thema_key", kodiere_opt_str (thema_key a));
                  ("thema_name", kodiere_opt_str (thema_name a));
                  ("option_key", PStr (option_key a))].

#[export] Instance antwort_kodierbar : Kodierbar Antwort :=
  fun a => PDict [("frage_id", PStr (antwort_frage_id a)); ("auswahl", kodiere_liste (auswahl a))].

#[export] Instance referenzdokument_kodierbar : Kodierbar Referenzdokument :=
  fun r => PDict [("id", PStr (rid r)); ("art", PStr (art r)); ("name", PStr (rname r));
                  ("pfad", PStr (pfad r)); ("erstellungsdatum", PStr (r_erstellungsdatum r))].

#[export] Instance zusammenfassung_auswahl_kodierbar : Kodierbar ZusammenfassungAuswahl :=
  fun a => PDict [("text_zusammenfassen", PBool (text_zusammenfassen a));
                  ("text_zusammenfassen_mit_zahlen", PBool (text_zusammenfassen_mit_zahlen a));
                  ("tabellen_extrahieren", PBool (tabellen_extrahieren a));
                  ("tabellen_zusammenfassen", PBool (tabellen_zusammenfassen a));
                  ("tabellen_zusammenfassen_mit_zahlen",
                     PBool (tabellen_zusammenfassen_mit_zahlen a))].

#[export] Instance str_kodierbar : Kodierbar string := PStr.

#[export] Instance prompt_kodierbar : Kodierbar Prompt :=
  fun p => PDict [("prompts", kodiere_dict (prompts p)); ("prompt_data", kodiere_dict (prompt_data p))].

(** A summary; its [LLM] holds LangChain messages and token counters,
    whose JSON form is the libraries' and is taken as given. *)
#[export] Instance zusammenfassung_kodierbar `{Kodierbar LLM} : Kodierbar Zusammenfassung :=
  fun z => PDict [("referenzdokument", kodiere (referenzdokument z));
                  ("zusammenfassung_auswahl", kodiere (zusammenfassung_auswahl z));
                  ("erstellungsdatum", PStr (erstellungsdatum z));
                  ("text_extrahiert", PStr (text_extrahiert z));
                  ("text_zusammengefasst", PStr (text_zusammengefasst z));
                  ("tabellen_extrahiert", kodiere_liste (tabellen_extrahiert z));
                  ("tabellen_zusammengefasst", kodiere_liste (tabellen_zusammengefasst z));
                  ("prompt", kodiere (prompt z)); ("llm", kodiere (llm z))].

(** [SiliconSamples]: the model's record leaves out [prompt] and [llm],
    which are written as the values given. *)
Definition samples_json `{Kodierbar Zusammenfassung} (prompt_json llm_json : PyWert)
    (ss : SiliconSamples) : PyWert :=
  PDict [("zusammenfassungen", kodiere_liste (ss_zusammenfassungen ss));
         ("fragen", kodiere_dict (ss_fragen ss));
         ("antworten", kodiere_dict (map_to_list (ss_antworten ss)));
         ("prompt", prompt_json); ("llm", llm_json)].

End Kodierung.

Import Kodierung.

(** ** [from_dict] and [datei_lesen] *)
Module Laden.

(** [Option.from_dict], [Thema.from_dict] *)
#[export] Instance option_from_dict : FromDict Option := fun data =>
    let? i := py_index data "id" in
    let? t := py_index data "text" in
    let? i := als_str "id" i in
    let? t := als_str "text" t in
    inr (mkOption i t).

#[export] Instance thema_from_dict : FromDict Thema := fun data =>
    let? i := py_index data "id" in
    let? t := py_index data "text" in
    let? i := als_str "id" i in
    let? t := als_str "text" t in
    inr (mkThema i t).

(** [[cls.from_dict(x) for x in v]] after [v = [v] if isinstance(v, dict)]. *)
Definition liste_from_dict {A} `{FromDict A} (v : PyWert) : Ladefehler + list A :=
    let? xs := py_iter (als_liste v) in map_res from_dict xs.

(** [Frage.from_dict] *)
#[export] Instance frage_from_dict : FromDict Frage := fun data =>
    let? optionen_data := py_get data "optionen" (PList []) in
    let? themen_data := py_get data "themen" (PList []) in
    let? os := liste_from_dict optionen_data in
    let? ts := liste_from_dict themen_data in
    let? i := py_index data "id" in
    let? t := py_index data "text" in
    let? uf := py_get data "uebergeordnete_frage_id" PNone in
    let? ua := py_get data "uebergeordnete_antwortoption_id" PNone in
    let? ul := py_get data "uebergeordnete_themen_limit" PNone in
    let? uz := py_get data "uebergeordnete_themen_zufaellig" (PBool false) in
    let? i := als_str "id" i in
    let? t := als_str "text" t in
    let? uf := als_opt_str "uebergeordnete_frage_id" uf in
    let? ua := als_opt_str "uebergeordnete_antwortoption_id" ua in
    let? ul := als_opt_int "uebergeordnete_themen_limit" ul in
    inr (mkFrage i t os ts uf ua ul (py_bool uz)).

(** [AntwortThemaOption.from_dict] *)
#[export] Instance auswahl_from_dict : FromDict AntwortThemaOption := fun data =>
    let? k := py_index data "thema_key" in
    let? n := py_index data "thema_name" in
    let? o := py_index data "option_key" in
    let? k := als_opt_str "thema_key" k in
    let? n := als_opt_str "thema_name" n in
    let? o := als_str "option_key" o in
    inr (mkAuswahl k n o).

(** [Antwort.from_dict] *)
#[export] Instance antwort_from_dict : FromDict Antwort := fun data =>
    let? a := py_get data "auswahl" (PList []) in
    let? a := liste_from_dict a in
    let? q := py_index data "frage_id" in
    let? q := als_str "frage_id" q in
    inr (mkAntwort q a).

(** [Referenzdokument.from_dict] *)
#[export] Instance referenzdokument_from_dict : FromDict Referenzdokument := fun data =>
    let? i := py_index data "id" in
    let? a := py_index data "art" in
    let? n := py_index data "name" in
    let? p := py_index data "pfad" in
    let? e := py_get data "erstellungsdatum" (PStr "") in
    let? i := als_str "id" i in
    let? a := als_str "art" a in
    let? n := als_str "name" n in
    let? p := als_str "pfad" p in
    let? e := als_str "erstellungsdatum" e in
    inr (mkReferenzdokument i a n p e).

Definition als_bool (feld : string) (v : PyWert) : Ladefehler + bool :=
    match v with PBool b => inr b | _ => inl (NichtDarstellbar feld) end.

(** [ZusammenfassungAuswahl.from_dict] *)
#[export] Instance zusammenfassung_auswahl_from_dict : FromDict ZusammenfassungAuswahl := fun data =>
    let? a := py_index data "text_zusammenfassen" in
    let? b := py_index data "text_zusammenfassen_mit_zahlen" in
    let? c := py_index data "tabellen_extrahieren" in
    let? d := py_index data "tabellen_zusammenfassen" in
    let? e := py_index data "tabellen_zusammenfassen_mit_zahlen" in
    let? a := als_bool "text_zusammenfassen" a in
    let? b := als_bool "text_zusammenfassen_mit_zahlen" b in
    let? c := als_bool "tabellen_extrahieren" c in
    let? d := als_bool "tabellen_zusammenfassen" d in
    let? e := als_bool "tabellen_zusammenfassen_mit_zahlen" e in
    inr (mkZusammenfassungAuswahl a b c d e).

(** A loaded [Prompt]: [Prompt.from_dict] keeps both dictionaries as
    they are. *)
Record GeladenerPrompt := mkGeladenerPrompt { gp_prompts : PyWert; gp_prompt_data : PyWert }.

#[export] Instance prompt_from_dict : FromDict GeladenerPrompt := fun data =>
    let? p := py_get data "prompts" (PDict []) in
    let? d := py_get data "prompt_data" (PDict []) in
    inr (mkGeladenerPrompt p d).

(** [LLMTokenverbrauch.from_dict]; the detail dictionaries are not
    modelled. *)
#[export] Instance tokenverbrauch_from_dict : FromDict LLMTokenverbrauch := fun data =>
    let? i := py_get data "input_tokens" (PInt 0) in
    let? o := py_get data "output_tokens" (PInt 0) in
    let? t := py_get data "total_tokens" (PInt 0) in
    let? i := als_int "input_tokens" i in
    let? o := als_int "output_tokens" o in
    let? t := als_int "total_tokens" t in
    inr (mkTokenverbrauch i o t).

(** A loaded [LLMChatverlauf]: the messages stay the dictionaries
    [json.load] returns. *)
Record GeladenerChatverlauf := mkGeladenerChatverlauf {
    gc_name : string; gc_chatverlauf : list PyWert
  }.

#[export] Instance chatverlauf_from_dict : FromDict GeladenerChatverlauf := fun data =>
    let? n := py_index data "name" in
    let? c := py_get data "chatverlauf" (PList []) in
    let? c := py_iter c in
    let? n := als_str "name" n in
    inr (mkGeladenerChatverlauf n c).

(** A loaded [LLM]. *)
Record GeladenesLLM := mkGeladenesLLM {
    gl_konfiguration : PyWert;
    gl_tokenverbrauch : list (string * LLMTokenverbrauch);
    gl_chatverlaeufe : list GeladenerChatverlauf
  }.

(** [{key: f(value) for key, value in v.items()}]: [.items()] exists on
    dictionaries only. *)
Definition dict_from_dict {A} `{FromDict A} (v : PyWert) : Ladefehler + list (string * A) :=
    match v with
    | PDict kv => map_res (fun kv => let? x := from_dict kv.2 in inr (kv.1, x)) kv
    | _ => inl (AttributeError "items")
    end.

(** [LLM.from_dict]: the default of [tokenverbrauch] is a list, which
    has no [.items()]. *)
#[export] Instance llm_from_dict : FromDict GeladenesLLM := fun data =>
    let? tv := py_get data "tokenverbrauch" (PList []) in
    let? tv := dict_from_dict tv in
    let? cv := py_get data "chatverlaeufe" (PList []) in
    let? cv := py_iter cv in
    let? cv := map_res from_dict cv in
    let? k := py_get data "konfiguration" (PDict []) in
    inr (mkGeladenesLLM k tv cv).

(** [x = cls.from_dict(x) if isinstance(x, dict) else x] *)
Definition feld_from_dict {A} `{FromDict A} (v : PyWert) : Ladefehler + Feld A :=
    match v with
    | PDict _ => let? a := from_dict v in inr (Objekt a)
    | _ => inr (Roh v)
    end.

(** A loaded [Zusammenfassung]. *)
Record GeladeneZusammenfassung := mkGeladeneZusammenfassung {
    gz_referenzdokument : Feld Referenzdokument;
    gz_zusammenfassung_auswahl : Feld ZusammenfassungAuswahl;
    gz_erstellungsdatum : string;
    gz_text_extrahiert : string;
    gz_text_zusammengefasst : string;
    gz_tabellen_extrahiert : list string;
    gz_tabellen_zusammengefasst : list string;
    gz_prompt : Feld GeladenerPrompt;
    gz_llm : Feld GeladenesLLM
  }.

(** [list(data.get(k, []))] of strings. *)
Definition str_liste (feld : string) (v : PyWert) : Ladefehler + list string :=
    let? xs := py_iter v in map_res (als_str feld) xs.

(** [Zusammenfassung.from_dict] *)
#[export] Instance zusammenfassung_from_dict : FromDict GeladeneZusammenfassung := fun data =>
    let? r := py_get data "referenzdokument" PNone in
    let? r := feld_from_dict r in
    let? a := py_get data "zusammenfassung_auswahl" PNone in
    let? a := feld_from_dict a in
    let? p := py_get data "prompt" (PDict []) in
    let? p := feld_from_dict p in
    let? l := py_get data "llm" (PDict []) in
    let? l := feld_from_dict l in
    let? e := py_index data "erstellungsdatum" in
    let? te := py_index data "text_extrahiert" in
    let? tz := py_index data "text_zusammengefasst" in
    let? tabe := py_get data "tabellen_extrahiert" (PList []) in
    let? tabe := str_liste "tabellen_extrahiert" tabe in
    let? tabz := py_get data "tabellen_zusammengefasst" (PList []) in
    let? tabz := str_liste "tabellen_zusammengefasst" tabz in
    let? e := als_str "erstellungsdatum" e in
    let? te := als_str "text_extrahiert" te in
    let? tz := als_str "text_zusammengefasst" tz in
    inr (mkGeladeneZusammenfassung r a e te tz tabe tabz p l).

(** A loaded [SiliconSamples].  [prompt] is converted only
    [if isinstance(prompt, Prompt)], which a value read from JSON never
    is. *)
Record GeladeneSamples := mkGeladeneSamples {
    gs_zusammenfassungen : Feld GeladeneZusammenfassung;
    gs_fragen : Feld (list (string * Frage));
    gs_antworten : Feld (list (string * Antwort));
    gs_prompt : PyWert;
    gs_llm : Feld GeladenesLLM
  }.

(** [{key: cls.from_dict(value) ...} if isinstance(v, dict) else v] *)
Definition dict_feld_from_dict {A} `{FromDict A} (v : PyWert) : Ladefehler + Feld (list (string * A)) :=
    match v with
    | PDict _ => let? d := dict_from_dict v in inr (Objekt d)
    | _ => inr (Roh v)
    end.

(** [SiliconSamples.from_dict] *)
#[export] Instance samples_from_dict : FromDict GeladeneSamples := fun data =>
    let? zs := py_get data "zusammenfassungen" (PList []) in
    let? zs := feld_from_dict zs in
    let? fs := py_index data "fragen" in
    let? fs := dict_feld_from_dict fs in
    let? ants := py_index data "antworten" in
    let? ants := dict_feld_from_dict ants in
    let? p := py_get data "prompt" (PDict []) in
    let? l := py_get data "llm" (PDict []) in
    let? l := feld_from_dict l in
    inr (mkGeladeneSamples zs fs ants p l).

(** The [Prompt] a summary stores, as [Prompt.from_dict] gives it back. *)
Definition prompt_geladen (p : Prompt) : GeladenerPrompt :=
  mkGeladenerPrompt (kodiere_dict (prompts p)) (kodiere_dict (prompt_data p)).

End Laden.

Import Laden.

(** ** Reading and writing files *)
Module Dateien.

(** The files: each path with the text it holds, an insertion-ordered
    dictionary (a new file is appended, a rewritten one keeps its
    place).  Directories are not modelled: a folder exists when a file
    is under it. *)
Definition Dateisystem : Type := list (string * string).

(** [Path(ordner) / d] ([erstelle_dateipfad(ordner, d, mit_basepath=False)]):
    [Path("")] is the current folder. *)
Definition path_join (ordner d : string) : string :=
    if String.eqb ordner "" then d else ordner +++ "/" +++ d.

(** A path as the code passes it around: a [Path], a [str], or the bound
    method [Path(p).absolute] (not called). *)
Inductive Pfadwert :=
  | PPath (p : string)
  | PText (s : string)
  | PAbsolut (p : string).

(** [str(p)]; the text of a bound method is its [repr]. *)
Definition str_pfad (p : Pfadwert) : string :=
    match p with
    | PPath s | PText s => s
    | PAbsolut s => "<bound method Path.absolute of PosixPath('" +++ s +++ "')>"
    end.

(** [if isinstance(dateipfad, str): dateipfad = Path(dateipfad)] *)
Definition als_path (p : Pfadwert) : Pfadwert :=
    match p with PText s => PPath s | _ => p end.

(** [_dateipfad(dateipfad, als_string)] *)
Definition _dateipfad (p : Pfadwert) (als_string : bool) : Pfadwert :=
    if als_string then PText (str_pfad p) else p.

(** [dateipfad_relativ(dateipfad, als_string)] *)
Definition dateipfad_relativ (p : Pfadwert) (als_string : bool) : Pfadwert :=
    _dateipfad (als_path p) als_string.

(** [dateipfad_absolut(dateipfad, als_string)]: [dateipfad.absolute]
    is not called, so the method itself is passed on; a method has no
    [.absolute]. *)
Definition dateipfad_absolut (p : Pfadwert) (als_string : bool) : Ladefehler + Pfadwert :=
    match als_path p with
    | PPath s => inr (_dateipfad (PAbsolut s) als_string)
    | _ => inl (AttributeError "absolute")
    end.

(** [datei.relative_to(ordnerpfad)] for a file under the folder. *)
Definition relativ_zu (ordner p : string) : option string :=
    if String.eqb ordner "" then Some p else strip_prefix (ordner +++ "/") p.

(** [ordner_auslesen(ordnerpfad, dateitypen)]: the files under the folder,
    at any depth, whose name matches the pattern, relative to the folder,
    in the order of the file system ([rglob]'s order is the directory
    order, which the model fixes as the order of creation).  A [str] has
    no [rglob]. *)
Definition ordner_auslesen (fs : Dateisystem) (ordnerpfad : Pfadwert) (dateitypen : string)
    : Ladefehler + list string :=
    match ordnerpfad with
    | PPath o =>
        inr (omap (fun pt => r ← relativ_zu o pt.1;
                             if glob_match dateitypen (basename r) then Some r else None) fs)
    | _ => inl (AttributeError "rglob")
    end.

(** What [datei_lesen] returns: the text, one object for a JSON object,
    a list for a JSON list, or the value itself. *)
Inductive Gelesen (A : Type) :=
  | Text (inhalt : string)
  | Eins (a : A)
  | Viele (l : list A)
  | Sonst (v : PyWert).
Arguments Text {A} inhalt.
Arguments Eins {A} a.
Arguments Viele {A} l.
Arguments Sonst {A} v.

Section Json.
(** [json.load] (a [JSONDecodeError] is a [ValueError]) and the text
    [json.dump] writes; the JSON library is taken as given. *)
Variable json_load : string -> Ladefehler + PyWert.
Variable json_dump : PyWert -> string.

(** [datei_speichern(dateipfad, items)]: [daten] is the value
    [json.dump] writes for [items] ([kodiere items]). *)
Definition datei_speichern (fs : Dateisystem) (dateipfad : string) (daten : PyWert) : Dateisystem :=
    dict_set fs dateipfad (json_dump daten).

(** [datei_lesen(dateipfad, json_datei, cls)] *)
Definition datei_lesen {A} `{FromDict A} (fs : Dateisystem) (dateipfad : string) (json_datei : bool)
    : Ladefehler + Gelesen A :=
    match dict_get fs dateipfad with
    | None => inl (FileNotFoundError dateipfad)
    | Some inhalt =>
        if json_datei then
          let? daten := json_load inhalt in
          match daten with
          | PDict _ => let? a := from_dict daten in inr (Eins a)
          | PList l => let? xs := map_res from_dict l in inr (Viele xs)
          | _ => inr (Sonst daten)
          end
        else inr (Text inhalt)
    end.

(** [SiliconSamplesGeneratorAPI.siliconsamples(dateipfad)] *)
Definition siliconsamples (fs : Dateisystem) (dateipfad : string) : Ladefehler + Gelesen GeladeneSamples :=
    datei_lesen fs dateipfad true.

(** [ReferenzdokumenteAPI.zusammenfassung(dateipfad)] *)
Definition zusammenfassung (fs : Dateisystem) (dateipfad : string)
    : Ladefehler + Gelesen GeladeneZusammenfassung :=
    datei_lesen fs dateipfad true.
End Json.

End Dateien.

(** ** The result table of a loaded sample *)
Module Anzeige.

(** [streamlit_siliconsamples_dataframe] on a sample read from a file:
    [.items()] on answers that are not a dictionary, and [.get] on
    questions that are not one, raise [AttributeError] (the latter at
    the first entry, as a missing question does). *)
Definition dataframe_geladen (g : GeladeneSamples) : Tabelle.Anzeigefehler + list Tabelle.Zeile :=
    match gs_antworten g with
    | Roh _ => inl (Tabelle.AttributeError "items")
    | Objekt ants =>
        match gs_fragen g with
        | Objekt fs => Tabelle.dataframe_zeilen fs ants
        | Roh _ => Tabelle.dataframe_zeilen [] ants
        end
    end.

End Anzeige.

(** ** Example files *)
Module Beispieldateien.
Import Befragung.Beispiele.

(** A model record written as [None]. *)
Definition llm_als_none : Kodierbar LLM := fun _ => PNone.

Definition z_kodierbar : Kodierbar Zusammenfassung := @zusammenfassung_kodierbar llm_als_none.

Definition dokument : Referenzdokument := mkReferenzdokument "0" "PDF" "a.pdf" "pdfs/a.pdf" "".

Definition zusammenfassung0 : Zusammenfassung :=
  mkZusammenfassung dokument (mkZusammenfassungAuswahl true false true true false) "20250101-120000"
    "Text" "Kurz" ["| a |"] ["Tabelle kurz"] (mkPrompt [("text", "Fasse zusammen.")] []) (mkLLM [] [] []).

Definition samples0 : SiliconSamples :=
  mkSiliconSamples [zusammenfassung0] [("q2", frage_zwei)]
    {[ "q2" := mkAntwort "q2" [mkAuswahl (Some "u") (Some "U") "2"] ]} [].

Definition samples0_json : PyWert := @samples_json z_kodierbar (PDict []) PNone samples0.

(** A file system holding one summary object, and one without the
    [llm] entry of a sample. *)
Definition eine_zusammenfassung : Dateien.Dateisystem := [("z.json", "{...}")].

Definition lade_eine (_ : string) : Ladefehler + PyWert := inr (@kodiere _ z_kodierbar zusammenfassung0).

Definition samples_ohne_llm_eintraege : list (string * PyWert) :=
  [("zusammenfassungen", PList []); ("fragen", PDict []); ("antworten", PDict []); ("prompt", PDict [])].

End Beispieldateien.

(** * Properties *)

Import Dateien Anzeige.

(** ** Round trips of the dataclasses *)

#[local] Arguments liste_from_dict : simpl never.
#[local] Arguments kodiere_liste : simpl never.
#[local] Arguments dict_from_dict : simpl never.
#[local] Arguments kodiere_dict : simpl never.

Lemma liste_rundlauf {A} `{Kodierbar A} `{FromDict A} `{!Rundlauf A} (l : list A) :
  liste_from_dict (kodiere_liste l) = inr l.
Proof. unfold liste_from_dict, kodiere_liste. simpl. apply map_res_fmap_inr. intros x _. apply rundlauf. Qed.

Lemma dict_rundlauf {A} `{Kodierbar A} `{FromDict A} `{!Rundlauf A} (d : list (string * A)) :
  dict_from_dict (kodiere_dict d) = inr d.
Proof.
  unfold dict_from_dict, kodiere_dict. apply map_res_fmap_inr.
  intros [k x] _. simpl. by rewrite rundlauf.
Qed.

#[export] Instance option_rundlauf : Rundlauf Option.
Proof. by intros []. Qed.

#[export] Instance thema_rundlauf : Rundlauf Thema.
Proof. by intros []. Qed.

#[export] Instance auswahl_rundlauf : Rundlauf AntwortThemaOption.
Proof. intros [[k|] [n|] o]; reflexivity. Qed.

#[export] Instance referenzdokument_rundlauf : Rundlauf Referenzdokument.
Proof. by intros []. Qed.

#[export] Instance zusammenfassung_auswahl_rundlauf : Rundlauf ZusammenfassungAuswahl.
Proof. by intros []. Qed.

#[export] Instance antwort_rundlauf : Rundlauf Antwort.
Proof.
  intros [q a]. unfold from_dict at 1, antwort_from_dict.
  simpl. by rewrite liste_rundlauf.
Qed.

#[export] Instance frage_rundlauf : Rundlauf Frage.
Proof.
  intros [i t os ts [uf|] [ua|] [ul|] uz]; unfold from_dict at 1, frage_from_dict;
    simpl; rewrite !liste_rundlauf; by destruct uz.
Qed.

#[local] Arguments feld_from_dict : simpl never.
#[local] Arguments str_liste : simpl never.

Lemma str_liste_rundlauf feld (l : list string) :
  str_liste feld (kodiere_liste l) = inr l.
Proof. unfold str_liste, kodiere_liste. simpl. by apply map_res_fmap_inr. Qed.

(** a summary as the summariser stores it is read back with its
    document, its selection, its date, its texts and its tables, as
    objects again, and with the prompt and model record as
    [Prompt.from_dict] and [LLM.from_dict] rebuild them; the interview's
    briefing reads exactly the texts and tables. *)
Theorem zusammenfassung_rundlauf `{Kodierbar LLM} (z : Zusammenfassung) gl :
  feld_from_dict (kodiere (llm z)) = inr gl ->
  from_dict (kodiere z)
  = inr (mkGeladeneZusammenfassung (Objekt (referenzdokument z)) (Objekt (zusammenfassung_auswahl z))
           (erstellungsdatum z) (text_extrahiert z) (text_zusammengefasst z)
           (tabellen_extrahiert z) (tabellen_zusammengefasst z) (Objekt (prompt_geladen (prompt z))) gl).
Proof.
  intros Hl. destruct z as [[] [] e te tz tabe tabz [] l]. simpl in *.
  unfold from_dict at 1, zusammenfassung_from_dict, kodiere at 1, zusammenfassung_kodierbar.
  simpl. rewrite Hl. simpl. by rewrite !str_liste_rundlauf.
Qed.

Lemma samples_from_dict_json `{Kodierbar Zusammenfassung} prompt_json llm_json ss gl :
  feld_from_dict llm_json = inr gl ->
  from_dict (samples_json prompt_json llm_json ss)
  = inr (mkGeladeneSamples (Roh (kodiere_liste (ss_zusammenfassungen ss))) (Objekt (ss_fragen ss))
           (Objekt (map_to_list (ss_antworten ss))) prompt_json gl).
Proof.
  intros Hl. unfold from_dict at 1, samples_from_dict, samples_json. simpl.
  rewrite !dict_rundlauf. simpl. by rewrite Hl.
Qed.

(** C19: a silicon sample as the page stores it is read back with its
    questions and answers as objects again, but with its summaries left
    as the list of dictionaries [json.load] returns: [from_dict] converts
    them only when they are a single dictionary, so the field annotated
    [list[Zusammenfassung]] never holds a [Zusammenfassung] after loading;
    [prompt] stays the raw dictionary. *)
Theorem samples_rundlauf `{Kodierbar Zusammenfassung} prompt_json llm_json ss gl :
  feld_from_dict llm_json = inr gl ->
  from_dict (samples_json prompt_json llm_json ss)
  = inr (mkGeladeneSamples (Roh (kodiere_liste (ss_zusammenfassungen ss))) (Objekt (ss_fragen ss))
           (Objekt (map_to_list (ss_antworten ss))) prompt_json gl).
Proof. apply samples_from_dict_json. Qed.

(** ** Paths and folder listings *)

(** [Path.relative_to] undoes [Path(ordner) / r]. *)
Lemma relativ_zu_join o r : relativ_zu o (path_join o r) = Some r.
Proof.
  unfold relativ_zu, path_join. destruct (String.eqb o ""); [done|].
  rewrite <- str_app_assoc. apply strip_prefix_app.
Qed.

Lemma relativ_zu_Some o p r : relativ_zu o p = Some r -> p = path_join o r.
Proof.
  unfold relativ_zu, path_join. destruct (String.eqb o ""); [by intros [= ->]|].
  intros ->%strip_prefix_Some. by rewrite str_app_assoc.
Qed.

(** [ordner_auslesen] lists exactly the files under the folder whose
    name matches the pattern. *)
Lemma ordner_auslesen_elem fs o m ds r :
  ordner_auslesen fs (PPath o) m = inr ds ->
  r ∈ ds <-> (exists t, dict_get fs (path_join o r) = Some t) /\ glob_match m (basename r) = true.
Proof.
  cbn. intros [= <-]. rewrite list_elem_of_omap. split.
  - intros ([p t] & Hin & Hr). cbn in Hr.
    destruct (relativ_zu o p) as [r'|] eqn:Hrel; [|done]. cbn in Hr.
    destruct (glob_match m (basename r')) eqn:Hg; [|done]. injection Hr as <-.
    apply relativ_zu_Some in Hrel as ->. split; [|done].
    apply dict_keys_get. by apply (list_elem_of_fmap_2 fst) in Hin.
  - intros [Ht Hg]. apply dict_keys_get, list_elem_of_fmap in Ht as ([p t] & Hp & Hin).
    cbn in Hp. subst p. exists (path_join o r, t). split; [done|].
    cbn. rewrite relativ_zu_join. cbn. by rewrite Hg.
Qed.

(** A JSON file stored directly in the folder is listed by it. *)
Lemma ordner_auslesen_gespeichert json_dump fs o name daten :
  alle (ohne_char "/") name = true -> ends_with ".json" name = true ->
  exists ds, ordner_auslesen (datei_speichern json_dump fs (path_join o name) daten) (PPath o) "*.json" = inr ds
             /\ name ∈ ds.
Proof.
  intros Hn Hj. eexists. split; [reflexivity|]. eapply ordner_auslesen_elem; [reflexivity|].
  split; [eexists; apply dict_get_set_eq|].
  rewrite basename_einfach by done. by rewrite glob_match_stern by reflexivity.
Qed.

(** C22: [ordner_auslesen(ordner, "*.json")] on a [Path] lists exactly
    the JSON files below the folder: a relative path [r] is listed if and
    only if a file is stored at [Path(ordner) / r] and its name ends in
    [".json"]; [rglob] descends into subfolders, so [r] may contain
    ["/"]. *)
Theorem ordner_auslesen_json fs o ds r :
  ordner_auslesen fs (PPath o) "*.json" = inr ds ->
  r ∈ ds <-> (exists t, dict_get fs (path_join o r) = Some t) /\ ends_with ".json" (basename r) = true.
Proof. intros H. rewrite (ordner_auslesen_elem _ _ _ _ _ H). by rewrite glob_match_stern by reflexivity. Qed.

Lemma ordner_auslesen_json_witness :
  ordner_auslesen [("daten/a.json", "{}"); ("daten/alt/b.json", "[]"); ("daten/c.txt", "")] (PPath "daten") "*.json"
    = inr ["a.json"; "alt/b.json"] /\
  ("alt/b.json" ∈ ["a.json"; "alt/b.json"] <->
   (exists t, dict_get [("daten/a.json", "{}"); ("daten/alt/b.json", "[]"); ("daten/c.txt", "")]
                (path_join "daten" "alt/b.json") = Some t) /\ ends_with ".json" (basename "alt/b.json") = true).
Proof. split; [reflexivity|]. by apply ordner_auslesen_json. Defined.

Lemma datei_lesen_gespeichert {A} `{FromDict A} json_load json_dump fs pfad daten :
  json_load (json_dump daten) = inr daten ->
  datei_lesen json_load (datei_speichern json_dump fs pfad daten) pfad true
  = match daten with
    | PDict _ => let? a := from_dict daten in inr (Eins a)
    | PList l => let? xs := map_res from_dict l in inr (Viele xs)
    | _ => inr (Sonst daten)
    end.
Proof.
  intros Hj. unfold datei_lesen, datei_speichern. rewrite dict_get_set_eq. simpl. by rewrite Hj.
Qed.

(** A sample the page writes with [datei_speichern] is read back by
    [siliconsamples] as the object [from_dict] makes of it. *)
Lemma samples_gespeichert_geladen `{Kodierbar Zusammenfassung} json_load json_dump fs pfad
    prompt_json llm_json ss (gl : Feld GeladenesLLM) :
  json_load (json_dump (samples_json prompt_json llm_json ss)) = inr (samples_json prompt_json llm_json ss) ->
  feld_from_dict llm_json = inr gl ->
  siliconsamples json_load (datei_speichern json_dump fs pfad (samples_json prompt_json llm_json ss)) pfad
  = inr (Eins (mkGeladeneSamples (Roh (kodiere_liste (ss_zusammenfassungen ss))) (Objekt (ss_fragen ss))
           (Objekt (map_to_list (ss_antworten ss))) prompt_json gl)).
Proof.
  intros Hj Hl. unfold siliconsamples. rewrite datei_lesen_gespeichert by done.
  change (match samples_json prompt_json llm_json ss with
          | PDict _ => let? a := from_dict (samples_json prompt_json llm_json ss) in inr (Eins a)
          | PList l => let? xs := map_res from_dict l in inr (Viele xs)
          | _ => inr (Sonst (samples_json prompt_json llm_json ss))
          end) with (let? a := from_dict (samples_json prompt_json llm_json ss) in
                     inr (Eins (A:=GeladeneSamples) a)).
  by rewrite (samples_from_dict_json _ _ _ gl Hl).
Qed.

(** A sample the page writes with [datei_speichern] and the result
    page reads back with [siliconsamples] is shown as the same table as
    the sample the run produced: storing and loading does not change
    the answers shown, when [json.load] reads back what [json.dump]
    wrote and the model record loads. *)
Theorem gespeicherte_samples_anzeigen `{Kodierbar Zusammenfassung} json_load json_dump fs pfad
    prompt_json llm_json ss (gl : Feld GeladenesLLM) :
  json_load (json_dump (samples_json prompt_json llm_json ss)) = inr (samples_json prompt_json llm_json ss) ->
  feld_from_dict llm_json = inr gl ->
  match siliconsamples json_load (datei_speichern json_dump fs pfad (samples_json prompt_json llm_json ss)) pfad with
  | inr (Eins g) => dataframe_geladen g = Tabelle.streamlit_siliconsamples_dataframe ss
  | _ => False
  end.
Proof.
  intros Hj Hl. by rewrite (samples_gespeichert_geladen _ _ _ _ _ _ _ gl Hj Hl).
Qed.

Lemma zusammenfassung_rundlauf_witness :
  @from_dict GeladeneZusammenfassung _ (@kodiere _ Beispieldateien.z_kodierbar Beispieldateien.zusammenfassung0)
  = inr (mkGeladeneZusammenfassung (Objekt Beispieldateien.dokument)
           (Objekt (mkZusammenfassungAuswahl true false true true false)) "20250101-120000" "Text" "Kurz"
           ["| a |"] ["Tabelle kurz"]
           (Objekt (prompt_geladen (mkPrompt [("text", "Fasse zusammen.")] []))) (Roh PNone)).
Proof. by apply (@zusammenfassung_rundlauf Beispieldateien.llm_als_none). Defined.

Lemma samples_rundlauf_witness :
  @from_dict GeladeneSamples _ Beispieldateien.samples0_json
  = inr (mkGeladeneSamples
           (Roh (@kodiere_liste _ Beispieldateien.z_kodierbar [Beispieldateien.zusammenfassung0]))
           (Objekt [("q2", Befragung.Beispiele.frage_zwei)])
           (Objekt (map_to_list (ss_antworten Beispieldateien.samples0))) (PDict []) (Roh PNone)).
Proof. by apply (@samples_rundlauf Beispieldateien.z_kodierbar). Defined.

Lemma gespeicherte_samples_anzeigen_witness :
  match Dateien.siliconsamples (fun _ => inr Beispieldateien.samples0_json)
          (datei_speichern (fun _ => "{...}") [] "s.json" Beispieldateien.samples0_json)
          "s.json" with
  | inr (Eins g) => dataframe_geladen g = Tabelle.streamlit_siliconsamples_dataframe Beispieldateien.samples0
  | _ => False
  end.
Proof.
  exact (@gespeicherte_samples_anzeigen Beispieldateien.z_kodierbar (fun _ => inr Beispieldateien.samples0_json)
           (fun _ => "{...}") [] "s.json" (PDict []) PNone Beispieldateien.samples0
           (Roh PNone) eq_refl eq_refl).
Defined.

Lemma let_ist_inr_false {E A B} (m : E + A) (k : A -> E + B) :
  (forall x, ist_inr (k x) = false) -> ist_inr (let? x := m in k x) = false.
Proof. intros Hk. destruct m; [done|apply Hk]. Qed.

(** C36: a sample file whose object has no [llm] entry can never be
    loaded: [SiliconSamples.from_dict] passes the default [{}] to
    [LLM.from_dict], whose own default for [tokenverbrauch] is a list,
    and [[].items()] raises [AttributeError]. *)
Theorem samples_ohne_llm kv :
  dict_get kv "llm" = None -> ist_inr (@from_dict GeladeneSamples _ (PDict kv)) = false.
Proof.
  intros Hn. unfold from_dict, samples_from_dict. cbn [py_get]. rewrite Hn.
  do 5 (apply let_ist_inr_false; intros ?). reflexivity.
Qed.

Lemma samples_ohne_llm_witness :
  ist_inr (@from_dict GeladeneSamples _ (PDict Beispieldateien.samples_ohne_llm_eintraege)) = false.
Proof. apply samples_ohne_llm. reflexivity. Defined.

(** C25: what [datei_lesen(..., json_datei=True, cls)] returns has the
    shape of the file's JSON value, not the type its callers annotate:
    one object for a JSON object, a list of as many objects for a JSON
    list, the value itself for anything else.  [ReferenzdokumenteAPI.zusammenfassung]
    promises a [list[Zusammenfassung]] but returns a single summary for
    a file holding one object. *)
Theorem datei_lesen_form {A} `{FromDict A} json_load (fs : Dateisystem) pfad inhalt daten (r : Gelesen A) :
  dict_get fs pfad = Some inhalt -> json_load inhalt = inr daten ->
  datei_lesen json_load fs pfad true = inr r ->
  match r with
  | Eins _ => exists kv, daten = PDict kv
  | Viele xs => exists l, daten = PList l /\ List.length xs = List.length l
  | Sonst v => v = daten /\ (forall kv, daten <> PDict kv) /\ (forall l, daten <> PList l)
  | Text _ => False
  end.
Proof.
  intros Hf Hj. unfold datei_lesen. rewrite Hf, Hj. simpl.
  destruct daten as [| | |kv|l| |]; try (intros [= <-]; done).
  - destruct (from_dict _); [done|]. intros [= <-]. by exists kv.
  - destruct (map_res from_dict l) as [|xs] eqn:Hm; [done|]. intros [= <-]. exists l.
    split; [done|]. symmetry. by eapply Forall2_length, map_res_inr.
Qed.

Lemma datei_lesen_form_witness :
  Dateien.zusammenfassung Beispieldateien.lade_eine Beispieldateien.eine_zusammenfassung "z.json"
    = inr (Eins (mkGeladeneZusammenfassung (Objekt Beispieldateien.dokument)
           (Objekt (mkZusammenfassungAuswahl true false true true false)) "20250101-120000" "Text" "Kurz"
           ["| a |"] ["Tabelle kurz"]
           (Objekt (prompt_geladen (mkPrompt [("text", "Fasse zusammen.")] []))) (Roh PNone))) /\
  exists kv, @kodiere _ Beispieldateien.z_kodierbar Beispieldateien.zusammenfassung0 = PDict kv.
Proof.
  assert (E : Dateien.zusammenfassung Beispieldateien.lade_eine Beispieldateien.eine_zusammenfassung "z.json"
    = inr (Eins (mkGeladeneZusammenfassung (Objekt Beispieldateien.dokument)
           (Objekt (mkZusammenfassungAuswahl true false true true false)) "20250101-120000" "Text" "Kurz"
           ["| a |"] ["Tabelle kurz"]
           (Objekt (prompt_geladen (mkPrompt [("text", "Fasse zusammen.")] []))) (Roh PNone))))
    by reflexivity.
  split; [exact E|].
  exact (datei_lesen_form Beispieldateien.lade_eine Beispieldateien.eine_zusammenfassung "z.json" "{...}"
           (@kodiere _ Beispieldateien.z_kodierbar Beispieldateien.zusammenfassung0) _ eq_refl eq_refl E).
Defined.
