(* ===== verification/Aufruf.v ===== *)
(** * Invoking the graph: [LLMGenerator] of [src/src/shared/generator.py]

    Both generators ([Fragesteller], [Zusammenfassungsgenerator]) derive
    from [LLMGenerator].  Its constructor records the prompt, the thread
    prefix, a fresh [UsageMetadataCallbackHandler] and [datetime.now()];
    [startzeit_formatiert] and [thread_id] name the run;
    [aufrufen] invokes the graph with a config whose ["configurable"]
    entry carries the thread id, the prompt and a snapshot
    [llm_tokenverbrauch()] of the callback's counters, optionally
    resetting the callback first, and returns the graph's output or lets
    its exception propagate; the graph's nodes read that config
    back with [hole_tokenverbrauch_aus_graph] and
    [hole_prompt_data_aus_graph], and the summariser's [fortschritt]
    shows the token count in its progress bar.

    Module [Zeit] is [datetime.strftime] for the directives the code uses
    ([%Y %m %d %H %M %S], as Python documents them: zero-padded to 4 and
    2 digits) and its inverse [stempel_lesen]; module [Aufruf] is the
    generator's state and operations.  The callback's accumulation
    ([on_llm_end] with [add_usage] of [langchain_core]) is the library's,
    modelled as its documentation states; the provider object and the
    Streamlit progress bar the config also carries are not modelled. *)

From Stdlib Require Import QArith.
From stdpp Require Import pretty.
From S2P Require Import Prelude PyStr Generator Persistenz.

Open Scope string_scope.
Open Scope list_scope.
Open Scope py_scope.

Module Zeit.

(** [datetime.datetime], as [datetime.now()] returns it. *)
Record Zeitpunkt := mkZeitpunkt {
    year : nat; month : nat; day : nat;
    hour : nat; minute : nat; second : nat; microsecond : nat
  }.

(** The ranges [datetime] enforces (days are bounded by 31 here; the
    month-dependent bound plays no role). *)
Definition gueltig (t : Zeitpunkt) : bool :=
    Nat.leb 1 (year t) && Nat.ltb (year t) (10 ^ 4) && Nat.leb 1 (month t)
    && Nat.leb (month t) 12 && Nat.leb 1 (day t) && Nat.leb (day t) 31
    && Nat.ltb (hour t) 24 && Nat.ltb (minute t) 60 && Nat.ltb (second t) 60
    && Nat.ltb (microsecond t) (10 ^ 6).

(** One decimal digit. *)
Definition ziffer (d : nat) : ascii := ascii_of_nat (48 + d).

(** [n] written with exactly [k] digits, zero-padded, most significant
    first. *)
Fixpoint ziffern (k n : nat) : string :=
    match k with
    | 0 => ""
    | S k' => String (ziffer (n / 10 ^ k' mod 10)) (ziffern k' n)
    end.

(** The directives of [strftime] the code uses: width and field. *)
Definition direktive (c : ascii) : option (nat * (Zeitpunkt -> nat)) :=
    if Ascii.eqb c "Y" then Some (4, year)
    else if Ascii.eqb c "m" then Some (2, month)
    else if Ascii.eqb c "d" then Some (2, day)
    else if Ascii.eqb c "H" then Some (2, hour)
    else if Ascii.eqb c "M" then Some (2, minute)
    else if Ascii.eqb c "S" then Some (2, second)
    else None.

(** [t.strftime(fmt)]: a known directive is replaced by its field, every
    other character is copied. *)
Fixpoint strftime (fmt : string) (t : Zeitpunkt) : string :=
    match fmt with
    | EmptyString => ""
    | String c rest =>
        if Ascii.eqb c "%" then
          match rest with
          | String d rest' =>
              match direktive d with
              | Some (w, f) => ziffern w (f t) +++ strftime rest' t
              | None => String c (String d (strftime rest' t))
              end
          | EmptyString => String c ""
          end
        else String c (strftime rest t)
    end.

(** The fields [strftime fmt] writes, in the order it writes them. *)
Fixpoint felder (fmt : string) (t : Zeitpunkt) : list nat :=
    match fmt with
    | EmptyString => []
    | String c rest =>
        if Ascii.eqb c "%" then
          match rest with
          | String d rest' =>
              match direktive d with
              | Some (_, f) => f t :: felder rest' t
              | None => felder rest' t
              end
          | EmptyString => []
          end
        else felder rest t
    end.

(** Reading digits back. *)
Definition ziffer_wert (c : ascii) : option nat :=
    let n := nat_of_ascii c in
    if Nat.leb 48 n && Nat.ltb n 58 then Some (n - 48) else None.

Fixpoint ziffern_lesen (k acc : nat) (s : string) : option (nat * string) :=
    match k with
    | 0 => Some (acc, s)
    | S k' =>
        match s with
        | String c s' => d ← ziffer_wert c; ziffern_lesen k' (acc * 10 + d) s'
        | EmptyString => None
        end
    end.

Definition zeichen_lesen (c : ascii) (s : string) : option string :=
    match s with
    | String c' s' => if Ascii.eqb c c' then Some s' else None
    | EmptyString => None
    end.

(** Reading a stamp back along its format: the fields in format order,
    each read with the width its directive writes.  Not code of the
    program; the proofs use it as the inverse of [strftime]. *)
Fixpoint stempel_lesen (fmt s : string) : option (list nat) :=
    match fmt with
    | EmptyString => match s with EmptyString => Some [] | _ => None end
    | String c rest =>
        if Ascii.eqb c "%" then
          match rest with
          | String d rest' =>
              match direktive d with
              | Some (w, _) =>
                  '(n, s') ← ziffern_lesen w 0 s; ns ← stempel_lesen rest' s'; Some (n :: ns)
              | None => s1 ← zeichen_lesen c s; s2 ← zeichen_lesen d s1; stempel_lesen rest' s2
              end
          | EmptyString => s1 ← zeichen_lesen c s; match s1 with EmptyString => Some [] | _ => None end
          end
        else s1 ← zeichen_lesen c s; stempel_lesen rest s1
    end.

(** ** Round trip *)

Lemma ziffer_wert_ziffer d : d < 10 -> ziffer_wert (ziffer d) = Some d.
Proof.
  intros Hd. unfold ziffer_wert, ziffer.
  rewrite Ascii.nat_ascii_embedding by lia.
  replace (Nat.leb 48 (48 + d) && Nat.ltb (48 + d) 58) with true
    by (symmetry; apply andb_true_intro; split; [apply Nat.leb_le|apply Nat.ltb_lt]; lia).
  f_equal; lia.
Qed.

Lemma mod_pow10_succ n k : n mod 10 ^ S k = n / 10 ^ k mod 10 * 10 ^ k + n mod 10 ^ k.
Proof.
  rewrite Nat.pow_succ_r', (Nat.mul_comm 10), Nat.Div0.mod_mul_r. lia.
Qed.

Lemma ziffern_lesen_app k acc n r :
  ziffern_lesen k acc (ziffern k n +++ r) = Some (acc * 10 ^ k + n mod 10 ^ k, r).
Proof.
  revert acc. induction k as [|k IH]; intros acc; cbn [ziffern ziffern_lesen].
  - rewrite str_app_nil_l, Nat.pow_0_r, Nat.mod_1_r. do 2 f_equal. lia.
  - rewrite str_app_cons. cbn [ziffern_lesen].
    rewrite ziffer_wert_ziffer by (apply Nat.mod_upper_bound; lia). cbn [mbind option_bind].
    rewrite IH, mod_pow10_succ, Nat.pow_succ_r'. f_equal. f_equal. lia.
Qed.

Lemma direktive_gueltig t c w f :
  gueltig t = true -> direktive c = Some (w, f) -> f t < 10 ^ w.
Proof.
  unfold gueltig. rewrite !andb_true_iff, !Nat.leb_le, !Nat.ltb_lt. intros H.
  decompose [and] H. unfold direktive.
  repeat case_match; intros [= <- <-]; first [assumption | cbn; lia].
Qed.

Lemma zeichen_lesen_cons c s : zeichen_lesen c (String c s) = Some s.
Proof. cbn. by rewrite Ascii.eqb_refl. Qed.

Lemma stempel_lesen_strftime fmt t :
  gueltig t = true -> stempel_lesen fmt (strftime fmt t) = Some (felder fmt t).
Proof.
  intros Ht. remember (String.length fmt) as n eqn:Hn.
  revert fmt Hn. induction (lt_wf n) as [n _ IH]. intros [|c rest] Hn; [done|].
  cbn [stempel_lesen strftime felder]. destruct (Ascii.eqb c "%") eqn:Ec.
  - destruct rest as [|d rest']; [by rewrite zeichen_lesen_cons|].
    destruct (direktive d) as [[w f]|] eqn:Ed.
    + rewrite ziffern_lesen_app, Nat.mod_small by eauto using direktive_gueltig.
      cbn [mbind option_bind]. rewrite (IH (String.length rest')) by (cbn in Hn; lia || done).
      done.
    + rewrite zeichen_lesen_cons. cbn [mbind option_bind]. rewrite zeichen_lesen_cons.
      apply (IH (String.length rest')); [cbn in Hn; lia|done].
  - rewrite zeichen_lesen_cons. cbn [mbind option_bind].
    apply (IH (String.length rest)); [cbn in Hn; lia|done].
Qed.

End Zeit.

Module Aufruf.
Import Zeit Generator.Generator Generator.Inhalt Persistenz.Json Persistenz.Laden.

(** [UsageMetadata] as the callback keeps it per model: the three
    counters (the detail dictionaries are not modelled). *)
Record UsageMetadata := mkUsageMetadata { u_input : Z; u_output : Z; u_total : Z }.

(** [add_usage] of [langchain_core]: the counters added field by field. *)
Definition add_usage (a b : UsageMetadata) : UsageMetadata :=
    mkUsageMetadata (u_input a + u_input b) (u_output a + u_output b) (u_total a + u_total b).

(** [UsageMetadataCallbackHandler.on_llm_end] for a response of model
    [m]: a new model gets its own entry, a known one is added to. *)
Definition on_llm_end (um : list (string * UsageMetadata)) (m : string) (u : UsageMetadata)
    : list (string * UsageMetadata) :=
    match dict_get um m with
    | Some a => dict_set um m (add_usage a u)
    | None => dict_set um m u
    end.

(** The dictionary the handler holds for a model. *)
Definition usage_dict (u : UsageMetadata) : PyWert :=
    PDict [("input_tokens", PInt (u_input u)); ("output_tokens", PInt (u_output u));
           ("total_tokens", PInt (u_total u))].

(** The state of an [LLMGenerator] its operations read and change: the
    prompt, the thread prefix, the callback's [usage_metadata] and the
    start time (the provider, the state class and the graph are not
    state these operations change). *)
Record LLMGenerator := mkLLMGenerator {
    prompt : Prompt;
    thread_prefix : string;
    llm_callback : list (string * UsageMetadata);
    startzeit : Zeitpunkt
  }.

(** [LLMGenerator.__init__], with [datetime.now()] given as [jetzt]. *)
Definition llm_generator (prompt : Prompt) (thread_prefix : string) (jetzt : Zeitpunkt)
    : LLMGenerator :=
    mkLLMGenerator prompt thread_prefix [] jetzt.

(** [startzeit_formatiert()] *)
Definition startzeit_formatiert (g : LLMGenerator) : string :=
    strftime "%Y%m%d-%H%M%S" (startzeit g).

(** [thread_id()] *)
Definition thread_id (g : LLMGenerator) : string :=
    thread_prefix g +++ "-" +++ startzeit_formatiert g.

(** One value of the comprehension in [llm_tokenverbrauch]: the dict it
    builds with [value.get(...)] and [or {}], passed to
    [LLMTokenverbrauch.from_dict]. *)
Definition tokenverbrauch_eintrag (value : PyWert) : Ladefehler + LLMTokenverbrauch :=
    let? i := py_get value "input_tokens" (PInt 0) in
    let? o := py_get value "output_tokens" (PInt 0) in
    let? t := py_get value "total_tokens" (PInt 0) in
    let? di := py_get value "input_token_details" (PDict []) in
    let? dout := py_get value "output_token_details" (PDict []) in
    from_dict (PDict [("input_tokens", i); ("output_tokens", o); ("total_tokens", t);
                      ("input_token_details", if py_bool di then di else PDict []);
                      ("output_token_details", if py_bool dout then dout else PDict [])]).

(** [llm_tokenverbrauch()] *)
Definition llm_tokenverbrauch (g : LLMGenerator)
    : Ladefehler + list (string * LLMTokenverbrauch) :=
    map_res (fun kv => let? t := tokenverbrauch_eintrag (usage_dict kv.2) in inr (kv.1, t))
      (llm_callback g).

(** The ["configurable"] entry of the config [aufrufen] passes. *)
Record Konfigurierbar := mkKonfigurierbar {
    k_thread_id : string;
    k_prompt : Prompt;
    k_tokenverbrauch : list (string * LLMTokenverbrauch)
  }.

(** A node's [config]: its [run_name] and its ["configurable"] entry,
    [None] for a config without one. *)
Record GraphKonfig := mkGraphKonfig { run_name : string; configurable : option Konfigurierbar }.

(** [if reset_tokenverbrauch: self.llm_callback = UsageMetadataCallbackHandler()] *)
Definition zuruecksetzen (g : LLMGenerator) (reset_tokenverbrauch : bool) : LLMGenerator :=
    if reset_tokenverbrauch then mkLLMGenerator (prompt g) (thread_prefix g) [] (startzeit g)
    else g.

(** The [config] argument of [self.graph.invoke] in [aufrufen]. *)
Definition aufruf_config (g : LLMGenerator) (run_name : string) : Ladefehler + GraphKonfig :=
    let? tv := llm_tokenverbrauch g in
    inr (mkGraphKonfig run_name (Some (mkKonfigurierbar (thread_id g) (prompt g) tv))).

(** The compiled graph as [aufrufen] sees it: from the config and the
    state, the responses (model, usage) the callback receives, in order,
    and the outcome of [invoke], its output or the exception [E] a node
    or the model raised after those responses. *)
Definition KompilierterGraph (E S O : Type) : Type :=
    GraphKonfig -> S -> list (string * UsageMetadata) * (E + O).

(** The callback after a run. *)
Definition callback_nach (um : list (string * UsageMetadata)) (rs : list (string * UsageMetadata))
    : list (string * UsageMetadata) :=
    fold_left (fun um r => on_llm_end um r.1 r.2) rs um.

(** [LLMGenerator.aufrufen(state, streamlit_fortschritt, run_name,
    reset_tokenverbrauch)]: the generator after the call and its
    outcome, the output or the exception that propagates out of
    [self.graph.invoke].  The callback is an object the run mutates, so
    the responses received before an exception stay counted. *)
Definition aufrufen {E S O} (graph : KompilierterGraph E S O) (g : LLMGenerator) (state : S)
    (run_name : string) (reset_tokenverbrauch : bool) : LLMGenerator * ((Ladefehler + E) + O) :=
    let g := zuruecksetzen g reset_tokenverbrauch in
    match aufruf_config g run_name with
    | inl e => (g, inl (inl e))
    | inr config =>
        let '(rs, ergebnis) := graph config state in
        (mkLLMGenerator (prompt g) (thread_prefix g) (callback_nach (llm_callback g) rs) (startzeit g),
         match ergebnis with inl e => inl (inr e) | inr out => inr out end)
    end.

(** [hole_tokenverbrauch_aus_graph(config)] *)
Definition hole_tokenverbrauch_aus_graph (config : GraphKonfig) : Z :=
    tokenverbrauch_summieren (default [] (k_tokenverbrauch <$> configurable config)).

(** [hole_prompt_data_aus_graph(prompt_data_name, config)]: without a
    ["configurable"] entry the default [{}] has no [prompt_data]. *)
Definition hole_prompt_data_aus_graph (prompt_data_name : string) (config : GraphKonfig)
    : Ladefehler + option string :=
    match configurable config with
    | Some k => inr (dict_get (prompt_data (k_prompt k)) prompt_data_name)
    | None => inl (AttributeError "prompt_data")
    end.

(** [fortschritt(prozessschritt, text, state, config)] of the summariser:
    the fraction and the text it passes to [progress], [None] where
    [aktuelle_referenz / anzahl_referenzen] divides by zero. *)
Definition fortschritt (prozessschritt : nat) (text referenz_name : string)
    (aktuelle_referenz anzahl_referenzen : nat) (config : GraphKonfig) : option (Q * string) :=
    if Nat.eqb anzahl_referenzen 0 then None else
    let prozent_referenz := (inject_Z (Z.of_nat aktuelle_referenz)
                             / inject_Z (Z.of_nat anzahl_referenzen))%Q in
    let prozent_prozessschritt := (prozent_referenz / 7 * inject_Z (Z.of_nat prozessschritt))%Q in
    let tokenverbrauch := hole_tokenverbrauch_aus_graph config in
    Some (prozent_prozessschritt,
          referenz_name +++ ": " +++ text +++ " - " +++ pretty tokenverbrauch +++ " Token verbraucht!").

(** ** Token accounting *)

(** The counter [LLMTokenverbrauch.from_dict] rebuilds from a usage. *)
Definition als_tokenverbrauch (u : UsageMetadata) : LLMTokenverbrauch :=
    mkTokenverbrauch (u_input u) (u_output u) (u_total u).

(** The total tokens of a callback's usages, or of a run's responses. *)
Definition summe_total (um : list (string * UsageMetadata)) : Z :=
    foldr (fun kv acc => (u_total kv.2 + acc)%Z) 0%Z um.

Lemma tokenverbrauch_eintrag_usage u :
  tokenverbrauch_eintrag (usage_dict u) = inr (als_tokenverbrauch u).
Proof. reflexivity. Qed.

Lemma llm_tokenverbrauch_ok g :
  llm_tokenverbrauch g = inr ((fun kv => (kv.1, als_tokenverbrauch kv.2)) <$> llm_callback g).
Proof.
  unfold llm_tokenverbrauch. induction (llm_callback g) as [|[m u] um IH]; [done|].
  cbn [map_res]. rewrite tokenverbrauch_eintrag_usage, IH. reflexivity.
Qed.

Lemma tokenverbrauch_summieren_als g :
  tokenverbrauch_summieren ((fun kv => (kv.1, als_tokenverbrauch kv.2)) <$> llm_callback g)
  = summe_total (llm_callback g).
Proof.
  unfold tokenverbrauch_summieren.
  enough (forall a, fold_left (fun acc kv => (acc + total_tokens kv.2)%Z)
            ((fun kv => (kv.1, als_tokenverbrauch kv.2)) <$> llm_callback g) a
          = (a + summe_total (llm_callback g))%Z) as H by (rewrite H; lia).
  induction (llm_callback g) as [|[m u] um IH]; intros a; cbn; [lia|].
  rewrite IH. unfold summe_total. lia.
Qed.

Lemma summe_total_cons kv um : summe_total (kv :: um) = (u_total kv.2 + summe_total um)%Z.
Proof. reflexivity. Qed.

Lemma summe_total_set_neu um m v :
  dict_get um m = None -> summe_total (dict_set um m v) = (summe_total um + u_total v)%Z.
Proof.
  induction um as [|[m' v'] um IH]; cbn [dict_get dict_set]; [cbn; lia|].
  case_decide; [done|]. intros Hm. rewrite !summe_total_cons, IH by done. lia.
Qed.

Lemma summe_total_set_alt um m a v :
  dict_get um m = Some a ->
  summe_total (dict_set um m v) = (summe_total um - u_total a + u_total v)%Z.
Proof.
  induction um as [|[m' v'] um IH]; cbn [dict_get dict_set]; [done|].
  case_decide; [intros [= ->]; rewrite !summe_total_cons; cbn; lia|].
  intros Hm. rewrite !summe_total_cons, IH by done. lia.
Qed.

Lemma summe_total_on_llm_end um m u :
  summe_total (on_llm_end um m u) = (summe_total um + u_total u)%Z.
Proof.
  unfold on_llm_end. destruct (dict_get um m) as [a|] eqn:Ha.
  - rewrite (summe_total_set_alt _ _ a) by done. cbn. lia.
  - by rewrite summe_total_set_neu.
Qed.

Lemma summe_total_callback_nach um rs :
  summe_total (callback_nach um rs) = (summe_total um + summe_total rs)%Z.
Proof.
  unfold callback_nach. revert um.
  induction rs as [|[m u] rs IH]; intros um; cbn [fold_left]; [unfold summe_total at 3; cbn; lia|].
  rewrite IH, summe_total_on_llm_end, summe_total_cons. cbn. lia.
Qed.

(** The config a run passes, and the generator after it. *)
Definition konfig_von (g : LLMGenerator) (run_name : string) : GraphKonfig :=
    mkGraphKonfig run_name (Some (mkKonfigurierbar (thread_id g) (prompt g)
      ((fun kv => (kv.1, als_tokenverbrauch kv.2)) <$> llm_callback g))).

Lemma aufruf_config_ok g run : aufruf_config g run = inr (konfig_von g run).
Proof. unfold aufruf_config. by rewrite llm_tokenverbrauch_ok. Qed.

Lemma aufrufen_ok {E S O} (graph : KompilierterGraph E S O) g state run reset :
  let g0 := zuruecksetzen g reset in
  let c := konfig_von g0 run in
  aufrufen graph g state run reset
  = (mkLLMGenerator (prompt g) (thread_prefix g)
       (callback_nach (llm_callback g0) (graph c state).1) (startzeit g),
     match (graph c state).2 with inl e => inl (inr e) | inr out => inr out end).
Proof.
  cbn zeta. unfold aufrufen. rewrite aufruf_config_ok.
  destruct (graph _ state) as [rs ergebnis]. by destruct reset.
Qed.

Lemma zuruecksetzen_callback g reset :
  llm_callback (zuruecksetzen g reset) = if reset then [] else llm_callback g.
Proof. by destruct reset. Qed.

Lemma zuruecksetzen_thread_id g reset : thread_id (zuruecksetzen g reset) = thread_id g.
Proof. by destruct reset. Qed.

Lemma hole_tokenverbrauch_konfig g run :
  hole_tokenverbrauch_aus_graph (konfig_von g run) = summe_total (llm_callback g).
Proof. apply tokenverbrauch_summieren_als. Qed.

Lemma app_links_kuerzen (a b c : string) : a +++ b = a +++ c -> b = c.
Proof. induction a as [|x a IH]; [done|]. rewrite !str_app_cons. intros [= H]. by apply IH. Qed.

(** ** What a run sees and counts *)

(** C17: [aufrufen] always builds its config and returns what the
    graph returns: its output, or the exception it raised.  The graph's
    nodes read as [hole_tokenverbrauch_aus_graph] the tokens counted
    before the call: none with [reset_tokenverbrauch=True], else the
    callback's total.  Afterwards, also when the graph raised, the total
    of [llm_tokenverbrauch()] is that snapshot plus the tokens of the
    responses the run received. *)
Theorem aufrufen_tokenverbrauch {E S O} (graph : KompilierterGraph E S O) g state run reset :
  exists config rs ergebnis tv,
    aufruf_config (zuruecksetzen g reset) run = inr config /\
    graph config state = (rs, ergebnis) /\
    (aufrufen graph g state run reset).2
      = match ergebnis with inl e => inl (inr e) | inr out => inr out end /\
    hole_tokenverbrauch_aus_graph config
      = (if reset then 0 else summe_total (llm_callback g))%Z /\
    llm_tokenverbrauch (aufrufen graph g state run reset).1 = inr tv /\
    tokenverbrauch_summieren tv = (hole_tokenverbrauch_aus_graph config + summe_total rs)%Z.
Proof.
  set (c := konfig_von (zuruecksetzen g reset) run).
  destruct (graph c state) as [rs ergebnis] eqn:Hg.
  pose proof (aufrufen_ok graph g state run reset) as Ha. cbn zeta in Ha. fold c in Ha.
  rewrite Hg in Ha. cbn [fst snd] in Ha. rewrite Ha. cbn [fst snd].
  eexists c, rs, ergebnis, _. split; [by rewrite aufruf_config_ok|]. split; [done|].
  split; [done|]. unfold c. rewrite hole_tokenverbrauch_konfig, zuruecksetzen_callback.
  split; [by destruct reset|]. split; [apply llm_tokenverbrauch_ok|].
  rewrite (tokenverbrauch_summieren_als (mkLLMGenerator _ _ _ _)); cbn [llm_callback].
  rewrite summe_total_callback_nach. by destruct reset.
Qed.

(** C24: The summariser calls [aufrufen] with [reset_tokenverbrauch=True],
    so the progress text every node of its run shows says
    ["... - 0 Token verbraucht!"], whatever the run consumes. *)
Theorem fortschritt_zeigt_null {E S O} (graph : KompilierterGraph E S O) g state run :
  exists config rs ergebnis,
    aufruf_config (zuruecksetzen g true) run = inr config /\
    graph config state = (rs, ergebnis) /\
    (aufrufen graph g state run true).2
      = match ergebnis with inl e => inl (inr e) | inr out => inr out end /\
    forall prozessschritt text referenz_name aktuelle anzahl,
      (snd <$> fortschritt prozessschritt text referenz_name aktuelle anzahl config)
      = if Nat.eqb anzahl 0 then None
        else Some (referenz_name +++ ": " +++ text +++ " - 0 Token verbraucht!").
Proof.
  set (c := konfig_von (zuruecksetzen g true) run).
  destruct (graph c state) as [rs ergebnis] eqn:Hg.
  pose proof (aufrufen_ok graph g state run true) as Ha. cbn zeta in Ha. fold c in Ha.
  rewrite Hg in Ha. cbn [fst snd] in Ha. rewrite Ha. cbn [fst snd].
  exists c, rs, ergebnis. split; [by rewrite aufruf_config_ok|]. split; [done|]. split; [done|].
  intros p t r a n. unfold fortschritt, c.
  rewrite hole_tokenverbrauch_konfig, zuruecksetzen_callback. by destruct (Nat.eqb n 0).
Qed.

(** C30: Two generators with the same thread prefix, started at valid
    times, get the same [thread_id()] only when they were started in the
    same second: the stamp [%Y%m%d-%H%M%S] reads back as year, month,
    day, hour, minute and second (microseconds are not part of it). *)
Theorem thread_id_eindeutig g1 g2 :
  gueltig (startzeit g1) = true -> gueltig (startzeit g2) = true ->
  thread_prefix g1 = thread_prefix g2 -> thread_id g1 = thread_id g2 ->
  year (startzeit g1) = year (startzeit g2) /\ month (startzeit g1) = month (startzeit g2) /\
  day (startzeit g1) = day (startzeit g2) /\ hour (startzeit g1) = hour (startzeit g2) /\
  minute (startzeit g1) = minute (startzeit g2) /\ second (startzeit g1) = second (startzeit g2).
Proof.
  intros H1 H2 Hp Ht. unfold thread_id in Ht. rewrite Hp in Ht.
  apply app_links_kuerzen, (app_links_kuerzen "-") in Ht. unfold startzeit_formatiert in Ht.
  pose proof (stempel_lesen_strftime "%Y%m%d-%H%M%S" _ H1) as E1.
  pose proof (stempel_lesen_strftime "%Y%m%d-%H%M%S" _ H2) as E2.
  rewrite Ht, E2 in E1. cbn in E1. injection E1 as Hy Hm Hd Hh Hmi Hs. repeat split; congruence.
Qed.

(** ** Examples *)

Definition beispiel_prompt : Prompt := mkPrompt [] [("personas_nutzen", "False")].

Definition generator_a : LLMGenerator :=
  llm_generator beispiel_prompt "fragesteller" (mkZeitpunkt 2025 3 14 9 26 53 250).

Definition generator_b : LLMGenerator :=
  llm_generator beispiel_prompt "fragesteller" (mkZeitpunkt 2025 3 14 9 26 53 999).

Lemma thread_id_eindeutig_witness :
  thread_id generator_a = "fragesteller-20250314-092653" /\
  thread_id generator_a = thread_id generator_b /\
  year (startzeit generator_a) = year (startzeit generator_b) /\
  second (startzeit generator_a) = second (startzeit generator_b).
Proof.
  assert (thread_id generator_a = thread_id generator_b) as Ht by (vm_compute; reflexivity).
  split; [vm_compute; reflexivity|]. split; [exact Ht|].
  destruct (thread_id_eindeutig generator_a generator_b) as (Hy & _ & _ & _ & _ & Hs);
    [vm_compute; reflexivity|vm_compute; reflexivity|reflexivity|exact Ht|].
  split; [exact Hy|exact Hs].
Defined.

End Aufruf.
