(* ===== verification/Konfiguration.v ===== *)
(** * Configuration, component pages and the start script

    [src/src/shared/toml_config.py] ([TOMLConfig]: the main file merged
    at the top, each component's file hung under a dotted namespace),
    [src/src/shared/komponenten.py] ([komponentenname_von_datei],
    [komponenten_config], [KomponentenAPI.text] with its fallback to the
    application's texts, [streamlit_llm_provider_auswahl]) and
    [src/ssg.py], the start script that registers one page per active
    component, loads its configuration under [komponente.<name>] and
    builds the provider handler over the four vendors.  The configuration
    is a Python dictionary of [PyWert]s; [tomllib.load] is the parameter
    [toml], the file name to what the file holds. *)

From S2P Require Import Prelude PyStr Generator Anbieter Persistenz.

Open Scope string_scope.
Open Scope list_scope.
Open Scope py_scope.

Import Generator.Inhalt Persistenz.Json.

Module Konfig.

(** A dictionary of the configuration: insertion-ordered, as Python's. *)
Definition Konfig : Type := list (string * PyWert).

(** What [open] and [tomllib.load] find under a file name. *)
Inductive TomlDatei :=
  | Fehlt
  | Ungueltig
  | Tabelle (daten : Konfig).

(** [os.fspath] of a value used as a path: only a string is one. *)
Definition als_pfad (v : PyWert) : Ladefehler + string :=
    match v with
    | PStr s => inr s
    | _ => inl (TypeError "expected str, bytes or os.PathLike object")
    end.

(** [komponentenname_von_datei(pfad)]:
    [os.path.basename(pfad).split(".")[0]]. *)
Definition komponentenname_von_datei (pfad : string) : string :=
    default "" (head (split_char "." (basename pfad))).

(** [d.setdefault(k, v)] on a value of the configuration and
    [d[k] = v]: the errors Python raises on a value that is not a
    dictionary. *)
Definition kein_dict_fehler (weitere : bool) : Ladefehler :=
    if weitere then AttributeError "setdefault"
    else TypeError "object does not support item assignment".

Section TOMLConfig.
Variable toml : string -> TomlDatei.

(** [with config_file.open("rb") as f: data = tomllib.load(f)], with
    the two handlers: a missing file is an empty table, a file that does
    not parse re-raises ([TOMLDecodeError] is a [ValueError]). *)
Definition toml_laden (datei : string) : Ladefehler + Konfig :=
    match toml datei with
    | Fehlt => inr []
    | Ungueltig => inl (ValueError ("TOMLDecodeError: " +++ datei))
    | Tabelle d => inr d
    end.

(** [for part in parts[:-1]: current = current.setdefault(part, {})]
    followed by [current[parts[-1]] = data].  The dictionaries are
    nested values of [target], so the update is rebuilt along the path. *)
Fixpoint einhaengen (current : Konfig) (parts : list string) (data : PyWert) : Ladefehler + Konfig :=
    match parts with
    | [] => inr current
    | [letzter] => inr (dict_set current letzter data)
    | part :: rest =>
        match dict_get current part with
        | None =>
            let? sub := einhaengen [] rest data in inr (dict_set current part (PDict sub))
        | Some (PDict sub) =>
            let? sub' := einhaengen sub rest data in inr (dict_set current part (PDict sub'))
        | Some _ => inl (kein_dict_fehler (bool_decide (2 <= List.length rest)))
        end
    end.

(** [TOMLConfig.load_config(config_file, namespace=...)] on
    [target = self.config]: the new [self.config]. *)
Definition load_config (config : Konfig) (datei : string) (namespace : option string)
    : Ladefehler + Konfig :=
    let? data := toml_laden datei in
    match namespace with
    | None => inr (dict_update config data)
    | Some ns => einhaengen config (split_char "." ns) (PDict data)
    end.

(** [TOMLConfig(config_file)] *)
Definition tomlconfig_init (datei : string) : Ladefehler + Konfig := load_config [] datei None.

End TOMLConfig.

(** [TOMLConfig.get_section(section)] *)
Definition get_section (config : Konfig) (section : string) : Ladefehler + PyWert :=
    match dict_get config section with
    | Some v => inr v
    | None => inl (ValueError ("Section '" +++ section +++ "' not found"))
    end.

(** [komponenten_config(komponente_pfad)] on the session's
    configuration: [config.get("komponente", {}).get(name, {})]. *)
Definition komponenten_config (config : Konfig) (komponente_pfad : string) : Ladefehler + PyWert :=
    let? k := py_get (PDict config) "komponente" (PDict []) in
    py_get k (komponentenname_von_datei komponente_pfad) (PDict []).

(** [KomponentenAPI.__init__(komponenten_name)]: the name and the
    component's configuration. *)
Record KomponentenAPI := mkAPI { komponenten_name : string; api_config : PyWert }.

Definition komponenten_api (config : Konfig) (name : string) : Ladefehler + KomponentenAPI :=
    let? c := komponenten_config config name in inr (mkAPI name c).

(** [KomponentenAPI.text(text_key)]: the component's text if it is
    truthy, else the application's, else the key itself. *)
Definition text (app_config : Konfig) (api : KomponentenAPI) (text_key : string) : Ladefehler + PyWert :=
    let? t := py_get (api_config api) "text" (PDict []) in
    let? text := py_get t text_key (PStr "") in
    if py_bool text then inr text else
    let? t' := py_get (PDict app_config) "text" (PDict []) in
    py_get t' text_key (PStr text_key).

(** [KomponentenAPI.streamlit_llm_provider_auswahl()]: the select box
    [auswahl] offers [hole_models()]; a choice other than the placeholder
    is handed to [hole_provider]. *)
Definition streamlit_llm_provider_auswahl (st : Anbieter.Zustand)
    (auswahl : list string -> option string)
    : Anbieter.Anbieterfehler + (option Anbieter.Ref * Anbieter.Zustand) :=
    match auswahl (Anbieter.hole_models st) with
    | Some model =>
        if String.eqb model "" || String.eqb model "Modell auswählen" then inr (None, st)
        else let? r := Anbieter.hole_provider st model in inr (Some r.1, r.2)
    | None => inr (None, st)
    end.

(** ** [ssg.py] *)

(** [st.Page(komponente_path, title=komponente_page_title)] *)
Record Seite := mkSeite { seite_pfad : string; seite_titel : PyWert }.

(** The guards of the loop over the [komponenten] section: [None] for
    an entry skipped by [continue], else its path and config file. *)
Definition eintrag (komponente : PyWert) : Ladefehler + option (string * string) :=
    let? active := py_get komponente "active" (PBool false) in
    if negb (py_bool active) then inr None else
    let? pfad := py_get komponente "path" PNone in
    if negb (py_bool pfad) then inr None else
    let? datei := py_get komponente "config" PNone in
    if negb (py_bool datei) then inr None else
    let? p := als_pfad pfad in
    let? d := als_pfad datei in
    inr (Some (p, d)).

(** [app_config.config.get("komponente", {}).get(name, {}).get("page",
    {}).get("title", "")] *)
Definition seitentitel (config : Konfig) (name : string) : Ladefehler + PyWert :=
    let? k := py_get (PDict config) "komponente" (PDict []) in
    let? c := py_get k name (PDict []) in
    let? p := py_get c "page" (PDict []) in
    py_get p "title" (PStr "").

(** [pages.setdefault(group, []).append(page)] *)
Definition seite_anhaengen (pages : list (string * list Seite)) (group : string) (s : Seite)
    : list (string * list Seite) :=
    dict_set pages group (default [] (dict_get pages group) ++ [s]).

(** [group = "Komponenten" if komponente.get("grouped", False) else ""] *)
Definition gruppe (komponente : PyWert) : Ladefehler + string :=
    let? grouped := py_get komponente "grouped" (PBool false) in
    inr (if py_bool grouped then "Komponenten" else "").

Section Start.
Variable toml : string -> TomlDatei.

(** One iteration of the loop: guards, [load_config] under
    [komponente.<name>], the title, the second [active] check and the
    group. *)
Definition seite_registrieren (config : Konfig) (pages : list (string * list Seite))
    (komponente : PyWert) : Ladefehler + (Konfig * list (string * list Seite)) :=
    let? e := eintrag komponente in
    match e with
    | None => inr (config, pages)
    | Some (p, d) =>
        let name := komponentenname_von_datei p in
        let? config' := load_config toml config d (Some ("komponente." +++ name)) in
        let? titel := seitentitel config' name in
        let? active := py_get komponente "active" (PBool false) in
        if negb (py_bool active) then inr (config', pages) else
        let? group := gruppe komponente in
        inr (config', seite_anhaengen pages group (mkSeite p titel))
    end.

Fixpoint seiten_go (config : Konfig) (pages : list (string * list Seite)) (ks : list PyWert)
    : Ladefehler + (Konfig * list (string * list Seite)) :=
    match ks with
    | [] => inr (config, pages)
    | k :: ks' =>
        let? r := seite_registrieren config pages k in
        seiten_go r.1 r.2 ks'
    end.

(** The application [ssg.py] leaves behind: the session's configuration,
    the pages per group and the provider store. *)
Record App := mkApp {
    app_konfig : Konfig;
    app_seiten : list (string * list Seite);
    app_anbieter : Anbieter.Zustand
  }.

(** [LLMProviderHandler([Google(...), OpenAI(...), DeepSeek(...),
    Mistral(...)])] on the provider store [st]. *)
Definition ssg_anbieter (st : Anbieter.Zustand) : Anbieter.Zustand :=
    let (g, st) := Anbieter.neuer_provider st
        ["gemini-3-pro-preview"; "gemini-2.0-flash"; "gemini-2.5-pro"; "gemini-2.5-flash"] in
    let (o, st) := Anbieter.neuer_provider st ["gpt-5-mini"; "gpt-5.2"] in
    let (d, st) := Anbieter.neuer_provider st ["deepseek-chat"] in
    let (m, st) := Anbieter.neuer_provider st
        ["mistral-large-latest"; "mistral-small-2506"; "ministral-3b-2512"; "ministral-8b-2512"] in
    Anbieter.handler_init st [g; o; d; m].

(** [ssg.py] up to [st.navigation]: [dotenv] is what [dotenv_values(".env")]
    reads. *)
Definition ssg (dotenv : Konfig) (st : Anbieter.Zustand) : Ladefehler + App :=
    let? config := tomlconfig_init toml "ssg.toml" in
    let? section := get_section config "komponenten" in
    let? ks := py_iter section in
    let? r := seiten_go config [] ks in
    inr (mkApp (dict_set r.1 "dotenv" (PDict dotenv)) r.2 (ssg_anbieter st)).

End Start.

(** ** Reference: the page of one entry, computed on its own

    The title a page gets is the [page.title] of the file just loaded,
    [""] where it has none. *)
Definition titel_aus (data : Konfig) : Ladefehler + PyWert :=
    let? p := py_get (PDict data) "page" (PDict []) in
    py_get p "title" (PStr "").

Definition seite_von (toml : string -> TomlDatei) (g : string) (k : PyWert) : option Seite :=
    match eintrag k with
    | inr (Some (p, d)) =>
        match toml_laden toml d, gruppe k with
        | inr data, inr g' =>
            if bool_decide (g = g') then
              match titel_aus data with inr t => Some (mkSeite p t) | inl _ => None end
            else None
        | _, _ => None
        end
    | _ => None
    end.

(** The entry of a component name under [komponente], where that is a
    dictionary. *)
Definition komp_eintrag (config : Konfig) (n : string) : option PyWert :=
    match dict_get config "komponente" with
    | Some (PDict s) => dict_get s n
    | _ => None
    end.

(** ["komponente"] is absent or a dictionary. *)
Definition komp_dict (config : Konfig) : Prop :=
  forall v, dict_get config "komponente" = Some v -> exists s, v = PDict s.

End Konfig.

(** ** A configuration for the examples

    A start file with an application text table and three components:
    the start page (its config file missing), the admin page (inactive)
    and the reference-document page (grouped, with a title and texts). *)
Module Beispielkonfiguration.
Import Konfig.

Definition k_start : PyWert :=
  PDict [("path", PStr "src/komponenten/startseite/startseite.py");
         ("config", PStr "src/komponenten/startseite/startseite.toml"); ("active", PBool true)].

Definition k_admin : PyWert :=
  PDict [("path", PStr "src/komponenten/admin/admin.py");
         ("config", PStr "src/komponenten/admin/admin.toml"); ("active", PBool false)].

Definition k_ref : PyWert :=
  PDict [("path", PStr "src/komponenten/referenzdokumente/referenzdokumente.py");
         ("config", PStr "src/komponenten/referenzdokumente/referenzdokumente.toml");
         ("active", PBool true); ("grouped", PBool true)].

Definition ref_toml : Konfig :=
  [("page", PDict [("title", PStr "Referenzdokumente")]);
   ("text", PDict [("wert", PStr "Wert"); ("attribut", PStr "")])].

Definition haupt : Konfig :=
  [("text", PDict [("attribut", PStr "Attribut")]); ("komponenten", PList [k_start; k_admin; k_ref])].

Definition dateien (f : string) : TomlDatei :=
  if String.eqb f "ssg.toml" then Tabelle haupt
  else if String.eqb f "src/komponenten/referenzdokumente/referenzdokumente.toml" then Tabelle ref_toml
  else if String.eqb f "kaputt.toml" then Ungueltig
  else Fehlt.

(** The same start file with a fourth component whose config file does
    not parse. *)
Definition k_kaputt : PyWert :=
  PDict [("path", PStr "src/komponenten/auswertung/auswertung.py");
         ("config", PStr "kaputt.toml"); ("active", PBool true)].

Definition dateien_kaputt (f : string) : TomlDatei :=
  if String.eqb f "ssg.toml" then Tabelle (dict_set haupt "komponenten" (PList [k_start; k_kaputt; k_ref]))
  else dateien f.

Definition dotenv : Konfig := [("BASEPATH_FILES", PStr "daten")].

End Beispielkonfiguration.

Import Konfig.

(** * Properties *)

(** ** Names and namespaces *)

Lemma komponentenname_ohne c p :
  alle (ohne_char c) (basename p) = true ->
  alle (ohne_char c) (komponentenname_von_datei p) = true.
Proof.
  intros Hb. unfold komponentenname_von_datei, split_char.
  pose proof (split_char_acc_felder_alle (ohne_char c) "." (basename p) "" Hb eq_refl) as H.
  destruct (split_char_acc "." (basename p) "") as [|f fs]; [done|]. cbn. by inversion H.
Qed.

Lemma komponentenname_ohne_punkt p : alle (ohne_char ".") (komponentenname_von_datei p) = true.
Proof.
  unfold komponentenname_von_datei, split_char.
  pose proof (split_char_acc_felder "." (basename p) "" eq_refl) as H.
  destruct (split_char_acc "." (basename p) "") as [|f fs]; [done|]. cbn. by inversion H.
Qed.

(** A component name is its own name: [KomponentenAPI("x")] finds the
    configuration that [ssg.py] hung under the name of [".../x.py"]. *)
Lemma komponentenname_idem p :
  komponentenname_von_datei (komponentenname_von_datei p) = komponentenname_von_datei p.
Proof.
  pose proof (komponentenname_ohne_punkt p) as Hdot.
  pose proof (komponentenname_ohne "/" p (basename_ohne p)) as Hsl.
  revert Hdot Hsl. generalize (komponentenname_von_datei p) as n. intros n Hdot Hsl.
  unfold komponentenname_von_datei, basename, split_char.
  rewrite (split_char_acc_ohne "/") by done. cbn [last default]. rewrite str_app_nil_l.
  rewrite split_char_acc_ohne by done. cbn [head default]. by rewrite str_app_nil_l.
Qed.

Lemma komponente_split n :
  alle (ohne_char ".") n = true -> split_char "." ("komponente." +++ n) = ["komponente"; n].
Proof.
  intros Hn. unfold split_char. change ("komponente." +++ n) with ("komponente" +++ String "." n).
  rewrite split_char_acc_sep by reflexivity. by rewrite split_char_acc_ohne.
Qed.

Lemma load_config_komponente toml c d p :
  load_config toml c d (Some ("komponente." +++ komponentenname_von_datei p)) =
  let? data := toml_laden toml d in
  einhaengen c ["komponente"; komponentenname_von_datei p] (PDict data).
Proof. unfold load_config. by rewrite komponente_split by apply komponentenname_ohne_punkt. Qed.

(** ** [load_config] under [komponente.<name>] *)

Lemma einhaengen_komponente c n v c' :
  einhaengen c ["komponente"; n] v = inr c' ->
  komp_dict c' /\ komp_eintrag c' n = Some v /\
  (forall m, m <> n -> komp_eintrag c' m = komp_eintrag c m) /\
  (forall k, k <> "komponente" -> dict_get c' k = dict_get c k).
Proof.
  cbn [einhaengen]. unfold komp_eintrag, komp_dict.
  destruct (dict_get c "komponente") as [w|] eqn:Hk; [destruct w as [?|?|?|s|?| |?]|];
    cbn; try discriminate; intros [= <-]; rewrite !dict_get_set_eq.
  - split_and!; [intros ? [= <-]; by eexists|done| |].
    + intros m Hm. rewrite dict_get_set_ne; [done|congruence].
    + intros k Hne. rewrite dict_get_set_ne; [done|congruence].
  - split_and!; [intros ? [= <-]; by eexists|cbn; by rewrite decide_True| |].
    + intros m Hm. cbn. by rewrite decide_False.
    + intros k Hne. rewrite dict_get_set_ne; [done|congruence].
Qed.

Lemma komp_dict_set c k v : k <> "komponente" -> komp_dict c -> komp_dict (dict_set c k v).
Proof. intros Hk H w. rewrite dict_get_set_ne by congruence. apply H. Qed.

Lemma komp_eintrag_set c k v n : k <> "komponente" -> komp_eintrag (dict_set c k v) n = komp_eintrag c n.
Proof. intros Hk. unfold komp_eintrag. by rewrite dict_get_set_ne by congruence. Qed.

Lemma komponenten_config_eintrag c p :
  komp_dict c ->
  komponenten_config c p = inr (default (PDict []) (komp_eintrag c (komponentenname_von_datei p))).
Proof.
  unfold komponenten_config, komp_eintrag. intros H. cbn [py_get].
  destruct (dict_get c "komponente") as [w|] eqn:Hk; [|done].
  by destruct (H w Hk) as [s ->].
Qed.

Lemma seitentitel_eintrag c n data :
  komp_dict c -> komp_eintrag c n = Some (PDict data) -> seitentitel c n = titel_aus data.
Proof.
  unfold seitentitel, komp_eintrag. intros H. cbn [py_get].
  destruct (dict_get c "komponente") as [w|] eqn:Hk; [|done].
  destruct (H w Hk) as [s ->]. cbn [py_get default id]. intros ->. done.
Qed.

(** ** One iteration of the registration loop *)

(** The second [if komponente.get("active", False)] of the loop always
    holds: the first one skipped every inactive entry. *)
Lemma eintrag_aktiv k x :
  eintrag k = inr (Some x) -> exists a, py_get k "active" (PBool false) = inr a /\ py_bool a = true.
Proof.
  unfold eintrag. destruct (py_get k "active" (PBool false)) as [|a]; [discriminate|].
  exists a. by destruct (py_bool a).
Qed.

Lemma seite_registrieren_inv toml c pg k c' pg' :
  seite_registrieren toml c pg k = inr (c', pg') ->
  (eintrag k = inr None /\ c' = c /\ pg' = pg) \/
  exists p d data g t, eintrag k = inr (Some (p, d)) /\ toml_laden toml d = inr data /\
    einhaengen c ["komponente"; komponentenname_von_datei p] (PDict data) = inr c' /\
    gruppe k = inr g /\ titel_aus data = inr t /\ pg' = seite_anhaengen pg g (mkSeite p t).
Proof.
  unfold seite_registrieren. intros H. cbv zeta in H.
  destruct (eintrag k) as [|[[p d]|]] eqn:He; [discriminate| |injection H as <- <-; by left].
  right. rewrite load_config_komponente in H.
  destruct (toml_laden toml d) as [|data] eqn:Ht; [discriminate|].
  destruct (einhaengen _ _ _) as [|c1] eqn:Hein; [discriminate|].
  destruct (einhaengen_komponente _ _ _ _ Hein) as (Hd & Hn & _).
  rewrite (seitentitel_eintrag _ _ _ Hd Hn) in H.
  destruct (eintrag_aktiv _ _ He) as (a & Ha & Hb). rewrite Ha, Hb in H. cbn [negb] in H.
  destruct (titel_aus data) as [|t] eqn:Htt; [discriminate|].
  destruct (gruppe k) as [|g]; [discriminate|]. injection H as <- <-.
  by exists p, d, data, g, t.
Qed.

(** ** The loop *)

Lemma seiten_go_app toml c pg l1 l2 :
  seiten_go toml c pg (l1 ++ l2) = let? r := seiten_go toml c pg l1 in seiten_go toml r.1 r.2 l2.
Proof.
  revert c pg. induction l1 as [|k l1 IH]; intros c pg; [done|]. cbn.
  destruct (seite_registrieren toml c pg k); [done|]. apply IH.
Qed.

Lemma seiten_go_komp_dict toml c pg ks c' pg' :
  seiten_go toml c pg ks = inr (c', pg') -> komp_dict c -> komp_dict c'.
Proof.
  revert c pg. induction ks as [|k ks IH]; intros c pg; cbn; [by intros [= <- <-]|].
  destruct (seite_registrieren toml c pg k) as [|[c1 pg1]] eqn:Hr; [discriminate|].
  intros Hgo Hc. apply (IH _ _ Hgo).
  destruct (seite_registrieren_inv _ _ _ _ _ _ Hr) as [(_ & -> & _)|(p & d & data & g & t & _ & _ & Hein & _)];
    [done|]. apply (einhaengen_komponente _ _ _ _ Hein).
Qed.

(** The loop changes no top-level key but [komponente]. *)
Lemma seiten_go_andere toml c pg ks c' pg' key :
  seiten_go toml c pg ks = inr (c', pg') -> key <> "komponente" -> dict_get c' key = dict_get c key.
Proof.
  revert c pg. induction ks as [|k ks IH]; intros c pg; cbn; [by intros [= <- <-]|].
  destruct (seite_registrieren toml c pg k) as [|[c1 pg1]] eqn:Hr; [discriminate|].
  intros Hgo Hkey. rewrite (IH _ _ Hgo Hkey).
  destruct (seite_registrieren_inv _ _ _ _ _ _ Hr) as [(_ & -> & _)|(p & d & data & g & t & _ & _ & Hein & _)];
    [done|]. by apply (einhaengen_komponente _ _ _ _ Hein).
Qed.

(** Entries that do not register name [n] leave its configuration as
    it was. *)
Lemma seiten_go_rahmen toml c pg ks c' pg' n :
  seiten_go toml c pg ks = inr (c', pg') ->
  (forall k p d, k ∈ ks -> eintrag k = inr (Some (p, d)) -> komponentenname_von_datei p <> n) ->
  komp_eintrag c' n = komp_eintrag c n.
Proof.
  revert c pg. induction ks as [|k ks IH]; intros c pg; cbn; [by intros [= <- <-]|].
  destruct (seite_registrieren toml c pg k) as [|[c1 pg1]] eqn:Hr; [discriminate|].
  intros Hgo Hn. rewrite (IH _ _ Hgo); [|intros; eapply Hn; [by right|done]].
  destruct (seite_registrieren_inv _ _ _ _ _ _ Hr) as [(_ & -> & _)|(p & d & data & g & t & He & _ & Hein & _)];
    [done|].
  apply (einhaengen_komponente _ _ _ _ Hein), not_eq_sym, (Hn k p d); [left|done].
Qed.

(** The configuration of a name is the table of the last entry that
    registers it. *)
Lemma seiten_go_letzter toml c pg ks c' pg' i k p d data :
  seiten_go toml c pg ks = inr (c', pg') ->
  ks !! i = Some k -> eintrag k = inr (Some (p, d)) -> toml_laden toml d = inr data ->
  (forall j k' p' d', i < j -> ks !! j = Some k' -> eintrag k' = inr (Some (p', d')) ->
     komponentenname_von_datei p' <> komponentenname_von_datei p) ->
  komp_dict c' /\ komp_eintrag c' (komponentenname_von_datei p) = Some (PDict data).
Proof.
  revert c pg i. induction ks as [|k0 ks IH]; intros c pg i; [done|]. cbn.
  destruct (seite_registrieren toml c pg k0) as [|[c1 pg1]] eqn:Hr; [discriminate|].
  intros Hgo Hi He Ht Hspaeter. destruct i as [|i]; cbn in Hi.
  - injection Hi as ->.
    destruct (seite_registrieren_inv _ _ _ _ _ _ Hr) as [(He' & _)|(p1 & d1 & data1 & g & t & He' & Ht1 & Hein & _)];
      rewrite He in He'; [discriminate|]. injection He' as <- <-. rewrite Ht in Ht1. injection Ht1 as <-.
    destruct (einhaengen_komponente _ _ _ _ Hein) as (Hd & Hn & _).
    split; [by apply (seiten_go_komp_dict _ _ _ _ _ _ Hgo)|].
    assert (Hr' : forall k' p' d', k' ∈ ks -> eintrag k' = inr (Some (p', d')) ->
                    komponentenname_von_datei p' <> komponentenname_von_datei p).
    { intros k' p' d' [j Hj]%list_elem_of_lookup He'. by apply (Hspaeter (S j) k' p' d'); [lia| |]. }
    by rewrite (seiten_go_rahmen _ _ _ _ _ _ _ Hgo Hr').
  - apply (IH _ _ i Hgo Hi He Ht). intros j k' p' d' Hj. apply (Hspaeter (S j)). lia.
Qed.

(** The pages of a group: those of the reference [seite_von], in the
    order of the entries. *)
Lemma seiten_go_seiten toml c pg ks c' pg' g :
  seiten_go toml c pg ks = inr (c', pg') ->
  default [] (dict_get pg' g) = default [] (dict_get pg g) ++ omap (seite_von toml g) ks.
Proof.
  revert c pg. induction ks as [|k ks IH]; intros c pg; cbn.
  - intros [= <- <-]. by rewrite app_nil_r.
  - destruct (seite_registrieren toml c pg k) as [|[c1 pg1]] eqn:Hr; [discriminate|].
    intros Hgo. rewrite (IH _ _ Hgo). unfold seite_von.
    destruct (seite_registrieren_inv _ _ _ _ _ _ Hr)
      as [(-> & _ & ->)|(p & d & data & g' & t & -> & -> & _ & -> & -> & ->)]; [done|].
    unfold seite_anhaengen. cbn [fst snd]. case_bool_decide as Hg.
    + subst g'. rewrite dict_get_set_eq. cbn. by rewrite <-app_assoc.
    + rewrite dict_get_set_ne by congruence. done.
Qed.

(** ** The start script *)

Lemma ssg_inv toml dotenv st app config ks :
  tomlconfig_init toml "ssg.toml" = inr config ->
  dict_get config "komponenten" = Some (PList ks) ->
  ssg toml dotenv st = inr app ->
  exists c' pg', seiten_go toml config [] ks = inr (c', pg') /\
    app = mkApp (dict_set c' "dotenv" (PDict dotenv)) pg' (ssg_anbieter st).
Proof.
  intros Hi Hk. unfold ssg. rewrite Hi. unfold get_section. rewrite Hk. cbn [py_iter].
  destruct (seiten_go toml config [] ks) as [|[c' pg']]; [discriminate|].
  intros [= <-]. by exists c', pg'.
Qed.

Lemma komponenten_config_dotenv c p v :
  komp_dict c -> komponenten_config (dict_set c "dotenv" v) p =
  inr (default (PDict []) (komp_eintrag c (komponentenname_von_datei p))).
Proof.
  intros Hc. rewrite komponenten_config_eintrag by (by apply komp_dict_set). by rewrite komp_eintrag_set.
Qed.

Lemma ssg_anbieter_wf st : Anbieter.wf st -> Anbieter.wf (ssg_anbieter st).
Proof.
  intros Hwf. unfold ssg_anbieter.
  do 4 (match goal with |- context [Anbieter.neuer_provider ?s ?ms] =>
    let H := fresh "Hwf" in pose proof (Anbieter.neuer_provider_wf s ms ltac:(assumption)) as H;
    destruct (Anbieter.neuer_provider s ms); cbn [snd] in H end).
  by apply Anbieter.handler_init_wf.
Qed.

(** C11: after [ssg.py] has run, [komponenten_config] of a registered
    component reads the table of its own config file (the empty table
    when the file is missing), provided no later entry of the
    [komponenten] section registers a file with the same name: the
    namespace [komponente.<name>] is keyed by the file's stem only, so
    the last loaded file of a name wins. *)
Theorem ssg_komponenten_config toml dotenv st app config ks i k p d data :
  tomlconfig_init toml "ssg.toml" = inr config ->
  dict_get config "komponenten" = Some (PList ks) ->
  ssg toml dotenv st = inr app ->
  ks !! i = Some k -> eintrag k = inr (Some (p, d)) -> toml_laden toml d = inr data ->
  (forall j k' p' d', i < j -> ks !! j = Some k' -> eintrag k' = inr (Some (p', d')) ->
     komponentenname_von_datei p' <> komponentenname_von_datei p) ->
  komponenten_config (app_konfig app) p = inr (PDict data).
Proof.
  intros Hi Hk Hssg Hks He Ht Hspaeter.
  destruct (ssg_inv _ _ _ _ _ _ Hi Hk Hssg) as (c' & pg' & Hgo & ->).
  destruct (seiten_go_letzter _ _ _ _ _ _ _ _ _ _ _ Hgo Hks He Ht Hspaeter) as [Hd Hn].
  cbn [app_konfig]. by rewrite komponenten_config_dotenv, Hn.
Qed.

Lemma ssg_komponenten_config_witness :
  tomlconfig_init Beispielkonfiguration.dateien "ssg.toml" = inr Beispielkonfiguration.haupt /\
  komponenten_config
    (app_konfig (match ssg Beispielkonfiguration.dateien Beispielkonfiguration.dotenv
                         (Anbieter.mkZustand [] []) with inr a => a | inl _ => mkApp [] [] (Anbieter.mkZustand [] []) end))
    "src/komponenten/referenzdokumente/referenzdokumente.py" = inr (PDict Beispielkonfiguration.ref_toml).
Proof.
  split; [reflexivity|].
  apply (ssg_komponenten_config Beispielkonfiguration.dateien Beispielkonfiguration.dotenv
           (Anbieter.mkZustand [] []) _ Beispielkonfiguration.haupt
           [Beispielkonfiguration.k_start; Beispielkonfiguration.k_admin; Beispielkonfiguration.k_ref]
           2 Beispielkonfiguration.k_ref _ "src/komponenten/referenzdokumente/referenzdokumente.toml");
    try reflexivity.
  - intros j k' p' d' Hj Hk'. apply lookup_lt_Some in Hk'. cbn in Hk'. lia.
Defined.

(** C16: the pages [ssg.py] registers for a group are, in the order of
    the [komponenten] section, exactly those the reference [seite_von]
    gives for each entry on its own: an active entry with a path and a
    config file whose [grouped] flag selects the group, titled with the
    [page.title] of its own config file.  The loop's shared state (the
    configuration it extends) does not change any entry's page. *)
Theorem ssg_seiten toml dotenv st app config ks g :
  tomlconfig_init toml "ssg.toml" = inr config ->
  dict_get config "komponenten" = Some (PList ks) ->
  ssg toml dotenv st = inr app ->
  default [] (dict_get (app_seiten app) g) = omap (seite_von toml g) ks.
Proof.
  intros Hi Hk Hssg. destruct (ssg_inv _ _ _ _ _ _ Hi Hk Hssg) as (c' & pg' & Hgo & ->).
  exact (seiten_go_seiten _ _ _ _ _ _ g Hgo).
Qed.

Lemma ssg_seiten_witness :
  omap (seite_von Beispielkonfiguration.dateien "Komponenten")
    [Beispielkonfiguration.k_start; Beispielkonfiguration.k_admin; Beispielkonfiguration.k_ref]
  = [mkSeite "src/komponenten/referenzdokumente/referenzdokumente.py" (PStr "Referenzdokumente")] /\
  default [] (dict_get (app_seiten (match ssg Beispielkonfiguration.dateien Beispielkonfiguration.dotenv
                         (Anbieter.mkZustand [] []) with inr a => a | inl _ => mkApp [] [] (Anbieter.mkZustand [] []) end))
    "Komponenten")
  = omap (seite_von Beispielkonfiguration.dateien "Komponenten")
    [Beispielkonfiguration.k_start; Beispielkonfiguration.k_admin; Beispielkonfiguration.k_ref].
Proof.
  split; [vm_compute; reflexivity|].
  apply (ssg_seiten _ Beispielkonfiguration.dotenv (Anbieter.mkZustand [] []) _ Beispielkonfiguration.haupt);
    reflexivity.
Defined.

(** the texts a component's API shows after [ssg.py] has run: for
    a registered component whose file is the last of its name and has a
    [text] table, [KomponentenAPI(name).text(key)] is the value of that
    table if it is truthy, and otherwise the value of the [text] table of
    [ssg.toml] (the key itself where that has none). *)
Theorem ssg_text toml dotenv st app config ks i k p d data texte :
  tomlconfig_init toml "ssg.toml" = inr config ->
  dict_get config "komponenten" = Some (PList ks) ->
  ssg toml dotenv st = inr app ->
  ks !! i = Some k -> eintrag k = inr (Some (p, d)) -> toml_laden toml d = inr data ->
  (forall j k' p' d', i < j -> ks !! j = Some k' -> eintrag k' = inr (Some (p', d')) ->
     komponentenname_von_datei p' <> komponentenname_von_datei p) ->
  dict_get data "text" = Some (PDict texte) ->
  exists api, komponenten_api (app_konfig app) (komponentenname_von_datei p) = inr api /\
    forall key, text (app_konfig app) api key =
      let v := default (PStr "") (dict_get texte key) in
      if py_bool v then inr v
      else py_get (default (PDict []) (dict_get config "text")) key (PStr key).
Proof.
  intros Hi Hk Hssg Hks He Ht Hspaeter Htext.
  destruct (ssg_inv _ _ _ _ _ _ Hi Hk Hssg) as (c' & pg' & Hgo & ->).
  destruct (seiten_go_letzter _ _ _ _ _ _ _ _ _ _ _ Hgo Hks He Ht Hspaeter) as [Hd Hn].
  exists (mkAPI (komponentenname_von_datei p) (PDict data)). split.
  - unfold komponenten_api. cbn [app_konfig].
    rewrite komponenten_config_dotenv, komponentenname_idem, Hn by done. reflexivity.
  - intros key. unfold text. cbn [api_config app_konfig py_get]. rewrite Htext. cbn [default id py_get].
    destruct (py_bool _); [done|].
    rewrite dict_get_set_ne by done. by rewrite (seiten_go_andere _ _ _ _ _ _ "text" Hgo).
Qed.

Lemma ssg_text_witness :
  exists api,
    komponenten_api (app_konfig (match ssg Beispielkonfiguration.dateien Beispielkonfiguration.dotenv
                         (Anbieter.mkZustand [] []) with inr a => a | inl _ => mkApp [] [] (Anbieter.mkZustand [] []) end))
      "referenzdokumente" = inr api /\
    forall key, text (app_konfig (match ssg Beispielkonfiguration.dateien Beispielkonfiguration.dotenv
                         (Anbieter.mkZustand [] []) with inr a => a | inl _ => mkApp [] [] (Anbieter.mkZustand [] []) end)) api key =
      let v := default (PStr "") (dict_get [("wert", PStr "Wert"); ("attribut", PStr "")] key) in
      if py_bool v then inr v
      else py_get (default (PDict []) (dict_get Beispielkonfiguration.haupt "text")) key (PStr key).
Proof.
  apply (ssg_text Beispielkonfiguration.dateien Beispielkonfiguration.dotenv (Anbieter.mkZustand [] []) _
           Beispielkonfiguration.haupt
           [Beispielkonfiguration.k_start; Beispielkonfiguration.k_admin; Beispielkonfiguration.k_ref]
           2 Beispielkonfiguration.k_ref "src/komponenten/referenzdokumente/referenzdokumente.py"
           "src/komponenten/referenzdokumente/referenzdokumente.toml" Beispielkonfiguration.ref_toml);
    try reflexivity.
  intros j k' p' d' Hj Hk'. apply lookup_lt_Some in Hk'. cbn in Hk'. lia.
Defined.

(** C15: choosing a model in [streamlit_llm_provider_auswahl] among the
    models the select box offers never raises the handler's [KeyError]:
    it returns the model's provider with that model active, so the calls
    made through it use the chosen model. *)
Theorem provider_auswahl_angeboten st auswahl m :
  Anbieter.wf st -> auswahl (Anbieter.hole_models st) = Some m ->
  m ∈ Anbieter.hole_models st -> m <> "" -> m <> "Modell auswählen" ->
  exists p st', streamlit_llm_provider_auswahl st auswahl = inr (Some p, st') /\
    Anbieter.aufruf_model st' p = Some m.
Proof.
  intros Hwf Ha Hm Hleer Hplatz. unfold streamlit_llm_provider_auswahl. rewrite Ha.
  rewrite (proj2 (String.eqb_neq _ _) Hleer), (proj2 (String.eqb_neq _ _) Hplatz). cbn [orb].
  unfold Anbieter.hole_provider.
  destruct (dict_get (Anbieter.provider_models st) m) as [p|] eqn:Hp.
  - exists p, (Anbieter.aktiviere_model st p m). split; [done|].
    by apply Anbieter.aufruf_model_aktiviert, (Hwf m).
  - by apply dict_get_None in Hp.
Qed.

Lemma provider_auswahl_angeboten_witness :
  exists p st',
    streamlit_llm_provider_auswahl (ssg_anbieter (Anbieter.mkZustand [] [])) (fun _ => Some "deepseek-chat")
    = inr (Some p, st') /\ Anbieter.aufruf_model st' p = Some "deepseek-chat".
Proof.
  apply provider_auswahl_angeboten; [|reflexivity|vm_compute; set_solver|done|done].
  apply ssg_anbieter_wf. by intros m q Hm.
Defined.

(** a config file that does not parse aborts the start: when the
    entries before it were registered and an active entry with a path
    names a file [tomllib] cannot parse, [ssg.py] raises the
    [TOMLDecodeError] ([load_config] re-raises it) and no page is
    registered. *)
Theorem ssg_toml_ungueltig toml dotenv st config ks i k p d r :
  tomlconfig_init toml "ssg.toml" = inr config ->
  dict_get config "komponenten" = Some (PList ks) ->
  seiten_go toml config [] (take i ks) = inr r ->
  ks !! i = Some k -> eintrag k = inr (Some (p, d)) -> toml d = Ungueltig ->
  ssg toml dotenv st = inl (ValueError ("TOMLDecodeError: " +++ d)).
Proof.
  intros Hi Hk Hgo Hks He Ht. unfold ssg. rewrite Hi. unfold get_section. rewrite Hk. cbn [py_iter].
  rewrite <-(take_drop i ks), seiten_go_app, Hgo. rewrite (drop_S _ _ _ Hks). cbn [seiten_go].
  unfold seite_registrieren. rewrite He. cbv zeta. rewrite load_config_komponente.
  unfold toml_laden at 1. by rewrite Ht.
Qed.

Lemma ssg_toml_ungueltig_witness :
  ssg Beispielkonfiguration.dateien_kaputt Beispielkonfiguration.dotenv (Anbieter.mkZustand [] [])
  = inl (ValueError ("TOMLDecodeError: " +++ "kaputt.toml")).
Proof.
  eapply (ssg_toml_ungueltig _ _ _ (dict_set Beispielkonfiguration.haupt "komponenten"
           (PList [Beispielkonfiguration.k_start; Beispielkonfiguration.k_kaputt; Beispielkonfiguration.k_ref]))
           [Beispielkonfiguration.k_start; Beispielkonfiguration.k_kaputt; Beispielkonfiguration.k_ref]
           1 Beispielkonfiguration.k_kaputt "src/komponenten/auswertung/auswertung.py");
    reflexivity.
Defined.
