(* ===== verification/Ergebnisanzeige.v ===== *)
(** * Choosing and showing stored results

    The select boxes and displays of stored results:
    [ReferenzdokumenteAPI] of
    [src/src/komponenten/referenzdokumente/referenzdokumente_api.py]
    ([tokenverbrauch_summieren], [streamlit_zusammenfassungen_auswahl],
    [streamlit_zusammenfassungen_anzeigen], [print_chatverlaeufe],
    [print_chatverlauf]), [streamlit_siliconsamples_auswahl],
    [streamlit_siliconsamples_anzeigen], [print_parsed_chatverlauf] and
    [antworten_als_pivot] of [siliconsamplesgenerator_api.py],
    [format_number] of [src/src/shared/generator.py], and the two places
    that select and show a stored sample: the display tab of
    [siliconsamplesgenerator.py] and the evaluation page [auswertung.py].
    The folders are listed with [Persistenz]'s [ordner_auslesen], so a
    page that passes a [str] raises as the code does.
    A display is the list of Streamlit elements it writes, in order; the select box is the oracle [waehle],
    which is given the options and the preselected index and returns the
    index chosen.  Paths are strings: [Path(ordner) / d] is
    [path_join ordner d], and [Path(p).name] is [basename p] (paths
    without a trailing ["/"]).  The texts are [KomponentenAPI.text] of
    [Konfiguration].  [chat_lesbar] and [prompt_lesbar] state the shape
    of a stored transcript and prompt under which the display of a
    sample does not raise. *)

From stdpp Require Import pretty.
From S2P Require Import Prelude PyStr Generator Dokumente Katalog Fragenmanager Befragung Stichproben Persistenz Konfiguration.

Open Scope string_scope.
Open Scope list_scope.
Open Scope py_scope.

Import Katalog.Models Fragenmanager.Daten Generator.Generator Generator.Inhalt Dokumente.Modelle Persistenz.Json Persistenz.Kodierung
       Persistenz.Laden Persistenz.Dateien Konfiguration.Konfig.

(** [format_number(n)]: [f"{n:,}".replace(",", ".")], the digits in
    groups of three from the right, separated by dots; [tausender] puts
    a dot before every fourth digit of the reversed digits, [i] counting
    the digits of the current group. *)
Fixpoint tausender (i : nat) (ds : list ascii) : list ascii :=
    match ds with
    | [] => []
    | d :: rest => if (i =? 3)%nat then "."%char :: d :: tausender 1 rest else d :: tausender (S i) rest
    end.

Definition format_number (n : Z) : string :=
    (if (n <? 0)%Z then "-" else "")
    +++ string_of_list_ascii (rev (tausender 0 (rev (list_ascii_of_string (pretty (Z.abs n)))))).

(** [s + t] for a string [s] and a value [t]. *)
Definition str_plus (s : string) (t : PyWert) : Ladefehler + string :=
    match t with
    | PStr u => inr (s +++ u)
    | _ => inl (TypeError "can only concatenate str (not another type) to str")
    end.

Module Auswahl.

(** An option of the select box: the text for "no selection" or a
    file's path relative to the folder, as [ordner_auslesen] gives it. *)
Inductive Auswahloption :=
  | OText (t : PyWert)
  | ODatei (p : string).

(** [options.index(dateiname)] after [dateiname in options] for a
    [Path] [dateiname]: a [Path] equals no string, so only the files are
    compared. *)
Definition index_pfad (dateiname : string) (dateien : list string) : option nat :=
    S <$> (fst <$> list_find (fun d => d = dateiname) dateien).

(** The same for a [str] [dateiname]: no [Path] equals it, only the
    text of the first option can. *)
Definition index_str (dateiname : string) (keine : PyWert) : option nat :=
    match keine with
    | PStr t => if String.eqb t dateiname then Some 0 else None
    | _ => None
    end.

Section Auswahl.
Variable app_config : Konfig.
Variable api : KomponentenAPI.
Variable json_load : string -> Ladefehler + PyWert.
(** [st.selectbox(label, options, index=index, placeholder=...)]: the
    index of the option chosen, [None] while none is. *)
Variable waehle : list Auswahloption -> option nat -> option nat.

Definition txt (k : string) : Ladefehler + PyWert := text app_config api k.

(** [ReferenzdokumenteAPI.streamlit_zusammenfassungen_auswahl(ordner,
    vorausgewaehlt)]: the summaries of the file chosen, [[]] when none
    is.  The text compared with the choice is the one of the first
    option ([text] reads an unchanged configuration). *)
Definition streamlit_zusammenfassungen_auswahl (fs : Dateisystem) (ordner : Pfadwert) (vorausgewaehlt : string)
    : Ladefehler + Gelesen GeladeneZusammenfassung :=
    let? dateien := ordner_auslesen fs ordner "*.json" in
    match dateien with
    | [] => let? _ := txt "keine_zusammenfassungen_vorhanden" in inr (Viele [])
    | dateien =>
        let? keine := txt "zusammenfassungen_keine_auswahl" in
        let optionen := OText keine :: (ODatei <$> dateien) in
        let index :=
          if String.eqb vorausgewaehlt "" then None else index_pfad (basename vorausgewaehlt) dateien in
        let? _ := txt "zusammenfassungen_auswahl_info" in
        let? _ := txt "zusammenfassungen_auswahl_waehlen" in
        match waehle optionen index ≫= (optionen !!.) with
        | Some (ODatei d) => zusammenfassung json_load fs (path_join (str_pfad ordner) d)
        | _ => inr (Viele [])
        end
    end.

(** [SiliconSamplesGeneratorAPI.streamlit_siliconsamples_auswahl(ordner,
    vorausgewaehlt)]: here [dateiname] is [Path(vorausgewaehlt).name],
    a [str]. *)
Definition streamlit_siliconsamples_auswahl (fs : Dateisystem) (ordner : Pfadwert) (vorausgewaehlt : string)
    : Ladefehler + option (Gelesen GeladeneSamples) :=
    let? dateien := ordner_auslesen fs ordner "*.json" in
    match dateien with
    | [] => let? _ := txt "keine_siliconsamples_vorhanden" in inr None
    | dateien =>
        let? keine := txt "siliconsamples_keine_auswahl" in
        let optionen := OText keine :: (ODatei <$> dateien) in
        let index :=
          if String.eqb vorausgewaehlt "" then None else index_str (basename vorausgewaehlt) keine in
        let? _ := txt "siliconsamples_auswahl_info" in
        let? _ := txt "siliconsamples_auswahl_waehlen" in
        match waehle optionen index ≫= (optionen !!.) with
        | Some (ODatei d) => let? s := siliconsamples json_load fs (path_join (str_pfad ordner) d) in inr (Some s)
        | _ => inr None
        end
    end.

End Auswahl.
End Auswahl.

Module Darstellung.

(** What a display writes. *)
Inductive Element :=
  | Metrik (label : PyWert) (wert : PyWert)
  | Titel (t : PyWert)
  | Untertitel (t : PyWert)
  | Ergebnistabelle (zeilen : list Tabelle.Zeile)
  | Schreiben (t : PyWert)
  | SchreibenZusammenfassungen (z : Feld GeladeneZusammenfassung)
  | Markdown (t : PyWert)
  | Datenrahmen (spalte index_name : PyWert) (daten : PyWert)
  | Chatnachricht (typ : string) (inhalt : string)
  | Expander (label : string) (inhalt : list Element)
  | Spalten (inhalte : list (list Element))
  | Reiter (labels : list PyWert) (inhalte : list (list Element)).

(** [for z in zusammenfassungen] over what [datei_lesen] returned: a
    dataclass object is not iterable; the characters of a string and
    the elements of another value have no [llm]. *)
Definition als_iterierbar {A} (g : Gelesen A) : Ladefehler + list A :=
    match g with
    | Viele l => inr l
    | Eins _ => inl (TypeError "object is not iterable")
    | Text s => if String.eqb s "" then inr [] else inl (AttributeError "llm")
    | Sonst v =>
        let? xs := py_iter v in
        match xs with [] => inr [] | _ => inl (AttributeError "llm") end
    end.

(** [zusammenfassung.llm] where [from_dict] left a raw value. *)
Definition llm_von (z : GeladeneZusammenfassung) : Ladefehler + GeladenesLLM :=
    match gz_llm z with Objekt l => inr l | Roh _ => inl (AttributeError "tokenverbrauch") end.

(** [ReferenzdokumenteAPI.tokenverbrauch_summieren(zusammenfassungen)] *)
Definition tokenverbrauch_summieren_api (zs : list GeladeneZusammenfassung) : Ladefehler + Z :=
    let? ls := map_res llm_von zs in
    inr (foldl (fun n l => n + tokenverbrauch_summieren (gl_tokenverbrauch l))%Z 0%Z ls).

(** [parse_chatverlauf] reads each message with [msg.get]. *)
Definition als_nachrichten (l : list PyWert) : Ladefehler + list (list (string * PyWert)) :=
    map_res (fun v => match v with PDict kv => inr kv | _ => inl (AttributeError "get") end) l.

(** [message["type"] in ("human", "user")] *)
Definition vom_menschen (t : string) : bool := String.eqb t "human" || String.eqb t "user".

Section Anzeige.
Variable app_config : Konfig.
Variable api : KomponentenAPI.
(** [str(v)] of a dictionary or list, as in [Generator]. *)
Variable repr : PyWert -> string.

Definition txt (k : string) : Ladefehler + PyWert := text app_config api k.

(** One message of [print_chatverlauf]: human and user messages longer
    than 300 characters are cut and marked. *)
Definition nachricht_anzeigen (m : Anzeige) : Ladefehler + Element :=
    let kurz := strip (inhalt m) in
    let? kurz :=
      if vom_menschen (typ m) && negb (String.length kurz <=? 300)%nat then
        let? marke := txt "text_verkuerzt" in str_plus (substring 0 300 kurz) marke
      else inr kurz in
    inr (Chatnachricht (py_replace "system" "user" (typ m)) kurz).

(** [ReferenzdokumenteAPI.print_chatverlauf(chatverlauf)] *)
Definition print_chatverlauf (cv : GeladenerChatverlauf) : Ladefehler + list Element :=
    let? msgs := als_nachrichten (gc_chatverlauf cv) in
    map_res nachricht_anzeigen (parse_chatverlauf repr msgs).

(** [ReferenzdokumenteAPI.print_chatverlaeufe(chatverlaeufe)]: one
    expander per transcript when there are several. *)
Definition print_chatverlaeufe (cvs : list GeladenerChatverlauf) : Ladefehler + list Element :=
    if (1 <? List.length cvs)%nat then
      map_res (fun icv =>
        let? label := txt "chatverlauf" in
        let? es := print_chatverlauf icv.2 in
        inr (Expander (py_str repr label +++ " " +++ pretty (S icv.1)) es)) (imap pair cvs)
    else
      let? ess := map_res print_chatverlauf cvs in inr (List.concat ess).

(** A text tab: the stripped text, or the "no data" text. *)
Definition text_reiter (t : string) : Ladefehler + list Element :=
    let t := strip t in
    if String.eqb t "" then let? k := txt "keine_daten_extrahiert" in inr [Markdown k]
    else inr [Markdown (PStr t)].

(** A table tab: one markdown per table, or the "no data" text. *)
Definition tabellen_reiter (ts : list string) : Ladefehler + list Element :=
    match ts with
    | [] => let? k := txt "keine_daten_extrahiert" in inr [Markdown k]
    | _ => inr ((fun t => Markdown (PStr t)) <$> ts)
    end.

(** A transcript tab: the transcripts of one name. *)
Definition chat_reiter (l : GeladenesLLM) (name : string) : Ladefehler + list Element :=
    match filter (fun cv => gc_name cv = name) (gl_chatverlaeufe l) with
    | [] => let? k := txt "keine_daten_extrahiert" in inr [Markdown k]
    | cvs => print_chatverlaeufe cvs
    end.

(** [pd.DataFrame.from_dict(asdict(x), orient="index", columns=[text("wert")])]
    with [df.index.name = text("attribut")]. *)
Definition datenrahmen (daten : PyWert) : Ladefehler + Element :=
    let? wert := txt "wert" in
    let? attribut := txt "attribut" in
    inr (Datenrahmen wert attribut daten).

(** The expander of one summary in [streamlit_zusammenfassungen_anzeigen]. *)
Definition zusammenfassung_anzeigen (z : GeladeneZusammenfassung) : Ladefehler + Element :=
    let? kopf := txt "zusammenfassung" in
    let? r := match gz_referenzdokument z with
              | Objekt r => inr r | Roh _ => inl (AttributeError "name") end in
    let? verbraucht := txt "verbrauchte_tokens" in
    let? l := llm_von z in
    let label := py_str repr kopf +++ " " +++ rname r +++ py_str repr verbraucht
                 +++ format_number (tokenverbrauch_summieren (gl_tokenverbrauch l)) in
    let? t_ref := txt "referenzdokument" in
    let? df1 := datenrahmen (kodiere r) in
    let? t_aus := txt "ausgewaehlte_zusammenfassung" in
    let? a := match gz_zusammenfassung_auswahl z with
              | Objekt a => inr a
              | Roh _ => inl (TypeError "asdict() should be called on dataclass instances") end in
    let? df2 := datenrahmen (kodiere a) in
    let? labels := map_res txt ["text_extrahiert"; "text_zusammengefasst"; "tabellen_extrahiert";
                                "tabellen_zusammengefasst"; "chatverlauf_text"; "chatverlauf_tabellen"] in
    let? tab1 := text_reiter (gz_text_extrahiert z) in
    let? tab2 := text_reiter (gz_text_zusammengefasst z) in
    let? tab3 := tabellen_reiter (gz_tabellen_extrahiert z) in
    let? tab4 := tabellen_reiter (gz_tabellen_zusammengefasst z) in
    let? tab5 := chat_reiter l "text_zusammengefasst" in
    let? tab6 := chat_reiter l "tabellen_zusammengefasst" in
    inr (Expander label [Spalten [[Schreiben t_ref; df1]; [Schreiben t_aus; df2]];
                         Reiter labels [tab1; tab2; tab3; tab4; tab5; tab6]]).

(** [ReferenzdokumenteAPI.streamlit_zusammenfassungen_anzeigen(zusammenfassungen, zeige_tokens)] *)
Definition streamlit_zusammenfassungen_anzeigen (zs : Gelesen GeladeneZusammenfassung) (zeige_tokens : bool)
    : Ladefehler + list Element :=
    let? metrik :=
      if zeige_tokens then
        let? label := txt "verbrauchte_tokens_insgesamt" in
        let? l := als_iterierbar zs in
        let? n := tokenverbrauch_summieren_api l in
        inr [Metrik label (PStr (format_number n))]
      else inr [] in
    let? l := als_iterierbar zs in
    let? es := map_res zusammenfassung_anzeigen l in
    inr (metrik ++ es).

(** ** [SiliconSamplesGeneratorAPI.streamlit_siliconsamples_anzeigen] *)

(** [print_parsed_chatverlauf(chatverlauf)]: every message in full. *)
Definition print_parsed_chatverlauf (msgs : list Anzeige) : list Element :=
    (fun m => Chatnachricht (py_replace "system" "user" (typ m)) (inhalt m)) <$> msgs.

(** One transcript of the raw-data tab: a transcript of tables (every
    entry a list) gets one expander per table. *)
Definition rohdaten_chatverlauf (cv : GeladenerChatverlauf) : Ladefehler + Element :=
    let? es :=
      if forallb (fun x => match x with PList _ => true | _ => false end) (gc_chatverlauf cv) then
        map_res (fun ix =>
          match ix.2 with
          | PList tab =>
              let? msgs := als_nachrichten tab in
              inr (Expander ("Chatverlauf für Tabelle " +++ pretty (S ix.1))
                     (print_parsed_chatverlauf (parse_chatverlauf repr msgs)))
          | _ => inl (TypeError "not a list")
          end) (imap pair (gc_chatverlauf cv))
      else
        let? msgs := als_nachrichten (gc_chatverlauf cv) in
        inr (print_parsed_chatverlauf (parse_chatverlauf repr msgs)) in
    inr (Expander (gc_name cv) es).

(** [st.write] of a field [from_dict] converted or left raw. *)
Definition feld_schreiben {A} `{Kodierbar A} (f : Feld (list (string * A))) : Element :=
    match f with Objekt d => Schreiben (kodiere_dict d) | Roh v => Schreiben v end.

(** The exception of the result table, as the page sees it. *)
Definition tabelle_anzeigen (g : GeladeneSamples) : Ladefehler + Element :=
    match Persistenz.Anzeige.dataframe_geladen g with
    | inl (Tabelle.AttributeError w) => inl (AttributeError w)
    | inr zeilen => inr (Ergebnistabelle zeilen)
    end.

(** [streamlit_siliconsamples_anzeigen(siliconsamples)] on what
    [siliconsamples] read: the token and persona metrics, the answers
    tab with the result table, and the raw-data tab.  A file that did
    not hold one object has no [.llm]. *)
Definition streamlit_siliconsamples_anzeigen (gg : Gelesen GeladeneSamples) : Ladefehler + list Element :=
    let? label_tokens := txt "verbrauchte_tokens" in
    let? g := match gg with Eins g => inr g | _ => inl (AttributeError "llm") end in
    let? l := match gs_llm g with Objekt l => inr l | Roh _ => inl (AttributeError "tokenverbrauch") end in
    let metrik1 := Metrik label_tokens (PStr (format_number (tokenverbrauch_summieren (gl_tokenverbrauch l)))) in
    let? prompt_data := py_get (gs_prompt g) "prompt_data" (PDict []) in
    let? persona_nutzen := py_get prompt_data "personas_nutzen" (PBool false) in
    let? label_persona := txt "persona" in
    let metrik2 := Metrik label_persona persona_nutzen in
    let? persona :=
      if py_bool persona_nutzen then py_get prompt_data "aktuelle_persona" (PDict []) else inr PNone in
    let? labels := map_res txt ["antworten"; "rohdaten"] in
    let? t_antworten := txt "antworten" in
    let? tabelle := tabelle_anzeigen g in
    let? t_roh := txt "rohdaten" in
    let? t_fragen := txt "fragen" in
    let? t_zus := txt "zusammenfassungen" in
    let? t_chat := txt "chatverlauf" in
    let? chats := map_res rohdaten_chatverlauf (gl_chatverlaeufe l) in
    let? t_ant := txt "antworten" in
    let? persona_teil :=
      if py_bool persona_nutzen then
        let? t_persona := txt "persona_details" in inr [Expander (py_str repr t_persona) [Schreiben persona]]
      else inr [] in
    inr [Spalten [[metrik1]; [metrik2]; []];
         Reiter labels [[Untertitel t_antworten; tabelle];
                        [Untertitel t_roh;
                         Expander (py_str repr t_fragen) [feld_schreiben (gs_fragen g)];
                         Expander (py_str repr t_zus) [SchreibenZusammenfassungen (gs_zusammenfassungen g)];
                         Expander (py_str repr t_chat) chats;
                         Expander (py_str repr t_ant) [feld_schreiben (gs_antworten g)]] ++ persona_teil]].


(** [if siliconsamples:] of what [streamlit_siliconsamples_auswahl]
    returned: an object is always true. *)
Definition gelesen_wahr {A} (g : Gelesen A) : bool :=
    match g with
    | Eins _ => true
    | Viele l => negb (bool_decide (l = []))
    | Text s => negb (String.eqb s "")
    | Sonst v => py_bool v
    end.

End Anzeige.

(** ** The pages that show a stored sample

    The display tab of
    [src/src/komponenten/siliconsamplesgenerator/siliconsamplesgenerator.py]
    and the evaluation page [src/src/komponenten/auswertung/auswertung.py]
    both let the silicon samples component [api_ss] select a file and
    show it.  The evaluation page takes its title from its own component
    [api]; the folder is what the user leaves in its text input. *)
Section Seiten.
Variable app_config : Konfig.
Variables api api_ss : KomponentenAPI.
Variable repr : PyWert -> string.
Variable json_load : string -> Ladefehler + PyWert.
Variable waehle : list Auswahl.Auswahloption -> option nat -> option nat.

(** [siliconsamples = api.streamlit_siliconsamples_auswahl(...)];
    [if siliconsamples: api.streamlit_siliconsamples_anzeigen(...)] *)
Definition anzeige_tab (fs : Dateisystem) (siliconsamples_ordner : Pfadwert) (vorausgewaehlt : string)
    : Ladefehler + list Element :=
    let? s := Auswahl.streamlit_siliconsamples_auswahl app_config api_ss json_load waehle
                fs siliconsamples_ordner vorausgewaehlt in
    match s with
    | Some g => if gelesen_wahr g then streamlit_siliconsamples_anzeigen app_config api_ss repr g else inr []
    | None => inr []
    end.

(** The evaluation page below its imports: the title, the folder input
    and the display without a preselection; the folder is the [str]
    [st.text_input] returns, passed on as it is. *)
Definition auswertung (fs : Dateisystem) (siliconsamples_ordner : string) : Ladefehler + list Element :=
    let? page := py_index (api_config api) "page" in
    let? titel := py_index page "title" in
    let? _ := txt app_config api_ss "siliconsamples_ordner_name" in
    let? _ := txt app_config api_ss "siliconsamples_ordner_beschreibung" in
    let? es := anzeige_tab fs (PText siliconsamples_ordner) "" in
    inr (Titel titel :: es).

End Seiten.
End Darstellung.

(** ** Examples

    An API without texts of its own in an application without texts:
    every [text(key)] is the key itself. *)
(** ** [SiliconSamplesGeneratorAPI.antworten_als_pivot] *)
Module Pivot.

(** [pivot[row][col] = value]: rows and their cells keep the order in
    which they were first set. *)
Definition Pivot := list (string * list (string * string)).

(** One [item] of an answer: a theme key without ["::"] adds nothing;
    [None] has no [.split]. *)
Definition pivot_eintrag (acc : gset string * Pivot) (item : AntwortThemaOption)
    : Ladefehler + (gset string * Pivot) :=
    let '(columns, pivot) := acc in
    let? key := match thema_key item with Some k => inr k | None => inl (AttributeError "split") end in
    let parts := split_dcolon key in
    if (1 <? List.length parts)%nat then
      let col := default "" (last parts) in
      let row_id := default "" (thema_name item) in
      let row := default [] (dict_get pivot row_id) in
      inr ({[col]} ∪ columns, dict_set pivot row_id (dict_set row col (option_key item)))
    else inr acc.

(** [antworten_als_pivot(antworten)]: the columns and the pivot; the
    sorted rows it builds are not returned. *)
Definition antworten_als_pivot (antworten : list (string * Antwort)) : Ladefehler + (gset string * Pivot) :=
    fold_res (fun acc a => fold_res pivot_eintrag (auswahl a.2) acc) antworten (∅, []).

(** Every column is a cell of some row, and every cell is a column. *)
Definition spalten_vollstaendig (acc : gset string * Pivot) : Prop :=
    forall col, col ∈ acc.1 <-> exists row_id row, dict_get acc.2 row_id = Some row /\ is_Some (dict_get row col).

End Pivot.

(** ** Samples the display can show

    What [streamlit_siliconsamples_anzeigen] reads of a sample without
    raising: a transcript is a list of message dictionaries or a list of
    tables of them, as the generator stores it; [prompt] is a
    dictionary whose [prompt_data], if any, is one. *)
Definition ist_dict (v : PyWert) : bool := match v with PDict _ => true | _ => false end.
Definition ist_liste (v : PyWert) : bool := match v with PList _ => true | _ => false end.

Definition chat_lesbar (cv : GeladenerChatverlauf) : bool :=
    if forallb ist_liste (gc_chatverlauf cv) then
      forallb (fun x => match x with PList t => forallb ist_dict t | _ => true end) (gc_chatverlauf cv)
    else forallb ist_dict (gc_chatverlauf cv).

Definition prompt_lesbar (p : PyWert) : bool :=
    match p with PDict kv => ist_dict (default (PDict []) (dict_get kv "prompt_data")) | _ => false end.

(** ** The user picks a file

    [waehlt_datei waehle d]: whatever is preselected, the user picks the
    option of file [d] whenever the select box offers it;
    [waehle_datei d] is such a user. *)
Definition ist_datei (d : string) (o : Auswahl.Auswahloption) : bool :=
    match o with Auswahl.ODatei p => String.eqb p d | _ => false end.

Definition waehle_datei (d : string) (opts : list Auswahl.Auswahloption) (_ : option nat) : option nat :=
    fst <$> list_find (fun o => ist_datei d o = true) opts.

Definition waehlt_datei (waehle : list Auswahl.Auswahloption -> option nat -> option nat) (d : string) : Prop :=
    forall opts i, Auswahl.ODatei d ∈ opts -> exists j, waehle opts i = Some j /\ opts !! j = Some (Auswahl.ODatei d).

Module Beispielanzeige.
Import Konfig Dateien Auswahl.

Definition api0 : KomponentenAPI := mkAPI "referenzdokumente" (PDict []).

Definition repr0 (_ : PyWert) : string := "{...}".

(** A transcript with a human message of 310 characters and a system
    message. *)
Definition lang : string := String.concat "" (repeat "abcdefghij" 31).

Definition cv0 : GeladenerChatverlauf :=
  mkGeladenerChatverlauf "text_zusammengefasst"
    [PDict [("type", PStr "system"); ("content", PStr " Fasse zusammen. ")];
     PDict [("type", PStr "human"); ("content", PStr lang)]].

(** Files before a run: an older summaries file, a stored sample and a
    note that is no JSON file. *)
Definition dateien0 : Dateisystem :=
  [("zusammenfassungen/alt.json", "[]"); ("siliconsamples/samples.json", "{}");
   ("siliconsamples/notiz.txt", "")].

(** The user keeps what is preselected. *)
Definition vorauswahl_behalten (_ : list Auswahloption) (i : option nat) : option nat := i.

Definition zusammenfassung_json : Kodierbar Zusammenfassung := @zusammenfassung_kodierbar Beispieldateien.llm_als_none.

Definition zs0_json : PyWert := @kodiere_liste _ zusammenfassung_json [Beispieldateien.zusammenfassung0].

(** A stored model record with one transcript of one message. *)
Definition llm0_json : PyWert :=
  PDict [("tokenverbrauch", PDict []);
         ("chatverlaeufe", PList [PDict [("name", PStr "fragen");
                                         ("chatverlauf", PList [PDict [("type", PStr "human")]])]])].

Definition samples1_json : PyWert := @samples_json Beispieldateien.z_kodierbar (PDict []) llm0_json Beispieldateien.samples0.

(** Answers with two cells of one row, and an item of a top-level theme. *)
Definition antworten0 : list (string * Antwort) :=
  [("q1", mkAntwort "q1" [mkAuswahl (Some "q0::marke::preis") (Some "Marke A") "3";
                         mkAuswahl (Some "q1") None "x";
                         mkAuswahl (Some "q0::marke::qualitaet") (Some "Marke A") "4"])].
End Beispielanzeige.

Import Auswahl Darstellung.

(** * Properties *)

(** ** Messages *)

(** One displayed message: cut only when it is a human or user message
    longer than 300 characters, then at most [300] characters and the
    marker. *)
Lemma nachricht_anzeigen_kuerzung app api m marke e :
  text app api "text_verkuerzt" = inr (PStr marke) ->
  nachricht_anzeigen app api m = inr e ->
  exists k, e = Chatnachricht (py_replace "system" "user" (typ m)) k /\
    (String.length (strip (inhalt m)) <= 300 -> k = strip (inhalt m)) /\
    (vom_menschen (typ m) = true -> 300 < String.length (strip (inhalt m)) ->
       k = substring 0 300 (strip (inhalt m)) +++ marke) /\
    (vom_menschen (typ m) = false -> k = strip (inhalt m)).
Proof.
  intros Hm. unfold nachricht_anzeigen, Darstellung.txt. rewrite Hm. cbn [str_plus].
  destruct (vom_menschen (typ m)) eqn:Hv, (String.length (strip (inhalt m)) <=? 300)%nat eqn:Hl;
    cbn; intros [= <-]; eexists; (split; [reflexivity|]); apply Nat.leb_le in Hl || apply Nat.leb_gt in Hl;
    split_and!; intros; try done; lia.
Qed.

(** ** Choosing a stored file *)

Lemma index_pfad_elem name dateien :
  name ∈ dateien -> exists j, index_pfad name dateien = Some (S j) /\ dateien !! j = Some name.
Proof.
  intros Hin. unfold index_pfad.
  destruct (list_find_elem_of (fun d => d = name) dateien name Hin eq_refl) as [[j d] Hf].
  rewrite Hf. apply list_find_Some in Hf as (Hj & -> & _). by exists j.
Qed.

Lemma path_join_nicht_leer ordner name :
  ordner <> "" -> path_join ordner name = ordner +++ "/" +++ name /\ String.eqb (ordner +++ "/" +++ name) "" = false.
Proof.
  intros Ho. unfold path_join. rewrite (proj2 (String.eqb_neq _ _) Ho). split; [done|].
  destruct ordner; [done|]. reflexivity.
Qed.

(** The select box of summaries, preselecting a file the folder lists,
    reads that file when the user keeps the preselection. *)
Lemma zusammenfassungen_auswahl_datei app api json_load waehle fs ordner name ds :
  (forall k, exists v, text app api k = inr v) ->
  ordner <> "" -> alle (ohne_char "/") name = true ->
  ordner_auslesen fs (PPath ordner) "*.json" = inr ds -> name ∈ ds -> (forall opts i, waehle opts i = i) ->
  streamlit_zusammenfassungen_auswahl app api json_load waehle fs (PPath ordner) (path_join ordner name)
  = zusammenfassung json_load fs (path_join ordner name).
Proof.
  intros Htxt Ho Hn Hds Hin Hw. unfold streamlit_zusammenfassungen_auswahl, Auswahl.txt. rewrite Hds. cbv iota beta.
  destruct (path_join_nicht_leer ordner name Ho) as [Hp Hleer].
  destruct ds as [|d ds]; [set_solver|].
  destruct (Htxt "zusammenfassungen_keine_auswahl") as [keine ->].
  destruct (Htxt "zusammenfassungen_auswahl_info") as [v1 ->].
  destruct (Htxt "zusammenfassungen_auswahl_waehlen") as [v2 ->].
  cbv zeta. rewrite Hp, Hleer, basename_app by done.
  destruct (index_pfad_elem name (d :: ds) Hin) as (j & -> & Hj). rewrite Hw. cbn [mbind option_bind].
  rewrite lookup_cons, list_lookup_fmap, Hj. cbn [fmap option_fmap option_map str_pfad]. by rewrite Hp.
Qed.

(** C28: a transcript is shown message by message, the role
    [system] shown as [user]; a message is shown stripped and in full when
    it has at most 300 characters or is not a human or user message, and
    a longer human or user message is shown as its first 300 characters
    followed by the marker [text("text_verkuerzt")]. *)
Theorem print_chatverlauf_kuerzung app api repr cv es marke :
  text app api "text_verkuerzt" = inr (PStr marke) ->
  print_chatverlauf app api repr cv = inr es ->
  exists msgs, als_nachrichten (gc_chatverlauf cv) = inr msgs /\
  Forall2 (fun m e => exists k, e = Chatnachricht (py_replace "system" "user" (typ m)) k /\
            (String.length (strip (inhalt m)) <= 300 -> k = strip (inhalt m)) /\
            (vom_menschen (typ m) = true -> 300 < String.length (strip (inhalt m)) ->
               k = substring 0 300 (strip (inhalt m)) +++ marke) /\
            (vom_menschen (typ m) = false -> k = strip (inhalt m)))
    (parse_chatverlauf repr msgs) es.
Proof.
  intros Hm. unfold print_chatverlauf. destruct (als_nachrichten _) as [|msgs]; [discriminate|].
  intros Hes%map_res_inr. exists msgs. split; [done|].
  eapply Forall2_impl; [exact Hes|]. intros m e He. exact (nachricht_anzeigen_kuerzung app api m marke e Hm He).
Qed.

Lemma print_chatverlauf_kuerzung_witness :
  exists es, print_chatverlauf [] Beispielanzeige.api0 Beispielanzeige.repr0 Beispielanzeige.cv0 = inr es /\
  exists msgs, als_nachrichten (gc_chatverlauf Beispielanzeige.cv0) = inr msgs /\
  Forall2 (fun m e => exists k, e = Chatnachricht (py_replace "system" "user" (typ m)) k /\
            (String.length (strip (inhalt m)) <= 300 -> k = strip (inhalt m)) /\
            (vom_menschen (typ m) = true -> 300 < String.length (strip (inhalt m)) ->
               k = substring 0 300 (strip (inhalt m)) +++ "text_verkuerzt") /\
            (vom_menschen (typ m) = false -> k = strip (inhalt m)))
    (parse_chatverlauf Beispielanzeige.repr0 msgs) es.
Proof.
  eexists. split; [vm_compute; reflexivity|].
  apply (print_chatverlauf_kuerzung [] Beispielanzeige.api0); [reflexivity|vm_compute; reflexivity].
Defined.

(** The summaries a run has just stored are shown without a
    choice: when the page stores the list of summaries under
    [ordner/name] and passes that path as [vorausgewaehlt], the select
    box preselects the file (the folder lists it), and if the user keeps
    it, [streamlit_zusammenfassungen_auswahl] returns what
    [Zusammenfassung.from_dict] gives for each stored summary, in order. *)
Lemma zusammenfassungen_vorausgewaehlt `{Kodierbar Zusammenfassung} app api json_load json_dump
    waehle fs ordner name zs gs :
  (forall k, exists v, text app api k = inr v) ->
  ordner <> "" -> alle (ohne_char "/") name = true -> ends_with ".json" name = true ->
  (forall opts i, waehle opts i = i) ->
  json_load (json_dump (kodiere_liste zs)) = inr (kodiere_liste zs) ->
  Forall2 (fun z g => from_dict (kodiere z) = inr g) zs gs ->
  streamlit_zusammenfassungen_auswahl app api json_load waehle
    (datei_speichern json_dump fs (path_join ordner name) (kodiere_liste zs)) (PPath ordner) (path_join ordner name)
  = inr (Viele gs).
Proof.
  intros Htxt Ho Hn Hjs Hw Hj Hgs.
  destruct (ordner_auslesen_gespeichert json_dump fs ordner name (kodiere_liste zs) Hn Hjs) as (ds & Hds & Hin).
  rewrite (zusammenfassungen_auswahl_datei _ _ _ _ _ _ _ ds Htxt Ho Hn Hds Hin Hw).
  unfold zusammenfassung. rewrite datei_lesen_gespeichert by done.
  unfold kodiere_liste. by rewrite (map_res_forall2 _ _ _ _ Hgs).
Qed.

(** C27: [streamlit_siliconsamples_auswahl] cannot preselect a file:
    it looks up [Path(vorausgewaehlt).name], a [str], among options
    that are [Path]s (and the text for "no selection"), so unless that
    text happens to be the file name no index is preselected, and a user
    who keeps the preselection gets no sample, whatever path is passed
    and whatever the folder lists. *)
Theorem siliconsamples_nie_vorausgewaehlt app api json_load waehle fs ordner
    vorausgewaehlt keine :
  (forall k, exists v, text app api k = inr v) ->
  text app api "siliconsamples_keine_auswahl" = inr keine -> keine <> PStr (basename vorausgewaehlt) ->
  (forall opts i, waehle opts i = i) ->
  streamlit_siliconsamples_auswahl app api json_load waehle fs (PPath ordner) vorausgewaehlt = inr None.
Proof.
  intros Htxt Hk Hne Hw. unfold streamlit_siliconsamples_auswahl, Auswahl.txt.
  destruct (ordner_auslesen fs (PPath ordner) "*.json") as [e|[|d ds]] eqn:Hds; [by cbn in Hds| |].
  - destruct (Htxt "keine_siliconsamples_vorhanden") as [v ->]. done.
  - rewrite Hk. destruct (Htxt "siliconsamples_auswahl_info") as [v1 ->].
    destruct (Htxt "siliconsamples_auswahl_waehlen") as [v2 ->]. cbv zeta. rewrite Hw.
    assert (Hi : index_str (basename vorausgewaehlt) keine = None).
    { unfold index_str. destruct keine as [t| | | | | |]; try done.
      destruct (String.eqb t _) eqn:Ht; [|done]. apply String.eqb_eq in Ht. by subst. }
    rewrite Hi. by destruct (String.eqb vorausgewaehlt "").
Qed.

Lemma siliconsamples_nie_vorausgewaehlt_witness :
  streamlit_siliconsamples_auswahl [] Beispielanzeige.api0 (fun _ => inr (PDict []))
    Beispielanzeige.vorauswahl_behalten Beispielanzeige.dateien0 (PPath "siliconsamples")
    "daten/siliconsamples/samples.json"
  = inr None.
Proof.
  apply (siliconsamples_nie_vorausgewaehlt _ _ _ _ _ _ _ (PStr "siliconsamples_keine_auswahl"));
    [intros k; eexists; reflexivity|reflexivity|vm_compute; congruence|done].
Defined.

(** C26: a summaries file holding one summary object, which
    [datei_lesen] returns as that object and not as a list, cannot be
    shown: preselected and kept, it reaches
    [streamlit_zusammenfassungen_anzeigen], whose loop over it raises
    [TypeError]. *)
Theorem einzelne_zusammenfassung_typfehler `{Kodierbar LLM} app api repr json_load json_dump
    waehle fs ordner name (z : Zusammenfassung) (g : GeladeneZusammenfassung) :
  (forall k, exists v, text app api k = inr v) ->
  ordner <> "" -> alle (ohne_char "/") name = true -> ends_with ".json" name = true ->
  (forall opts i, waehle opts i = i) ->
  json_load (json_dump (kodiere z)) = inr (kodiere z) -> from_dict (kodiere z) = inr g ->
  (let? zs := streamlit_zusammenfassungen_auswahl app api json_load waehle
                (datei_speichern json_dump fs (path_join ordner name) (kodiere z)) (PPath ordner)
                (path_join ordner name) in
   streamlit_zusammenfassungen_anzeigen app api repr zs true)
  = inl (TypeError "object is not iterable").
Proof.
  intros Htxt Ho Hn Hjs Hw Hj Hg.
  destruct (ordner_auslesen_gespeichert json_dump fs ordner name (kodiere z) Hn Hjs) as (ds & Hds & Hin).
  rewrite (zusammenfassungen_auswahl_datei _ _ _ _ _ _ _ ds Htxt Ho Hn Hds Hin Hw).
  unfold zusammenfassung. rewrite datei_lesen_gespeichert by done.
  change (kodiere z) with (PDict [("referenzdokument", kodiere (referenzdokument z));
                  ("zusammenfassung_auswahl", kodiere (zusammenfassung_auswahl z));
                  ("erstellungsdatum", PStr (erstellungsdatum z));
                  ("text_extrahiert", PStr (text_extrahiert z));
                  ("text_zusammengefasst", PStr (text_zusammengefasst z));
                  ("tabellen_extrahiert", kodiere_liste (tabellen_extrahiert z));
                  ("tabellen_zusammengefasst", kodiere_liste (tabellen_zusammengefasst z));
                  ("prompt", kodiere (prompt z)); ("llm", kodiere (llm z))]) at 1.
  cbv iota. rewrite Hg. unfold streamlit_zusammenfassungen_anzeigen, Darstellung.txt.
  destruct (Htxt "verbrauchte_tokens_insgesamt") as [v ->]. reflexivity.
Qed.

Lemma einzelne_zusammenfassung_typfehler_witness :
  (let? zs := streamlit_zusammenfassungen_auswahl [] Beispielanzeige.api0
                (fun _ => inr (@kodiere _ Beispielanzeige.zusammenfassung_json Beispieldateien.zusammenfassung0))
                Beispielanzeige.vorauswahl_behalten
                (datei_speichern (fun _ => "{...}") Beispielanzeige.dateien0 (path_join "zusammenfassungen" "ergebnis.json")
                   (@kodiere _ Beispielanzeige.zusammenfassung_json Beispieldateien.zusammenfassung0))
                (PPath "zusammenfassungen") (path_join "zusammenfassungen" "ergebnis.json") in
   streamlit_zusammenfassungen_anzeigen [] Beispielanzeige.api0 Beispielanzeige.repr0 zs true)
  = inl (TypeError "object is not iterable").
Proof.
  eapply (@einzelne_zusammenfassung_typfehler Beispieldateien.llm_als_none [] Beispielanzeige.api0
           Beispielanzeige.repr0 (fun _ => inr (@kodiere _ Beispielanzeige.zusammenfassung_json Beispieldateien.zusammenfassung0))
           (fun _ => "{...}") Beispielanzeige.vorauswahl_behalten Beispielanzeige.dateien0
           "zusammenfassungen" "ergebnis.json" Beispieldateien.zusammenfassung0 _); try done.
  all: first [intros k; eexists; reflexivity | cbn; set_solver
             | repeat constructor; vm_compute; reflexivity].
Defined.

(** ** The pivot of the answers *)

Import Pivot.

(** One item keeps the columns equal to the cells of the rows. *)
Lemma pivot_eintrag_inv acc item acc' :
  spalten_vollstaendig acc -> pivot_eintrag acc item = inr acc' -> spalten_vollstaendig acc'.
Proof.
  destruct acc as [cols pv]. unfold pivot_eintrag.
  destruct (thema_key item) as [k|]; [|done]. cbn.
  case_match; [|by intros ? [= <-]]. intros Hinv [= <-] c. cbn.
  set (col := default "" _). set (rid := default "" _). set (row0 := default [] (dict_get pv rid)).
  rewrite elem_of_union, elem_of_singleton, (Hinv c). setoid_rewrite dict_get_set. split.
  - intros [->|(r & row & Hr & Hc)].
    + exists rid, (dict_set row0 col (option_key item)). rewrite decide_True by done.
      split; [done|]. rewrite dict_get_set_eq. eauto.
    + destruct (decide (r = rid)) as [->|Hne].
      * exists rid, (dict_set row0 col (option_key item)). rewrite decide_True by done.
        split; [done|]. rewrite dict_get_set. case_decide; [eauto|]. unfold row0. cbn in Hr. by rewrite Hr.
      * exists r, row. cbn in Hr. by rewrite decide_False.
  - intros (r & row & Hr & Hc). case_decide as Hrid; [|right; cbn; eauto].
    injection Hr as <-. rewrite dict_get_set in Hc. case_decide; [by left|right].
    unfold row0 in Hc. destruct (dict_get pv rid) as [row|] eqn:E; cbn in Hc; [cbn; eauto|].
    by destruct Hc.
Qed.

(** [antworten_als_pivot] returns exactly the columns that occur
    in its rows: a column is in the returned set if and only if some
    row of the pivot has a cell in it. *)
Theorem antworten_als_pivot_spalten antworten r :
  antworten_als_pivot antworten = inr r -> spalten_vollstaendig r.
Proof.
  apply fold_res_inv; [|intros c; cbn; set_solver].
  intros acc a acc' _. apply fold_res_inv. intros ????. by apply pivot_eintrag_inv.
Qed.

(** ** Showing a stored sample *)

Lemma als_nachrichten_ok l : forallb ist_dict l = true -> ist_inr (als_nachrichten l) = true.
Proof.
  intros Hl. apply map_res_ist_inr. intros x Hx%list_elem_of_In.
  rewrite forallb_forall in Hl. specialize (Hl x Hx). by destruct x.
Qed.

(** A readable transcript is shown without raising. *)
Lemma rohdaten_chatverlauf_ok repr cv :
  chat_lesbar cv = true -> ist_inr (rohdaten_chatverlauf repr cv) = true.
Proof.
  unfold chat_lesbar, rohdaten_chatverlauf. destruct (forallb _ _) eqn:Hl; intros Hd.
  - destruct (map_res _ _) as [e|es] eqn:E; [|done].
    enough (ist_inr (inl e : Ladefehler + list Element) = true) by done. rewrite <- E.
    apply map_res_ist_inr. intros [i x] (j & y & [= -> ->] & Hy)%elem_of_lookup_imap.
    apply list_elem_of_lookup_2, list_elem_of_In in Hy.
    rewrite forallb_forall in Hd, Hl. specialize (Hd y Hy). specialize (Hl y Hy).
    destruct y; cbn in *; try done.
    by apply als_nachrichten_ok, ist_inr_true in Hd as [? ->].
  - apply als_nachrichten_ok, ist_inr_true in Hd as [? ->]. done.
Qed.

(** With every text present, a readable prompt and transcripts, and an
    answers table that can be built, the display of a loaded sample
    succeeds and its answers tab is the subheader and that table. *)
Lemma siliconsamples_anzeigen_tabelle app api repr g l rows :
  (forall k, exists v, Darstellung.txt app api k = inr v) ->
  prompt_lesbar (gs_prompt g) = true ->
  gs_llm g = Objekt l ->
  forallb chat_lesbar (gl_chatverlaeufe l) = true ->
  Persistenz.Anzeige.dataframe_geladen g = inr rows ->
  exists m labels t rest,
    streamlit_siliconsamples_anzeigen app api repr (Eins g)
    = inr [m; Reiter labels ([Untertitel t; Ergebnistabelle rows] :: rest)].
Proof.
  intros Htxt Hp Hl Hc Hdf. unfold streamlit_siliconsamples_anzeigen, tabelle_anzeigen.
  rewrite Hl, Hdf.
  destruct (gs_prompt g) as [| | |kv| | |]; try done. cbn in Hp.
  destruct (default (PDict []) (dict_get kv "prompt_data")) as [| | |pd| | |] eqn:Hpd; try done.
  destruct (map_res (rohdaten_chatverlauf repr) (gl_chatverlaeufe l)) as [e|chats] eqn:Hchats.
  { enough (ist_inr (inl e : Ladefehler + list Element) = true) by done. rewrite <- Hchats.
    apply map_res_ist_inr. intros cv Hcv%list_elem_of_In. apply rohdaten_chatverlauf_ok.
    by apply (proj1 (forallb_forall _ _) Hc). }
  cbn. rewrite Hpd.
  repeat match goal with
  | |- context [Darstellung.txt app api ?k] => destruct (Htxt k) as [? ->]
  end. cbn.
  destruct (py_bool _); cbn; eauto.
Qed.

Lemma waehle_datei_waehlt d : waehlt_datei (waehle_datei d) d.
Proof.
  intros opts i Hin. unfold waehle_datei.
  destruct (list_find_elem_of (fun o => ist_datei d o = true) opts (Auswahl.ODatei d) Hin)
    as [[j o] Hf]; [cbn; apply String.eqb_refl|].
  rewrite Hf. apply list_find_Some in Hf as (Hj & Ho & _). exists j. split; [done|].
  destruct o as [|p]; [done|]. cbn in Ho. apply String.eqb_eq in Ho. by subst.
Qed.

(** A user who picks the stored file gets the sample it holds. *)
Lemma siliconsamples_auswahl_gewaehlt app api json_load waehle fs ordner vorausgewaehlt d ds :
  (forall k, exists v, text app api k = inr v) ->
  ordner_auslesen fs (PPath ordner) "*.json" = inr ds -> d ∈ ds -> waehlt_datei waehle d ->
  streamlit_siliconsamples_auswahl app api json_load waehle fs (PPath ordner) vorausgewaehlt
  = let? s := siliconsamples json_load fs (path_join ordner d) in inr (Some s).
Proof.
  intros Htxt Hds Hin Hw. unfold streamlit_siliconsamples_auswahl, Auswahl.txt. rewrite Hds. cbv iota beta.
  destruct ds as [|d0 ds]; [set_solver|].
  destruct (Htxt "siliconsamples_keine_auswahl") as [keine ->].
  destruct (Htxt "siliconsamples_auswahl_info") as [v1 ->].
  destruct (Htxt "siliconsamples_auswahl_waehlen") as [v2 ->]. cbv zeta.
  match goal with |- context [waehle ?opts ?i] => destruct (Hw opts i) as (j & -> & Hj) end.
  { apply elem_of_cons; right. by apply list_elem_of_fmap_2. }
  cbn [mbind option_bind]. by rewrite Hj.
Qed.

(** C18: the display tab shows a stored sample with the table of the
    run that produced it: when the texts are present, the folder holds
    the one file the generating page wrote with [datei_speichern] and
    [json.load] reads back, with a readable prompt and transcripts, and
    the user picks that file, the tab succeeds and its answers tab is the
    subheader and the rows [streamlit_siliconsamples_dataframe] built
    from the sample in memory, whatever path it was given to preselect. *)
Theorem anzeige_tab_zeigt_gespeicherte_tabelle `{Kodierbar Zusammenfassung} app api_ss repr
    json_load json_dump waehle fs ordner d vorausgewaehlt prompt_json llm_json ss l rows :
  (forall k, exists v, text app api_ss k = inr v) ->
  alle (ohne_char "/") d = true -> ends_with ".json" d = true ->
  json_load (json_dump (samples_json prompt_json llm_json ss)) = inr (samples_json prompt_json llm_json ss) ->
  feld_from_dict llm_json = inr (Objekt l) ->
  prompt_lesbar prompt_json = true ->
  forallb chat_lesbar (gl_chatverlaeufe l) = true ->
  waehlt_datei waehle d ->
  Tabelle.streamlit_siliconsamples_dataframe ss = inr rows ->
  exists m labels t rest,
    anzeige_tab app api_ss repr json_load waehle
      (datei_speichern json_dump fs (path_join ordner d) (samples_json prompt_json llm_json ss))
      (dateipfad_relativ (PText ordner) false) vorausgewaehlt
    = inr [m; Reiter labels ([Untertitel t; Ergebnistabelle rows] :: rest)].
Proof.
  intros Htxt Hn Hjs Hj Hl Hp Hc Hw Hdf. change (dateipfad_relativ (PText ordner) false) with (PPath ordner).
  destruct (ordner_auslesen_gespeichert json_dump fs ordner d (samples_json prompt_json llm_json ss) Hn Hjs)
    as (ds & Hds & Hin).
  unfold anzeige_tab. rewrite (siliconsamples_auswahl_gewaehlt _ _ _ _ _ _ _ _ _ Htxt Hds Hin Hw).
  rewrite (samples_gespeichert_geladen _ _ _ _ _ _ _ _ Hj Hl). cbn.
  destruct (siliconsamples_anzeigen_tabelle app api_ss repr
              (mkGeladeneSamples (Roh (kodiere_liste (Lauf.ss_zusammenfassungen ss))) (Objekt (Lauf.ss_fragen ss))
                 (Objekt (map_to_list (Lauf.ss_antworten ss))) prompt_json (Objekt l)) l rows)
    as (m & labels & t & rest & Hanz); [done..|].
  rewrite Hanz. eauto.
Qed.

Lemma antworten_als_pivot_spalten_witness :
  match antworten_als_pivot Beispielanzeige.antworten0 with
  | inr r => spalten_vollstaendig r
  | inl _ => False
  end.
Proof.
  destruct (antworten_als_pivot Beispielanzeige.antworten0) eqn:E; [vm_compute in E; discriminate|].
  exact (antworten_als_pivot_spalten _ _ E).
Defined.

Lemma anzeige_tab_zeigt_gespeicherte_tabelle_witness :
  match Tabelle.streamlit_siliconsamples_dataframe Beispieldateien.samples0 with
  | inr rows =>
      exists m labels t rest,
        anzeige_tab [] Beispielanzeige.api0 Beispielanzeige.repr0
          (fun _ => inr Beispielanzeige.samples1_json) (waehle_datei "s.json")
          (datei_speichern (fun _ => "{...}") Beispielanzeige.dateien0 (path_join "siliconsamples" "s.json")
             Beispielanzeige.samples1_json) (dateipfad_relativ (PText "siliconsamples") false) "None"
        = inr [m; Reiter labels ([Untertitel t; Ergebnistabelle rows] :: rest)]
  | inl _ => False
  end.
Proof.
  destruct (Tabelle.streamlit_siliconsamples_dataframe Beispieldateien.samples0) eqn:E;
    [vm_compute in E; discriminate|].
  eapply (@anzeige_tab_zeigt_gespeicherte_tabelle Beispieldateien.z_kodierbar); try exact E;
    try reflexivity; [intros; eexists; reflexivity|apply waehle_datei_waehlt].
Defined.

(** C23: the evaluation page as the sources give it cannot show a
    sample: it passes the [str] of its text input to
    [streamlit_siliconsamples_auswahl], and [ordner_auslesen] calls
    [rglob] on it, which a [str] does not have; once the title and the
    texts are read the page raises [AttributeError], whatever folder
    the user enters and whatever the file system holds. *)
Theorem auswertung_rglob_fehler app api api_ss repr json_load waehle fs ordner page titel :
  py_index (api_config api) "page" = inr page -> py_index page "title" = inr titel ->
  (forall k, exists v, text app api_ss k = inr v) ->
  auswertung app api api_ss repr json_load waehle fs ordner = inl (AttributeError "rglob").
Proof.
  intros Hp Ht Htxt. unfold auswertung, anzeige_tab, Darstellung.txt. rewrite Hp. cbv iota beta. rewrite Ht.
  destruct (Htxt "siliconsamples_ordner_name") as [? ->].
  destruct (Htxt "siliconsamples_ordner_beschreibung") as [? ->]. reflexivity.
Qed.

Lemma auswertung_rglob_fehler_witness :
  auswertung [] (mkAPI "auswertung" (PDict [("page", PDict [("title", PStr "Auswertung")])]))
    Beispielanzeige.api0 Beispielanzeige.repr0 (fun _ => inr (PDict [])) (waehle_datei "s.json")
    Beispielanzeige.dateien0 "siliconsamples"
  = inl (AttributeError "rglob").
Proof. apply (auswertung_rglob_fehler _ _ _ _ _ _ _ _ (PDict [("title", PStr "Auswertung")]) (PStr "Auswertung"));
  [reflexivity|reflexivity|intros; eexists; reflexivity]. Defined.
