(* ===== verification/Seitensitzung.v ===== *)
(** * The run protocol of the two generating pages

    [src/src/komponenten/referenzdokumente/referenzdokumente.py] and
    [src/src/komponenten/siliconsamplesgenerator/siliconsamplesgenerator.py]
    share a protocol over three session keys
    ([<komponente>.gestartet], [.fertig], [.ergebnis]) and four callbacks
    ([starten], [abbrechen], [fertig], [reset]).  Streamlit runs the whole
    script again after every interaction: a button's callback runs first,
    then the script; [fertig] ends the script with [st.rerun()], which runs
    it once more.  A step of the model is one interaction: the callback
    of the button clicked (none when the button is disabled), the script
    run, and the run [st.rerun()] requests.  The generation itself is the
    outcome [Ausgang]: it raised, or it stored its result.  What the
    protocol decides is which path the display tab is given as
    [vorausgewaehlt], and whether the generation runs. *)

From S2P Require Import Prelude PyStr Generator Dokumente Persistenz Konfiguration Ergebnisanzeige.

Open Scope string_scope.
Open Scope list_scope.
Open Scope py_scope.

Module Sitzung.

(** The session keys of a page, [None] where the key is absent;
    [ergebnis] holds Python's [None] ([Some None]) or a path. *)
Record Sitzung := mkSitzung {
    gestartet : option bool;
    fertig : option bool;
    ergebnis : option (option string)
  }.

Definition leer : Sitzung := mkSitzung None None None.

(** The page: the reference documents page keeps [ergebnis] in [reset]
    and runs its generation tab before its display tab; the silicon
    samples page clears it and shows its display tab first. *)
Inductive Seite := Referenzdokumente | Siliconsamples.

(** [if f"{session_key}.gestartet" not in st.session_state: ...] for the
    three keys. *)
Definition init (s : Sitzung) : Sitzung :=
    mkSitzung (Some (default false (gestartet s))) (Some (default false (fertig s)))
              (Some (default None (ergebnis s))).

(** [starten()] *)
Definition starten (s : Sitzung) : Sitzung := mkSitzung (Some true) (Some false) (ergebnis s).

(** [abbrechen()]: every key of the page is deleted. *)
Definition abbrechen (_ : Sitzung) : Sitzung := leer.

(** [fertig(ergebnis)], before its [st.rerun()] *)
Definition fertig_setzen (s : Sitzung) (e : option string) : Sitzung :=
    mkSitzung (Some false) (Some true) (Some e).

(** [reset()] of each page. *)
Definition reset (p : Seite) (s : Sitzung) : Sitzung :=
    match p with
    | Referenzdokumente => mkSitzung (Some false) (Some false) (ergebnis s)
    | Siliconsamples => mkSitzung (Some false) (Some false) (Some None)
    end.

(** [str(st.session_state[f"{session_key}.ergebnis"])] *)
Definition str_ergebnis (s : Sitzung) : string :=
    match ergebnis s with Some (Some pfad) => pfad | _ => "None" end.

(** What the generation does in a run: it raises, or it stores its
    result under [pfad] (the summaries file; the samples page calls
    [fertig(ergebnis=None)] whatever it stored). *)
Inductive Ausgang := Fehlschlag | Gespeichert (pfad : string).

(** One script run: the new session, the [vorausgewaehlt] the display
    tab was given, whether the generation ran, and whether the run ended
    in [st.rerun()]. *)
Record Lauf := mkLauf {
    l_sitzung : Sitzung;
    l_angezeigt : list string;
    l_versucht : bool;
    l_rerun : bool
  }.

(** The page script from the top: the keys, [prozess_gestartet] and
    [prozess_fertig] read before [reset()], the display tab and the
    generation tab in the page's order.  A generation that raises ends
    the run there. *)
Definition skript (p : Seite) (gen : Ausgang) (s : Sitzung) : Lauf :=
    let s := init s in
    let prozess_gestartet := default false (gestartet s) in
    let prozess_fertig := default false (fertig s) in
    let s := if prozess_fertig then reset p s else s in
    match p with
    | Referenzdokumente =>
        if prozess_gestartet then
          match gen with
          | Gespeichert pfad => mkLauf (fertig_setzen s (Some pfad)) [] true true
          | Fehlschlag => mkLauf s [] true false
          end
        else mkLauf s [str_ergebnis s] false false
    | Siliconsamples =>
        let angezeigt := [str_ergebnis s] in
        if prozess_gestartet then
          match gen with
          | Gespeichert _ => mkLauf (fertig_setzen s None) angezeigt true true
          | Fehlschlag => mkLauf s angezeigt true false
          end
        else mkLauf s angezeigt false false
    end.

(** An interaction: a click on the start or the abort button, or any
    other widget (a plain rerun). *)
Inductive Ereignis := Start | Abbruch | Neuladen.

(** The callback of the button clicked; the start button is
    [disabled=gestartet], the abort button [disabled=not gestartet]. *)
Definition klick (s : Sitzung) (e : Ereignis) : Sitzung :=
    match e with
    | Start => if default false (gestartet s) then s else starten s
    | Abbruch => if default false (gestartet s) then abbrechen s else s
    | Neuladen => s
    end.

(** One interaction: the callback, the script, and the run [st.rerun()]
    requests. *)
Definition schritt (p : Seite) (gen : Ausgang) (s : Sitzung) (e : Ereignis) : Lauf :=
    let l := skript p gen (klick s e) in
    if l_rerun l then
      let l2 := skript p gen (l_sitzung l) in
      mkLauf (l_sitzung l2) (l_angezeigt l ++ l_angezeigt l2) (l_versucht l || l_versucht l2) (l_rerun l2)
    else l.

(** The sessions a page reaches from a fresh session, one interaction
    and one generation outcome at a time. *)
Inductive erreichbar (p : Seite) : Sitzung -> Prop :=
  | erreichbar_leer : erreichbar p leer
  | erreichbar_schritt s gen e : erreichbar p s -> erreichbar p (l_sitzung (schritt p gen s e)).

End Sitzung.

Import Sitzung.

(** * Properties *)

(** After every interaction the keys are set and [fertig] is cleared
    again: the success message is shown once, in the run [fertig]
    requests. *)
Lemma schritt_fertig p gen s e :
  fertig (l_sitzung (schritt p gen s e)) = Some false /\
  is_Some (gestartet (l_sitzung (schritt p gen s e))).
Proof.
  destruct s as [g f r]. unfold schritt, klick.
  destruct e, p, gen, g as [[]|], f as [[]|]; cbn; done.
Qed.

(** From a session whose generation is not running, a click on start
    runs the generation; what it stored is the result. *)
Lemma schritt_start p s pfad :
  default false (gestartet s) = false -> fertig s <> Some true ->
  schritt p (Gespeichert pfad) s Start
  = match p with
    | Referenzdokumente => mkLauf (mkSitzung (Some false) (Some false) (Some (Some pfad))) [pfad] true false
    | Siliconsamples =>
        mkLauf (mkSitzung (Some false) (Some false) (Some None)) [str_ergebnis (init s); "None"] true false
    end.
Proof.
  destruct s as [g f r]. cbn [gestartet fertig]. intros Hg Hf. unfold schritt, klick.
  destruct g as [[]|]; cbn in Hg; try discriminate; destruct p, f as [[]|]; done.
Qed.

(** With its generation running, a rerun of a page whose generation
    fails runs the generation again and leaves it running. *)
Lemma neuladen_fehlschlag p s :
  gestartet s = Some true -> fertig s = Some false ->
  l_versucht (schritt p Fehlschlag s Neuladen) = true /\
  gestartet (l_sitzung (schritt p Fehlschlag s Neuladen)) = Some true /\
  fertig (l_sitzung (schritt p Fehlschlag s Neuladen)) = Some false.
Proof. destruct s as [g f r]. cbn. intros -> ->. by destruct p. Qed.

Lemma erreichbar_fertig p s : erreichbar p s -> fertig s <> Some true.
Proof. induction 1 as [|s gen e _ _]; [done|]. by rewrite (proj1 (schritt_fertig p gen s e)). Qed.

Lemma siliconsamples_ergebnis_inv s :
  erreichbar Siliconsamples s -> ergebnis s = None \/ ergebnis s = Some None.
Proof.
  induction 1 as [|s gen e _ IH]; [by left|]. right.
  destruct s as [g f r]. cbn in IH. unfold schritt, klick.
  destruct IH as [->| ->], e, gen, g as [[]|], f as [[]|]; cbn; done.
Qed.

Import Generator.Inhalt Dokumente.Modelle Persistenz.Json Persistenz.Kodierung Persistenz.Laden Persistenz.Dateien Konfiguration.Konfig
       Ergebnisanzeige.Auswahl.

(** C10: the reference documents page shows the summaries it has just
    generated: from a session whose generation is not running, a click
    on start that stores the list of summaries under [ordner/name] ends
    with the display tab given that path as [vorausgewaehlt] (once, in
    the run [fertig] requests, as [reset] keeps [ergebnis]), and the
    select box then reads back, when the user keeps the preselection,
    what [Zusammenfassung.from_dict] gives for each stored summary. *)
Theorem referenzseite_zeigt_ergebnis `{Kodierbar Zusammenfassung} s app api json_load json_dump
    waehle fs ordner name zs gs :
  erreichbar Referenzdokumente s -> default false (gestartet s) = false ->
  (forall k, exists v, text app api k = inr v) ->
  ordner <> "" -> alle (ohne_char "/") name = true -> ends_with ".json" name = true ->
  (forall opts i, waehle opts i = i) ->
  json_load (json_dump (kodiere_liste zs)) = inr (kodiere_liste zs) ->
  Forall2 (fun z g => from_dict (kodiere z) = inr g) zs gs ->
  l_angezeigt (schritt Referenzdokumente (Gespeichert (path_join ordner name)) s Start)
    = [path_join ordner name] /\
  Forall (fun v => streamlit_zusammenfassungen_auswahl app api json_load waehle
                     (datei_speichern json_dump fs (path_join ordner name) (kodiere_liste zs))
                     (dateipfad_relativ (PText ordner) false) v
                   = inr (Viele gs))
    (l_angezeigt (schritt Referenzdokumente (Gespeichert (path_join ordner name)) s Start)).
Proof.
  intros Hs Hg Htxt Ho Hn Hjs Hw Hj Hgs.
  rewrite (schritt_start _ _ _ Hg (erreichbar_fertig _ _ Hs)). cbn [l_angezeigt].
  split; [done|]. constructor; [|constructor].
  by apply zusammenfassungen_vorausgewaehlt.
Qed.

Lemma referenzseite_zeigt_ergebnis_witness :
  l_angezeigt (schritt Referenzdokumente (Gespeichert (path_join "zusammenfassungen" "ergebnis.json")) leer Start)
    = [path_join "zusammenfassungen" "ergebnis.json"] /\
  Forall (fun v => streamlit_zusammenfassungen_auswahl [] Beispielanzeige.api0 (fun _ => inr Beispielanzeige.zs0_json)
                     Beispielanzeige.vorauswahl_behalten
                     (datei_speichern (fun _ => "[...]") Beispielanzeige.dateien0
                        (path_join "zusammenfassungen" "ergebnis.json") Beispielanzeige.zs0_json)
                     (dateipfad_relativ (PText "zusammenfassungen") false) v
                   = inr (Viele [mkGeladeneZusammenfassung (Objekt Beispieldateien.dokument)
                 (Objekt (zusammenfassung_auswahl Beispieldateien.zusammenfassung0))
                 "20250101-120000" "Text" "Kurz" ["| a |"] ["Tabelle kurz"]
                 (Objekt (prompt_geladen (prompt Beispieldateien.zusammenfassung0))) (Roh PNone)]))
    (l_angezeigt (schritt Referenzdokumente (Gespeichert (path_join "zusammenfassungen" "ergebnis.json")) leer Start)).
Proof.
  apply (@referenzseite_zeigt_ergebnis Beispielanzeige.zusammenfassung_json leer [] Beispielanzeige.api0
           (fun _ => inr Beispielanzeige.zs0_json) (fun _ => "[...]")
           Beispielanzeige.vorauswahl_behalten Beispielanzeige.dateien0 "zusammenfassungen" "ergebnis.json"
           [Beispieldateien.zusammenfassung0]); try done.
  all: first [apply erreichbar_leer | intros k; eexists; reflexivity | cbn; set_solver
             | repeat constructor; vm_compute; reflexivity].
Defined.

(** on the silicon samples page every display tab is given
    [vorausgewaehlt = "None"]: the page calls [fertig(ergebnis=None)]
    and its [reset] clears [ergebnis], so no session it reaches holds a
    path, and the samples a run has stored are never preselected. *)
Theorem siliconsamples_zeigt_none s gen e :
  erreichbar Siliconsamples s ->
  Forall (fun v => v = "None") (l_angezeigt (schritt Siliconsamples gen s e)).
Proof.
  intros Hs. pose proof (siliconsamples_ergebnis_inv s Hs) as Hr.
  destruct s as [g f r]. cbn in Hr. unfold schritt, klick.
  destruct Hr as [->| ->], e, gen, g as [[]|], f as [[]|]; cbn; repeat constructor.
Qed.

Lemma siliconsamples_zeigt_none_witness :
  Forall (fun v => v = "None")
    (l_angezeigt (schritt Siliconsamples (Gespeichert "siliconsamples/x.json")
       (l_sitzung (schritt Siliconsamples (Gespeichert "siliconsamples/x.json") leer Start)) Neuladen)).
Proof.
  apply siliconsamples_zeigt_none. apply erreichbar_schritt, erreichbar_leer.
Defined.

(** C12: a generation that raises is run again by every later
    interaction: after a click on start whose generation fails, the
    session stays started (the start button disabled), every rerun runs
    the generation again, and only the abort button ends it. *)
Theorem fehlschlag_wiederholt p s :
  default false (gestartet s) = false ->
  let s1 := l_sitzung (schritt p Fehlschlag s Start) in
  gestartet s1 = Some true /\
  forall k, let sk := Nat.iter k (fun s => l_sitzung (schritt p Fehlschlag s Neuladen)) s1 in
    l_versucht (schritt p Fehlschlag sk Neuladen) = true /\
    gestartet (l_sitzung (schritt p Fehlschlag sk Abbruch)) = Some false /\
    l_versucht (schritt p Fehlschlag sk Abbruch) = false.
Proof.
  intros Hg s1.
  assert (H1 : gestartet s1 = Some true /\ fertig s1 = Some false).
  { subst s1. destruct s as [g f r]. cbn in Hg. unfold schritt, klick.
    destruct g as [[]|]; try discriminate; destruct p, f as [[]|]; done. }
  split; [apply H1|]. intros k. cbv zeta.
  assert (Hk : gestartet (Nat.iter k (fun s => l_sitzung (schritt p Fehlschlag s Neuladen)) s1) = Some true /\
               fertig (Nat.iter k (fun s => l_sitzung (schritt p Fehlschlag s Neuladen)) s1) = Some false).
  { induction k as [|k IH]; [done|]. rewrite Nat.iter_succ.
    destruct IH as [IHg IHf]. by destruct (neuladen_fehlschlag p _ IHg IHf) as (_ & -> & ->). }
  destruct Hk as [Hkg Hkf]. split; [by apply neuladen_fehlschlag|].
  revert Hkg. generalize (Nat.iter k (fun s => l_sitzung (schritt p Fehlschlag s Neuladen)) s1) as sk.
  intros sk Hkg. unfold schritt, klick. rewrite Hkg. by destruct p.
Qed.

Lemma fehlschlag_wiederholt_witness :
  let s1 := l_sitzung (schritt Referenzdokumente Fehlschlag leer Start) in
  gestartet s1 = Some true /\
  forall k, let sk := Nat.iter k (fun s => l_sitzung (schritt Referenzdokumente Fehlschlag s Neuladen)) s1 in
    l_versucht (schritt Referenzdokumente Fehlschlag sk Neuladen) = true /\
    gestartet (l_sitzung (schritt Referenzdokumente Fehlschlag sk Abbruch)) = Some false /\
    l_versucht (schritt Referenzdokumente Fehlschlag sk Abbruch) = false.
Proof. apply fehlschlag_wiederholt. reflexivity. Defined.
