(* ===== verification/Protokoll.v ===== *)
(** * Logging: [src/src/shared/logger.py] over Python's [logging]

    Every module takes its logger with [get_logger(__name__)], named
    ["Silicon-Samples-Generator." + __name__]; [ssg.py] calls
    [setup_logging()] (twice), which configures the application logger
    ["Silicon-Samples-Generator"] with a console and a log file handler
    and switches its propagation off.  The loaders of the summariser log
    with the module function [logging.warning], that is on the root
    logger.

    Module [Logging] is the part of the [logging] library this relies on,
    as the development models it: the registry of loggers by name, the
    parent of a logger (the nearest existing ancestor among the prefixes
    [Manager._fixupParents] visits, with its [rfind(".", 0, i - 1)]
    step), [getEffectiveLevel], [callHandlers] with [propagate] and
    [lastResort], and [basicConfig] as [logging.warning] triggers it.
    Formatting, time stamps and the text written are not modelled: a
    record is its level, and emitting it is the list of handlers that
    handle it.  Module [Protokoll] is [setup_logging] and [get_logger]. *)

From S2P Require Import Prelude PyStr.

Open Scope string_scope.
Open Scope list_scope.
Open Scope py_scope.

Module Logging.

(** The numeric levels of [logging]. *)
Definition NOTSET : nat := 0.
Definition DEBUG : nat := 10.
Definition INFO : nat := 20.
Definition WARNING : nat := 30.

(** Where a handler writes: [sys.stderr], a [RotatingFileHandler] with
    its path and [backupCount], or the module's [lastResort]. *)
Inductive Ziel :=
  | StreamHandler
  | RotatingFileHandler (pfad : string) (backup_count : list nat)
  | LastResort.

Record Handler := mkHandler { h_ziel : Ziel; h_level : nat }.

Record Logger := mkLogger {
    lg_level : nat;
    lg_propagate : bool;
    lg_handlers : list Handler;
    lg_configured : bool
  }.

(** [Logger(name)]: level [NOTSET], propagating, no handlers; the
    attribute [_configured] is absent ([getattr(..., False)]). *)
Definition neuer_logger : Logger := mkLogger NOTSET true [] false.

(** The registry [Logger.manager.loggerDict] (placeholders are not
    loggers and are left out), the root logger, and the folders made. *)
Record LogZustand := mkLogZustand {
    loggers : gmap string Logger;
    root : Logger;
    ordner : gset string
  }.

(** At import: the root logger at [WARNING] without handlers. *)
Definition log_start : LogZustand := mkLogZustand ∅ (mkLogger WARNING true [] false) ∅.

Definition setze_logger (st : LogZustand) (n : string) (lg : Logger) : LogZustand :=
    mkLogZustand (<[n := lg]> (loggers st)) (root st) (ordner st).

(** [logging.getLogger(name)] for a non-empty name. *)
Definition getLogger (st : LogZustand) (n : string) : LogZustand :=
    match loggers st !! n with
    | Some _ => st
    | None => setze_logger st n neuer_logger
    end.

(** [name.rfind(".", 0, k)]: the last dot before position [k]. *)
Fixpoint rfind_ab (name : string) (k : nat) : option nat :=
    match k with
    | 0 => None
    | S k' => if bool_decide (String.get k' name = Some "."%char) then Some k' else rfind_ab name k'
    end.

(** The prefixes [_fixupParents] visits:
    [i = name.rfind("."); while i > 0: name[:i]; i = name.rfind(".", 0, i - 1)]. *)
Fixpoint eltern_go (fuel : nat) (name : string) (i : option nat) : list string :=
    match fuel, i with
    | S f, Some i => if (0 <? i)%nat then substring 0 i name :: eltern_go f name (rfind_ab name (i - 1)) else []
    | _, _ => []
    end.

Definition eltern (name : string) : list string :=
    eltern_go (String.length name) name (rfind_ab name (String.length name)).

(** [logger.parent]: the nearest of those that is a logger, else the
    root ([None]). *)
Definition parent (st : LogZustand) (n : string) : option string :=
    List.find (fun p => bool_decide (is_Some (loggers st !! p))) (eltern n).

(** The logger and its ancestors, [c = c.parent] until the root. *)
Fixpoint kette (fuel : nat) (st : LogZustand) (c : option string) : list Logger :=
    match fuel, c with
    | _, None => [root st]
    | 0, Some _ => []
    | S f, Some n =>
        match loggers st !! n with
        | Some lg => lg :: kette f st (parent st n)
        | None => []
        end
    end.

Definition kette_von (st : LogZustand) (n : string) : list Logger := kette (S (String.length n)) st (Some n).

(** [getEffectiveLevel()]: the first level set along the chain. *)
Fixpoint erstes_level (ks : list Logger) : nat :=
    match ks with
    | [] => NOTSET
    | lg :: rest => if (lg_level lg =? NOTSET)%nat then erstes_level rest else lg_level lg
    end.

(** [callHandlers(record)]: the handlers of each logger of the chain
    whose level the record reaches, until a logger that does not
    propagate; with the number of handlers found. *)
Fixpoint handler_aufrufen (lvl : nat) (ks : list Logger) : list Ziel * nat :=
    match ks with
    | [] => ([], 0)
    | lg :: rest =>
        let hier := h_ziel <$> filter (fun h => h_level h <= lvl) (lg_handlers lg) in
        let n := List.length (lg_handlers lg) in
        if lg_propagate lg then
          let '(zs, m) := handler_aufrufen lvl rest in (hier ++ zs, n + m)
        else (hier, n)
    end.

(** [logger.log(lvl, msg)] on the logger named [n]: nothing below the
    effective level; [lastResort] (level [WARNING]) when no handler was
    found. *)
Definition emittieren_kette (ks : list Logger) (lvl : nat) : list Ziel :=
    if (lvl <? erstes_level ks)%nat then [] else
    let '(zs, gefunden) := handler_aufrufen lvl ks in
    if (gefunden =? 0)%nat then (if (WARNING <=? lvl)%nat then [LastResort] else []) else zs.

Definition emittieren (st : LogZustand) (n : string) (lvl : nat) : list Ziel :=
    emittieren_kette (kette_von st n) lvl.

(** [logging.warning(msg)]: [basicConfig()] adds a [StreamHandler] of
    level [NOTSET] to a root logger without handlers, then the root
    logger logs. *)
Definition modul_warnung (st : LogZustand) : LogZustand * list Ziel :=
    let st :=
      match lg_handlers (root st) with
      | [] => mkLogZustand (loggers st)
                (mkLogger (lg_level (root st)) (lg_propagate (root st))
                   [mkHandler StreamHandler NOTSET] (lg_configured (root st))) (ordner st)
      | _ => st
      end in
    (st, emittieren_kette [root st] WARNING).

End Logging.

Import Logging.

Module Protokoll.

Definition app_name_standard : string := "Silicon-Samples-Generator".

(** [setup_logging(app_name, level, console, logfile)]: [backup_count]
    is the tuple [(5,)], passed as [backupCount]. *)
Definition setup_logging (st : LogZustand) (app_name : string) (level : nat) (console logfile : bool) : LogZustand :=
    let filepath := "logs/" +++ app_name +++ ".log" in
    let backup_count := [5] in
    let st := getLogger st app_name in
    let logger := default neuer_logger (loggers st !! app_name) in
    if lg_configured logger then st else
    let logger := mkLogger level false (lg_handlers logger) (lg_configured logger) in
    let logger :=
      if console then mkLogger (lg_level logger) (lg_propagate logger)
                        (lg_handlers logger ++ [mkHandler StreamHandler level]) (lg_configured logger)
      else logger in
    let '(st, logger) :=
      if logfile then
        (mkLogZustand (loggers st) (root st) ({[ "logs" ]} ∪ ordner st),
         mkLogger (lg_level logger) (lg_propagate logger)
           (lg_handlers logger ++ [mkHandler (RotatingFileHandler filepath backup_count) level])
           (lg_configured logger))
      else (st, logger) in
    setze_logger st app_name (mkLogger (lg_level logger) (lg_propagate logger) (lg_handlers logger) true).

(** [get_logger(name, app_name)]: the logger's name, created if new. *)
Definition logger_name (name : option string) (app_name : string) : string :=
    match name with
    | Some n => if String.eqb n "" then app_name else app_name +++ "." +++ n
    | None => app_name
    end.

Definition get_logger (st : LogZustand) (name : option string) (app_name : string) : LogZustand * string :=
    let n := logger_name name app_name in (getLogger st n, n).

(** What the application does to the loggers: [ssg.py]'s
    [setup_logging()], a module's [get_logger(__name__)] at import, and
    [logging.warning] of a loader. *)
Inductive LogEreignis :=
  | Setup
  | Modul (name : string)
  | Warnung.

Definition log_schritt (st : LogZustand) (e : LogEreignis) : LogZustand :=
    match e with
    | Setup => setup_logging st app_name_standard INFO true true
    | Modul n => (get_logger st (Some n) app_name_standard).1
    | Warnung => (modul_warnung st).1
    end.

Inductive log_erreichbar : LogZustand -> Prop :=
  | log_erreichbar_start : log_erreichbar log_start
  | log_erreichbar_schritt st e : log_erreichbar st -> log_erreichbar (log_schritt st e).

(** The application logger as [setup_logging()] leaves it. *)
Definition konfiguriert : Logger :=
    mkLogger INFO false [mkHandler StreamHandler INFO;
                         mkHandler (RotatingFileHandler ("logs/" +++ app_name_standard +++ ".log") [5]) INFO] true.

(** Whether a module name starts with a dot ([__name__] never does). *)
Definition beginnt_punkt (s : string) : bool :=
    match s with String c _ => Ascii.eqb c "." | EmptyString => false end.

Definition ohne_punkt (c : ascii) : bool := negb (Ascii.eqb c ".").

(** What [log_erreichbar] keeps: the loggers of the modules are as
    [getLogger] made them, the application logger is new or configured
    once, and the root logger has at most the handler [basicConfig]
    adds. *)
Definition invariante (st : LogZustand) : Prop :=
    (forall n lg, loggers st !! n = Some lg -> n <> app_name_standard -> lg = neuer_logger) /\
    (forall lg, loggers st !! app_name_standard = Some lg -> lg = neuer_logger \/ lg = konfiguriert) /\
    (root st = mkLogger WARNING true [] false \/
     root st = mkLogger WARNING true [mkHandler StreamHandler NOTSET] false).

End Protokoll.

Import Protokoll.

(** * Properties *)

(** ** Strings and the prefixes of a logger name *)

Lemma substring_0_app a b : substring 0 (String.length a) (a +++ b) = a.
Proof. induction a as [|c a IH]; [by destruct b|]. rewrite str_app_cons. cbn [substring String.length]. by rewrite IH. Qed.

Lemma substring_0_app_ge a b k : substring 0 (String.length a + k) (a +++ b) = a +++ substring 0 k b.
Proof. induction a as [|c a IH]; [done|]. rewrite !str_app_cons. cbn [substring String.length Nat.add]. by rewrite IH. Qed.

Lemma get_app_lt a b j : j < String.length a -> String.get j (a +++ b) = String.get j a.
Proof. intros. symmetry. by apply append_correct1. Qed.

Lemma get_app_ge a b k : String.get (String.length a + k) (a +++ b) = String.get k b.
Proof. rewrite Nat.add_comm. symmetry. apply append_correct2. Qed.

Lemma alle_get p s j c : alle p s = true -> String.get j s = Some c -> p c = true.
Proof.
  revert j. induction s as [|d s IH]; intros [|j] Hs Hg; cbn in *; try discriminate.
  - apply andb_true_iff in Hs as [Hd _]. by injection Hg as <-.
  - apply andb_true_iff in Hs as [_ Hs]. eauto.
Qed.

Lemma get_lt s j c : String.get j s = Some c -> j < String.length s.
Proof. revert j. induction s as [|d s IH]; intros [|j]; cbn; try done; [lia|]. intros ?%IH. lia. Qed.

Lemma rfind_ab_Some n k j : rfind_ab n k = Some j -> j < k /\ String.get j n = Some "."%char.
Proof.
  induction k as [|k IH]; cbn; [done|]. case_bool_decide; [intros [= <-]; split; [lia|done]|].
  intros [? ?]%IH. split; [lia|done].
Qed.

Lemma rfind_ab_ge n k d :
  String.get d n = Some "."%char -> d < k -> exists j, rfind_ab n k = Some j /\ d <= j.
Proof.
  intros Hd. induction k as [|k IH]; cbn; [lia|]. intros Hk. case_bool_decide as Hc.
  - exists k. split; [done|lia].
  - assert (d <> k) by (intros ->; done). apply IH. lia.
Qed.

(** Every prefix visited ends before a dot. *)
Lemma eltern_go_form f n i p :
  (forall i0, i = Some i0 -> String.get i0 n = Some "."%char) -> p ∈ eltern_go f n i ->
  exists j, p = substring 0 j n /\ 0 < j /\ String.get j n = Some "."%char.
Proof.
  revert i. induction f as [|f IH]; intros [i0|] Hi; cbn [eltern_go]; try by intros ?%elem_of_nil.
  destruct (0 <? i0)%nat eqn:H0; [|by intros ?%elem_of_nil]. apply Nat.ltb_lt in H0.
  intros [->|Hp]%elem_of_cons; [by exists i0; eauto|].
  eapply IH; [|exact Hp]. intros j Hj. by apply rfind_ab_Some in Hj as [_ ?].
Qed.

Lemma eltern_form n p : p ∈ eltern n -> exists j, p = substring 0 j n /\ 0 < j /\ String.get j n = Some "."%char.
Proof. apply eltern_go_form. intros j Hj. by apply rfind_ab_Some in Hj as [_ ?]. Qed.

Lemma beginnt_punkt_get y : beginnt_punkt y = false -> String.get 0 y <> Some "."%char.
Proof. destruct y as [|c y]; cbn; [done|]. intros Hc [= ->]. done. Qed.

Section Vorfahren.
(** The application logger's name: non-empty and without dots. *)
Context (A : string) (HA : alle ohne_punkt A = true) (HA0 : A <> "").

Lemma kein_punkt_in_A b j : j < String.length A -> String.get j (A +++ b) <> Some "."%char.
Proof.
  intros Hj Hg. rewrite get_app_lt in Hg by done. apply (alle_get _ _ _ _ HA) in Hg.
  unfold ohne_punkt in Hg. by rewrite Ascii.eqb_refl in Hg.
Qed.

Lemma punkt_nach_A y : String.get (String.length A) (A +++ "." +++ y) = Some "."%char.
Proof. rewrite <- (Nat.add_0_r (String.length A)), get_app_ge. done. Qed.

Lemma eltern_go_A y f i0 :
  beginnt_punkt y = false -> String.get i0 (A +++ "." +++ y) = Some "."%char ->
  String.length A <= i0 -> i0 - String.length A < f -> A ∈ eltern_go f (A +++ "." +++ y) (Some i0).
Proof.
  intros Hy. revert i0. induction f as [|f IH]; intros i0 Hi Hle Hf; [lia|]. cbn [eltern_go].
  assert (0 < String.length A) by (destruct A; cbn; [done|lia]).
  replace (0 <? i0)%nat with true by (symmetry; apply Nat.ltb_lt; lia).
  apply elem_of_cons.
  destruct (decide (i0 = String.length A)) as [->|Hne]; [left; symmetry; apply substring_0_app|right].
  assert (i0 <> S (String.length A)).
  { intros ->. rewrite <- Nat.add_1_r, get_app_ge in Hi. by apply (beginnt_punkt_get y). }
  destruct (rfind_ab_ge (A +++ "." +++ y) (i0 - 1) (String.length A) (punkt_nach_A y)) as (j & Hj & Hlej); [lia|].
  rewrite Hj. apply rfind_ab_Some in Hj as [Hlt Hdot]. apply IH; [done|lia|lia].
Qed.

(** [A] is visited for every name [A + "." + y] with [y] not starting
    with a dot. *)
Lemma A_in_eltern y : beginnt_punkt y = false -> A ∈ eltern (A +++ "." +++ y).
Proof.
  intros Hy. unfold eltern.
  assert (Hlen : String.length (A +++ "." +++ y) = String.length A + S (String.length y))
    by (rewrite str_length_app; done).
  destruct (rfind_ab_ge (A +++ "." +++ y) (String.length (A +++ "." +++ y)) (String.length A) (punkt_nach_A y))
    as (i0 & Hi & Hle); [lia|].
  rewrite Hi. apply rfind_ab_Some in Hi as [Hlt Hdot]. apply eltern_go_A; [done|done|done|lia].
Qed.

(** Every other prefix visited is a shorter [A + "." + y']. *)
Lemma eltern_A_form y p :
  beginnt_punkt y = false -> p ∈ eltern (A +++ "." +++ y) ->
  p = A \/ exists y', p = A +++ "." +++ y' /\ String.length y' < String.length y /\ beginnt_punkt y' = false.
Proof.
  intros Hy (j & -> & Hj0 & Hdot)%eltern_form.
  destruct (decide (j < String.length A)) as [Hlt|Hge]; [by apply kein_punkt_in_A in Hdot|].
  destruct (decide (j = String.length A)) as [->|Hne]; [left; apply substring_0_app|right].
  destruct (decide (j = S (String.length A))) as [->|Hne1].
  { rewrite <- Nat.add_1_r, get_app_ge in Hdot. by apply (beginnt_punkt_get y) in Hdot. }
  apply get_lt in Hdot as Hlen. rewrite str_length_app in Hlen. change (String.length ("." +++ y)) with (S (String.length y)) in Hlen.
  set (k := j - S (String.length A)). assert (Hj : j = String.length A + S k) by lia.
  exists (substring 0 k y). rewrite Hj, substring_0_app_ge. split; [done|]. split.
  - pose proof (substring_0_length k y). lia.
  - destruct y as [|c y]; cbn in *; [lia|]. by destruct k.
Qed.

End Vorfahren.

(** ** The chain of a module logger *)

Lemma app_name_ohne_punkt : alle ohne_punkt app_name_standard = true.
Proof. reflexivity. Qed.

Lemma parent_app st : parent st app_name_standard = None.
Proof. reflexivity. Qed.

Lemma modulname_neq m : app_name_standard +++ "." +++ m <> app_name_standard.
Proof.
  intros H. apply (f_equal String.length) in H. rewrite str_length_app in H.
  change (String.length ("." +++ m)) with (S (String.length m)) in H. lia.
Qed.

Lemma kette_modul st f y lg :
  invariante st -> loggers st !! app_name_standard = Some konfiguriert -> beginnt_punkt y = false ->
  S (String.length y) < f -> loggers st !! (app_name_standard +++ "." +++ y) = Some lg ->
  exists k, kette f st (Some (app_name_standard +++ "." +++ y))
            = replicate k neuer_logger ++ [konfiguriert; root st].
Proof.
  intros Hinv HA. revert y lg. induction f as [|f IH]; intros y lg Hy Hf Hlg; [lia|].
  cbn [kette]. rewrite Hlg. rewrite ((proj1 Hinv) _ _ Hlg (modulname_neq y)).
  destruct (parent st _) as [p|] eqn:Hp.
  2: { exfalso. unfold parent in Hp. eapply List.find_none in Hp.
       2: { apply list_elem_of_In, (A_in_eltern _ app_name_ohne_punkt); [done|exact Hy]. }
       rewrite HA in Hp. by rewrite bool_decide_eq_true_2 in Hp. }
  unfold parent in Hp. apply List.find_some in Hp as [Hin Hex%bool_decide_eq_true_1].
  apply list_elem_of_In in Hin.
  destruct (eltern_A_form _ app_name_ohne_punkt y p Hy Hin) as [->|(y' & -> & Hlen & Hy')].
  - exists 1. destruct f as [|f]; [lia|]. cbn [kette]. rewrite HA, parent_app. by destruct f.
  - destruct Hex as [lg' Hlg']. destruct (IH y' lg' Hy' ltac:(lia) Hlg') as [k Hk].
    exists (S k). by rewrite Hk.
Qed.

Lemma erstes_level_neu k l : erstes_level (replicate k neuer_logger ++ l) = erstes_level l.
Proof. by induction k. Qed.

Lemma handler_aufrufen_neu lvl k l : handler_aufrufen lvl (replicate k neuer_logger ++ l) = handler_aufrufen lvl l.
Proof. induction k as [|k IH]; [done|]. cbn. by rewrite IH; destruct (handler_aufrufen lvl l). Qed.

(** Emitting through module loggers down to the configured application
    logger: both handlers, once each, from [INFO] on. *)
Lemma emittieren_konfiguriert k r lvl :
  emittieren_kette (replicate k neuer_logger ++ [konfiguriert; r]) lvl
  = if (INFO <=? lvl)%nat then [StreamHandler; RotatingFileHandler ("logs/" +++ app_name_standard +++ ".log") [5]]
    else [].
Proof.
  unfold emittieren_kette. rewrite erstes_level_neu, handler_aufrufen_neu.
  change (erstes_level [konfiguriert; r]) with INFO.
  destruct (Nat.leb_spec INFO lvl) as [H|H].
  - rewrite (proj2 (Nat.ltb_ge _ _) H). cbn [handler_aufrufen konfiguriert lg_handlers lg_propagate].
    rewrite !filter_cons_True, filter_nil by (cbn; done). reflexivity.
  - by rewrite (proj2 (Nat.ltb_lt _ _) H).
Qed.

(** ** The invariant of the reachable states *)

Lemma invariante_insert st n lg o :
  invariante st -> (n <> app_name_standard -> lg = neuer_logger) ->
  (n = app_name_standard -> lg = neuer_logger \/ lg = konfiguriert) ->
  invariante (mkLogZustand (<[n := lg]> (loggers st)) (root st) o).
Proof.
  intros (H1 & H2 & H3) Hn Ha. split; [|split]; cbn; [| |done].
  - intros n' lg' Hl Hne. destruct (decide (n = n')) as [<-|Hne'].
    + rewrite lookup_insert_eq in Hl. injection Hl as <-. by apply Hn.
    + rewrite lookup_insert_ne in Hl by done. eauto.
  - intros lg' Hl. destruct (decide (n = app_name_standard)) as [->|Hne].
    + rewrite lookup_insert_eq in Hl. injection Hl as <-. by apply Ha.
    + rewrite lookup_insert_ne in Hl by done. eauto.
Qed.

(** [setup_logging()] leaves the application logger configured, once. *)
Lemma invariante_setup st :
  invariante st ->
  invariante (setup_logging st app_name_standard INFO true true) /\
  loggers (setup_logging st app_name_standard INFO true true) !! app_name_standard = Some konfiguriert.
Proof.
  intros Hinv. pose proof Hinv as (H1 & H2 & H3). unfold setup_logging, getLogger.
  destruct (loggers st !! app_name_standard) as [lg|] eqn:E.
  - destruct (H2 lg eq_refl) as [->| ->]; rewrite E; cbn; [|by split].
    split; [apply (invariante_insert st); [done|intros Hne; exfalso; by apply Hne|intros _; by right]|apply lookup_insert_eq].
  - cbn. rewrite lookup_insert_eq. cbn. unfold setze_logger. cbn [loggers root ordner]. rewrite insert_insert_eq.
    split; [apply (invariante_insert st); [done|intros Hne; exfalso; by apply Hne|intros _; by right]|apply lookup_insert_eq].
Qed.

Lemma invariante_schritt st e : invariante st -> invariante (log_schritt st e).
Proof.
  intros Hinv. destruct e as [|m|]; cbn [log_schritt].
  - by apply invariante_setup.
  - unfold get_logger, getLogger. cbn [fst]. destruct (loggers st !! _); [done|].
    apply (invariante_insert st); [done|done|auto].
  - destruct Hinv as (H1 & H2 & [H3|H3]); unfold modul_warnung; cbn [fst]; rewrite H3; cbn;
      repeat split; auto.
Qed.

Lemma erreichbar_invariante st : log_erreichbar st -> invariante st.
Proof.
  induction 1 as [|st e _ IH]; [|by apply invariante_schritt].
  split; [|split]; cbn; [intros ??; by rewrite lookup_empty|intros ?; by rewrite lookup_empty|by left].
Qed.

Lemma getLogger_da st n : exists lg, loggers (getLogger st n) !! n = Some lg.
Proof. unfold getLogger. destruct (loggers st !! n) eqn:E; [eauto|]. cbn. rewrite lookup_insert_eq. eauto. Qed.

Lemma getLogger_ne st n n' : n <> n' -> loggers (getLogger st n) !! n' = loggers st !! n'.
Proof. intros Hne. unfold getLogger. destruct (loggers st !! n); [done|]. cbn. by rewrite lookup_insert_ne. Qed.

Lemma getLogger_root st n : root (getLogger st n) = root st.
Proof. unfold getLogger. by destruct (loggers st !! n). Qed.

Lemma setup_konfiguriert st a l c f :
  exists lg, loggers (setup_logging st a l c f) !! a = Some lg /\ lg_configured lg = true.
Proof.
  unfold setup_logging. destruct (getLogger_da st a) as [lg0 Hlg0]. rewrite Hlg0. cbn.
  destruct (lg_configured lg0) eqn:Hc; [eauto|].
  destruct c, f; cbn; rewrite lookup_insert_eq; eauto.
Qed.

(** ** Setting up, module loggers, and the loaders' warnings *)

(** C21: [setup_logging] is idempotent, as its comment promises: a
    second call with the same arguments (as [ssg.py] makes) changes
    nothing, so no handler is added twice. *)
Theorem setup_logging_idempotent st app_name level console logfile :
  setup_logging (setup_logging st app_name level console logfile) app_name level console logfile
  = setup_logging st app_name level console logfile.
Proof.
  destruct (setup_konfiguriert st app_name level console logfile) as (lg & Hl & Hc).
  remember (setup_logging st app_name level console logfile) as st1 eqn:E1. clear E1.
  unfold setup_logging, getLogger. rewrite Hl. cbn. rewrite Hl. cbn. by rewrite Hc.
Qed.

(** C20: once [setup_logging()] has run, a record a module logs through
    [get_logger(__name__)] reaches the console and the log file
    ["logs/Silicon-Samples-Generator.log"], each exactly once, from
    level [INFO] on, and nothing below: the module loggers have no
    handlers and propagate to the application logger, which does not
    propagate further.  This holds in every state the application
    reaches, whatever modules were imported before or after the setup
    and however often the setup ran. *)
Theorem modul_protokolliert st m lvl :
  log_erreichbar st -> loggers st !! app_name_standard = Some konfiguriert -> beginnt_punkt m = false ->
  let '(st', n) := get_logger st (Some m) app_name_standard in
  emittieren st' n lvl
  = if (INFO <=? lvl)%nat then [StreamHandler; RotatingFileHandler ("logs/" +++ app_name_standard +++ ".log") [5]]
    else [].
Proof.
  intros Hr HA Hm. pose proof (erreichbar_invariante _ Hr) as Hinv.
  unfold get_logger, logger_name. destruct (String.eqb m "") eqn:Hm0.
  - unfold getLogger. rewrite HA. unfold emittieren, kette_von. cbn [kette]. rewrite HA, parent_app.
    exact (emittieren_konfiguriert 0 _ lvl).
  - set (n := app_name_standard +++ "." +++ m).
    assert (Hinv' : invariante (getLogger st n)).
    { unfold getLogger. destruct (loggers st !! n); [done|].
      apply (invariante_insert st); [done|done|intros Hn; by apply modulname_neq in Hn]. }
    assert (HA' : loggers (getLogger st n) !! app_name_standard = Some konfiguriert).
    { rewrite getLogger_ne; [done|apply modulname_neq]. }
    destruct (getLogger_da st n) as [lg Hlg].
    destruct (kette_modul _ (S (String.length n)) m lg Hinv' HA' Hm) as [k Hk]; [|done|].
    { unfold n. rewrite str_length_app. change (String.length ("." +++ m)) with (S (String.length m)). cbn. lia. }
    unfold emittieren, kette_von. unfold n in *. rewrite Hk. apply emittieren_konfiguriert.
Qed.

Lemma modul_protokolliert_witness :
  log_erreichbar (log_schritt (log_schritt log_start Setup) Setup) /\
  loggers (log_schritt (log_schritt log_start Setup) Setup) !! app_name_standard = Some konfiguriert /\
  beginnt_punkt "src.shared.dateien" = false /\
  (let '(st', n) := get_logger (log_schritt (log_schritt log_start Setup) Setup) (Some "src.shared.dateien") app_name_standard in
   emittieren st' n INFO
   = if (INFO <=? INFO)%nat then [StreamHandler; RotatingFileHandler ("logs/" +++ app_name_standard +++ ".log") [5]]
     else []).
Proof.
  assert (Hr : log_erreichbar (log_schritt (log_schritt log_start Setup) Setup))
    by (apply log_erreichbar_schritt, log_erreichbar_schritt, log_erreichbar_start).
  split; [done|]. split; [reflexivity|]. split; [reflexivity|].
  apply (modul_protokolliert _ "src.shared.dateien" INFO Hr); reflexivity.
Defined.

(** C37: a loader's [logging.warning] never reaches the log file: it
    logs on the root logger, which [setup_logging] does not configure;
    [basicConfig] gives it a console handler, and the record goes to
    that handler only, in every reachable state. *)
Theorem loader_warnung_stderr st : log_erreichbar st -> (modul_warnung st).2 = [StreamHandler].
Proof.
  intros Hr. destruct (erreichbar_invariante _ Hr) as (_ & _ & [H|H]);
    unfold modul_warnung; rewrite H; cbn -[emittieren_kette]; rewrite ?H; reflexivity.
Qed.

Lemma loader_warnung_stderr_witness : (modul_warnung (log_schritt log_start Setup)).2 = [StreamHandler].
Proof. apply loader_warnung_stderr. apply log_erreichbar_schritt, log_erreichbar_start. Defined.
